(** * Point-of-sale pricing pipeline: cart, discounts, taxes, payment,
      transaction life cycle.

    A shallow embedding of the Python sources
    [models/product.py], [models/customer.py], [models/cart.py],
    [models/transaction.py], [services/discount_service.py],
    [services/tax_service.py], [services/transaction_service.py] and
    [services/product_service.py].

    Conventions of the embedding.
    - Python [int] is [Z].
    - Python [float] rates (0.07, 0.10, ...) are exact rationals [Q]; the
      expression [int(x * rate)] is [py_int (inject_Z x * rate)], where
      [py_int] truncates toward zero as Python's [int()] does.  Module
      [binary64] holds the same expression on IEEE binary64 numbers
      ([binary64.py_int_mul]), as Python evaluates it, and theorem
      [py_int_is_binary64] shows that for an amount below 2^44 and a rate
      written in the program both give the same integer.  Beyond that range
      the two can differ.  A theorem that states the value of a discount or
      tax amount for every cart therefore carries this range and the rate
      as hypotheses and gives the amount in both readings; theorems on the
      structure of the results (which records, which totals, which errors)
      hold for the program as they stand.  [binary64.py_int_mul] is [None]
      where Python raises [OverflowError], on a product that is not finite
      (amounts from about 2^1024); the embedding in exact rationals has no
      such error.
    - A raised exception is the [Raise] branch of [result]; a method that
      mutates its object returns the new object next to its outcome.
    - A [dict] is an association list in insertion order.
    - [datetime.now()] and [uuid.uuid4()] are read from an explicit [Env];
      one call of the pipeline sees one reading of the clock.
    - Strings are ASCII; the free-text [description] of a discount or tax
      record and the formatted messages of the payment validation are display
      texts that no operation reads back: descriptions are left out, messages
      are a small data type. *)

From Stdlib Require Import ZArith QArith Qround List String Ascii Bool Lia.
From Stdlib Require Import SpecFloat.
From Stdlib Require Import Permutation Sorting.Sorted.
Import ListNotations.
Local Open Scope Z_scope.

(* ================================================================== *)
(** ** Python base layer *)

Module py.

Inductive exn : Type :=
| ValueError (msg : string)
| KeyError.

Inductive result (A : Type) : Type :=
| Ok (a : A)
| Raise (e : exn).
Arguments Ok {A} a.
Arguments Raise {A} e.

Definition bind {A B : Type} (m : result A) (k : A -> result B) : result B :=
  match m with
  | Ok a => k a
  | Raise e => Raise e
  end.

Definition is_ok {A : Type} (m : result A) : bool :=
  match m with Ok _ => true | Raise _ => false end.

(** [int(x)] on a float: truncation toward zero. *)
Definition py_int (x : Q) : Z := Z.quot (Qnum x) (Zpos (Qden x)).

(** [sum(...)] over integers. *)
Definition sum (l : list Z) : Z := fold_left Z.add l 0.

(** [str.isspace] on one ASCII character. *)
Definition is_space (c : ascii) : bool :=
  let n := nat_of_ascii c in
  (((9 <=? n) && (n <=? 13)) || ((28 <=? n) && (n <=? 32)))%nat.

Definition is_upper (c : ascii) : bool :=
  let n := nat_of_ascii c in ((65 <=? n) && (n <=? 90))%nat.

Definition is_lower (c : ascii) : bool :=
  let n := nat_of_ascii c in ((97 <=? n) && (n <=? 122))%nat.

Definition lower_char (c : ascii) : ascii :=
  if is_upper c then ascii_of_nat (nat_of_ascii c + 32) else c.

Definition upper_char (c : ascii) : ascii :=
  if is_lower c then ascii_of_nat (nat_of_ascii c - 32) else c.

Fixpoint lstrip (s : string) : string :=
  match s with
  | EmptyString => EmptyString
  | String c s' => if is_space c then lstrip s' else s
  end.

Fixpoint rstrip (s : string) : string :=
  match s with
  | EmptyString => EmptyString
  | String c s' =>
      match rstrip s' with
      | EmptyString => if is_space c then EmptyString else String c EmptyString
      | r => String c r
      end
  end.

(** [s.strip()] *)
Definition strip (s : string) : string := rstrip (lstrip s).

(** [s.lower()] *)
Fixpoint lower (s : string) : string :=
  match s with
  | EmptyString => EmptyString
  | String c s' => String (lower_char c) (lower s')
  end.

Fixpoint title_from (prev_cased : bool) (s : string) : string :=
  match s with
  | EmptyString => EmptyString
  | String c s' =>
      if is_upper c || is_lower c
      then String (if prev_cased then lower_char c else upper_char c)
                  (title_from true s')
      else String c (title_from false s')
  end.

(** [s.title()] *)
Definition title (s : string) : string := title_from false s.

(** [not s] for a string. *)
Definition str_falsy (s : string) : bool :=
  match s with EmptyString => true | _ => false end.

(** A [dict] in insertion order. *)
Section Dict.
Context {K V : Type} (eqb : K -> K -> bool).

Fixpoint dict_get (d : list (K * V)) (k : K) : option V :=
  match d with
  | [] => None
  | (k', v) :: d' => if eqb k' k then Some v else dict_get d' k
  end.

(** [k in d] *)
Definition dict_contains (d : list (K * V)) (k : K) : bool :=
  match dict_get d k with Some _ => true | None => false end.

(** [d[k] = v]: an existing key keeps its place, a new key goes last. *)
Fixpoint dict_set (d : list (K * V)) (k : K) (v : V) : list (K * V) :=
  match d with
  | [] => [(k, v)]
  | (k', v') :: d' =>
      if eqb k' k then (k', v) :: d' else (k', v') :: dict_set d' k v
  end.

(** [del d[k]] *)
Fixpoint dict_del (d : list (K * V)) (k : K) : list (K * V) :=
  match d with
  | [] => []
  | (k', v') :: d' => if eqb k' k then d' else (k', v') :: dict_del d' k
  end.

Definition dict_values (d : list (K * V)) : list V := map snd d.

Definition dict_keys (d : list (K * V)) : list K := map fst d.

End Dict.

(** [s.replace(a, b)] for one-character strings [a] and [b]. *)
Fixpoint replace_char (a b : ascii) (s : string) : string :=
  match s with
  | EmptyString => EmptyString
  | String c s' => String (if Ascii.eqb c a then b else c) (replace_char a b s')
  end.

(** [sub in s] for two strings. *)
Fixpoint str_in (sub s : string) : bool :=
  String.prefix sub s ||
  match s with
  | EmptyString => false
  | String _ s' => str_in sub s'
  end.

(** [sorted(l, key=key, reverse=reverse)] for integer keys.  The sort is
    stable in both directions, which fixes its result; it is computed here
    by insertion from the right. *)
Section Sorted.
Context {A : Type} (key : A -> Z) (reverse : bool).

(** Whether [x], met before [y], also stands before it. *)
Definition goes_first (x y : A) : bool :=
  if reverse then key y <=? key x else key x <=? key y.

Fixpoint insert_sorted (x : A) (l : list A) : list A :=
  match l with
  | [] => [x]
  | y :: l' => if goes_first x y then x :: l else y :: insert_sorted x l'
  end.

Definition sorted (l : list A) : list A := fold_right insert_sorted [] l.

End Sorted.

(** [l[:limit]]: a negative limit counts from the end. *)
Definition slice_to {A : Type} (l : list A) (limit : Z) : list A :=
  if limit <? 0
  then firstn (List.length l - Z.to_nat (- limit)) l
  else firstn (Z.to_nat limit) l.

End py.

(* ================================================================== *)
(** ** IEEE binary64, as Python computes [int(x * rate)] *)

Module binary64.

Definition prec : Z := 53.
Definition emax : Z := 1024.

(** [float(n)] for an integer: rounded to nearest, ties to even. *)
Definition of_int (n : Z) : spec_float := binary_normalize prec emax n 0 false.

Definition mul : spec_float -> spec_float -> spec_float := SFmul prec emax.

Definition div : spec_float -> spec_float -> spec_float := SFdiv prec emax.

(** [int(x)] for a float: truncation toward zero; infinities and NaN raise. *)
Definition to_int (x : spec_float) : option Z :=
  match x with
  | S754_zero _ => Some 0
  | S754_finite s m e =>
      Some (cond_Zopp s (match e with
                         | Z0 => Zpos m
                         | Zpos p => Zpos m * 2 ^ Zpos p
                         | Zneg p => Zpos m / 2 ^ Zpos p
                         end))
  | _ => None
  end.

(** The float that the literal of [k/100] denotes: the binary64 number
    nearest to it. *)
Definition literal (k : Z) : spec_float := div (of_int k) (of_int 100).

(** [int(x * r)] for an integer [x] and a float [r]. *)
Definition int_mul (x : Z) (r : spec_float) : option Z := to_int (mul (of_int x) r).

(** The mantissa [M] shifted right by [p] bits and rounded to nearest, ties
    to even. *)
Definition rne (M : Z) (p : positive) : Z :=
  let mrs := iter_pos shr_1 p (Build_shr_record M false false) in
  round_nearest_even (shr_m mrs) (loc_of_shr_record mrs).

(** The rates that the program writes as float literals, in percent. *)
Definition rate_percents : list Z := [5; 7; 8; 10; 12; 15; 20; 25].

(** The float that the program holds when it writes the decimal [r]: the
    binary64 number nearest to [r]. *)
Definition float_of (r : Q) : spec_float :=
  div (of_int (Qnum r)) (of_int (Zpos (Qden r))).

(** [int(x * r)] as Python evaluates it for an integer [x] and the float
    written [r]: [x] is converted to a float, the product is rounded to
    binary64 and truncated.  [None] is the [OverflowError] of a product that
    is not finite. *)
Definition py_int_mul (x : Z) (r : Q) : option Z := int_mul x (float_of r).

End binary64.

Import py.

Notation "x <- m ;; k" := (bind m (fun x => k))
  (at level 61, m at next level, right associativity).

(* ================================================================== *)
(** ** models/product.py *)

Module product.

Inductive KategoriBarang : Type := MAKANAN | MINUMAN | KEBUTUHAN.

Definition KategoriBarang_eqb (a b : KategoriBarang) : bool :=
  match a, b with
  | MAKANAN, MAKANAN | MINUMAN, MINUMAN | KEBUTUHAN, KEBUTUHAN => true
  | _, _ => false
  end.

(** [category.value] *)
Definition value (k : KategoriBarang) : string :=
  match k with
  | MAKANAN => "makanan"
  | MINUMAN => "minuman"
  | KEBUTUHAN => "kebutuhan"
  end.

Record Product : Type := mkProduct {
  nama : string;
  harga : Z;
  satuan : string;
  kategori : KategoriBarang
}.

(** [Product._validate_inputs]; the [isinstance] test on the category is
    the type of the argument. *)
Definition validate_inputs (nama_ : string) (harga_ : Z) (satuan_ : string)
  : result unit :=
  if str_falsy nama_ || str_falsy (strip nama_)
  then Raise (ValueError "Nama barang tidak boleh kosong")
  else if harga_ <=? 0
  then Raise (ValueError "Harga barang harus lebih dari 0")
  else if str_falsy satuan_ || str_falsy (strip satuan_)
  then Raise (ValueError "Satuan barang tidak boleh kosong")
  else Ok tt.

(** [Product.__init__] *)
Definition Product_init (nama_ : string) (harga_ : Z) (satuan_ : string)
  (kategori_ : KategoriBarang) : result Product :=
  _ <- validate_inputs nama_ harga_ satuan_ ;;
  Ok (mkProduct (lower (strip nama_)) harga_ (lower (strip satuan_)) kategori_).

(** [ProductItem(Product)]: the inherited fields and the quantity. *)
Record ProductItem : Type := mkProductItem {
  base :> Product;
  jumlah : Z
}.

(** [ProductItem.__init__] *)
Definition ProductItem_init (p : Product) (jumlah_ : Z) : result ProductItem :=
  b <- Product_init (nama p) (harga p) (satuan p) (kategori p) ;;
  if jumlah_ <=? 0
  then Raise (ValueError "Jumlah pembelian harus lebih dari 0")
  else Ok (mkProductItem b jumlah_).

(** The [jumlah] setter. *)
Definition set_jumlah (self : ProductItem) (v : Z) : result ProductItem :=
  if v <=? 0
  then Raise (ValueError "Jumlah pembelian harus lebih dari 0")
  else Ok (mkProductItem (base self) v).

(** [ProductItem.get_total_price] *)
Definition get_total_price (self : ProductItem) : Z :=
  harga self * jumlah self.

(** The [harga] setter of [Product]. *)
Definition set_harga (self : Product) (v : Z) : result Product :=
  if v <=? 0
  then Raise (ValueError "Harga barang harus lebih dari 0")
  else Ok (mkProduct (nama self) v (satuan self) (kategori self)).

(** [Product.get_display_name] *)
Definition get_display_name (self : Product) : string :=
  title (replace_char "_"%char " "%char (nama self)).

End product.

(* ================================================================== *)
(** ** models/customer.py *)

Module customer.

(** The fields [PremiumCustomer] adds. *)
Record PremiumFields : Type := mkPremiumFields {
  membership_points : Z;
  tier : string
}.

(** The class of the object: [Customer], [PremiumCustomer(Customer)] or
    [VIPCustomer(PremiumCustomer)]. *)
Inductive CustomerClass : Type :=
| Regular
| Premium (p : PremiumFields)
| VIP (p : PremiumFields) (personal_assistant : string).

Record Customer : Type := mkCustomer {
  nama : string;
  umur : Z;
  is_member : bool;
  cls : CustomerClass
}.

(** [Customer._validate_inputs] *)
Definition validate_inputs (nama_ : string) (umur_ : Z) : result unit :=
  if str_falsy nama_ || str_falsy (strip nama_)
  then Raise (ValueError "Nama pelanggan tidak boleh kosong")
  else if (umur_ <? 0) || (150 <? umur_)
  then Raise (ValueError "Umur pelanggan harus antara 0-150 tahun")
  else Ok tt.

(** [Customer.__init__] *)
Definition Customer_init (nama_ : string) (umur_ : Z) (is_member_ : bool)
  : result Customer :=
  _ <- validate_inputs nama_ umur_ ;;
  Ok (mkCustomer (title (strip nama_)) umur_ is_member_ Regular).

(** [PremiumCustomer._calculate_tier] *)
Definition calculate_tier (points : Z) : string :=
  if 10000 <=? points then "Platinum"
  else if 5000 <=? points then "Gold"
  else if 1000 <=? points then "Silver"
  else "Bronze".

Definition premium_fields (points : Z) : PremiumFields :=
  let pts := Z.max 0 points in
  mkPremiumFields pts (calculate_tier pts).

(** [PremiumCustomer.__init__] *)
Definition PremiumCustomer_init (nama_ : string) (umur_ : Z) (points : Z)
  : result Customer :=
  c <- Customer_init nama_ umur_ true ;;
  Ok (mkCustomer (nama c) (umur c) (is_member c) (Premium (premium_fields points))).

(** [VIPCustomer.__init__] *)
Definition VIPCustomer_init (nama_ : string) (umur_ : Z) (points : Z)
  (personal_assistant : string) : result Customer :=
  c <- Customer_init nama_ umur_ true ;;
  Ok (mkCustomer (nama c) (umur c) (is_member c)
        (VIP (premium_fields points) (strip personal_assistant))).

(** The [is_member] setter. *)
Definition set_is_member (self : Customer) (v : bool) : Customer :=
  mkCustomer (nama self) (umur self) v (cls self).

(** The table of [PremiumCustomer.get_discount_multiplier]. *)
Definition tier_discounts : list (string * Q) :=
  [("Bronze"%string, 0.07%Q); ("Silver"%string, 0.10%Q);
   ("Gold"%string, 0.15%Q); ("Platinum"%string, 0.20%Q)].

(** [get_discount_multiplier], resolved on the class of the object. *)
Definition get_discount_multiplier (self : Customer) : Q :=
  match cls self with
  | Regular => if is_member self then 0.05%Q else 0.0%Q
  | Premium p =>
      match dict_get String.eqb tier_discounts (tier p) with
      | Some r => r
      | None => 0.05%Q
      end
  | VIP _ _ => 0.25%Q
  end.

(** [get_customer_type], resolved on the class of the object. *)
Definition get_customer_type (self : Customer) : string :=
  match cls self with
  | Regular => if is_member self then "Member" else "Regular"
  | Premium p => String.append "Premium " (tier p)
  | VIP _ _ => "VIP"
  end.

(** [Customer.is_senior] *)
Definition is_senior (self : Customer) : bool := 60 <=? umur self.

(** [Customer.upgrade_to_member] *)
Definition upgrade_to_member (self : Customer) : bool * Customer :=
  if negb (is_member self)
  then (true, set_is_member self true)
  else (false, self).

(** [Customer.get_age_category] *)
Definition get_age_category (self : Customer) : string :=
  if umur self <? 18 then "Anak"
  else if umur self <? 60 then "Dewasa"
  else "Lansia".

(** [PremiumCustomer.add_points], on the fields that [PremiumCustomer] adds;
    [VIPCustomer] inherits it. *)
Definition add_points (p : PremiumFields) (points : Z) : PremiumFields :=
  if 0 <? points
  then
    let pts := membership_points p + points in
    mkPremiumFields pts (calculate_tier pts)
  else p.

End customer.

(* ================================================================== *)
(** ** models/cart.py *)

Module cart.
Import product.

Record ShoppingCart : Type := mkShoppingCart {
  items : list (string * ProductItem);
  customer : option customer.Customer;
  is_finalized : bool
}.

(** [ShoppingCart.__init__] *)
Definition ShoppingCart_init (c : option customer.Customer) : ShoppingCart :=
  mkShoppingCart [] c false.

Definition with_items (self : ShoppingCart) (its : list (string * ProductItem))
  : ShoppingCart :=
  mkShoppingCart its (customer self) (is_finalized self).

(** [len(cart)] *)
Definition len (self : ShoppingCart) : Z := Z.of_nat (List.length (items self)).

Definition is_empty (self : ShoppingCart) : bool := len self =? 0.

Definition total_quantity (self : ShoppingCart) : Z :=
  sum (map jumlah (dict_values (items self))).

(** [ShoppingCart.add_item]; the [isinstance] test is the argument's type. *)
Definition add_item (self : ShoppingCart) (product_item : ProductItem)
  : result bool * ShoppingCart :=
  if is_finalized self then (Ok false, self)
  else
    let item_key := nama product_item in
    match dict_get String.eqb (items self) item_key with
    | Some existing =>
        match set_jumlah existing (jumlah existing + jumlah product_item) with
        | Ok updated =>
            (Ok true, with_items self (dict_set String.eqb (items self) item_key updated))
        | Raise e => (Raise e, self)
        end
    | None =>
        (Ok true, with_items self (dict_set String.eqb (items self) item_key product_item))
    end.

(** [ShoppingCart.remove_item] *)
Definition remove_item (self : ShoppingCart) (product_name : string)
  : result bool * ShoppingCart :=
  if is_finalized self then (Ok false, self)
  else
    let product_name := lower (strip product_name) in
    if dict_contains String.eqb (items self) product_name
    then (Ok true, with_items self (dict_del String.eqb (items self) product_name))
    else (Ok false, self).

(** [ShoppingCart.update_quantity] *)
Definition update_quantity (self : ShoppingCart) (product_name : string)
  (new_quantity : Z) : result bool * ShoppingCart :=
  if is_finalized self then (Ok false, self)
  else if new_quantity <=? 0
  then (Raise (ValueError "Kuantitas harus lebih dari 0"), self)
  else
    let product_name := lower (strip product_name) in
    match dict_get String.eqb (items self) product_name with
    | Some existing =>
        match set_jumlah existing new_quantity with
        | Ok updated =>
            (Ok true, with_items self (dict_set String.eqb (items self) product_name updated))
        | Raise e => (Raise e, self)
        end
    | None => (Ok false, self)
    end.

(** [ShoppingCart.get_all_items] *)
Definition get_all_items (self : ShoppingCart) : list ProductItem :=
  dict_values (items self).

(** [ShoppingCart.get_items_by_category]: a [defaultdict(list)] filled in
    cart order. *)
Definition get_items_by_category (self : ShoppingCart)
  : list (KategoriBarang * list ProductItem) :=
  fold_left
    (fun acc (item : ProductItem) =>
       let old := match dict_get KategoriBarang_eqb acc (kategori item) with
                  | Some l => l
                  | None => []
                  end in
       dict_set KategoriBarang_eqb acc (kategori item) (old ++ [item]))
    (dict_values (items self)) [].

(** [ShoppingCart.calculate_subtotal] *)
Definition calculate_subtotal (self : ShoppingCart) : Z :=
  sum (map get_total_price (dict_values (items self))).

(** One entry of [get_category_totals]. *)
Record CategoryData : Type := mkCategoryData {
  quantity : Z;
  amount : Z
}.

(** [ShoppingCart.get_category_totals]: a [defaultdict] whose missing
    entries start at quantity 0 and amount 0. *)
Definition get_category_totals (self : ShoppingCart)
  : list (KategoriBarang * CategoryData) :=
  fold_left
    (fun acc (item : ProductItem) =>
       let old := match dict_get KategoriBarang_eqb acc (kategori item) with
                  | Some d => d
                  | None => mkCategoryData 0 0
                  end in
       dict_set KategoriBarang_eqb acc (kategori item)
         (mkCategoryData (quantity old + jumlah item)
                         (amount old + get_total_price item)))
    (dict_values (items self)) [].

(** [ShoppingCart.clear_cart] *)
Definition clear_cart (self : ShoppingCart) : result bool * ShoppingCart :=
  if is_finalized self then (Ok false, self)
  else (Ok true, with_items self []).

(** [ShoppingCart.finalize_cart] *)
Definition finalize_cart (self : ShoppingCart) : ShoppingCart :=
  mkShoppingCart (items self) (customer self) true.

(** [ShoppingCart.unfinalize_cart] *)
Definition unfinalize_cart (self : ShoppingCart) : ShoppingCart :=
  mkShoppingCart (items self) (customer self) false.

(** [ShoppingCart.items_count] *)
Definition items_count (self : ShoppingCart) : Z :=
  Z.of_nat (List.length (items self)).

(** [ShoppingCart.get_item] *)
Definition get_item (self : ShoppingCart) (product_name : string)
  : option ProductItem :=
  let product_name := lower (strip product_name) in
  dict_get String.eqb (items self) product_name.

(** [product_name in cart] *)
Definition contains (self : ShoppingCart) (product_name : string) : bool :=
  dict_contains String.eqb (items self) (lower (strip product_name)).

End cart.

(* ================================================================== *)
(** ** The clock and the random source *)

(** What one call reads from [datetime.now()] and [uuid.uuid4()]. *)
Record Env : Type := mkEnv {
  weekday : Z;      (* datetime.now().weekday(), 0 = Monday *)
  now : Z;          (* datetime.now() as a time stamp *)
  stamp : string;   (* datetime.now().strftime('%Y%m%d_%H%M%S') *)
  uuid4 : string    (* str(uuid.uuid4()) *)
}.

(* ================================================================== *)
(** ** models/transaction.py *)

Module transaction.

Inductive TransactionStatus : Type := PENDING | COMPLETED | CANCELLED | REFUNDED.

Definition TransactionStatus_eqb (a b : TransactionStatus) : bool :=
  match a, b with
  | PENDING, PENDING | COMPLETED, COMPLETED
  | CANCELLED, CANCELLED | REFUNDED, REFUNDED => true
  | _, _ => false
  end.

Record DiscountDetail : Type := mkDiscountDetail {
  name : string;
  amount : Z;
  percentage : Q
}.

(** [DiscountDetail(...)] with its [__post_init__]. *)
Definition DiscountDetail_init (name_ : string) (amount_ : Z) (percentage_ : Q)
  : result DiscountDetail :=
  if amount_ <? 0
  then Raise (ValueError "Amount diskon tidak boleh negatif")
  else if negb (Qle_bool 0 percentage_ && Qle_bool percentage_ 1)
  then Raise (ValueError "Persentase diskon harus antara 0-1")
  else Ok (mkDiscountDetail name_ amount_ percentage_).

Record PaymentDetail : Type := mkPaymentDetail {
  amount_paid : Z;
  payment_method : string;
  change_amount : Z;
  installments : list Z
}.

(** [PaymentDetail(...)] with its [__post_init__]. *)
Definition PaymentDetail_init (amount_paid_ : Z) (payment_method_ : string)
  (change_amount_ : Z) (installments_ : list Z) : result PaymentDetail :=
  if amount_paid_ <? 0
  then Raise (ValueError "Jumlah pembayaran tidak boleh negatif")
  else if change_amount_ <? 0
  then Raise (ValueError "Kembalian tidak boleh negatif")
  else Ok (mkPaymentDetail amount_paid_ payment_method_ change_amount_ installments_).

Record Transaction : Type := mkTransaction {
  transaction_id : string;
  cart : cart.ShoppingCart;
  customer : option customer.Customer;
  subtotal : Z;
  discounts : list DiscountDetail;
  tax_amount : Z;
  total_amount : Z;
  payment : PaymentDetail;
  status : TransactionStatus;
  created_at : Z;
  completed_at : option Z
}.

(** [Transaction._validate_inputs] *)
Definition validate_inputs (transaction_id_ : string) (cart_ : cart.ShoppingCart)
  (subtotal_ tax_amount_ total_amount_ : Z) : result unit :=
  if str_falsy transaction_id_ || str_falsy (strip transaction_id_)
  then Raise (ValueError "Transaction ID tidak boleh kosong")
  else if cart.is_empty cart_
  then Raise (ValueError "Cart tidak boleh kosong")
  else if subtotal_ <? 0
  then Raise (ValueError "Subtotal tidak boleh negatif")
  else if tax_amount_ <? 0
  then Raise (ValueError "Tax amount tidak boleh negatif")
  else if total_amount_ <? 0
  then Raise (ValueError "Total amount tidak boleh negatif")
  else Ok tt.

(** [Transaction.__init__].  The cart object is shared with the caller and
    is finalized as the last step: the cart the caller holds afterwards is
    the [cart] field of the new transaction. *)
Definition Transaction_init (env : Env) (transaction_id_ : string)
  (cart_ : cart.ShoppingCart) (subtotal_ : Z) (discounts_ : list DiscountDetail)
  (tax_amount_ total_amount_ : Z) (payment_ : PaymentDetail)
  : result Transaction :=
  _ <- validate_inputs transaction_id_ cart_ subtotal_ tax_amount_ total_amount_ ;;
  Ok (mkTransaction transaction_id_ (cart.finalize_cart cart_)
        (cart.customer cart_) subtotal_ discounts_ tax_amount_ total_amount_
        payment_ PENDING (now env) None).

Definition with_status (self : Transaction) (s : TransactionStatus)
  (done : option Z) : Transaction :=
  mkTransaction (transaction_id self) (cart self) (customer self) (subtotal self)
    (discounts self) (tax_amount self) (total_amount self) (payment self)
    s (created_at self) done.

(** [transaction._discounts.append(discount)] *)
Definition append_discount (self : Transaction) (d : DiscountDetail) : Transaction :=
  mkTransaction (transaction_id self) (cart self) (customer self) (subtotal self)
    (discounts self ++ [d]) (tax_amount self) (total_amount self) (payment self)
    (status self) (created_at self) (completed_at self).

(** [Transaction.get_total_discount] *)
Definition get_total_discount (self : Transaction) : Z :=
  sum (map amount (discounts self)).

(** [Transaction.complete_transaction] *)
Definition complete_transaction (env : Env) (self : Transaction)
  : bool * Transaction :=
  if TransactionStatus_eqb (status self) PENDING
  then (true, with_status self COMPLETED (Some (now env)))
  else (false, self).

(** [Transaction.cancel_transaction] *)
Definition cancel_transaction (self : Transaction) : bool * Transaction :=
  if TransactionStatus_eqb (status self) PENDING
  then (true, with_status self CANCELLED (completed_at self))
  else (false, self).

(** [Transaction.refund_transaction] *)
Definition refund_transaction (self : Transaction) : bool * Transaction :=
  if TransactionStatus_eqb (status self) COMPLETED
  then (true, with_status self REFUNDED (completed_at self))
  else (false, self).

(** [Transaction.is_paid_in_full] *)
Definition is_paid_in_full (self : Transaction) : bool :=
  total_amount self <=? amount_paid (payment self).

(** [Transaction.get_outstanding_amount] *)
Definition get_outstanding_amount (self : Transaction) : Z :=
  Z.max 0 (total_amount self - amount_paid (payment self)).

(** [Transaction.get_discount_by_name] *)
Definition get_discount_by_name (self : Transaction) (name_ : string)
  : option DiscountDetail :=
  find (fun discount => String.eqb (lower (name discount)) (lower name_))
       (discounts self).

(** [status.value] *)
Definition status_value (s : TransactionStatus) : string :=
  match s with
  | PENDING => "pending"
  | COMPLETED => "completed"
  | CANCELLED => "cancelled"
  | REFUNDED => "refunded"
  end.

(** [TransactionBuilder] *)
Record TransactionBuilder : Type := mkTransactionBuilder {
  b_transaction_id : option string;
  b_cart : option cart.ShoppingCart;
  b_subtotal : Z;
  b_discounts : list DiscountDetail;
  b_tax_amount : Z;
  b_total_amount : Z;
  b_payment : option PaymentDetail
}.

(** [TransactionBuilder.__init__] *)
Definition TransactionBuilder_init : TransactionBuilder :=
  mkTransactionBuilder None None 0 [] 0 0 None.

Definition set_transaction_id (self : TransactionBuilder) (v : string) :=
  mkTransactionBuilder (Some v) (b_cart self) (b_subtotal self) (b_discounts self)
    (b_tax_amount self) (b_total_amount self) (b_payment self).

Definition set_cart (self : TransactionBuilder) (v : cart.ShoppingCart) :=
  mkTransactionBuilder (b_transaction_id self) (Some v) (b_subtotal self)
    (b_discounts self) (b_tax_amount self) (b_total_amount self) (b_payment self).

Definition set_subtotal (self : TransactionBuilder) (v : Z) :=
  mkTransactionBuilder (b_transaction_id self) (b_cart self) v (b_discounts self)
    (b_tax_amount self) (b_total_amount self) (b_payment self).

Definition add_discount (self : TransactionBuilder) (d : DiscountDetail) :=
  mkTransactionBuilder (b_transaction_id self) (b_cart self) (b_subtotal self)
    (b_discounts self ++ [d]) (b_tax_amount self) (b_total_amount self)
    (b_payment self).

Definition set_tax_amount (self : TransactionBuilder) (v : Z) :=
  mkTransactionBuilder (b_transaction_id self) (b_cart self) (b_subtotal self)
    (b_discounts self) v (b_total_amount self) (b_payment self).

Definition set_total_amount (self : TransactionBuilder) (v : Z) :=
  mkTransactionBuilder (b_transaction_id self) (b_cart self) (b_subtotal self)
    (b_discounts self) (b_tax_amount self) v (b_payment self).

Definition set_payment (self : TransactionBuilder) (v : PaymentDetail) :=
  mkTransactionBuilder (b_transaction_id self) (b_cart self) (b_subtotal self)
    (b_discounts self) (b_tax_amount self) (b_total_amount self) (Some v).

(** [TransactionBuilder.build].  [not self._cart] is the truth value of a
    cart object, which has a [__len__]: an empty cart counts as unset. *)
Definition build (env : Env) (self : TransactionBuilder) : result Transaction :=
  match b_transaction_id self with
  | None => Raise (ValueError "Transaction ID belum di-set")
  | Some tid =>
      if str_falsy tid then Raise (ValueError "Transaction ID belum di-set")
      else
        match b_cart self with
        | None => Raise (ValueError "Cart belum di-set")
        | Some c =>
            if cart.len c =? 0 then Raise (ValueError "Cart belum di-set")
            else
              match b_payment self with
              | None => Raise (ValueError "Payment detail belum di-set")
              | Some p =>
                  Transaction_init env tid c (b_subtotal self) (b_discounts self)
                    (b_tax_amount self) (b_total_amount self) p
              end
        end
  end.

(** [TransactionBuilder.reset] *)
Definition reset (self : TransactionBuilder) : TransactionBuilder :=
  mkTransactionBuilder None None 0 [] 0 0 None.

End transaction.

(* ================================================================== *)
(** ** services/discount_service.py *)

Module discount_service.
Import product.
Import transaction.

Module SeniorDiscountStrategy.

Record t : Type := mk {
  percentage : Q;
  min_age : Z
}.

(** [SeniorDiscountStrategy()] *)
Definition default : t := mk 0.10%Q 60.

Definition is_applicable (self : t) (c : cart.ShoppingCart)
  (cust : option customer.Customer) : bool :=
  match cust with
  | Some cu => min_age self <=? customer.umur cu
  | None => false
  end.

Definition calculate_discount (self : t) (c : cart.ShoppingCart)
  (cust : option customer.Customer) : result DiscountDetail :=
  if negb (is_applicable self c cust)
  then DiscountDetail_init "Diskon Lansia" 0 0.0%Q
  else
    let subtotal := cart.calculate_subtotal c in
    let discount_amount := py_int (inject_Z subtotal * percentage self) in
    DiscountDetail_init "Diskon Lansia" discount_amount (percentage self).

End SeniorDiscountStrategy.

Module MemberDiscountStrategy.

Definition is_applicable (c : cart.ShoppingCart)
  (cust : option customer.Customer) : bool :=
  match cust with
  | Some cu => customer.is_member cu
  | None => false
  end.

(** The rate and the tier label chosen by the [isinstance] cascade. *)
Definition rate_and_tier (cu : customer.Customer) : Q * string :=
  match customer.cls cu with
  | customer.VIP _ _ => (0.25%Q, "VIP"%string)
  | customer.Premium p =>
      (customer.get_discount_multiplier cu, customer.tier p)
  | customer.Regular => (0.05%Q, "Regular"%string)
  end.

Definition calculate_discount (c : cart.ShoppingCart)
  (cust : option customer.Customer) : result DiscountDetail :=
  match cust with
  | Some cu =>
      if negb (is_applicable c cust)
      then DiscountDetail_init "Diskon Member" 0 0.0%Q
      else
        let subtotal := cart.calculate_subtotal c in
        let '(pct, tier) := rate_and_tier cu in
        let discount_amount := py_int (inject_Z subtotal * pct) in
        DiscountDetail_init (String.append "Diskon Member " tier)
          discount_amount pct
  | None => DiscountDetail_init "Diskon Member" 0 0.0%Q
  end.

End MemberDiscountStrategy.

Module CategoryDiscountStrategy.

Record Rule : Type := mkRule {
  min_items : Z;
  percentage : Q
}.

(** [self._category_rules], in the order the dict is written. *)
Definition category_rules : list (KategoriBarang * Rule) :=
  [(MAKANAN, mkRule 3 0.07%Q);
   (MINUMAN, mkRule 3 0.07%Q);
   (KEBUTUHAN, mkRule 2 0.07%Q)].

Definition is_applicable (c : cart.ShoppingCart)
  (cust : option customer.Customer) : bool :=
  let category_totals := cart.get_category_totals c in
  existsb
    (fun cr : KategoriBarang * Rule =>
       match dict_get KategoriBarang_eqb category_totals (fst cr) with
       | Some data => min_items (snd cr) <=? cart.quantity data
       | None => false
       end)
    category_rules.

(** The name of the result of one category. *)
Definition discount_name (k : KategoriBarang) : string :=
  String.append "Diskon Kategori " (title (value k)).

(** The body of the [for] loop of [calculate_discount] over the rules that
    are left, [discounts] being the list built so far. *)
Fixpoint loop (rules : list (KategoriBarang * Rule))
  (category_totals : list (KategoriBarang * cart.CategoryData))
  (discounts : list DiscountDetail) : result (list DiscountDetail) :=
  match rules with
  | [] => Ok discounts
  | (category, rule) :: rest =>
      match dict_get KategoriBarang_eqb category_totals category with
      | Some category_data =>
          if min_items rule <=? cart.quantity category_data
          then
            let discount_amount :=
              py_int (inject_Z (cart.amount category_data) * percentage rule) in
            d <- DiscountDetail_init (discount_name category) discount_amount
                   (percentage rule) ;;
            loop rest category_totals (discounts ++ [d])
          else loop rest category_totals discounts
      | None => loop rest category_totals discounts
      end
  end.

Definition calculate_discount (c : cart.ShoppingCart)
  (cust : option customer.Customer) : result (list DiscountDetail) :=
  loop category_rules (cart.get_category_totals c) [].

End CategoryDiscountStrategy.

Module DayOfWeekDiscountStrategy.

Record DayConfig : Type := mkDayConfig {
  percentage : Q;
  name : string
}.

(** [self._day_discounts] *)
Definition day_discounts : list (Z * DayConfig) :=
  [(0, mkDayConfig 0.15%Q "Diskon Hari Senin");
   (5, mkDayConfig 0.20%Q "Diskon Hari Sabtu")].

Definition is_applicable (env : Env) (c : cart.ShoppingCart)
  (cust : option customer.Customer) : bool :=
  let today := weekday env in
  dict_contains Z.eqb day_discounts today.

Definition calculate_discount (env : Env) (c : cart.ShoppingCart)
  (cust : option customer.Customer) : result DiscountDetail :=
  let today := weekday env in
  if negb (is_applicable env c cust)
  then DiscountDetail_init "Diskon Hari" 0 0.0%Q
  else
    match dict_get Z.eqb day_discounts today with
    | Some day_config =>
        let subtotal := cart.calculate_subtotal c in
        let discount_amount := py_int (inject_Z subtotal * percentage day_config) in
        DiscountDetail_init (name day_config) discount_amount (percentage day_config)
    | None => Raise KeyError
    end.

End DayOfWeekDiscountStrategy.

(** The strategy objects that the list of a [DiscountService] holds. *)
Inductive DiscountStrategy : Type :=
| Senior (s : SeniorDiscountStrategy.t)
| Member
| DayOfWeek.

Definition is_applicable (env : Env) (s : DiscountStrategy)
  (c : cart.ShoppingCart) (cust : option customer.Customer) : bool :=
  match s with
  | Senior st => SeniorDiscountStrategy.is_applicable st c cust
  | Member => MemberDiscountStrategy.is_applicable c cust
  | DayOfWeek => DayOfWeekDiscountStrategy.is_applicable env c cust
  end.

Definition calculate_discount (env : Env) (s : DiscountStrategy)
  (c : cart.ShoppingCart) (cust : option customer.Customer)
  : result DiscountDetail :=
  match s with
  | Senior st => SeniorDiscountStrategy.calculate_discount st c cust
  | Member => MemberDiscountStrategy.calculate_discount c cust
  | DayOfWeek => DayOfWeekDiscountStrategy.calculate_discount env c cust
  end.

(** [DiscountService]; its [_category_strategy] is always a fresh
    [CategoryDiscountStrategy()]. *)
Record DiscountService : Type := mkDiscountService {
  strategies : list DiscountStrategy
}.

(** [DiscountService.__init__] *)
Definition DiscountService_init (strategies_ : option (list DiscountStrategy))
  : DiscountService :=
  match strategies_ with
  | Some l => mkDiscountService l
  | None =>
      mkDiscountService [Senior SeniorDiscountStrategy.default; Member; DayOfWeek]
  end.

(** The first loop of [calculate_all_discounts]. *)
Fixpoint strategies_loop (env : Env) (l : list DiscountStrategy)
  (c : cart.ShoppingCart) (cust : option customer.Customer)
  (all_discounts : list DiscountDetail) : result (list DiscountDetail) :=
  match l with
  | [] => Ok all_discounts
  | strategy :: rest =>
      if is_applicable env strategy c cust
      then
        discount <- calculate_discount env strategy c cust ;;
        if 0 <? amount discount
        then strategies_loop env rest c cust (all_discounts ++ [discount])
        else strategies_loop env rest c cust all_discounts
      else strategies_loop env rest c cust all_discounts
  end.

(** [DiscountService.calculate_all_discounts] *)
Definition calculate_all_discounts (env : Env) (self : DiscountService)
  (c : cart.ShoppingCart) (cust : option customer.Customer)
  : result (list DiscountDetail) :=
  all_discounts <- strategies_loop env (strategies self) c cust [] ;;
  if CategoryDiscountStrategy.is_applicable c cust
  then
    category_discounts <- CategoryDiscountStrategy.calculate_discount c cust ;;
    Ok (all_discounts ++ category_discounts)
  else Ok all_discounts.

(** [DiscountService.get_total_discount_amount] *)
Definition get_total_discount_amount (env : Env) (self : DiscountService)
  (c : cart.ShoppingCart) (cust : option customer.Customer) : result Z :=
  discounts <- calculate_all_discounts env self c cust ;;
  Ok (sum (map amount discounts)).

(** The classes of the module, as the argument of [remove_strategy]. *)
Inductive StrategyType : Type :=
| DiscountStrategy_type
| SeniorDiscountStrategy_type
| MemberDiscountStrategy_type
| CategoryDiscountStrategy_type
| DayOfWeekDiscountStrategy_type.

(** [isinstance(strategy, strategy_type)] *)
Definition isinstance (strategy : DiscountStrategy) (strategy_type : StrategyType)
  : bool :=
  match strategy_type, strategy with
  | DiscountStrategy_type, _ => true
  | SeniorDiscountStrategy_type, Senior _ => true
  | MemberDiscountStrategy_type, Member => true
  | DayOfWeekDiscountStrategy_type, DayOfWeek => true
  | _, _ => false
  end.

(** The loop of [remove_strategy]: the list without its first strategy of
    the type, if there is one. *)
Fixpoint remove_loop (l : list DiscountStrategy) (strategy_type : StrategyType)
  : bool * list DiscountStrategy :=
  match l with
  | [] => (false, [])
  | strategy :: rest =>
      if isinstance strategy strategy_type then (true, rest)
      else
        let '(r, rest') := remove_loop rest strategy_type in
        (r, strategy :: rest')
  end.

(** [DiscountService.remove_strategy] *)
Definition remove_strategy (self : DiscountService) (strategy_type : StrategyType)
  : bool * DiscountService :=
  let '(r, l) := remove_loop (strategies self) strategy_type in
  (r, mkDiscountService l).

(** The dict that [get_discount_summary] returns. *)
Record DiscountSummary : Type := mkDiscountSummary {
  s_discounts : list DiscountDetail;
  total_discount_amount : Z;
  discount_count : Z;
  original_subtotal : Z;
  subtotal_after_discount : Z
}.

(** [DiscountService.get_discount_summary] *)
Definition get_discount_summary (env : Env) (self : DiscountService)
  (c : cart.ShoppingCart) (cust : option customer.Customer)
  : result DiscountSummary :=
  discounts <- calculate_all_discounts env self c cust ;;
  let total_amount := sum (map amount discounts) in
  Ok (mkDiscountSummary discounts total_amount
        (Z.of_nat (List.length discounts))
        (cart.calculate_subtotal c)
        (cart.calculate_subtotal c - total_amount)).

End discount_service.

(* ================================================================== *)
(** ** services/tax_service.py *)

Module tax_service.
Import product.

Record TaxDetail : Type := mkTaxDetail {
  name : string;
  rate : Q;
  amount : Z;
  taxable_amount : Z
}.

(** [TaxDetail(...)] with its [__post_init__]. *)
Definition TaxDetail_init (name_ : string) (rate_ : Q) (amount_ : Z)
  (taxable_amount_ : Z) : result TaxDetail :=
  if negb (Qle_bool 0 rate_)
  then Raise (ValueError "Rate pajak tidak boleh negatif")
  else if amount_ <? 0
  then Raise (ValueError "Amount pajak tidak boleh negatif")
  else if taxable_amount_ <? 0
  then Raise (ValueError "Taxable amount tidak boleh negatif")
  else Ok (mkTaxDetail name_ rate_ amount_ taxable_amount_).

Module StandardTaxStrategy.

Record t : Type := mk {
  tax_rate : Q;
  threshold : Z
}.

(** [StandardTaxStrategy.__init__] *)
Definition init (tax_rate_ : Q) (threshold_ : Z) : result t :=
  if negb (Qle_bool 0 tax_rate_) || negb (Qle_bool tax_rate_ 1)
  then Raise (ValueError "Tax rate harus antara 0-1")
  else if threshold_ <? 0
  then Raise (ValueError "Threshold tidak boleh negatif")
  else Ok (mk tax_rate_ threshold_).

(** [StandardTaxStrategy()] *)
Definition default : t := mk 0.10%Q 100000.

Definition is_applicable (self : t) (subtotal_after_discount : Z)
  (c : cart.ShoppingCart) (cust : option customer.Customer) : bool :=
  threshold self <? subtotal_after_discount.

Definition calculate_tax (self : t) (subtotal_after_discount : Z)
  (c : cart.ShoppingCart) (cust : option customer.Customer) : result TaxDetail :=
  if negb (is_applicable self subtotal_after_discount c cust)
  then TaxDetail_init "PPN" 0.0%Q 0 0
  else
    let tax_amount := py_int (inject_Z subtotal_after_discount * tax_rate self) in
    TaxDetail_init "PPN" (tax_rate self) tax_amount subtotal_after_discount.

End StandardTaxStrategy.

Module CategoryBasedTaxStrategy.

(** [self._category_tax_rates] *)
Definition category_tax_rates : list (KategoriBarang * Q) :=
  [(MAKANAN, 0.05%Q); (MINUMAN, 0.08%Q); (KEBUTUHAN, 0.12%Q)].

Definition threshold : Z := 50000.

Definition is_applicable (subtotal_after_discount : Z)
  (c : cart.ShoppingCart) (cust : option customer.Customer) : bool :=
  threshold <? subtotal_after_discount.

Definition tax_name (k : KategoriBarang) : string :=
  String.append "Pajak " (title (value k)).

(** The [for] loop of [calculate_tax] over the groups that are left. *)
Fixpoint loop (groups : list (KategoriBarang * list ProductItem))
  (taxes : list TaxDetail) : result (list TaxDetail) :=
  match groups with
  | [] => Ok taxes
  | (category, its) :: rest =>
      match dict_get KategoriBarang_eqb category_tax_rates category with
      | Some tax_rate =>
          let category_total := sum (map get_total_price its) in
          let tax_amount := py_int (inject_Z category_total * tax_rate) in
          t <- TaxDetail_init (tax_name category) tax_rate tax_amount category_total ;;
          loop rest (taxes ++ [t])
      | None => loop rest taxes
      end
  end.

Definition calculate_tax (subtotal_after_discount : Z)
  (c : cart.ShoppingCart) (cust : option customer.Customer)
  : result (list TaxDetail) :=
  if negb (is_applicable subtotal_after_discount c cust)
  then Ok []
  else loop (cart.get_items_by_category c) [].

End CategoryBasedTaxStrategy.

Module LuxuryTaxStrategy.

Record Bracket : Type := mkBracket {
  min_amount : Z;
  rate : Q;
  name : string
}.

(** [self._tax_brackets] *)
Definition tax_brackets : list Bracket :=
  [mkBracket 500000 0.05%Q "Luxury Tier 1";
   mkBracket 1000000 0.08%Q "Luxury Tier 2";
   mkBracket 2000000 0.12%Q "Luxury Tier 3"].

Definition is_applicable (subtotal_after_discount : Z)
  (c : cart.ShoppingCart) (cust : option customer.Customer) : bool :=
  match tax_brackets with
  | first :: _ => min_amount first <=? subtotal_after_discount
  | [] => false
  end.

Definition calculate_tax (subtotal_after_discount : Z)
  (c : cart.ShoppingCart) (cust : option customer.Customer) : result TaxDetail :=
  if negb (is_applicable subtotal_after_discount c cust)
  then TaxDetail_init "Luxury Tax" 0.0%Q 0 0
  else
    let applicable_tier :=
      find (fun tier => min_amount tier <=? subtotal_after_discount)
           (rev tax_brackets) in
    match applicable_tier with
    | Some tier =>
        let tax_amount := py_int (inject_Z subtotal_after_discount * rate tier) in
        TaxDetail_init (name tier) (rate tier) tax_amount subtotal_after_discount
    | None => TaxDetail_init "Luxury Tax" 0.0%Q 0 0
    end.

End LuxuryTaxStrategy.

(** [TaxService]: the mode and, of the dict [_strategies], the standard
    strategy; the other two entries have no settings. *)
Record TaxService : Type := mkTaxService {
  tax_mode : string;
  standard_strategy : StandardTaxStrategy.t
}.

(** [TaxService.__init__]: [_initialize_strategies] builds the strategies
    with their default arguments. *)
Definition TaxService_init (tax_mode_ : string) : TaxService :=
  mkTaxService tax_mode_ StandardTaxStrategy.default.

(** [TaxService()] *)
Definition default : TaxService := TaxService_init "standard".

(** [TaxService.set_tax_mode] *)
Definition set_tax_mode (self : TaxService) (mode : string) : result TaxService :=
  if existsb (String.eqb mode) ["standard"; "category"; "luxury"; "combined"]%string
  then Ok (mkTaxService mode (standard_strategy self))
  else Raise (ValueError
    "Mode harus salah satu dari: ['standard', 'category', 'luxury', 'combined']").

(** [TaxService.calculate_tax] *)
Definition calculate_tax (self : TaxService) (subtotal_after_discount : Z)
  (c : cart.ShoppingCart) (cust : option customer.Customer)
  : result (list TaxDetail) :=
  if String.eqb (tax_mode self) "standard" then
    standard_tax <- StandardTaxStrategy.calculate_tax (standard_strategy self)
                      subtotal_after_discount c cust ;;
    if 0 <? amount standard_tax then Ok [standard_tax] else Ok []
  else if String.eqb (tax_mode self) "category" then
    category_taxes <- CategoryBasedTaxStrategy.calculate_tax
                        subtotal_after_discount c cust ;;
    Ok category_taxes
  else if String.eqb (tax_mode self) "luxury" then
    luxury_tax <- LuxuryTaxStrategy.calculate_tax subtotal_after_discount c cust ;;
    if 0 <? amount luxury_tax then Ok [luxury_tax] else Ok []
  else if String.eqb (tax_mode self) "combined" then
    standard_tax <- StandardTaxStrategy.calculate_tax (standard_strategy self)
                      subtotal_after_discount c cust ;;
    luxury_tax <- LuxuryTaxStrategy.calculate_tax subtotal_after_discount c cust ;;
    if amount standard_tax <? amount luxury_tax then Ok [luxury_tax]
    else if 0 <? amount standard_tax then Ok [standard_tax]
    else Ok []
  else Ok [].

(** [TaxService.get_total_tax_amount] *)
Definition get_total_tax_amount (self : TaxService) (subtotal_after_discount : Z)
  (c : cart.ShoppingCart) (cust : option customer.Customer) : result Z :=
  taxes <- calculate_tax self subtotal_after_discount c cust ;;
  Ok (sum (map amount taxes)).

(** The dict that [get_tax_summary] returns. *)
Record TaxSummary : Type := mkTaxSummary {
  s_taxes : list TaxDetail;
  total_tax_amount : Z;
  tax_count : Z;
  s_tax_mode : string;
  subtotal_before_tax : Z;
  total_after_tax : Z
}.

(** [TaxService.get_tax_summary] *)
Definition get_tax_summary (self : TaxService) (subtotal_after_discount : Z)
  (c : cart.ShoppingCart) (cust : option customer.Customer) : result TaxSummary :=
  taxes <- calculate_tax self subtotal_after_discount c cust ;;
  let total_amount := sum (map amount taxes) in
  Ok (mkTaxSummary taxes total_amount (Z.of_nat (List.length taxes))
        (tax_mode self) subtotal_after_discount
        (subtotal_after_discount + total_amount)).

End tax_service.

(* ================================================================== *)
(** ** services/transaction_service.py *)

Module transaction_service.
Import transaction.

(** The texts that end up in [message], [errors] and [warnings]. *)
Inductive Message : Type :=
| MsgNone                                (* '' *)
| MsgMethodNotSupported (method : string) (* Metode pembayaran '...' tidak didukung *)
| MsgNegativePayment                     (* Jumlah pembayaran tidak boleh negatif *)
| MsgPaymentOk                           (* Pembayaran berhasil *)
| MsgShort (outstanding : Z)             (* Kurang bayar Rp... *)
| MsgCartEmpty                           (* Keranjang belanja kosong *)
| MsgCustomerInvalid.                    (* Customer tidak valid *)

Module PaymentProcessor.

Definition supported_methods : list string :=
  ["cash"; "card"; "digital"; "transfer"]%string.

(** The dict that [validate_payment] returns. *)
Record PaymentValidation : Type := mkPaymentValidation {
  is_valid : bool;
  is_sufficient : bool;
  change_amount : Z;
  outstanding_amount : Z;
  message : Message
}.

(** [PaymentProcessor.validate_payment] *)
Definition validate_payment (total_amount payment_amount : Z) (method : string)
  : PaymentValidation :=
  if negb (existsb (String.eqb method) supported_methods)
  then mkPaymentValidation false false 0 0 (MsgMethodNotSupported method)
  else if payment_amount <? 0
  then mkPaymentValidation false false 0 0 MsgNegativePayment
  else if total_amount <=? payment_amount
  then mkPaymentValidation true true (payment_amount - total_amount) 0 MsgPaymentOk
  else mkPaymentValidation true false 0 (total_amount - payment_amount)
         (MsgShort (total_amount - payment_amount)).

(** The dict that [process_installment_payment] returns. *)
Record InstallmentResult : Type := mkInstallmentResult {
  total_paid : Z;
  is_complete : bool;
  i_change_amount : Z;
  i_outstanding_amount : Z;
  installment_count : Z
}.

(** [PaymentProcessor.process_installment_payment] *)
Definition process_installment_payment (total_amount : Z) (installments : list Z)
  : InstallmentResult :=
  let total_paid_ := sum installments in
  mkInstallmentResult total_paid_
    (total_amount <=? total_paid_)
    (Z.max 0 (total_paid_ - total_amount))
    (Z.max 0 (total_amount - total_paid_))
    (Z.of_nat (List.length installments)).

(** [PaymentProcessor.create_payment_detail] *)
Definition create_payment_detail (amount_paid_ : Z) (method : string)
  (installments_ : option (list Z)) : result PaymentDetail :=
  let installments_ := match installments_ with Some l => l | None => [] end in
  PaymentDetail_init amount_paid_ method 0 installments_.

End PaymentProcessor.

(** The breakdown that [calculate_transaction_totals] returns. *)
Record Totals : Type := mkTotals {
  t_subtotal : Z;
  t_discounts : list DiscountDetail;
  t_total_discount : Z;
  t_subtotal_after_discount : Z;
  t_taxes : list tax_service.TaxDetail;
  t_total_tax : Z;
  t_total_amount : Z
}.

(** The dict that [validate_transaction_data] returns. *)
Record Validation : Type := mkValidation {
  v_is_valid : bool;
  errors : list Message;
  warnings : list Message
}.

(** [TransactionOrchestrator]; the payment processor has no settings. *)
Record TransactionOrchestrator : Type := mkTransactionOrchestrator {
  discount_service : discount_service.DiscountService;
  tax_service : tax_service.TaxService
}.

(** [TransactionOrchestrator()] *)
Definition TransactionOrchestrator_default : TransactionOrchestrator :=
  mkTransactionOrchestrator (discount_service.DiscountService_init None)
    tax_service.default.

(** [TransactionOrchestrator.calculate_transaction_totals] *)
Definition calculate_transaction_totals (env : Env)
  (self : TransactionOrchestrator) (c : cart.ShoppingCart) : result Totals :=
  let subtotal := cart.calculate_subtotal c in
  discounts <- discount_service.calculate_all_discounts env
                 (discount_service self) c (cart.customer c) ;;
  let total_discount := sum (map amount discounts) in
  let subtotal_after_discount := subtotal - total_discount in
  taxes <- tax_service.calculate_tax (tax_service self) subtotal_after_discount
             c (cart.customer c) ;;
  let total_tax := sum (map tax_service.amount taxes) in
  let total_amount := subtotal_after_discount + total_tax in
  Ok (mkTotals subtotal discounts total_discount subtotal_after_discount
        taxes total_tax total_amount).

(** [TransactionOrchestrator.validate_transaction_data]; the payment is
    validated with the default method ['cash']. *)
Definition validate_transaction_data (env : Env)
  (self : TransactionOrchestrator) (c : cart.ShoppingCart) (payment_amount : Z)
  : result Validation :=
  let r0 := mkValidation true [] [] in
  let r1 := if cart.is_empty c
            then mkValidation false (errors r0 ++ [MsgCartEmpty]) (warnings r0)
            else r0 in
  let r2 := match cart.customer c with
            | None => mkValidation false (errors r1 ++ [MsgCustomerInvalid]) (warnings r1)
            | Some _ => r1
            end in
  totals <- calculate_transaction_totals env self c ;;
  let payment_validation :=
    PaymentProcessor.validate_payment (t_total_amount totals) payment_amount "cash" in
  let r3 := if negb (PaymentProcessor.is_valid payment_validation)
            then mkValidation false
                   (errors r2 ++ [PaymentProcessor.message payment_validation])
                   (warnings r2)
            else r2 in
  let r4 := if negb (PaymentProcessor.is_sufficient payment_validation)
            then mkValidation (v_is_valid r3) (errors r3)
                   (warnings r3 ++ [PaymentProcessor.message payment_validation])
            else r3 in
  Ok r4.

(** [TransactionService] *)
Record TransactionService : Type := mkTransactionService {
  orchestrator : TransactionOrchestrator;
  transactions : list (string * Transaction);
  transaction_history : list Transaction
}.

(** [TransactionService()] *)
Definition TransactionService_default : TransactionService :=
  mkTransactionService TransactionOrchestrator_default [] [].

(** [TransactionService._generate_transaction_id] *)
Definition generate_transaction_id (env : Env) : string :=
  let timestamp := stamp env in
  let unique_id := substring 0 8 (uuid4 env) in
  String.append "TXN_" (String.append timestamp (String.append "_" unique_id)).

(** The body of the [try] block of [create_transaction]: [Ok None] is the
    early [return None], [Raise] an exception on its way to the handler. *)
Definition create_transaction_try (env : Env) (self : TransactionService)
  (c : cart.ShoppingCart) (payment_amount : Z) (payment_method_ : string)
  (installments_ : option (list Z)) : result (option Transaction) :=
  validation <- validate_transaction_data env (orchestrator self) c payment_amount ;;
  if negb (v_is_valid validation) then Ok None
  else
    totals <- calculate_transaction_totals env (orchestrator self) c ;;
    let '(installments_, actual_payment, change_amount_) :=
      match installments_ with
      | Some (i :: l) =>
          let installment_result :=
            PaymentProcessor.process_installment_payment
              (t_total_amount totals) (i :: l) in
          (i :: l, PaymentProcessor.total_paid installment_result,
           PaymentProcessor.i_change_amount installment_result)
      | _ => ([], payment_amount, Z.max 0 (payment_amount - t_total_amount totals))
      end in
    payment_ <- PaymentDetail_init actual_payment payment_method_ change_amount_
                  installments_ ;;
    let transaction_id_ := generate_transaction_id env in
    transaction <-
      build env
        (set_payment
          (set_total_amount
            (set_tax_amount
              (set_subtotal
                (set_cart
                  (set_transaction_id TransactionBuilder_init transaction_id_)
                  c)
                (t_subtotal totals))
              (t_total_tax totals))
            (t_total_amount totals))
          payment_) ;;
    Ok (Some (fold_left append_discount (t_discounts totals) transaction)).

(** [TransactionService.create_transaction]: the transaction if one was
    made, the service with the transaction stored, and the cart as the
    caller sees it afterwards (finalized when a transaction was built). *)
Definition create_transaction (env : Env) (self : TransactionService)
  (c : cart.ShoppingCart) (payment_amount : Z) (payment_method_ : string)
  (installments_ : option (list Z))
  : option Transaction * TransactionService * cart.ShoppingCart :=
  match create_transaction_try env self c payment_amount payment_method_
          installments_ with
  | Ok (Some transaction) =>
      (Some transaction,
       mkTransactionService (orchestrator self)
         (dict_set String.eqb (transactions self)
            (transaction_id transaction) transaction)
         (transaction_history self ++ [transaction]),
       cart transaction)
  | Ok None => (None, self, c)
  | Raise _ => (None, self, c)
  end.

(** One transaction object is held by [_transactions] and by
    [_transaction_history] at once, so a change made through one is seen
    through the other.  The dict entry of an id is the object that the last
    [create_transaction] with this id stored, and this object is the last
    transaction of the history with this id: [write_history] puts the
    changed object [t'] there. *)
Fixpoint write_history (history : list Transaction) (tid : string)
  (t' : Transaction) : list Transaction :=
  match history with
  | [] => []
  | t :: rest =>
      if String.eqb (transaction_id t) tid
         && negb (existsb (fun u => String.eqb (transaction_id u) tid) rest)
      then t' :: rest
      else t :: write_history rest tid t'
  end.

(** The service after a method has changed the object found under [tid]
    into [t']. *)
Definition write_back (self : TransactionService) (tid : string)
  (t' : Transaction) : TransactionService :=
  mkTransactionService (orchestrator self)
    (dict_set String.eqb (transactions self) tid t')
    (write_history (transaction_history self) tid t').

(** [TransactionService.complete_transaction] *)
Definition complete_transaction (env : Env) (self : TransactionService)
  (transaction_id_ : string) : bool * TransactionService :=
  match dict_get String.eqb (transactions self) transaction_id_ with
  | Some t =>
      let '(r, t') := transaction.complete_transaction env t in
      (r, write_back self transaction_id_ t')
  | None => (false, self)
  end.

(** [TransactionService.cancel_transaction] *)
Definition cancel_transaction (self : TransactionService)
  (transaction_id_ : string) : bool * TransactionService :=
  match dict_get String.eqb (transactions self) transaction_id_ with
  | Some t =>
      let '(r, t') := transaction.cancel_transaction t in
      (r, write_back self transaction_id_ t')
  | None => (false, self)
  end.

(** [TransactionService.refund_transaction] *)
Definition refund_transaction (self : TransactionService)
  (transaction_id_ : string) : bool * TransactionService :=
  match dict_get String.eqb (transactions self) transaction_id_ with
  | Some t =>
      let '(r, t') := transaction.refund_transaction t in
      (r, write_back self transaction_id_ t')
  | None => (false, self)
  end.

(** [TransactionService.get_transaction] *)
Definition get_transaction (self : TransactionService) (transaction_id_ : string)
  : option Transaction :=
  dict_get String.eqb (transactions self) transaction_id_.

(** A list comprehension whose condition reads an attribute of
    [t.customer]: [None] is the [AttributeError] that a transaction without
    customer raises. *)
Fixpoint filter_customers (f : customer.Customer -> bool) (l : list Transaction)
  : option (list Transaction) :=
  match l with
  | [] => Some []
  | t :: rest =>
      match customer t with
      | None => None
      | Some cu =>
          match filter_customers f rest with
          | None => None
          | Some r => Some (if f cu then t :: r else r)
          end
      end
  end.

(** [TransactionService.get_customer_transactions] *)
Definition get_customer_transactions (self : TransactionService)
  (customer_name : string) : option (list Transaction) :=
  filter_customers
    (fun cu => String.eqb (lower (customer.nama cu)) (lower customer_name))
    (transaction_history self).

(** [TransactionService.get_transactions_by_status] *)
Definition get_transactions_by_status (self : TransactionService)
  (status_ : TransactionStatus) : list Transaction :=
  filter (fun t => TransactionStatus_eqb (status t) status_)
         (transaction_history self).

(** [TransactionService._get_status_breakdown] *)
Definition get_status_breakdown (transactions_ : list Transaction)
  : list (string * Z) :=
  fold_left
    (fun breakdown transaction =>
       let status_ := status_value (status transaction) in
       dict_set String.eqb breakdown status_
         (match dict_get String.eqb breakdown status_ with
          | Some n => n
          | None => 0
          end + 1))
    transactions_ [].

(** One entry of [_get_top_customers]. *)
Record CustomerData : Type := mkCustomerData {
  cd_name : string;
  total_spent : Z;
  transaction_count : Z
}.

(** The loop of [_get_top_customers]: an entry that is missing is first set
    to zero and then counted up, an entry that is there keeps its place.
    [None] is the [AttributeError] of a transaction without customer. *)
Fixpoint top_customers_loop (transactions_ : list Transaction)
  (customer_data : list (string * CustomerData))
  : option (list (string * CustomerData)) :=
  match transactions_ with
  | [] => Some customer_data
  | transaction :: rest =>
      match customer transaction with
      | None => None
      | Some cu =>
          let customer_name := customer.nama cu in
          let old := match dict_get String.eqb customer_data customer_name with
                     | Some d => d
                     | None => mkCustomerData customer_name 0 0
                     end in
          top_customers_loop rest
            (dict_set String.eqb customer_data customer_name
               (mkCustomerData (cd_name old)
                  (total_spent old + total_amount transaction)
                  (transaction_count old + 1)))
      end
  end.

(** [TransactionService._get_top_customers] *)
Definition get_top_customers (transactions_ : list Transaction) (limit : Z)
  : option (list CustomerData) :=
  match top_customers_loop transactions_ [] with
  | Some customer_data =>
      Some (slice_to (sorted total_spent true (dict_values customer_data)) limit)
  | None => None
  end.

(** One entry of [_get_category_performance]. *)
Record CategoryPerformance : Type := mkCategoryPerformance {
  total_revenue : Z;
  total_items_sold : Z;
  cp_transaction_count : Z
}.

(** The inner loop of [_get_category_performance], for one group of the
    cart of a transaction. *)
Definition category_performance_step
  (category_data : list (string * CategoryPerformance))
  (group : product.KategoriBarang * list product.ProductItem)
  : list (string * CategoryPerformance) :=
  let category_name := product.value (fst group) in
  let old := match dict_get String.eqb category_data category_name with
             | Some d => d
             | None => mkCategoryPerformance 0 0 0
             end in
  let category_total := sum (map product.get_total_price (snd group)) in
  let category_items := sum (map product.jumlah (snd group)) in
  dict_set String.eqb category_data category_name
    (mkCategoryPerformance (total_revenue old + category_total)
       (total_items_sold old + category_items)
       (cp_transaction_count old + 1)).

(** [TransactionService._get_category_performance] *)
Definition get_category_performance (transactions_ : list Transaction)
  : list (string * CategoryPerformance) :=
  fold_left
    (fun category_data transaction =>
       fold_left category_performance_step
         (cart.get_items_by_category (cart transaction)) category_data)
    transactions_ [].

(** The ['summary'] entry of [get_sales_analytics]. *)
Record Summary : Type := mkSummary {
  sm_total_revenue : Z;
  total_transactions : Z;
  sm_total_items_sold : Z;
  average_transaction_value : Z
}.

(** The dict that [get_sales_analytics] returns; the period keeps the two
    dates instead of their ISO texts. *)
Record SalesAnalytics : Type := mkSalesAnalytics {
  period : option Z * option Z;
  summary : Summary;
  status_breakdown : list (string * Z);
  top_customers : list CustomerData;
  category_performance : list (string * CategoryPerformance)
}.

(** [TransactionService.get_sales_analytics]; a date is a time stamp like
    [created_at], and a date that is given is true as a condition. *)
Definition get_sales_analytics (self : TransactionService)
  (start_date end_date : option Z) : option SalesAnalytics :=
  let filtered_transactions := transaction_history self in
  let filtered_transactions :=
    match start_date with
    | Some d => filter (fun t => d <=? created_at t) filtered_transactions
    | None => filtered_transactions
    end in
  let filtered_transactions :=
    match end_date with
    | Some d => filter (fun t => created_at t <=? d) filtered_transactions
    | None => filtered_transactions
    end in
  let completed_transactions :=
    filter (fun t => TransactionStatus_eqb (status t) COMPLETED)
           filtered_transactions in
  let total_revenue_ := sum (map total_amount completed_transactions) in
  let total_transactions_ := Z.of_nat (List.length completed_transactions) in
  let total_items_sold_ :=
    sum (map (fun t => cart.total_quantity (cart t)) completed_transactions) in
  match get_top_customers completed_transactions 5 with
  | Some top =>
      Some (mkSalesAnalytics (start_date, end_date)
              (mkSummary total_revenue_ total_transactions_ total_items_sold_
                 (if 0 <? total_transactions_
                  then total_revenue_ / total_transactions_
                  else 0))
              (get_status_breakdown filtered_transactions)
              top
              (get_category_performance completed_transactions))
  | None => None
  end.

End transaction_service.

(* ================================================================== *)
(** ** services/product_service.py *)

Module product_service.
Import product.

(** [InMemoryProductRepository] *)
Module InMemoryProductRepository.

Record t : Type := mk {
  products : list (string * Product)
}.

(** A list display of constructor calls, evaluated from left to right. *)
Fixpoint sequence {A : Type} (l : list (result A)) : result (list A) :=
  match l with
  | [] => Ok []
  | m :: rest =>
      x <- m ;;
      xs <- sequence rest ;;
      Ok (x :: xs)
  end.

(** The list [default_products] of [_initialize_default_products]. *)
Definition default_products : result (list Product) :=
  sequence
    [Product_init "beras" 15000 "kg" MAKANAN;
     Product_init "telur" 20000 "kg" MAKANAN;
     Product_init "roti" 8000 "buah" MAKANAN;
     Product_init "sayur" 5000 "kg" MAKANAN;
     Product_init "buah" 10000 "kg" MAKANAN;
     Product_init "gula" 12000 "kg" MAKANAN;
     Product_init "kerupuk" 2000 "kg" MAKANAN;
     Product_init "mie_instan" 1500 "buah" MAKANAN;
     Product_init "susu" 12000 "botol" MINUMAN;
     Product_init "kopi" 5000 "buah" MINUMAN;
     Product_init "teh" 3000 "kantong" MINUMAN;
     Product_init "minyak" 25000 "botol" KEBUTUHAN;
     Product_init "sabun" 5000 "batang" KEBUTUHAN;
     Product_init "sampo" 10000 "batang" KEBUTUHAN].

(** [InMemoryProductRepository.__init__] with
    [_initialize_default_products]. *)
Definition init : result t :=
  ps <- default_products ;;
  Ok (mk (fold_left (fun d (product : Product) =>
                       dict_set String.eqb d (nama product) product) ps [])).

(** [save]; the [isinstance] test is the type of the argument. *)
Definition save (self : t) (product : Product) : bool * t :=
  (true, mk (dict_set String.eqb (products self) (nama product) product)).

Definition find_by_name (self : t) (name : string) : option Product :=
  let name := lower (strip name) in
  dict_get String.eqb (products self) name.

Definition find_all (self : t) : list Product := dict_values (products self).

Definition update (self : t) (product : Product) : bool * t :=
  if dict_contains String.eqb (products self) (nama product)
  then (true, mk (dict_set String.eqb (products self) (nama product) product))
  else (false, self).

Definition delete (self : t) (name : string) : bool * t :=
  let name := lower (strip name) in
  if dict_contains String.eqb (products self) name
  then (true, mk (dict_del String.eqb (products self) name))
  else (false, self).

Definition count (self : t) : Z := Z.of_nat (List.length (products self)).

(** [InMemoryProductRepository.exists] *)
Definition exists_ (self : t) (name : string) : bool :=
  let name := lower (strip name) in
  dict_contains String.eqb (products self) name.

End InMemoryProductRepository.

(** [ProductFactory] *)
Module ProductFactory.

Definition create_product (nama_ : string) (harga_ : Z) (satuan_ : string)
  (kategori_ : KategoriBarang) : result Product :=
  Product_init nama_ harga_ satuan_ kategori_.

Definition create_product_item (product : Product) (jumlah_ : Z)
  : result ProductItem :=
  ProductItem_init product jumlah_.

End ProductFactory.

(** [ProductService] over the repository that it builds by default. *)
Record ProductService : Type := mkProductService {
  repository : InMemoryProductRepository.t
}.

(** [ProductService()] *)
Definition ProductService_init : result ProductService :=
  r <- InMemoryProductRepository.init ;;
  Ok (mkProductService r).

(** [ProductService.create_product]: the product if one was stored, and the
    service afterwards. *)
Definition create_product (self : ProductService) (nama_ : string) (harga_ : Z)
  (satuan_ : string) (kategori_ : KategoriBarang)
  : option Product * ProductService :=
  match InMemoryProductRepository.find_by_name (repository self) nama_ with
  | Some _ => (None, self)
  | None =>
      match ProductFactory.create_product nama_ harga_ satuan_ kategori_ with
      | Ok product =>
          let '(saved, r) := InMemoryProductRepository.save (repository self) product in
          if saved then (Some product, mkProductService r)
          else (None, mkProductService r)
      | Raise _ => (None, self)
      end
  end.

(** [ProductService.get_product] *)
Definition get_product (self : ProductService) (nama_ : string) : option Product :=
  InMemoryProductRepository.find_by_name (repository self) nama_.

(** [ProductService.get_all_products] *)
Definition get_all_products (self : ProductService) : list Product :=
  InMemoryProductRepository.find_all (repository self).

(** [ProductService.update_product].  [product] is the object that the
    repository holds, so the price setter changes the stored product at
    once; a new unit goes into a new object, which replaces the stored one. *)
Definition update_product (self : ProductService) (nama_ : string)
  (harga_ : option Z) (satuan_ : option string) : bool * ProductService :=
  match InMemoryProductRepository.find_by_name (repository self) nama_ with
  | None => (false, self)
  | Some product =>
      match (match harga_ with
             | Some h => set_harga product h
             | None => Ok product
             end) with
      | Raise _ => (false, self)
      | Ok product =>
          let r := InMemoryProductRepository.mk
                     (dict_set String.eqb
                        (InMemoryProductRepository.products (repository self))
                        (lower (strip nama_)) product) in
          match satuan_ with
          | Some s =>
              match Product_init (nama product) (harga product) s
                      (kategori product) with
              | Ok updated_product =>
                  let '(ok, r') := InMemoryProductRepository.update r updated_product in
                  (ok, mkProductService r')
              | Raise _ => (false, mkProductService r)
              end
          | None =>
              let '(ok, r') := InMemoryProductRepository.update r product in
              (ok, mkProductService r')
          end
      end
  end.

(** [ProductService.delete_product] *)
Definition delete_product (self : ProductService) (nama_ : string)
  : bool * ProductService :=
  let '(ok, r) := InMemoryProductRepository.delete (repository self) nama_ in
  (ok, mkProductService r).

(** [ProductService.search_products] *)
Definition search_products (self : ProductService) (query : string)
  : list Product :=
  let query := strip (lower query) in
  filter
    (fun product : Product =>
       str_in query (nama product)
       || str_in query (lower (get_display_name product)))
    (InMemoryProductRepository.find_all (repository self)).

(** [ProductService.filter_by_category] *)
Definition filter_by_category (self : ProductService) (kategori_ : KategoriBarang)
  : list Product :=
  filter (fun p : Product => KategoriBarang_eqb (kategori p) kategori_)
         (InMemoryProductRepository.find_all (repository self)).

(** [ProductService.filter_by_price_range]; no [max_price] is the default
    [float('inf')]. *)
Definition filter_by_price_range (self : ProductService) (min_price : Z)
  (max_price : option Z) : list Product :=
  filter
    (fun p : Product =>
       (min_price <=? harga p)
       && match max_price with
          | Some m => harga p <=? m
          | None => true
          end)
    (InMemoryProductRepository.find_all (repository self)).

(** [ProductService.get_products_grouped_by_category] *)
Definition get_products_grouped_by_category (self : ProductService)
  : list (KategoriBarang * list Product) :=
  fold_left
    (fun grouped (product : Product) =>
       let old := match dict_get KategoriBarang_eqb grouped (kategori product) with
                  | Some l => l
                  | None => []
                  end in
       dict_set KategoriBarang_eqb grouped (kategori product) (old ++ [product]))
    (InMemoryProductRepository.find_all (repository self)) [].

(** [ProductService.get_cheapest_products] *)
Definition get_cheapest_products (self : ProductService) (limit : Z)
  : list Product :=
  let all_products := InMemoryProductRepository.find_all (repository self) in
  let sorted_products := sorted harga false all_products in
  slice_to sorted_products limit.

(** [ProductService.get_most_expensive_products] *)
Definition get_most_expensive_products (self : ProductService) (limit : Z)
  : list Product :=
  let all_products := InMemoryProductRepository.find_all (repository self) in
  let sorted_products := sorted harga true all_products in
  slice_to sorted_products limit.

(** [ProductService.create_product_item]: [Ok None] is [return None]; only
    a [ValueError] is caught. *)
Definition create_product_item (self : ProductService) (product_name : string)
  (jumlah_ : Z) : result (option ProductItem) :=
  match InMemoryProductRepository.find_by_name (repository self) product_name with
  | None => Ok None
  | Some product =>
      match ProductFactory.create_product_item product jumlah_ with
      | Ok it => Ok (Some it)
      | Raise (ValueError _) => Ok None
      | Raise e => Raise e
      end
  end.

(** [ProductService.get_product_count] *)
Definition get_product_count (self : ProductService) : Z :=
  Z.of_nat (List.length (InMemoryProductRepository.find_all (repository self))).

(** [ProductService.product_exists] *)
Definition product_exists (self : ProductService) (nama_ : string) : bool :=
  match InMemoryProductRepository.find_by_name (repository self) nama_ with
  | Some _ => true
  | None => false
  end.

End product_service.

(* ================================================================== *)
(** ** Notions used to state the properties *)

Module props.
Import product.

(** A line item as its constructor and setter leave it. *)
Definition item_wf (it : ProductItem) : Prop := 0 < harga it /\ 0 < jumlah it.

(** A cart whose line items all went through [ProductItem]. *)
Definition cart_wf (c : cart.ShoppingCart) : Prop :=
  Forall item_wf (cart.get_all_items c).

Definition all_categories : list KategoriBarang := [MAKANAN; MINUMAN; KEBUTUHAN].

(** Whether a line item is of a category. *)
Definition of_category (k : KategoriBarang) (it : ProductItem) : bool :=
  KategoriBarang_eqb (kategori it) k.

(** The line items of one category. *)
Definition items_of (c : cart.ShoppingCart) (k : KategoriBarang) : list ProductItem :=
  filter (of_category k) (cart.get_all_items c).

(** Quantity in the cart for a category. *)
Definition category_quantity (c : cart.ShoppingCart) (k : KategoriBarang) : Z :=
  sum (map jumlah (items_of c k)).

(** Subtotal of a category: unit price times quantity over its items. *)
Definition category_subtotal (c : cart.ShoppingCart) (k : KategoriBarang) : Z :=
  sum (map get_total_price (items_of c k)).

(** Threshold of the bulk discount: 3 for food and drink, 2 for household. *)
Definition bulk_threshold (k : KategoriBarang) : Z :=
  match k with
  | MAKANAN => 3
  | MINUMAN => 3
  | KEBUTUHAN => 2
  end.

Definition qualifies (c : cart.ShoppingCart) (k : KategoriBarang) : bool :=
  bulk_threshold k <=? category_quantity c k.

(** One step of the loop of [get_category_totals]. *)
Definition totals_step (acc : list (KategoriBarang * cart.CategoryData))
  (item : ProductItem) : list (KategoriBarang * cart.CategoryData) :=
  let old := match dict_get KategoriBarang_eqb acc (kategori item) with
             | Some d => d
             | None => cart.mkCategoryData 0 0
             end in
  dict_set KategoriBarang_eqb acc (kategori item)
    (cart.mkCategoryData (cart.quantity old + jumlah item)
                         (cart.amount old + get_total_price item)).

(** [floor(base * rate)] *)
Definition floor_of (base : Z) (rate : Q) : Z := Qfloor (inject_Z base * rate).

(** The result of the bulk discount for one category: 7% of the subtotal of
    the category, rounded down. *)
Definition bulk_detail (c : cart.ShoppingCart) (k : KategoriBarang)
  : transaction.DiscountDetail :=
  transaction.mkDiscountDetail
    (discount_service.CategoryDiscountStrategy.discount_name k)
    (floor_of (category_subtotal c k) 0.07%Q) 0.07%Q.

(** Rate of a tier: Bronze 7%, Silver 10%, Gold 15%, Platinum 20%; 5% for
    any other label. *)
Definition tier_rate (tier : string) : Q :=
  if String.eqb "Bronze" tier then 0.07%Q
  else if String.eqb "Silver" tier then 0.10%Q
  else if String.eqb "Gold" tier then 0.15%Q
  else if String.eqb "Platinum" tier then 0.20%Q
  else 0.05%Q.

(** Rate of the member discount: VIP 25%, tiered member by tier, regular
    member 5%. *)
Definition member_rate (cu : customer.Customer) : Q :=
  match customer.cls cu with
  | customer.VIP _ _ => 0.25%Q
  | customer.Premium p => tier_rate (customer.tier p)
  | customer.Regular => 0.05%Q
  end.

(** Rate of the day: Monday 15%, Saturday 20%. *)
Definition day_rate (day : Z) : Q :=
  if day =? 0 then 0.15%Q else if day =? 5 then 0.20%Q else 0%Q.

(** Rate that a strategy applies to the cart subtotal. *)
Definition rate_of (env : Env) (s : discount_service.DiscountStrategy)
  (cust : option customer.Customer) : Q :=
  match s with
  | discount_service.Senior st => discount_service.SeniorDiscountStrategy.percentage st
  | discount_service.Member =>
      match cust with Some cu => member_rate cu | None => 0%Q end
  | discount_service.DayOfWeek => day_rate (weekday env)
  end.

(** The rates that the program writes: 5, 7, 8, 10, 12, 15, 20 and 25%. *)
Definition program_rates : list Q :=
  [0.05; 0.07; 0.08; 0.10; 0.12; 0.15; 0.20; 0.25]%Q.

(** A strategy whose rate is one that the program writes.  The member and
    day rates always are; the senior percentage is an argument of the
    constructor, 10% by default. *)
Definition rate_written (s : discount_service.DiscountStrategy) : Prop :=
  match s with
  | discount_service.Senior st =>
      In (discount_service.SeniorDiscountStrategy.percentage st) program_rates
  | _ => True
  end.

(** A strategy whose rate is a fraction between 0 and 1.  The constructor
    of the senior strategy takes any percentage; the record of a discount
    is what refuses a percentage outside this range. *)
Definition strategy_wf (s : discount_service.DiscountStrategy) : Prop :=
  match s with
  | discount_service.Senior st =>
      Qle_bool 0 (discount_service.SeniorDiscountStrategy.percentage st) = true /\
      Qle_bool (discount_service.SeniorDiscountStrategy.percentage st) 1 = true
  | _ => True
  end.

(** One step of the loop of [get_items_by_category]. *)
Definition groups_step (acc : list (KategoriBarang * list ProductItem))
  (item : ProductItem) : list (KategoriBarang * list ProductItem) :=
  let old := match dict_get KategoriBarang_eqb acc (kategori item) with
             | Some l => l
             | None => []
             end in
  dict_set KategoriBarang_eqb acc (kategori item) (old ++ [item]).

(** Rate of the category tax: food 5%, drink 8%, household 12%. *)
Definition category_rate (k : KategoriBarang) : Q :=
  match k with
  | MAKANAN => 0.05%Q
  | MINUMAN => 0.08%Q
  | KEBUTUHAN => 0.12%Q
  end.

(** The record of the category tax for one category: the rate of the
    category on the item total of the category as it stands in the cart. *)
Definition category_tax_detail (c : cart.ShoppingCart) (k : KategoriBarang)
  : tax_service.TaxDetail :=
  tax_service.mkTaxDetail
    (tax_service.CategoryBasedTaxStrategy.tax_name k)
    (category_rate k)
    (floor_of (category_subtotal c k) (category_rate k))
    (category_subtotal c k).

(** The categories that occur in the cart, in the order of [get_items_by_category]. *)
Definition categories_present (c : cart.ShoppingCart) : list KategoriBarang :=
  dict_keys (cart.get_items_by_category c).

(** The groups after the items [pre] have gone through the loop of
    [get_items_by_category]. *)
Definition groups_inv (pre : list ProductItem)
  (acc : list (KategoriBarang * list ProductItem)) : Prop :=
  NoDup (dict_keys acc) /\
  forall k, dict_get KategoriBarang_eqb acc k =
            match filter (of_category k) pre with
            | [] => None
            | l => Some l
            end.

(** The bracket of the luxury tax that an amount falls in: the highest one
    whose minimum it reaches. *)
Definition luxury_bracket (s : Z) : option tax_service.LuxuryTaxStrategy.Bracket :=
  if 2000000 <=? s
  then Some (tax_service.LuxuryTaxStrategy.mkBracket 2000000 0.12%Q "Luxury Tier 3")
  else if 1000000 <=? s
  then Some (tax_service.LuxuryTaxStrategy.mkBracket 1000000 0.08%Q "Luxury Tier 2")
  else if 500000 <=? s
  then Some (tax_service.LuxuryTaxStrategy.mkBracket 500000 0.05%Q "Luxury Tier 1")
  else None.

(** A standard strategy as its constructor accepts it: a rate between 0
    and 1 and a threshold that is not negative. *)
Definition standard_wf (st : tax_service.StandardTaxStrategy.t) : Prop :=
  0 <= Qnum (tax_service.StandardTaxStrategy.tax_rate st) /\
  Qnum (tax_service.StandardTaxStrategy.tax_rate st)
    <= Zpos (Qden (tax_service.StandardTaxStrategy.tax_rate st)) /\
  0 <= tax_service.StandardTaxStrategy.threshold st.

(** The standard tax on a post-discount amount. *)
Definition standard_detail (st : tax_service.StandardTaxStrategy.t) (s : Z)
  : tax_service.TaxDetail :=
  if tax_service.StandardTaxStrategy.threshold st <? s
  then tax_service.mkTaxDetail "PPN" (tax_service.StandardTaxStrategy.tax_rate st)
         (py_int (inject_Z s * tax_service.StandardTaxStrategy.tax_rate st)) s
  else tax_service.mkTaxDetail "PPN" 0.0%Q 0 0.

(** The luxury tax on a post-discount amount. *)
Definition luxury_detail (s : Z) : tax_service.TaxDetail :=
  match luxury_bracket s with
  | Some b =>
      tax_service.mkTaxDetail (tax_service.LuxuryTaxStrategy.name b)
        (tax_service.LuxuryTaxStrategy.rate b)
        (py_int (inject_Z s * tax_service.LuxuryTaxStrategy.rate b)) s
  | None => tax_service.mkTaxDetail "Luxury Tax" 0.0%Q 0 0
  end.

(** The tax list of a service on a post-discount amount [s] and a cart, by
    mode.  A mode other than the four named ones gives no tax. *)
Definition tax_of_mode (svc : tax_service.TaxService) (s : Z)
  (c : cart.ShoppingCart) : list tax_service.TaxDetail :=
  let mode := tax_service.tax_mode svc in
  let st := standard_detail (tax_service.standard_strategy svc) s in
  let lx := luxury_detail s in
  if String.eqb mode "standard"
  then (if 0 <? tax_service.amount st then [st] else [])
  else if String.eqb mode "category"
  then (if 50000 <? s then map (category_tax_detail c) (categories_present c) else [])
  else if String.eqb mode "luxury"
  then (if 0 <? tax_service.amount lx then [lx] else [])
  else if String.eqb mode "combined"
  then (if tax_service.amount st <? tax_service.amount lx then [lx]
        else if 0 <? tax_service.amount st then [st] else [])
  else [].

(** The errors that the validation of the orchestrator lists. *)
Definition expected_errors (c : cart.ShoppingCart) (payment_amount : Z)
  : list transaction_service.Message :=
  (if cart.is_empty c then [transaction_service.MsgCartEmpty] else [])
  ++ (match cart.customer c with
      | None => [transaction_service.MsgCustomerInvalid]
      | Some _ => []
      end)
  ++ (if payment_amount <? 0 then [transaction_service.MsgNegativePayment] else []).

(** The warnings that the validation of the orchestrator lists. *)
Definition expected_warnings (total payment_amount : Z)
  : list transaction_service.Message :=
  if payment_amount <? 0 then [transaction_service.MsgNegativePayment]
  else if total <=? payment_amount then []
  else [transaction_service.MsgShort (total - payment_amount)].

(** The payment recorded for a total: the sum of the instalments when there
    are some, else the amount tendered; the change is what exceeds the total. *)
Definition payment_of (total payment_amount : Z) (method : string)
  (installments : option (list Z)) : transaction.PaymentDetail :=
  match installments with
  | Some (i :: l) =>
      transaction.mkPaymentDetail (sum (i :: l)) method
        (Z.max 0 (sum (i :: l) - total)) (i :: l)
  | _ =>
      transaction.mkPaymentDetail payment_amount method
        (Z.max 0 (payment_amount - total)) []
  end.

(** The transaction made from a breakdown. *)
Definition transaction_of (env : Env) (c : cart.ShoppingCart)
  (tt : transaction_service.Totals) (payment_amount : Z) (method : string)
  (installments : option (list Z)) : transaction.Transaction :=
  transaction.mkTransaction
    (transaction_service.generate_transaction_id env)
    (cart.finalize_cart c) (cart.customer c)
    (transaction_service.t_subtotal tt)
    (transaction_service.t_discounts tt)
    (transaction_service.t_total_tax tt)
    (transaction_service.t_total_amount tt)
    (payment_of (transaction_service.t_total_amount tt) payment_amount method
       installments)
    transaction.PENDING (now env) None.


(** The transition calls of a transaction. *)
Inductive Call : Type := Complete | Cancel | Refund.

Definition call (env : Env) (op : Call) (t : transaction.Transaction)
  : bool * transaction.Transaction :=
  match op with
  | Complete => transaction.complete_transaction env t
  | Cancel => transaction.cancel_transaction t
  | Refund => transaction.refund_transaction t
  end.

(** A sequence of transition calls, results dropped. *)
Definition calls (env : Env) (ops : list Call) (t : transaction.Transaction)
  : transaction.Transaction :=
  fold_left (fun t op => snd (call env op t)) ops t.


(** A string that does not begin with a blank. *)
Definition starts_clean (s : string) : Prop :=
  match s with
  | EmptyString => True
  | String c _ => is_space c = false
  end.

(** A name as [Product] files it: [strip] and [lower] leave it as it is. *)
Definition filed (n : string) : Prop := lower (strip n) = n.

(** The line that [add_item] leaves under the name of the item added: the
    line that was there with the quantities added up, or the item itself. *)
Definition merged_line (c : cart.ShoppingCart) (it : ProductItem) : ProductItem :=
  match cart.get_item c (nama it) with
  | Some old => mkProductItem (base old) (jumlah old + jumlah it)
  | None => it
  end.

(** The discount rate of a premium customer by membership points: 20% from
    10,000 points, 15% from 5,000, 10% from 1,000, else 7%. *)
Definition points_rate (points : Z) : Q :=
  if 10000 <=? points then 0.20%Q
  else if 5000 <=? points then 0.15%Q
  else if 1000 <=? points then 0.10%Q
  else 0.07%Q.

(** A premium customer object with the fields [p]. *)
Definition premium_with (cu : customer.Customer) (p : customer.PremiumFields)
  : customer.Customer :=
  customer.mkCustomer (customer.nama cu) (customer.umur cu)
    (customer.is_member cu) (customer.Premium p).

(** The last transaction of a history that has the id [tid]. *)
Fixpoint last_with_id (history : list transaction.Transaction) (tid : string)
  : option transaction.Transaction :=
  match history with
  | [] => None
  | t :: rest =>
      match last_with_id rest tid with
      | Some u => Some u
      | None =>
          if String.eqb (transaction.transaction_id t) tid then Some t else None
      end
  end.

(** The dict and the history of a service hold the same objects: under
    every id the dict has the last transaction of the history with this id,
    as it stands. *)
Definition store_synced (svc : transaction_service.TransactionService) : Prop :=
  forall tid,
    transaction_service.get_transaction svc tid
    = last_with_id (transaction_service.transaction_history svc) tid.

(** Every transaction of the history has a customer and a total that is
    not negative, as [create_transaction] makes them. *)
Definition history_wf (svc : transaction_service.TransactionService) : Prop :=
  Forall (fun t => transaction.customer t <> None /\ 0 <= transaction.total_amount t)
         (transaction_service.transaction_history svc).

(** A transition call on the service, by the id of the transaction. *)
Definition status_call (env : Env) (op : Call)
  (svc : transaction_service.TransactionService) (tid : string)
  : bool * transaction_service.TransactionService :=
  match op with
  | Complete => transaction_service.complete_transaction env svc tid
  | Cancel => transaction_service.cancel_transaction svc tid
  | Refund => transaction_service.refund_transaction svc tid
  end.

(** The calls that change a transaction service. *)
Inductive ServiceCall : Type :=
| CallCreate (env : Env) (c : cart.ShoppingCart) (payment_amount : Z)
    (method : string) (installments : option (list Z))
| CallStatus (env : Env) (op : Call) (tid : string).

Definition service_call (svc : transaction_service.TransactionService)
  (op : ServiceCall) : transaction_service.TransactionService :=
  match op with
  | CallCreate env c payment_amount method installments =>
      snd (fst (transaction_service.create_transaction env svc c payment_amount
                  method installments))
  | CallStatus env op tid => snd (status_call env op svc tid)
  end.

(** A sequence of calls on a service, results dropped. *)
Definition service_calls (ops : list ServiceCall)
  (svc : transaction_service.TransactionService)
  : transaction_service.TransactionService :=
  fold_left service_call ops svc.

(** Whether a transaction was created inside a period. *)
Definition in_period (start_date end_date : option Z)
  (t : transaction.Transaction) : bool :=
  match start_date with
  | Some d => d <=? transaction.created_at t
  | None => true
  end
  && match end_date with
     | Some d => transaction.created_at t <=? d
     | None => true
     end.

(** The completed transactions of a period. *)
Definition completed_in (start_date end_date : option Z)
  (svc : transaction_service.TransactionService)
  : list transaction.Transaction :=
  filter (fun t => in_period start_date end_date t
                   && transaction.TransactionStatus_eqb (transaction.status t)
                        transaction.COMPLETED)
         (transaction_service.transaction_history svc).

(** What a transaction counts towards the revenue. *)
Definition counted (t : transaction.Transaction) : Z :=
  if transaction.TransactionStatus_eqb (transaction.status t) transaction.COMPLETED
  then transaction.total_amount t else 0.

(** Whether a transaction has the status whose text is [k]. *)
Definition has_status_text (k : string) (t : transaction.Transaction) : bool :=
  String.eqb (transaction.status_value (transaction.status t)) k.

(** One step of the loop of [_get_status_breakdown]. *)
Definition breakdown_step (breakdown : list (string * Z))
  (t : transaction.Transaction) : list (string * Z) :=
  let status_ := transaction.status_value (transaction.status t) in
  dict_set String.eqb breakdown status_
    (match dict_get String.eqb breakdown status_ with
     | Some n => n
     | None => 0
     end + 1).

(** Whether a transaction belongs to the customer of a name. *)
Definition of_customer (n : string) (t : transaction.Transaction) : bool :=
  match transaction.customer t with
  | Some cu => String.eqb (customer.nama cu) n
  | None => false
  end.

(** Whether the cart of a transaction has a line of a category. *)
Definition has_category (k : KategoriBarang) (t : transaction.Transaction) : bool :=
  match items_of (transaction.cart t) k with
  | [] => false
  | _ :: _ => true
  end.

(** A product as its constructor leaves it: it passes the constructor
    again unchanged. *)
Definition product_wf (p : Product) : Prop :=
  Product_init (nama p) (harga p) (satuan p) (kategori p) = Ok p.

(** A catalogue in which every product is filed once, under its own name,
    as the constructor left it. *)
Definition catalogue_wf (svc : product_service.ProductService) : Prop :=
  NoDup (dict_keys (product_service.InMemoryProductRepository.products
                      (product_service.repository svc))) /\
  Forall (fun kv : string * Product => fst kv = nama (snd kv) /\ product_wf (snd kv))
         (product_service.InMemoryProductRepository.products
            (product_service.repository svc)).

(** The calls that change the catalogue. *)
Inductive CatalogueCall : Type :=
| CallCreateProduct (nama_ : string) (harga_ : Z) (satuan_ : string)
    (kategori_ : KategoriBarang)
| CallUpdateProduct (nama_ : string) (harga_ : option Z) (satuan_ : option string)
| CallDeleteProduct (nama_ : string).

Definition catalogue_call (svc : product_service.ProductService)
  (op : CatalogueCall) : product_service.ProductService :=
  match op with
  | CallCreateProduct n h s k => snd (product_service.create_product svc n h s k)
  | CallUpdateProduct n h s => snd (product_service.update_product svc n h s)
  | CallDeleteProduct n => snd (product_service.delete_product svc n)
  end.

(** A sequence of calls on the catalogue, results dropped. *)
Definition catalogue_calls (ops : list CatalogueCall)
  (svc : product_service.ProductService) : product_service.ProductService :=
  fold_left catalogue_call ops svc.

(** Whether [update_product] accepts a price, and a unit. *)
Definition price_ok (harga_ : option Z) : bool :=
  match harga_ with Some h => 0 <? h | None => true end.

Definition unit_ok (satuan_ : option string) : bool :=
  match satuan_ with Some s => negb (str_falsy (strip s)) | None => true end.

(** The product that [update_product] leaves in the catalogue when it
    accepts the price: the new price if one is given, and the new unit,
    stripped and in lower case, if one is given and is not blank. *)
Definition updated (p : Product) (harga_ : option Z) (satuan_ : option string)
  : Product :=
  mkProduct (nama p)
    (match harga_ with Some h => h | None => harga p end)
    (match satuan_ with
     | Some s => if str_falsy (strip s) then satuan p else lower (strip s)
     | None => satuan p
     end)
    (kategori p).

(** The step of the loop of [get_products_grouped_by_category]. *)
Definition product_groups_step (grouped : list (KategoriBarang * list Product))
  (product : Product) : list (KategoriBarang * list Product) :=
  let old := match dict_get KategoriBarang_eqb grouped (kategori product) with
             | Some l => l
             | None => []
             end in
  dict_set KategoriBarang_eqb grouped (kategori product) (old ++ [product]).

(** The groups hold the products seen so far, by category. *)
Definition product_groups_inv (seen : list Product)
  (grouped : list (KategoriBarang * list Product)) : Prop :=
  NoDup (dict_keys grouped) /\
  forall k, dict_get KategoriBarang_eqb grouped k =
            match filter (fun p : Product => KategoriBarang_eqb (kategori p) k) seen with
            | [] => None
            | l => Some l
            end.

End props.

(* ================================================================== *)
(** ** Sample data *)

Module sample.
Import product.

Definition env_wednesday : Env :=
  mkEnv 2 1767268800 "20260101_120000" "123e4567-e89b-12d3-a456-426614174000".

Definition budi : customer.Customer :=
  customer.mkCustomer "Budi" 30 false customer.Regular.

Definition item (n : string) (h : Z) (k : KategoriBarang) (j : Z) : ProductItem :=
  mkProductItem (mkProduct n h "buah" k) j.

Definition cart_of (its : list ProductItem) : cart.ShoppingCart :=
  fold_left (fun c it => snd (cart.add_item c it)) its
    (cart.ShoppingCart_init (Some budi)).

(** One food item of 50,000: the total due is 50,000. *)
Definition cart_beras : cart.ShoppingCart :=
  cart_of [item "beras" 50000 MAKANAN 1].


(** Two household items of 50,000 each. *)
Definition cart_sabun : cart.ShoppingCart :=
  cart_of [item "sabun" 50000 KEBUTUHAN 2].

Definition service_with_mode (mode : string)
  : transaction_service.TransactionService :=
  transaction_service.mkTransactionService
    (transaction_service.mkTransactionOrchestrator
       (discount_service.DiscountService_init None)
       (tax_service.TaxService_init mode))
    [] [].


(** A cart with rice, milk, soap and sugar. *)
Definition cart_three : cart.ShoppingCart :=
  cart_of [item "beras" 15000 MAKANAN 2;
                  item "susu" 12000 MINUMAN 1;
                  item "sabun" 5000 KEBUTUHAN 4;
                  item "gula" 12000 MAKANAN 1].

(** A customer of 65, not a member. *)
Definition opa : customer.Customer :=
  customer.mkCustomer "Opa" 65 false customer.Regular.

(** One tea of 100 in the cart of the customer of 65. *)
Definition cart_opa : cart.ShoppingCart :=
  snd (cart.add_item (cart.ShoppingCart_init (Some opa)) (item "teh" 100 MINUMAN 1)).

(** [SeniorDiscountStrategy(percentage=0.29)] *)
Definition senior_29 : discount_service.SeniorDiscountStrategy.t :=
  discount_service.SeniorDiscountStrategy.mk 0.29%Q 60.


(** Three food items of 400,000,000,000,019 each. *)
Definition cart_large : cart.ShoppingCart :=
  cart_of [item "emas" 400000000000019 MAKANAN 3].


(** The catalogue that [ProductService()] starts with. *)
Definition catalogue : product_service.ProductService :=
  match product_service.ProductService_init with
  | Ok svc => svc
  | Raise _ => product_service.mkProductService
                 (product_service.InMemoryProductRepository.mk [])
  end.

End sample.

(* ================================================================== *)
(** ** Transaction life cycle *)

Section Lifecycle.
Import transaction props.
Variable env : Env.

Lemma status_eqb_spec (a b : TransactionStatus) :
  TransactionStatus_eqb a b = true <-> a = b.
Proof. destruct a, b; simpl; split; congruence. Qed.

Lemma complete_spec (t : Transaction) :
  complete_transaction env t =
  if TransactionStatus_eqb (status t) PENDING
  then (true, with_status t COMPLETED (Some (now env))) else (false, t).
Proof. reflexivity. Qed.

(** A failed call changes nothing at all. *)
Lemma call_false_id (op : Call) (t : Transaction) :
  fst (call env op t) = false -> snd (call env op t) = t.
Proof.
  destruct op; simpl;
    unfold complete_transaction, cancel_transaction, refund_transaction;
    destruct (TransactionStatus_eqb _ _); simpl; congruence.
Qed.

(** The only edges of the machine. *)
Lemma call_edges (op : Call) (t : Transaction) :
  status (snd (call env op t)) = status t \/
  (status t = PENDING /\ op = Complete /\ status (snd (call env op t)) = COMPLETED) \/
  (status t = PENDING /\ op = Cancel /\ status (snd (call env op t)) = CANCELLED) \/
  (status t = COMPLETED /\ op = Refund /\ status (snd (call env op t)) = REFUNDED).
Proof.
  destruct op; simpl;
    unfold complete_transaction, cancel_transaction, refund_transaction;
    destruct (status t) eqn:E; simpl; auto 10.
Qed.

Lemma calls_cons (op : Call) (ops : list Call) (t : Transaction) :
  calls env (op :: ops) t = calls env ops (snd (call env op t)).
Proof. reflexivity. Qed.

Lemma cancelled_is_stuck (ops : list Call) :
  forall t, status t = CANCELLED -> status (calls env ops t) = CANCELLED.
Proof.
  induction ops as [|op ops IH]; intros t Ht; [exact Ht|].
  rewrite calls_cons. apply IH.
  destruct (call_edges op t) as [H|[H|[H|H]]]; [congruence| | | ];
    destruct H as [H _]; congruence.
Qed.

Lemma refunded_is_stuck (ops : list Call) :
  forall t, status t = REFUNDED -> status (calls env ops t) = REFUNDED.
Proof.
  induction ops as [|op ops IH]; intros t Ht; [exact Ht|].
  rewrite calls_cons. apply IH.
  destruct (call_edges op t) as [H|[H|[H|H]]]; [congruence| | | ];
    destruct H as [H _]; congruence.
Qed.

Lemma completed_never_cancelled (ops : list Call) :
  forall t, status t = COMPLETED ->
    status (calls env ops t) = COMPLETED \/ status (calls env ops t) = REFUNDED.
Proof.
  induction ops as [|op ops IH]; intros t Ht; [left; exact Ht|].
  rewrite calls_cons.
  destruct (call_edges op t) as [H|[H|[H|H]]].
  - apply IH. congruence.
  - destruct H as [H _]; congruence.
  - destruct H as [H _]; congruence.
  - destruct H as (_ & _ & H). right. now apply refunded_is_stuck.
Qed.

(** C3. [complete_transaction] returns true exactly from Pending and then
    sets Completed; [cancel_transaction] returns true exactly from Pending
    and then sets Cancelled; [refund_transaction] returns true exactly from
    Completed and then sets Refunded; a call that returns false leaves the
    transaction as it was; and along any sequence of calls a Cancelled
    transaction stays Cancelled (so never becomes Completed) while a Completed
    one is Completed or Refunded (so never becomes Cancelled). *)
Theorem C3_status_machine (t : Transaction) :
  (fst (complete_transaction env t) = true <-> status t = PENDING) /\
  (fst (complete_transaction env t) = true ->
     status (snd (complete_transaction env t)) = COMPLETED) /\
  (fst (cancel_transaction t) = true <-> status t = PENDING) /\
  (fst (cancel_transaction t) = true ->
     status (snd (cancel_transaction t)) = CANCELLED) /\
  (fst (refund_transaction t) = true <-> status t = COMPLETED) /\
  (fst (refund_transaction t) = true ->
     status (snd (refund_transaction t)) = REFUNDED) /\
  (forall op, fst (call env op t) = false -> snd (call env op t) = t) /\
  (forall ops, status t = CANCELLED -> status (calls env ops t) <> COMPLETED) /\
  (forall ops, status t = COMPLETED -> status (calls env ops t) <> CANCELLED) /\
  (forall ops1 ops2, status t = PENDING ->
     (status (calls env ops1 t) = CANCELLED ->
        status (calls env ops2 (calls env ops1 t)) <> COMPLETED) /\
     (status (calls env ops1 t) = COMPLETED ->
        status (calls env ops2 (calls env ops1 t)) <> CANCELLED)).
Proof.
  repeat match goal with |- _ /\ _ => split end.
  - unfold complete_transaction; destruct (status t); simpl; split; congruence.
  - unfold complete_transaction; destruct (status t); simpl; congruence.
  - unfold cancel_transaction; destruct (status t); simpl; split; congruence.
  - unfold cancel_transaction; destruct (status t); simpl; congruence.
  - unfold refund_transaction; destruct (status t); simpl; split; congruence.
  - unfold refund_transaction; destruct (status t); simpl; congruence.
  - intros op. apply call_false_id.
  - intros ops H. rewrite (cancelled_is_stuck ops t H). discriminate.
  - intros ops H. destruct (completed_never_cancelled ops t H) as [E|E];
      rewrite E; discriminate.
  - intros ops1 ops2 _. split; intros H.
    + rewrite (cancelled_is_stuck ops2 _ H). discriminate.
    + destruct (completed_never_cancelled ops2 _ H) as [E|E];
        rewrite E; discriminate.
Qed.

End Lifecycle.

(* ================================================================== *)
(** ** Cart *)

Section Cart.
Import product cart props.

(** C4. On a cart whose finalized flag is set, [add_item], [remove_item],
    [update_quantity] and [clear_cart] each return [False] (an ordinary
    return value, not an exception, whatever the arguments) and leave the
    cart, so also its item map, as it was. *)
Theorem C4_finalized_cart_rejects_mutation (c : ShoppingCart) :
  is_finalized c = true ->
  (forall it, add_item c it = (Ok false, c)) /\
  (forall product_name, remove_item c product_name = (Ok false, c)) /\
  (forall product_name new_quantity,
     update_quantity c product_name new_quantity = (Ok false, c)) /\
  clear_cart c = (Ok false, c).
Proof.
  intros Hfin.
  unfold add_item, remove_item, update_quantity, clear_cart.
  rewrite Hfin. repeat split.
Qed.

Lemma C4_witness :
  let c := finalize_cart sample.cart_beras in
  is_finalized c = true /\
  add_item c (sample.item "gula" 12000 MAKANAN 2) = (Ok false, c) /\
  remove_item c "beras" = (Ok false, c) /\
  update_quantity c "beras" (-4) = (Ok false, c) /\
  clear_cart c = (Ok false, c) /\
  items c = items sample.cart_beras.
Proof.
  intros c.
  destruct (C4_finalized_cart_rejects_mutation c eq_refl) as (Ha & Hr & Hu & Hc).
  split; [reflexivity|].
  split; [apply Ha|].
  split; [apply Hr|].
  split; [apply Hu|].
  split; [apply Hc|reflexivity].
Defined.

(** The flag is what stops the four operations: with the flag cleared the
    same calls go through. *)
Example unfinalized_cart_mutates :
  let c := unfinalize_cart (finalize_cart sample.cart_beras) in
  fst (add_item c (sample.item "gula" 12000 MAKANAN 2)) = Ok true /\
  fst (remove_item c "  Beras ") = Ok true /\
  fst (update_quantity c "beras" 4) = Ok true /\
  fst (update_quantity c "beras" (-4)) =
    Raise (ValueError "Kuantitas harus lebih dari 0") /\
  fst (clear_cart c) = Ok true.
Proof. vm_compute. repeat split. Qed.

End Cart.

(** *** Carts that the operations build *)

Section ReachableCarts.
Import product cart props.

(** The constructors let only positive prices and quantities through. *)
Lemma ProductItem_init_wf (p : Product) (j : Z) (it : ProductItem) :
  ProductItem_init p j = Ok it -> item_wf it.
Proof.
  unfold ProductItem_init, Product_init, validate_inputs.
  destruct (str_falsy (nama p) || str_falsy (strip (nama p))); [discriminate|].
  destruct (harga p <=? 0) eqn:Eh; [discriminate|].
  destruct (str_falsy (satuan p) || str_falsy (strip (satuan p))); [discriminate|].
  cbn [bind].
  destruct (j <=? 0) eqn:Ej; [discriminate|].
  intros [= <-]. apply Z.leb_gt in Eh. apply Z.leb_gt in Ej.
  split; assumption.
Qed.

Lemma set_jumlah_wf (it it' : ProductItem) (v : Z) :
  item_wf it -> set_jumlah it v = Ok it' -> item_wf it'.
Proof.
  intros [Hh _]. unfold set_jumlah.
  destruct (v <=? 0) eqn:E; [discriminate|].
  intros [= <-]. apply Z.leb_gt in E. split; assumption.
Qed.

Lemma dict_get_in_values {V : Type} (d : list (string * V)) (k : string) (v : V) :
  dict_get String.eqb d k = Some v -> In v (dict_values d).
Proof.
  induction d as [|[k0 v0] d IH]; simpl; [discriminate|].
  destruct (String.eqb k0 k); [intros [= ->]; now left|].
  intros H. right. now apply IH.
Qed.

Lemma dict_set_values_forall {V : Type} (P : V -> Prop) (d : list (string * V))
  (k : string) (v : V) :
  Forall P (dict_values d) -> P v ->
  Forall P (dict_values (dict_set String.eqb d k v)).
Proof.
  unfold dict_values.
  induction d as [|[k0 v0] d IH]; simpl; intros Hd Hv.
  - repeat constructor. exact Hv.
  - inversion Hd as [|? ? H0 Hd']; subst.
    destruct (String.eqb k0 k); simpl; constructor; auto.
Qed.

Lemma dict_del_values_forall {V : Type} (P : V -> Prop) (d : list (string * V))
  (k : string) :
  Forall P (dict_values d) -> Forall P (dict_values (dict_del String.eqb d k)).
Proof.
  unfold dict_values.
  induction d as [|[k0 v0] d IH]; simpl; intros Hd; [constructor|].
  inversion Hd as [|? ? H0 Hd']; subst.
  destruct (String.eqb k0 k); simpl; [assumption|constructor; auto].
Qed.

Lemma init_cart_wf (cu : option customer.Customer) : cart_wf (ShoppingCart_init cu).
Proof. constructor. Qed.

(** Adding a proper line item never raises and keeps the cart proper. *)
Lemma add_item_wf (c : ShoppingCart) (it : ProductItem) :
  cart_wf c -> item_wf it ->
  fst (add_item c it) = Ok (negb (is_finalized c)) /\ cart_wf (snd (add_item c it)).
Proof.
  intros Hc Hit. unfold add_item.
  destruct (is_finalized c); [split; [reflexivity|exact Hc]|].
  destruct (dict_get String.eqb (items c) (nama it)) as [old|] eqn:Hget.
  - assert (Hold : item_wf old).
    { apply dict_get_in_values in Hget.
      exact (proj1 (Forall_forall _ _) Hc old Hget). }
    unfold set_jumlah.
    destruct (jumlah old + jumlah it <=? 0) eqn:E.
    + apply Z.leb_le in E. destruct Hold, Hit. lia.
    + apply Z.leb_gt in E. split; [reflexivity|].
      apply dict_set_values_forall; [exact Hc|].
      split; [apply Hold|exact E].
  - split; [reflexivity|]. now apply dict_set_values_forall.
Qed.

Lemma remove_item_wf (c : ShoppingCart) (n : string) :
  cart_wf c -> cart_wf (snd (remove_item c n)).
Proof.
  intros Hc. unfold remove_item.
  destruct (is_finalized c); [exact Hc|].
  destruct (dict_contains _ _ _); [|exact Hc].
  now apply dict_del_values_forall.
Qed.

Lemma update_quantity_wf (c : ShoppingCart) (n : string) (q : Z) :
  cart_wf c -> cart_wf (snd (update_quantity c n q)).
Proof.
  intros Hc. unfold update_quantity.
  destruct (is_finalized c); [exact Hc|].
  destruct (q <=? 0) eqn:Eq; [exact Hc|].
  destruct (dict_get String.eqb (items c) (lower (strip n))) as [old|] eqn:Hget;
    [|exact Hc].
  unfold set_jumlah. rewrite Eq.
  apply dict_set_values_forall; [exact Hc|].
  apply dict_get_in_values in Hget.
  pose proof (proj1 (Forall_forall _ _) Hc old Hget) as [Hh _].
  apply Z.leb_gt in Eq. split; assumption.
Qed.

Lemma clear_cart_wf (c : ShoppingCart) : cart_wf c -> cart_wf (snd (clear_cart c)).
Proof.
  intros Hc. unfold clear_cart. destruct (is_finalized c); [exact Hc|constructor].
Qed.

Lemma finalize_cart_wf (c : ShoppingCart) : cart_wf c -> cart_wf (finalize_cart c).
Proof. intros Hc. exact Hc. Qed.

(** The subtotal is the sum of unit price times quantity over the items. *)
Lemma subtotal_is_sum (c : ShoppingCart) :
  calculate_subtotal c =
  sum (map (fun it : ProductItem => harga it * jumlah it) (get_all_items c)).
Proof. reflexivity. Qed.

End ReachableCarts.

(* ================================================================== *)
(** ** Payment validation *)

Section Payment.
Import transaction_service.PaymentProcessor.

Lemma supported_spec (method : string) :
  existsb (String.eqb method) supported_methods = true <->
  In method supported_methods.
Proof.
  rewrite existsb_exists. split.
  - intros (x & Hin & Heq). apply String.eqb_eq in Heq. now subst.
  - intros Hin. exists method. split; [exact Hin|apply String.eqb_refl].
Qed.

(** C7. [validate_payment] reports an invalid payment exactly when the
    method is not one of cash, card, digital, transfer or the amount is
    negative.  On every other input the result is valid and reports
    sufficiency: when the amount covers the total, sufficient with change
    [payment_amount - total_amount] and nothing outstanding; when it does
    not, insufficient (still valid) with outstanding
    [total_amount - payment_amount] and no change. *)
Theorem C7_validate_payment (total_amount payment_amount : Z) (method : string) :
  let r := validate_payment total_amount payment_amount method in
  supported_methods = ["cash"; "card"; "digital"; "transfer"]%string /\
  (is_valid r = false <-> (~ In method supported_methods \/ payment_amount < 0)) /\
  (is_valid r = true ->
     (total_amount <= payment_amount ->
        is_sufficient r = true /\
        change_amount r = payment_amount - total_amount /\
        outstanding_amount r = 0) /\
     (payment_amount < total_amount ->
        is_sufficient r = false /\
        outstanding_amount r = total_amount - payment_amount /\
        change_amount r = 0)).
Proof.
  cbv zeta. unfold validate_payment.
  split; [reflexivity|].
  destruct (existsb (String.eqb method) supported_methods) eqn:Hm; simpl.
  - apply supported_spec in Hm.
    destruct (payment_amount <? 0) eqn:Hneg; simpl.
    + apply Z.ltb_lt in Hneg. split; [split; auto|discriminate].
    + apply Z.ltb_ge in Hneg.
      destruct (total_amount <=? payment_amount) eqn:Hle; simpl.
      * apply Z.leb_le in Hle. split.
        -- split; [discriminate|]. intros [H|H]; [contradiction|lia].
        -- intros _. split; [auto|lia].
      * apply Z.leb_gt in Hle. split.
        -- split; [discriminate|]. intros [H|H]; [contradiction|lia].
        -- intros _. split; [lia|auto].
  - split; [|discriminate]. split; [|reflexivity]. intros _. left.
    intros Hin. apply supported_spec in Hin. congruence.
Qed.

Lemma C7_witness :
  let r := validate_payment 50000 30000 "cash" in
  is_valid r = true /\ is_sufficient r = false /\
  outstanding_amount r = 20000 /\ change_amount r = 0.
Proof.
  intros r.
  destruct (C7_validate_payment 50000 30000 "cash") as (_ & _ & H).
  destruct (H eq_refl) as (_ & Hshort).
  destruct (Hshort ltac:(lia)) as (Hs & Ho & Hc).
  split; [reflexivity|]. split; [exact Hs|]. split; [exact Ho|exact Hc].
Defined.

End Payment.
(* ================================================================== *)
(** ** Arithmetic of amounts and rates *)

Section Amounts.

Lemma fold_add_from (l : list Z) (a : Z) : fold_left Z.add l a = a + sum l.
Proof.
  unfold sum. revert a.
  induction l as [|x l IH]; intros a; simpl; [lia|].
  rewrite (IH (a + x)), (IH x). lia.
Qed.

Lemma sum_nil : sum [] = 0.
Proof. reflexivity. Qed.

Lemma sum_cons (x : Z) (l : list Z) : sum (x :: l) = x + sum l.
Proof. unfold sum at 1. simpl. apply fold_add_from. Qed.

Lemma sum_app (l1 l2 : list Z) : sum (l1 ++ l2) = sum l1 + sum l2.
Proof.
  induction l1 as [|x l1 IH]; simpl; [reflexivity|].
  rewrite !sum_cons, IH. lia.
Qed.

Lemma sum_nonneg (l : list Z) : Forall (fun x => 0 <= x) l -> 0 <= sum l.
Proof.
  induction 1 as [|x l Hx _ IH]; [rewrite sum_nil; lia|].
  rewrite sum_cons. lia.
Qed.

Lemma Qle_bool_nonneg (r : Q) : Qle_bool 0 r = true <-> 0 <= Qnum r.
Proof.
  rewrite Qle_bool_iff. unfold Qle. simpl. lia.
Qed.

Lemma Qle_bool_le_one (r : Q) : Qle_bool r 1 = true <-> Qnum r <= Zpos (Qden r).
Proof.
  rewrite Qle_bool_iff. unfold Qle. simpl. lia.
Qed.

(** [int(x * r)] written on the numerator and denominator of [r]. *)
Lemma py_int_scale (x : Z) (r : Q) :
  py_int (inject_Z x * r) = Z.quot (x * Qnum r) (Zpos (Qden r)).
Proof. destruct r as [n d]. reflexivity. Qed.

(** Truncation is the floor on a non-negative product. *)
Lemma py_int_floor (x : Z) (r : Q) :
  0 <= x -> 0 <= Qnum r ->
  py_int (inject_Z x * r) = Qfloor (inject_Z x * r).
Proof.
  intros Hx Hr. rewrite py_int_scale.
  destruct r as [n d]. simpl in *.
  apply Z.quot_div_nonneg; nia.
Qed.

Lemma py_int_nonneg (x : Z) (r : Q) :
  0 <= x -> 0 <= Qnum r -> 0 <= py_int (inject_Z x * r).
Proof.
  intros Hx Hr. rewrite py_int_scale.
  apply Z.quot_pos; nia.
Qed.

(** The truncated product never exceeds the exact one. *)
Lemma py_int_below (x : Z) (r : Q) :
  0 <= x -> 0 <= Qnum r ->
  py_int (inject_Z x * r) * Zpos (Qden r) <= x * Qnum r.
Proof.
  intros Hx Hr. rewrite py_int_scale.
  rewrite Z.quot_div_nonneg by nia.
  rewrite Z.mul_comm. apply Z.mul_div_le. lia.
Qed.

Lemma py_int_pos (x : Z) (r : Q) :
  0 <= x -> 0 <= Qnum r ->
  (0 < py_int (inject_Z x * r) <-> Zpos (Qden r) <= x * Qnum r).
Proof.
  intros Hx Hr. rewrite py_int_scale.
  rewrite Z.quot_div_nonneg by nia.
  split; intros H.
  - assert (Hb := Z.mul_div_le (x * Qnum r) (Zpos (Qden r)) ltac:(lia)). nia.
  - apply Z.div_str_pos. lia.
Qed.

End Amounts.

(* ================================================================== *)
(** ** The rational model against binary64 *)

Section Binary64.
Import binary64.

Section IterPos.
Context {A : Type} (f : A -> A).

Lemma iter_pos_comm (p : positive) : forall x, iter_pos f p (f x) = f (iter_pos f p x).
Proof.
  induction p as [p IH|p IH|]; intros x; simpl.
  - now rewrite !IH.
  - now rewrite !IH.
  - reflexivity.
Qed.

Lemma iter_pos_succ (p : positive) :
  forall x, iter_pos f (Pos.succ p) x = f (iter_pos f p x).
Proof.
  induction p as [p IH|p IH|]; intros x; simpl.
  - rewrite !IH. now rewrite (iter_pos_comm p x).
  - now rewrite (iter_pos_comm p x), iter_pos_comm.
  - reflexivity.
Qed.
End IterPos.

Lemma shr_1_nonneg (m : Z) (r s : bool) :
  0 <= m ->
  shr_1 (Build_shr_record m r s) = Build_shr_record (m / 2) (Z.odd m) (r || s).
Proof.
  intros Hm. destruct m as [|p|p]; [reflexivity| |lia].
  destruct p as [p|p|]; cbn [shr_1].
  - f_equal. rewrite Pos2Z.inj_xI.
    apply (Z.div_unique_pos _ 2 _ 1); lia.
  - f_equal. rewrite Pos2Z.inj_xO.
    apply (Z.div_unique_pos _ 2 _ 0); lia.
  - reflexivity.
Qed.

(** After [p] shifts: the quotient, the last bit shifted out, and whether
    anything below it was set. *)
Lemma shr_iter (M : Z) (p : positive) :
  0 <= M ->
  iter_pos shr_1 p (Build_shr_record M false false) =
  Build_shr_record (M / 2 ^ Zpos p)
    (Z.odd (M / 2 ^ (Zpos p - 1)))
    (negb (M mod 2 ^ (Zpos p - 1) =? 0)).
Proof.
  intros HM. induction p as [|p IH] using Pos.peano_ind.
  - cbn [iter_pos]. rewrite shr_1_nonneg by exact HM.
    change (Zpos 1 - 1) with 0. rewrite Z.pow_0_r, Z.div_1_r, Z.mod_1_r.
    reflexivity.
  - rewrite iter_pos_succ, IH.
    assert (Hq : 0 <= M / 2 ^ Zpos p) by (apply Z.div_pos; lia).
    rewrite shr_1_nonneg by exact Hq.
    rewrite Pos2Z.inj_succ.
    replace (Z.succ (Zpos p) - 1) with (Zpos p) by lia.
    f_equal.
    + rewrite Z.pow_succ_r by lia. rewrite Z.div_div by lia.
      f_equal. lia.
    + (* sticky *)
      assert (Hp : 0 < 2 ^ (Zpos p - 1)) by (apply Z.pow_pos_nonneg; lia).
      assert (E2 : 2 ^ Zpos p = 2 ^ (Zpos p - 1) * 2).
      { replace (Zpos p) with (Z.succ (Zpos p - 1)) at 1 by lia.
        rewrite Z.pow_succ_r by lia. lia. }
      rewrite E2.
      rewrite Z.rem_mul_r by lia.
      set (P := 2 ^ (Zpos p - 1)) in *.
      set (a := M mod P).
      assert (Ha : 0 <= a < P) by (apply Z.mod_pos_bound; lia).
      rewrite <- Z.bit0_mod, Z.bit0_odd.
      destruct (Z.odd (M / P)); cbn [Z.b2z orb negb].
      * symmetry. apply negb_true_iff, Z.eqb_neq. nia.
      * rewrite Z.mul_0_r, Z.add_0_r. reflexivity.
Qed.

Lemma pow2_split (p : positive) : 2 ^ Zpos p = 2 * 2 ^ (Zpos p - 1).
Proof.
  replace (Zpos p) with (Z.succ (Zpos p - 1)) at 1 by lia.
  now rewrite Z.pow_succ_r by lia.
Qed.

Lemma mul_lt_cancel_l (T K W X : Z) : 0 < W -> T * W < X -> X <= K * W -> T < K.
Proof. intros HW H1 H2. apply (Z.mul_lt_mono_pos_r W); lia. Qed.

Lemma mul_lt_cancel_r (T K W X : Z) : 0 < W -> X < T * W -> K * W <= X -> K < T.
Proof. intros HW H1 H2. apply (Z.mul_lt_mono_pos_r W); lia. Qed.

Lemma rne_bounds (M : Z) (p : positive) :
  0 <= M ->
  M / 2 ^ Zpos p <= rne M p <= M / 2 ^ Zpos p + 1 /\
  (forall T, T * 2 ^ Zpos p < M + 2 ^ (Zpos p - 1) -> T <= rne M p) /\
  (forall T, M + 2 ^ (Zpos p - 1) < T * 2 ^ Zpos p -> rne M p < T).
Proof.
  intros HM. unfold rne. rewrite shr_iter by exact HM. cbn [shr_m].
  rewrite (pow2_split p).
  set (P := 2 ^ (Zpos p - 1)).
  assert (HP : 0 < P) by (apply Z.pow_pos_nonneg; lia).
  rewrite (Z.mul_comm 2 P), <- Z.div_div by lia.
  set (b := M / P).
  assert (Hb : 0 <= b) by (apply Z.div_pos; lia).
  assert (HMb : M = P * b + M mod P) by (apply Z.div_mod; lia).
  assert (Ha : 0 <= M mod P < P) by (apply Z.mod_pos_bound; lia).
  set (a := M mod P) in *.
  assert (Hbq : b = 2 * (b / 2) + Z.b2z (Z.odd b)).
  { rewrite <- Z.bit0_odd, Z.bit0_mod. apply Z.div_mod. lia. }
  set (q := b / 2) in *.
  assert (HW : 0 < P * 2) by lia.
  assert (HMP : M + P = q * (P * 2) + (Z.b2z (Z.odd b) * P + a + P)).
  { rewrite HMb at 1. rewrite Hbq at 1. ring. }
  clearbody a q. clear HMb Hbq.
  destruct (Z.odd b); cbn [Z.b2z] in HMP;
    destruct (Z.eqb_spec a 0) as [E0|E0];
    cbv [negb loc_of_shr_record round_nearest_even];
    try (destruct (Z.even q));
    (split; [lia|split; intros T HT]);
    first [ apply Z.lt_succ_r; unfold Z.succ;
            eapply (mul_lt_cancel_l T _ (P * 2)); [exact HW|exact HT|nia]
          | eapply (mul_lt_cancel_r T _ (P * 2)); [exact HW|exact HT|nia] ].
Qed.

Lemma digits2_bounds (m : positive) :
  2 ^ (Zpos (digits2_pos m) - 1) <= Zpos m < 2 ^ Zpos (digits2_pos m).
Proof.
  induction m as [m IH|m IH|]; cbn [digits2_pos].
  - rewrite Pos2Z.inj_succ. change (Zpos m~1) with (2 * Zpos m + 1).
    replace (Z.succ (Zpos (digits2_pos m)) - 1) with (Z.succ (Zpos (digits2_pos m) - 1)) by lia.
    rewrite !Z.pow_succ_r by lia. lia.
  - rewrite Pos2Z.inj_succ. change (Zpos m~0) with (2 * Zpos m).
    replace (Z.succ (Zpos (digits2_pos m)) - 1) with (Z.succ (Zpos (digits2_pos m) - 1)) by lia.
    rewrite !Z.pow_succ_r by lia. lia.
  - simpl. lia.
Qed.

Lemma digits2_unique (m : positive) (d : Z) :
  2 ^ (d - 1) <= Zpos m < 2 ^ d -> Zpos (digits2_pos m) = d.
Proof.
  intros [Hlo Hhi]. pose proof (digits2_bounds m) as [Blo Bhi].
  assert (Hd : 0 < d).
  { destruct (Z.ltb_spec 0 d); [assumption|].
    rewrite (Z.pow_neg_r 2 (d - 1)) in Hlo by lia.
    assert (2 ^ d <= 1).
    { destruct (Z.eq_dec d 0) as [->|]; [simpl; lia|].
      rewrite Z.pow_neg_r by lia. lia. }
    lia. }
  destruct (Z.lt_trichotomy (Zpos (digits2_pos m)) d) as [H|[H|H]]; [|exact H|].
  - assert (2 ^ Zpos (digits2_pos m) <= 2 ^ (d - 1))
      by (apply Z.pow_le_mono_r; lia). lia.
  - assert (2 ^ d <= 2 ^ (Zpos (digits2_pos m) - 1))
      by (apply Z.pow_le_mono_r; lia). lia.
Qed.

(** A mantissa of exactly [prec] digits is kept as it is. *)
Lemma round_aux_exact (m : positive) (e : Z) :
  Zpos (digits2_pos m) = prec -> -1074 <= e <= 971 ->
  binary_round_aux prec emax false (Zpos m) e loc_Exact = S754_finite false m e.
Proof.
  intros Hd He. unfold binary_round_aux, shr_fexp. cbn [Zdigits2].
  rewrite Hd. unfold fexp, emin, prec, emax.
  replace (Z.max (53 + e - 53) (3 - 1024 - 53) - e) with 0 by lia.
  cbn [shr shr_record_of_loc shr_m loc_of_shr_record round_nearest_even Zdigits2].
  rewrite Hd. unfold prec.
  replace (Z.max (53 + e - 53) (3 - 1024 - 53) - e) with 0 by lia.
  cbn [shr shr_record_of_loc shr_m].
  destruct (Z.leb_spec e (1024 - 53)); [reflexivity|lia].
Qed.

(** A longer mantissa is shifted to [prec] digits and rounded to nearest,
    ties to even; rounding up to [2^prec] costs one more shift. *)
Lemma round_aux_long (m : positive) (e : Z) (p : positive) :
  Zpos (digits2_pos m) = prec + Zpos p ->
  -1074 <= e -> e + Zpos p + 1 <= 971 ->
  2 ^ 52 <= rne (Zpos m) p <= 2 ^ 53 /\
  binary_round_aux prec emax false (Zpos m) e loc_Exact =
  if rne (Zpos m) p <? 2 ^ 53
  then S754_finite false (Z.to_pos (rne (Zpos m) p)) (e + Zpos p)
  else S754_finite false (Z.to_pos (2 ^ 52)) (e + Zpos p + 1).
Proof.
  intros Hd He1 He2.
  pose proof (digits2_bounds m) as [Blo Bhi]. rewrite Hd in Blo, Bhi.
  unfold prec in Blo, Bhi.
  destruct (rne_bounds (Zpos m) p ltac:(lia)) as ([Hq1 Hq2] & _ & _).
  assert (Hq : 2 ^ 52 <= Zpos m / 2 ^ Zpos p < 2 ^ 53).
  { replace (53 + Zpos p - 1) with (52 + Zpos p) in Blo by lia.
    rewrite Z.pow_add_r in Blo, Bhi by lia.
    assert (0 < 2 ^ Zpos p) by (apply Z.pow_pos_nonneg; lia).
    split.
    - apply Z.div_le_lower_bound; lia.
    - apply Z.div_lt_upper_bound; lia. }
  split; [lia|].
  unfold binary_round_aux, shr_fexp. cbn [Zdigits2].
  rewrite Hd. unfold fexp, emin, prec, emax.
  replace (Z.max (53 + Zpos p + e - 53) (3 - 1024 - 53) - e) with (Zpos p) by lia.
  cbn [shr shr_record_of_loc].
  fold (rne (Zpos m) p).
  set (r := rne (Zpos m) p) in *.
  destruct (Z.ltb_spec r (2 ^ 53)) as [Hlt|Hge].
  - destruct r as [|pr|pr] eqn:Er; [lia| |lia].
    cbn [Zdigits2].
    rewrite (digits2_unique pr 53) by (change (53 - 1) with 52; lia).
    replace (Z.max (53 + (e + Zpos p) - 53) (3 - 1024 - 53) - (e + Zpos p)) with 0 by lia.
    cbn [shr shr_record_of_loc shr_m].
    destruct (Z.leb_spec (e + Zpos p) (1024 - 53)); [reflexivity|lia].
  - assert (Er : r = 2 ^ 53) by lia. rewrite Er.
    change (2 ^ 53) with (Zpos (2 ^ 53)%positive). cbn [Zdigits2].
    change (Zpos (digits2_pos (2 ^ 53)%positive)) with 54.
    replace (Z.max (54 + (e + Zpos p) - 53) (3 - 1024 - 53) - (e + Zpos p)) with 1 by lia.
    cbn [shr shr_record_of_loc iter_pos]. 
    change (shr_1 {| shr_m := Zpos (2 ^ 53)%positive; shr_r := false; shr_s := false |})
      with {| shr_m := Zpos (2 ^ 52)%positive; shr_r := false; shr_s := false |}.
    cbn [shr_m].
    destruct (Z.leb_spec (e + Zpos p + 1) (1024 - 53)); [reflexivity|lia].
Qed.

Lemma iter_xO (m n : positive) :
  Zpos (Pos.iter xO m n) = Zpos m * 2 ^ Zpos n /\
  digits2_pos (Pos.iter xO m n) = (digits2_pos m + n)%positive.
Proof.
  induction n as [|n IH] using Pos.peano_ind.
  - cbn [Pos.iter]. split; [rewrite Z.pow_1_r; lia|].
    cbn [digits2_pos]. now rewrite Pos.add_1_r.
  - rewrite Pos.iter_succ. destruct IH as [IH1 IH2]. split.
    + change (Zpos (Pos.iter xO m n)~0) with (2 * Zpos (Pos.iter xO m n)).
      rewrite IH1, Pos2Z.inj_succ, Z.pow_succ_r by lia. lia.
    + cbn [digits2_pos]. rewrite IH2. lia.
Qed.

(** An integer below [2^53] converts exactly: its bits moved up to 53 digits. *)
Lemma of_int_exact (x : positive) (d : positive) :
  Zpos (digits2_pos x) + Zpos d = 53 ->
  of_int (Zpos x) = S754_finite false (Pos.iter xO x d) (- Zpos d).
Proof.
  intros Hd. unfold of_int, binary_normalize, binary_round, shl_align.
  unfold fexp, emin, prec, emax.
  replace (Z.max (Zpos (digits2_pos x) + 0 - 53) (3 - 1024 - 53) - 0) with (Zneg d) by lia.
  replace (Z.max (Zpos (digits2_pos x) + 0 - 53) (3 - 1024 - 53)) with (Zneg d) by lia.
  apply round_aux_exact.
  - destruct (iter_xO x d) as [_ ->]. unfold prec. lia.
  - lia.
Qed.

Lemma to_int_neg (m : positive) (j : Z) :
  0 < j -> to_int (S754_finite false m (- j)) = Some (Zpos m / 2 ^ j).
Proof.
  intros Hj. destruct j as [|pj|pj]; [lia| |lia]. reflexivity.
Qed.

(** The arithmetic heart: the product [M = x * 2^d * my], rounded at [p]
    bits, sits strictly between the multiples [Q * G] and [(Q+1) * G]. *)
Lemma product_window (x A B Y k h M : Z) :
  0 < x < 2 ^ 44 -> 0 < A -> 2 ^ 54 <= B ->
  2 ^ 52 <= Y < 2 ^ 53 -> 0 <= k ->
  -50 <= 100 * Y - k * B <= 50 ->
  (100 * Y - k * B < 0 -> (- (100 * Y - k * B)) * 2 ^ 54 <= 100 * Y) ->
  M = x * A * Y ->
  0 < h -> 2 ^ 53 * h <= M < 2 ^ 54 * h ->
  (x * k / 100) * (A * B) < M + h < (x * k / 100 + 1) * (A * B).
Proof.
  intros Hx HA HB HY Hk Hd Hbelow HM Hh HhM.
  set (delta := 100 * Y - k * B) in *.
  set (Q := x * k / 100).
  assert (Hdiv : x * k = 100 * Q + (x * k) mod 100) by (apply Z.div_mod; lia).
  assert (Hf : 0 <= (x * k) mod 100 < 100) by (apply Z.mod_pos_bound; lia).
  set (f := (x * k) mod 100) in *.
  change (2 ^ 44) with 17592186044416 in *.
  change (2 ^ 52) with 4503599627370496 in *.
  change (2 ^ 53) with 9007199254740992 in *.
  change (2 ^ 54) with 18014398509481984 in *.
  set (G := A * B) in *.
  set (T := A * (f * B + x * delta)).
  assert (H100M : 100 * M = 100 * (Q * G) + T).
  { rewrite HM. unfold T, G, delta.
    replace (100 * (x * A * Y)) with (A * (x * (100 * Y))) by ring.
    replace (x * (100 * Y)) with (x * k * B + x * (100 * Y - k * B)) by ring.
    rewrite Hdiv. ring. }
  assert (HhxA : h < x * A).
  { assert (x * A * Y < x * A * 9007199254740992).
    { apply Z.mul_lt_mono_pos_l; [apply Z.mul_pos_pos|]; lia. }
    lia. }
  assert (HxB : x * 150 < B) by lia.
  assert (Hxd : -50 * x <= x * delta <= 50 * x).
  { split.
    - replace (-50 * x) with (x * -50) by ring. apply Z.mul_le_mono_nonneg_l; lia.
    - replace (50 * x) with (x * 50) by ring. apply Z.mul_le_mono_nonneg_l; lia. }
  assert (HfB : 0 <= f * B <= 99 * B).
  { split; [apply Z.mul_nonneg_nonneg; lia|].
    apply Z.mul_le_mono_nonneg_r; lia. }
  replace ((Q + 1) * G) with (Q * G + G) by ring.
  assert (HG : G = A * B) by reflexivity.
  clearbody Q f G.
  assert (Hlow : 0 < T + 100 * h).
  { destruct (Z.le_gt_cases 0 delta) as [Hpos|Hneg].
    - assert (0 <= T); [|lia].
      apply Z.mul_nonneg_nonneg; [lia|].
      assert (0 <= x * delta) by (apply Z.mul_nonneg_nonneg; lia). lia.
    - specialize (Hbelow Hneg).
      destruct (Z.eq_dec f 0) as [Hf0|Hf0].
      + assert (HT : T = - (A * (x * (- delta)))) by (unfold T; rewrite Hf0; ring).
        assert (x * A * ((- delta) * 18014398509481984) <= x * A * (100 * Y)).
        { apply Z.mul_le_mono_nonneg_l; [apply Z.mul_nonneg_nonneg; lia|lia]. }
        replace (x * A * (- delta * 18014398509481984))
          with (18014398509481984 * (A * (x * (- delta)))) in H by ring.
        replace (x * A * (100 * Y)) with (100 * M) in H by (rewrite HM; ring).
        lia.
      + assert (0 < T); [|lia].
        apply Z.mul_pos_pos; [lia|].
        assert (B <= f * B); [|lia].
        replace B with (1 * B) at 1 by ring.
        apply Z.mul_le_mono_nonneg_r; lia. }
  assert (Hupp : T + 100 * h < 100 * G).
  { assert (A * (f * B + x * delta + 100 * x) < A * (100 * B))
      by (apply Z.mul_lt_mono_pos_l; lia).
    replace (A * (f * B + x * delta + 100 * x)) with (T + 100 * (x * A)) in H
      by (unfold T; ring).
    replace (A * (100 * B)) with (100 * G) in H by (rewrite HG; ring).
    lia. }
  lia.
Qed.

Lemma pow2_pos (n : Z) : 0 <= n -> 0 < 2 ^ n.
Proof. intros. apply Z.pow_pos_nonneg; lia. Qed.

Section Agreement.
Variables (my Ey : positive) (k : Z).
Hypothesis Hmy : 2 ^ 52 <= Zpos my < 2 ^ 53.
Hypothesis HEy : 54 <= Zpos Ey <= 60.
Hypothesis Hk : 0 <= k.
Hypothesis Hdelta : -50 <= 100 * Zpos my - k * 2 ^ Zpos Ey <= 50.
Hypothesis Hbelow :
  100 * Zpos my - k * 2 ^ Zpos Ey < 0 ->
  (- (100 * Zpos my - k * 2 ^ Zpos Ey)) * 2 ^ 54 <= 100 * Zpos my.

Theorem int_mul_exact (x : Z) :
  0 <= x < 2 ^ 44 ->
  int_mul x (S754_finite false my (- Zpos Ey)) = Some (x * k / 100).
Proof.
  intros Hx. destruct x as [|px|px]; [reflexivity| |lia].
  (* the integer as a float *)
  pose proof (digits2_bounds px) as [Dlo Dhi].
  assert (Hdx : Zpos (digits2_pos px) <= 44).
  { destruct (Z.le_gt_cases (Zpos (digits2_pos px)) 44) as [H|H]; [exact H|].
    assert (2 ^ 44 <= 2 ^ (Zpos (digits2_pos px) - 1)) by (apply Z.pow_le_mono_r; lia).
    lia. }
  set (d := Z.to_pos (53 - Zpos (digits2_pos px))).
  assert (Hd : Zpos (digits2_pos px) + Zpos d = 53) by (unfold d; lia).
  clearbody d.
  unfold int_mul. rewrite (of_int_exact px d Hd).
  destruct (iter_xO px d) as [Hmx Hdmx].
  set (mx := Pos.iter xO px d) in *.
  (* the product of the mantissas *)
  unfold mul, SFmul. cbn [xorb].
  pose proof (digits2_bounds mx) as [MXlo MXhi].
  rewrite Hdmx, Pos2Z.inj_add, Hd in MXlo, MXhi.
  change (53 - 1) with 52 in MXlo.
  set (M := (mx * my)%positive).
  assert (HM : Zpos M = Zpos px * 2 ^ Zpos d * Zpos my).
  { unfold M. rewrite Pos2Z.inj_mul, Hmx. reflexivity. }
  assert (HMlo : 2 ^ 104 <= Zpos M).
  { unfold M. rewrite Pos2Z.inj_mul. change (2 ^ 104) with (2 ^ 52 * 2 ^ 52).
    apply Z.mul_le_mono_nonneg; lia. }
  assert (HMhi : Zpos M < 2 ^ 106).
  { unfold M. rewrite Pos2Z.inj_mul. change (2 ^ 106) with (2 ^ 53 * 2 ^ 53).
    apply Z.mul_lt_mono_nonneg; lia. }
  pose proof (digits2_bounds M) as [Mlo Mhi].
  assert (HD : 105 <= Zpos (digits2_pos M) <= 106).
  { split.
    - destruct (Z.le_gt_cases 105 (Zpos (digits2_pos M))) as [H|H]; [exact H|].
      assert (2 ^ Zpos (digits2_pos M) <= 2 ^ 104) by (apply Z.pow_le_mono_r; lia).
      lia.
    - destruct (Z.le_gt_cases (Zpos (digits2_pos M)) 106) as [H|H]; [exact H|].
      assert (2 ^ 106 <= 2 ^ (Zpos (digits2_pos M) - 1)) by (apply Z.pow_le_mono_r; lia).
      lia. }
  set (p := Z.to_pos (Zpos (digits2_pos M) - 53)).
  assert (Hp : Zpos (digits2_pos M) = prec + Zpos p) by (unfold p, prec; lia).
  assert (Hp53 : Zpos (digits2_pos M) = 53 + Zpos p) by exact Hp.
  assert (Hp' : 52 <= Zpos p <= 53) by lia.
  clearbody p.
  destruct (round_aux_long M (- Zpos d + - Zpos Ey) p Hp ltac:(lia) ltac:(lia))
    as [Hr Hround].
  rewrite Hround. clear Hround.
  (* the window of the rounded mantissa *)
  set (j := Zpos d + Zpos Ey - Zpos p).
  assert (Hj : 10 <= j) by (unfold j; lia).
  assert (Hjp : 2 ^ j * 2 ^ Zpos p = 2 ^ Zpos d * 2 ^ Zpos Ey).
  { rewrite <- !Z.pow_add_r by lia. f_equal. unfold j. lia. }
  assert (Hh : 2 ^ 53 * 2 ^ (Zpos p - 1) <= Zpos M < 2 ^ 54 * 2 ^ (Zpos p - 1)).
  { rewrite <- !Z.pow_add_r by lia.
    replace (53 + (Zpos p - 1)) with (Zpos (digits2_pos M) - 1) by lia.
    replace (54 + (Zpos p - 1)) with (Zpos (digits2_pos M)) by lia.
    split; assumption. }
  assert (HB : 2 ^ 54 <= 2 ^ Zpos Ey) by (apply Z.pow_le_mono_r; lia).
  pose proof (product_window (Zpos px) (2 ^ Zpos d) (2 ^ Zpos Ey) (Zpos my) k
                (2 ^ (Zpos p - 1)) (Zpos M)
                ltac:(lia) (pow2_pos (Zpos d) ltac:(lia)) HB Hmy Hk Hdelta Hbelow HM
                (pow2_pos (Zpos p - 1) ltac:(lia)) Hh) as [Wlo Whi].
  set (Q := Zpos px * k / 100) in *.
  destruct (rne_bounds (Zpos M) p ltac:(lia)) as (_ & Blo & Bhi).
  assert (Rlo : Q * 2 ^ j <= rne (Zpos M) p).
  { apply Blo. rewrite <- Z.mul_assoc, Hjp. exact Wlo. }
  assert (Rhi : rne (Zpos M) p < (Q + 1) * 2 ^ j).
  { apply Bhi. rewrite <- Z.mul_assoc, Hjp. exact Whi. }
  assert (Hpj : 0 < 2 ^ j) by (apply pow2_pos; lia).
  assert (Hdiv : rne (Zpos M) p / 2 ^ j = Q).
  { symmetry. apply (Z.div_unique_pos _ _ _ (rne (Zpos M) p - Q * 2 ^ j)); lia. }
  destruct (Z.ltb_spec (rne (Zpos M) p) (2 ^ 53)) as [Hlt|Hge].
  - replace (- Zpos d + - Zpos Ey + Zpos p) with (- j) by (unfold j; lia).
    rewrite to_int_neg by lia. rewrite Z2Pos.id by lia. now rewrite Hdiv.
  - replace (- Zpos d + - Zpos Ey + Zpos p + 1) with (- (j - 1)) by (unfold j; lia).
    rewrite to_int_neg by lia. rewrite Z2Pos.id by lia.
    f_equal. rewrite <- Hdiv.
    replace (rne (Zpos M) p) with (2 ^ 53) by lia.
    change (2 ^ 53) with (2 * 2 ^ 52).
    replace (2 ^ j) with (2 * 2 ^ (j - 1)).
    + rewrite Z.div_mul_cancel_l; [reflexivity| |lia].
      apply Z.neq_sym, Z.lt_neq, pow2_pos. lia.
    + rewrite <- Z.pow_succ_r by lia. f_equal. lia.
Qed.

End Agreement.

Theorem binary64_agrees (k x : Z) :
  In k rate_percents -> 0 <= x < 2 ^ 44 ->
  int_mul x (literal k) = Some (x * k / 100).
Proof.
  intros Hk Hx.
  repeat (destruct Hk as [<-|Hk]);
    [ change (literal 5) with (S754_finite false 7205759403792794 (- Zpos 57))
    | change (literal 7) with (S754_finite false 5044031582654956 (- Zpos 56))
    | change (literal 8) with (S754_finite false 5764607523034235 (- Zpos 56))
    | change (literal 10) with (S754_finite false 7205759403792794 (- Zpos 56))
    | change (literal 12) with (S754_finite false 8646911284551352 (- Zpos 56))
    | change (literal 15) with (S754_finite false 5404319552844595 (- Zpos 55))
    | change (literal 20) with (S754_finite false 7205759403792794 (- Zpos 55))
    | change (literal 25) with (S754_finite false 4503599627370496 (- Zpos 54))
    | contradiction ];
    (apply int_mul_exact; [vm_compute; split; congruence | lia | lia
                          | vm_compute; split; congruence
                          | vm_compute; try congruence; intros _; congruence
                          | exact Hx ]).
Qed.

(** The rates of the model are the literals of the program, and on every
    amount below 2^44 the truncated binary64 product is the truncated exact
    product. *)
Theorem py_int_is_binary64 (r : Q) (x : Z) :
  In r [0.05; 0.07; 0.08; 0.10; 0.12; 0.15; 0.20; 0.25]%Q ->
  0 <= x < 2 ^ 44 ->
  int_mul x (div (of_int (Qnum r)) (of_int (Zpos (Qden r))))
  = Some (py_int (inject_Z x * r)).
Proof.
  intros Hr Hx. rewrite py_int_scale.
  assert (H : Qden r = 100%positive /\ In (Qnum r) rate_percents).
  { repeat (destruct Hr as [<-|Hr]); [| | | | | | | |contradiction];
      (split; [reflexivity|cbn; auto 10]). }
  destruct H as [Hden Hnum]. rewrite Hden.
  change (div (of_int (Qnum r)) (of_int 100)) with (literal (Qnum r)).
  rewrite (binary64_agrees _ x Hnum Hx). f_equal.
  symmetry. apply Z.quot_div_nonneg; [|lia].
  apply Z.mul_nonneg_nonneg; [lia|].
  repeat (destruct Hnum as [<-|Hnum]); try lia. contradiction.
Qed.

(** Beyond that range the two part: at 10^17 + 10 the conversion to a float
    already rounds. *)
Example binary64_far_out :
  int_mul (10 ^ 17 + 10) (literal 10) = Some 10000000000000002 /\
  py_int (inject_Z (10 ^ 17 + 10) * 0.10%Q) = 10000000000000001.
Proof. split; vm_compute; reflexivity. Qed.

End Binary64.

(* ================================================================== *)
(** ** Amounts in the range where both readings agree *)

Section WrittenRates.
Import props.

(** For a rate that the program writes and an amount below 2^44 the
    product as Python computes it is the floor of the exact product, and so
    is the amount of the embedding. *)
Lemma amount_is_binary64 (x : Z) (r : Q) :
  In r program_rates -> 0 <= x < 2 ^ 44 ->
  binary64.py_int_mul x r = Some (floor_of x r) /\
  py_int (inject_Z x * r) = floor_of x r.
Proof.
  intros Hr Hx.
  assert (Hn : 0 <= Qnum r).
  { unfold program_rates in Hr.
    repeat (destruct Hr as [<-|Hr]); try (cbn; lia). contradiction. }
  assert (Hf : py_int (inject_Z x * r) = floor_of x r).
  { unfold floor_of. apply py_int_floor; lia. }
  split; [|exact Hf]. unfold binary64.py_int_mul, binary64.float_of.
  rewrite (py_int_is_binary64 r x Hr Hx). now rewrite Hf.
Qed.

Lemma program_rates_range (r : Q) :
  In r program_rates -> 0 <= Qnum r /\ Qnum r <= Zpos (Qden r).
Proof.
  unfold program_rates. intros Hr.
  repeat (destruct Hr as [<-|Hr]); try (cbn; lia). contradiction.
Qed.

End WrittenRates.

(* ================================================================== *)
(** ** Tax strategies *)

Section Taxes.
Import tax_service props.

Lemma TaxDetail_init_ok (n : string) (r : Q) (a t : Z) :
  0 <= Qnum r -> 0 <= a -> 0 <= t ->
  TaxDetail_init n r a t = Ok (mkTaxDetail n r a t).
Proof.
  intros Hr Ha Ht. unfold TaxDetail_init.
  apply Qle_bool_nonneg in Hr. rewrite Hr. simpl.
  destruct (a <? 0) eqn:E1; [apply Z.ltb_lt in E1; lia|].
  destruct (t <? 0) eqn:E2; [apply Z.ltb_lt in E2; lia|].
  reflexivity.
Qed.



(** The standard tax: nothing up to the threshold, the rate on the whole
    post-discount amount above it. *)
Lemma standard_tax_value (st : StandardTaxStrategy.t) (s : Z)
  (c : cart.ShoppingCart) (cust : option customer.Customer) :
  standard_wf st ->
  StandardTaxStrategy.calculate_tax st s c cust = Ok (standard_detail st s).
Proof.
  intros (Hr0 & _ & Hth).
  unfold StandardTaxStrategy.calculate_tax, StandardTaxStrategy.is_applicable,
    standard_detail.
  destruct (StandardTaxStrategy.threshold st <? s) eqn:E; cbn [negb].
  - apply Z.ltb_lt in E. apply TaxDetail_init_ok; try lia.
    apply py_int_nonneg; lia.
  - reflexivity.
Qed.

Lemma luxury_tax_value (s : Z) (c : cart.ShoppingCart)
  (cust : option customer.Customer) :
  LuxuryTaxStrategy.calculate_tax s c cust = Ok (luxury_detail s).
Proof.
  unfold LuxuryTaxStrategy.calculate_tax, LuxuryTaxStrategy.is_applicable,
    luxury_detail, luxury_bracket.
  simpl.
  destruct (500000 <=? s) eqn:E1; simpl.
  - apply Z.leb_le in E1.
    destruct (2000000 <=? s) eqn:E3; simpl.
    + apply TaxDetail_init_ok; simpl; try lia. apply py_int_nonneg; simpl; lia.
    + destruct (1000000 <=? s) eqn:E2; simpl.
      * apply TaxDetail_init_ok; simpl; try lia. apply py_int_nonneg; simpl; lia.
      * apply TaxDetail_init_ok; simpl; try lia. apply py_int_nonneg; simpl; lia.
  - apply Z.leb_gt in E1.
    destruct (2000000 <=? s) eqn:E3; [apply Z.leb_le in E3; lia|].
    destruct (1000000 <=? s) eqn:E2; [apply Z.leb_le in E2; lia|].
    reflexivity.
Qed.

Lemma standard_detail_nonneg (st : StandardTaxStrategy.t) (s : Z) :
  standard_wf st -> 0 <= amount (standard_detail st s).
Proof.
  intros (Hr0 & _ & Hth). unfold standard_detail.
  destruct (StandardTaxStrategy.threshold st <? s) eqn:E; simpl; [|lia].
  apply Z.ltb_lt in E. apply py_int_nonneg; lia.
Qed.

Lemma luxury_detail_nonneg (s : Z) : 0 <= amount (luxury_detail s).
Proof.
  unfold luxury_detail, luxury_bracket.
  destruct (2000000 <=? s) eqn:E3; simpl;
    [apply Z.leb_le in E3; apply py_int_nonneg; simpl; lia|].
  destruct (1000000 <=? s) eqn:E2; simpl;
    [apply Z.leb_le in E2; apply py_int_nonneg; simpl; lia|].
  destruct (500000 <=? s) eqn:E1; simpl;
    [apply Z.leb_le in E1; apply py_int_nonneg; simpl; lia|lia].
Qed.




End Taxes.

(* ================================================================== *)
(** ** Category totals of a cart *)

Section CategoryTotals.
Import product cart props.

Lemma KategoriBarang_eqb_eq (a b : KategoriBarang) :
  KategoriBarang_eqb a b = true <-> a = b.
Proof. destruct a, b; simpl; split; congruence. Qed.

Lemma KategoriBarang_eqb_refl (a : KategoriBarang) : KategoriBarang_eqb a a = true.
Proof. now destruct a. Qed.

Lemma KategoriBarang_eqb_neq (a b : KategoriBarang) :
  KategoriBarang_eqb a b = false <-> a <> b.
Proof. destruct a, b; simpl; split; congruence. Qed.

Lemma dict_get_set {V : Type} (d : list (KategoriBarang * V))
  (k k' : KategoriBarang) (v : V) :
  dict_get KategoriBarang_eqb (dict_set KategoriBarang_eqb d k v) k' =
  if KategoriBarang_eqb k k' then Some v else dict_get KategoriBarang_eqb d k'.
Proof.
  induction d as [|[k0 v0] d IH]; simpl.
  - reflexivity.
  - destruct (KategoriBarang_eqb k0 k) eqn:E0; simpl.
    + apply KategoriBarang_eqb_eq in E0. subst k0.
      now destruct (KategoriBarang_eqb k k').
    + rewrite IH.
      destruct (KategoriBarang_eqb k0 k') eqn:E1; [|reflexivity].
      destruct k0, k, k'; simpl in *; congruence.
Qed.

Lemma totals_fold (l : list ProductItem) :
  forall (acc : list (KategoriBarang * CategoryData)) (k : KategoriBarang),
  dict_get KategoriBarang_eqb (fold_left totals_step l acc) k =
  match dict_get KategoriBarang_eqb acc k, filter (of_category k) l with
  | None, [] => None
  | Some d, fl =>
      Some (mkCategoryData (quantity d + sum (map jumlah fl))
                           (amount d + sum (map get_total_price fl)))
  | None, fl =>
      Some (mkCategoryData (sum (map jumlah fl)) (sum (map get_total_price fl)))
  end.
Proof.
  induction l as [|x l IH]; intros acc k.
  - cbn [fold_left filter].
    destruct (dict_get KategoriBarang_eqb acc k) as [[q a]|]; [|reflexivity].
    cbn [map quantity amount]. rewrite sum_nil. now rewrite !Z.add_0_r.
  - cbn [fold_left filter]. rewrite IH. unfold totals_step.
    rewrite dict_get_set.
    change (of_category k x) with (KategoriBarang_eqb (kategori x) k).
    destruct (KategoriBarang_eqb (kategori x) k) eqn:E.
    + pose proof (proj1 (KategoriBarang_eqb_eq _ _) E) as Ek. rewrite Ek.
      cbn [map quantity amount]. rewrite !sum_cons.
      destruct (dict_get KategoriBarang_eqb acc k) as [[q a]|];
        cbn [quantity amount].
      * f_equal. f_equal; lia.
      * destruct (filter (of_category k) l); cbn [map];
          rewrite ?sum_nil, ?sum_cons; f_equal; f_equal; lia.
    + reflexivity.
Qed.

(** What [get_category_totals] holds for a category: nothing when the cart
    has no item of it, else its quantity and its subtotal. *)
Lemma category_totals_get (c : ShoppingCart) (k : KategoriBarang) :
  dict_get KategoriBarang_eqb (get_category_totals c) k =
  match items_of c k with
  | [] => None
  | _ :: _ => Some (mkCategoryData (category_quantity c k) (category_subtotal c k))
  end.
Proof.
  unfold get_category_totals.
  change (fold_left _ (dict_values (items c)) [])
    with (fold_left totals_step (dict_values (items c)) []).
  rewrite totals_fold. simpl.
  unfold category_quantity, category_subtotal, items_of, get_all_items, of_category.
  now destruct (filter _ _).
Qed.

Lemma item_total_pos (it : ProductItem) : item_wf it -> 0 < get_total_price it.
Proof. unfold item_wf, get_total_price. nia. Qed.

Lemma total_price_nonneg (l : list ProductItem) :
  Forall item_wf l -> 0 <= sum (map get_total_price l).
Proof.
  induction 1 as [|x l Hx _ IH]; simpl; [rewrite sum_nil; lia|].
  rewrite sum_cons. apply item_total_pos in Hx. lia.
Qed.

Lemma Forall_filter {A : Type} (P : A -> Prop) (f : A -> bool) (l : list A) :
  Forall P l -> Forall P (filter f l).
Proof.
  induction 1 as [|x l Hx _ IH]; simpl; [constructor|].
  destruct (f x); [constructor|]; assumption.
Qed.

Lemma subtotal_nonneg (c : ShoppingCart) : cart_wf c -> 0 <= calculate_subtotal c.
Proof. intros H. apply total_price_nonneg, H. Qed.

Lemma category_subtotal_nonneg (c : ShoppingCart) (k : KategoriBarang) :
  cart_wf c -> 0 <= category_subtotal c k.
Proof. intros H. apply total_price_nonneg, Forall_filter, H. Qed.

Lemma category_quantity_empty (c : ShoppingCart) (k : KategoriBarang) :
  items_of c k = [] -> category_quantity c k = 0.
Proof. unfold category_quantity. now intros ->. Qed.

(** Every item is of one of the three categories: the category subtotals
    add up to the subtotal of the cart. *)
Lemma subtotal_by_category (c : ShoppingCart) :
  calculate_subtotal c =
  category_subtotal c MAKANAN + category_subtotal c MINUMAN
  + category_subtotal c KEBUTUHAN.
Proof.
  unfold calculate_subtotal, category_subtotal, items_of, get_all_items.
  induction (dict_values (items c)) as [|x l IH]; cbn [map filter].
  - rewrite sum_nil. reflexivity.
  - rewrite sum_cons, IH. unfold of_category.
    destruct (kategori x); cbn [KategoriBarang_eqb map]; rewrite sum_cons; lia.
Qed.

End CategoryTotals.

(* ================================================================== *)
(** ** Discount strategies *)

Section Discounts.
Import product props transaction discount_service.
Variable env : Env.

Lemma DiscountDetail_init_inv (n : string) (a : Z) (p : Q) (d : DiscountDetail) :
  DiscountDetail_init n a p = Ok d ->
  d = mkDiscountDetail n a p /\ 0 <= a /\ 0 <= Qnum p /\ Qnum p <= Zpos (Qden p).
Proof.
  unfold DiscountDetail_init.
  destruct (a <? 0) eqn:Ea; [discriminate|].
  destruct (Qle_bool 0 p) eqn:E0; simpl; [|discriminate].
  destruct (Qle_bool p 1) eqn:E1; simpl; [|discriminate].
  intros [= <-].
  apply Z.ltb_ge in Ea. apply Qle_bool_nonneg in E0. apply Qle_bool_le_one in E1.
  auto.
Qed.

Lemma DiscountDetail_init_ok (n : string) (a : Z) (p : Q) :
  0 <= a -> 0 <= Qnum p -> Qnum p <= Zpos (Qden p) ->
  DiscountDetail_init n a p = Ok (mkDiscountDetail n a p).
Proof.
  intros Ha H0 H1. unfold DiscountDetail_init.
  destruct (a <? 0) eqn:Ea; [apply Z.ltb_lt in Ea; lia|].
  apply Qle_bool_nonneg in H0. apply Qle_bool_le_one in H1.
  now rewrite H0, H1.
Qed.

Lemma tier_rate_range (t : string) :
  0 <= Qnum (tier_rate t) /\ 4 * Qnum (tier_rate t) <= Zpos (Qden (tier_rate t)).
Proof.
  unfold tier_rate.
  repeat match goal with |- context [String.eqb ?a ?b] =>
    destruct (String.eqb a b) end; simpl; lia.
Qed.

Lemma tier_discounts_get (t : string) :
  match dict_get String.eqb customer.tier_discounts t with
  | Some r => r
  | None => 0.05%Q
  end = tier_rate t.
Proof.
  unfold customer.tier_discounts, tier_rate. cbn [dict_get].
  repeat match goal with |- context [String.eqb ?a ?b] =>
    destruct (String.eqb a b) end; reflexivity.
Qed.

Lemma member_rate_range (cu : customer.Customer) :
  0 <= Qnum (member_rate cu) /\ 4 * Qnum (member_rate cu) <= Zpos (Qden (member_rate cu)).
Proof.
  unfold member_rate. destruct (customer.cls cu); [simpl; lia| |simpl; lia].
  apply tier_rate_range.
Qed.

Lemma rate_and_tier_rate (cu : customer.Customer) :
  fst (MemberDiscountStrategy.rate_and_tier cu) = member_rate cu.
Proof.
  unfold MemberDiscountStrategy.rate_and_tier, member_rate,
    customer.get_discount_multiplier.
  destruct (customer.cls cu) eqn:E; simpl; [reflexivity| |reflexivity].
  apply tier_discounts_get.
Qed.

Lemma day_applicable_iff (c : cart.ShoppingCart) (cust : option customer.Customer) :
  DayOfWeekDiscountStrategy.is_applicable env c cust = true <->
  weekday env = 0 \/ weekday env = 5.
Proof.
  unfold DayOfWeekDiscountStrategy.is_applicable, dict_contains,
    DayOfWeekDiscountStrategy.day_discounts. cbn [dict_get].
  destruct (0 =? weekday env) eqn:E0.
  - apply Z.eqb_eq in E0. split; auto.
  - destruct (5 =? weekday env) eqn:E5.
    + apply Z.eqb_eq in E5. split; auto.
    + apply Z.eqb_neq in E0. apply Z.eqb_neq in E5. split; [discriminate|lia].
Qed.

Lemma day_rate_range (d : Z) :
  0 <= Qnum (day_rate d) /\ 5 * Qnum (day_rate d) <= Zpos (Qden (day_rate d)).
Proof.
  unfold day_rate. destruct (d =? 0); [simpl; lia|].
  destruct (d =? 5); simpl; lia.
Qed.

(** What an applicable strategy computes: the strategy's rate on the cart
    subtotal, truncated, checked by the constructor of the result. *)
Lemma calculate_discount_unfold (s : DiscountStrategy) (c : cart.ShoppingCart)
  (cust : option customer.Customer) :
  is_applicable env s c cust = true ->
  exists n,
    calculate_discount env s c cust =
    DiscountDetail_init n
      (py_int (inject_Z (cart.calculate_subtotal c) * rate_of env s cust))
      (rate_of env s cust).
Proof.
  destruct s as [st| |]; simpl; intros Happ.
  - unfold SeniorDiscountStrategy.calculate_discount. rewrite Happ. simpl.
    eexists. reflexivity.
  - unfold MemberDiscountStrategy.calculate_discount.
    destruct cust as [cu|]; [|discriminate].
    rewrite Happ. simpl.
    rewrite <- rate_and_tier_rate.
    destruct (MemberDiscountStrategy.rate_and_tier cu) as [pct tier].
    eexists. reflexivity.
  - unfold DayOfWeekDiscountStrategy.calculate_discount. rewrite Happ. simpl.
    apply day_applicable_iff in Happ.
    unfold DayOfWeekDiscountStrategy.day_discounts, day_rate. cbn [dict_get].
    destruct Happ as [H|H]; rewrite H; simpl; eexists; reflexivity.
Qed.

(** The discount of one strategy on a cart of proper line items. *)
Lemma calculate_discount_value (s : DiscountStrategy) (c : cart.ShoppingCart)
  (cust : option customer.Customer) (d : DiscountDetail) :
  cart_wf c ->
  is_applicable env s c cust = true ->
  calculate_discount env s c cust = Ok d ->
  amount d = floor_of (cart.calculate_subtotal c) (percentage d) /\
  percentage d = rate_of env s cust /\
  0 <= amount d /\
  0 <= Qnum (percentage d) /\ Qnum (percentage d) <= Zpos (Qden (percentage d)).
Proof.
  intros Hwf Happ Hcalc.
  destruct (calculate_discount_unfold s c cust Happ) as [n Hn].
  rewrite Hn in Hcalc. apply DiscountDetail_init_inv in Hcalc.
  destruct Hcalc as (-> & Ha & H0 & H1). simpl.
  split; [|auto].
  apply py_int_floor; [now apply subtotal_nonneg|exact H0].
Qed.

(** A strategy with a proper rate never raises on a cart of proper items. *)
Lemma calculate_discount_total (s : DiscountStrategy) (c : cart.ShoppingCart)
  (cust : option customer.Customer) :
  cart_wf c -> strategy_wf s ->
  is_applicable env s c cust = true ->
  exists d, calculate_discount env s c cust = Ok d.
Proof.
  intros Hwf Hs Happ.
  destruct (calculate_discount_unfold s c cust Happ) as [n Hn].
  rewrite Hn. eexists. apply DiscountDetail_init_ok.
  - apply py_int_nonneg; [now apply subtotal_nonneg|].
    destruct s as [st| |]; simpl in *.
    + now apply Qle_bool_nonneg.
    + destruct cust as [cu|]; [apply member_rate_range|simpl; lia].
    + apply day_rate_range.
  - destruct s as [st| |]; simpl in *.
    + now apply Qle_bool_nonneg.
    + destruct cust as [cu|]; [apply member_rate_range|simpl; lia].
    + apply day_rate_range.
  - destruct s as [st| |]; simpl in *.
    + now apply Qle_bool_le_one.
    + destruct cust as [cu|]; [|simpl; lia].
      pose proof (member_rate_range cu). lia.
    + pose proof (day_rate_range (weekday env)). lia.
Qed.

End Discounts.

(* ================================================================== *)
(** ** The bulk discount per category *)

Section CategoryBulk.
Import product props transaction discount_service.

(** One round of the loop of [CategoryDiscountStrategy.calculate_discount]
    on a cart of proper line items: a result is appended exactly when the
    quantity of the category reaches its threshold. *)
Lemma category_loop_step (c : cart.ShoppingCart) (k : KategoriBarang)
  (rest : list (KategoriBarang * CategoryDiscountStrategy.Rule))
  (acc : list DiscountDetail) :
  cart_wf c ->
  CategoryDiscountStrategy.loop
    ((k, CategoryDiscountStrategy.mkRule (bulk_threshold k) 0.07%Q) :: rest)
    (cart.get_category_totals c) acc =
  CategoryDiscountStrategy.loop rest (cart.get_category_totals c)
    (acc ++ (if qualifies c k then [bulk_detail c k] else [])).
Proof.
  intros Hwf. cbn [CategoryDiscountStrategy.loop].
  rewrite category_totals_get. unfold qualifies.
  destruct (items_of c k) eqn:Hit.
  - rewrite (category_quantity_empty c k Hit).
    replace (bulk_threshold k <=? 0) with false by now destruct k.
    now rewrite app_nil_r.
  - cbn [cart.quantity cart.amount CategoryDiscountStrategy.min_items
         CategoryDiscountStrategy.percentage].
    destruct (bulk_threshold k <=? category_quantity c k).
    + rewrite DiscountDetail_init_ok.
      * simpl. unfold bulk_detail, floor_of.
        rewrite py_int_floor;
          [reflexivity|now apply category_subtotal_nonneg|simpl; lia].
      * apply py_int_nonneg; [now apply category_subtotal_nonneg|simpl; lia].
      * simpl; lia.
      * simpl; lia.
    + now rewrite app_nil_r.
Qed.

(** The whole result: one record per qualifying category, in the order
    food, drink, household. *)
Lemma category_discounts_value (c : cart.ShoppingCart)
  (cust : option customer.Customer) :
  cart_wf c ->
  CategoryDiscountStrategy.calculate_discount c cust =
  Ok (map (bulk_detail c) (filter (qualifies c) all_categories)).
Proof.
  intros Hwf.
  unfold CategoryDiscountStrategy.calculate_discount,
    CategoryDiscountStrategy.category_rules.
  change 3 with (bulk_threshold MAKANAN) at 1.
  rewrite (category_loop_step c MAKANAN _ _ Hwf).
  change 3 with (bulk_threshold MINUMAN) at 1.
  rewrite (category_loop_step c MINUMAN _ _ Hwf).
  change 2 with (bulk_threshold KEBUTUHAN) at 1.
  rewrite (category_loop_step c KEBUTUHAN _ _ Hwf).
  cbn [CategoryDiscountStrategy.loop all_categories filter].
  destruct (qualifies c MAKANAN), (qualifies c MINUMAN), (qualifies c KEBUTUHAN);
    reflexivity.
Qed.

Lemma category_applicable_iff (c : cart.ShoppingCart)
  (cust : option customer.Customer) :
  CategoryDiscountStrategy.is_applicable c cust = existsb (qualifies c) all_categories.
Proof.
  unfold CategoryDiscountStrategy.is_applicable,
    CategoryDiscountStrategy.category_rules.
  cbn [existsb all_categories fst snd CategoryDiscountStrategy.min_items].
  rewrite !category_totals_get. unfold qualifies.
  assert (H : forall k,
    match match items_of c k with
          | [] => None
          | _ :: _ => Some (cart.mkCategoryData (category_quantity c k)
                              (category_subtotal c k))
          end with
    | Some data => bulk_threshold k <=? cart.quantity data
    | None => false
    end = (bulk_threshold k <=? category_quantity c k)).
  { intros k. destruct (items_of c k) eqn:Hit; [|reflexivity].
    rewrite (category_quantity_empty c k Hit). now destruct k. }
  rewrite <- (H MAKANAN), <- (H MINUMAN), <- (H KEBUTUHAN). reflexivity.
Qed.




End CategoryBulk.

(* ================================================================== *)
(** ** All discounts of a cart *)

Section AllDiscounts.
Import product props transaction discount_service.
Variable env : Env.

(** The discounts of the strategy list: what the first loop of
    [calculate_all_discounts] adds to the list it is given. *)
Lemma strategies_loop_sum (c : cart.ShoppingCart) (cust : option customer.Customer)
  (Hwf : cart_wf c) (l : list DiscountStrategy) :
  forall acc r,
  strategies_loop env l c cust acc = Ok r ->
  exists added,
    r = acc ++ added /\
    Forall (fun d => 0 < amount d) added /\
    sum (map amount added) =
    sum (map (fun s => floor_of (cart.calculate_subtotal c) (rate_of env s cust))
             (filter (fun s => is_applicable env s c cust) l)).
Proof.
  induction l as [|s l IH]; intros acc r Hr; cbn [strategies_loop] in Hr.
  - injection Hr as <-. exists []. rewrite app_nil_r. repeat split. constructor.
  - cbn [filter].
    destruct (is_applicable env s c cust) eqn:Happ.
    + destruct (calculate_discount env s c cust) as [d|e] eqn:Hd;
        cbn [bind] in Hr; [|discriminate].
      destruct (calculate_discount_value env s c cust d Hwf Happ Hd)
        as (Hamt & Hpct & Hnn & _).
      cbn [map]. rewrite sum_cons, <- Hpct, <- Hamt.
      destruct (0 <? amount d) eqn:Hpos.
      * apply IH in Hr. destruct Hr as (added & -> & Hall & Hsum).
        exists (d :: added). rewrite <- app_assoc. split; [reflexivity|].
        split; [constructor; [now apply Z.ltb_lt|assumption]|].
        cbn [map]. rewrite sum_cons, Hsum. reflexivity.
      * apply IH in Hr. destruct Hr as (added & -> & Hall & Hsum).
        exists added. split; [reflexivity|]. split; [assumption|].
        apply Z.ltb_ge in Hpos. rewrite Hsum. lia.
    + apply IH in Hr. exact Hr.
Qed.

Lemma strategies_loop_total (c : cart.ShoppingCart) (cust : option customer.Customer)
  (Hwf : cart_wf c) (l : list DiscountStrategy) :
  Forall strategy_wf l ->
  forall acc, exists r, strategies_loop env l c cust acc = Ok r.
Proof.
  induction 1 as [|s l Hs _ IH]; intros acc; cbn [strategies_loop].
  - eexists; reflexivity.
  - destruct (is_applicable env s c cust) eqn:Happ; [|apply IH].
    destruct (calculate_discount_total env s c cust Hwf Hs Happ) as [d ->].
    cbn [bind]. destruct (0 <? amount d); apply IH.
Qed.

(** The list of [calculate_all_discounts]: the strategy results with a
    positive amount, then the bulk results of the qualifying categories as
    the category strategy returns them. *)
Lemma calculate_all_discounts_value (svc : DiscountService) (c : cart.ShoppingCart)
  (cust : option customer.Customer) (ds : list DiscountDetail) :
  cart_wf c ->
  calculate_all_discounts env svc c cust = Ok ds ->
  exists added,
    ds = added ++ map (bulk_detail c) (filter (qualifies c) all_categories) /\
    Forall (fun d => 0 < amount d) added /\
    sum (map amount added) =
    sum (map (fun s => floor_of (cart.calculate_subtotal c) (rate_of env s cust))
             (filter (fun s => is_applicable env s c cust) (strategies svc))).
Proof.
  intros Hwf Hcalc. unfold calculate_all_discounts in Hcalc.
  destruct (strategies_loop env (strategies svc) c cust []) as [r|e] eqn:Hloop;
    cbn [bind] in Hcalc; [|discriminate].
  apply (strategies_loop_sum c cust Hwf) in Hloop.
  destruct Hloop as (added & -> & Hall & Hsum). cbn [app] in Hcalc.
  exists added. split; [|auto].
  rewrite category_applicable_iff in Hcalc.
  rewrite (category_discounts_value c cust Hwf) in Hcalc. cbn [bind] in Hcalc.
  destruct (existsb (qualifies c) all_categories) eqn:Hex.
  - now injection Hcalc as <-.
  - injection Hcalc as <-.
    cbn [existsb all_categories] in Hex. cbn [filter all_categories].
    destruct (qualifies c MAKANAN), (qualifies c MINUMAN), (qualifies c KEBUTUHAN);
      try discriminate.
    now rewrite app_nil_r.
Qed.

Lemma calculate_all_discounts_total (svc : DiscountService) (c : cart.ShoppingCart)
  (cust : option customer.Customer) :
  cart_wf c -> Forall strategy_wf (strategies svc) ->
  exists ds, calculate_all_discounts env svc c cust = Ok ds.
Proof.
  intros Hwf Hs. unfold calculate_all_discounts.
  destruct (strategies_loop_total c cust Hwf (strategies svc) Hs []) as [r ->].
  cbn [bind]. rewrite (category_discounts_value c cust Hwf). cbn [bind].
  destruct (CategoryDiscountStrategy.is_applicable c cust); eexists; reflexivity.
Qed.

Lemma default_strategies_wf :
  Forall strategy_wf (strategies (DiscountService_init None)).
Proof. repeat constructor. Qed.

End AllDiscounts.

Section DiscountClaims.
Import product props transaction discount_service.

Lemma Qle_of_num (r : Q) :
  0 <= Qnum r -> Qnum r <= Zpos (Qden r) -> (0 <= r)%Q /\ (r <= 1)%Q.
Proof. intros H0 H1. unfold Qle. simpl. lia. Qed.

(** C2 (the code departs from the claim).  The results of the strategy list
    are kept only with a positive amount, but the category results are
    appended as they come.  A cart built through the constructors, holding
    three sweets of price 1 (food, quantity 3, subtotal 3), reaches the food
    threshold; 7% of 3 truncates to 0, and the list returned by
    [calculate_all_discounts] is the single food record with amount 0. *)
Theorem C2_zero_amount_category_result :
  exists permen it budi,
    Product_init "Permen" 1 "buah" MAKANAN = Ok permen /\
    ProductItem_init permen 3 = Ok it /\
    customer.Customer_init "budi" 30 false = Ok budi /\
    let c := snd (cart.add_item (cart.ShoppingCart_init (Some budi)) it) in
    calculate_all_discounts sample.env_wednesday (DiscountService_init None)
      c (Some budi)
    = Ok [mkDiscountDetail "Diskon Kategori Makanan" 0 0.07%Q].
Proof.
  eexists. eexists. eexists.
  split; [vm_compute; reflexivity|].
  split; [vm_compute; reflexivity|].
  split; [vm_compute; reflexivity|].
  vm_compute. reflexivity.
Qed.

(** What does hold next to C2: every record that comes from the strategy
    list has a positive amount; the records that follow are the bulk records
    of the qualifying categories, zero or not. *)
Lemma strategy_results_positive (env : Env) (svc : DiscountService)
  (c : cart.ShoppingCart) (cust : option customer.Customer)
  (ds : list DiscountDetail) :
  cart_wf c ->
  calculate_all_discounts env svc c cust = Ok ds ->
  exists added,
    ds = added ++ map (bulk_detail c) (filter (qualifies c) all_categories) /\
    Forall (fun d => 0 < amount d) added.
Proof.
  intros Hwf Hcalc.
  destruct (calculate_all_discounts_value env svc c cust ds Hwf Hcalc)
    as (added & Hds & Hall & _).
  now exists added.
Qed.

(** The rate of a strategy that applies is one that the program writes,
    unless a senior strategy was built with another percentage. *)
Lemma rate_of_written (env : Env) (s : DiscountStrategy) (c : cart.ShoppingCart)
  (cust : option customer.Customer) :
  rate_written s -> is_applicable env s c cust = true ->
  In (rate_of env s cust) program_rates.
Proof.
  destruct s as [st| |]; cbn [rate_written rate_of is_applicable].
  - intros H _. exact H.
  - intros _ Happ. destruct cust as [cu|]; [|discriminate Happ].
    unfold member_rate, tier_rate, program_rates.
    destruct (customer.cls cu) as [|p|]; [cbn; auto 10| |cbn; auto 10].
    destruct (String.eqb "Bronze" (customer.tier p)); [cbn; auto 10|].
    destruct (String.eqb "Silver" (customer.tier p)); [cbn; auto 10|].
    destruct (String.eqb "Gold" (customer.tier p)); [cbn; auto 10|].
    destruct (String.eqb "Platinum" (customer.tier p)); cbn; auto 10.
  - intros _ Happ. apply day_applicable_iff in Happ.
    unfold day_rate, program_rates. destruct Happ as [->| ->]; cbn; auto 10.
Qed.

Lemma default_rates_written :
  Forall rate_written (strategies (DiscountService_init None)).
Proof.
  cbn [DiscountService_init strategies].
  repeat (apply Forall_cons || apply Forall_nil);
    cbn [rate_written SeniorDiscountStrategy.default
         SeniorDiscountStrategy.percentage];
    unfold program_rates; cbn; auto 10.
Qed.

Lemma category_subtotal_below (c : cart.ShoppingCart) (k : KategoriBarang) :
  cart_wf c -> 0 <= category_subtotal c k <= cart.calculate_subtotal c.
Proof.
  intros Hwf. rewrite (subtotal_by_category c).
  pose proof (category_subtotal_nonneg c MAKANAN Hwf).
  pose proof (category_subtotal_nonneg c MINUMAN Hwf).
  pose proof (category_subtotal_nonneg c KEBUTUHAN Hwf).
  destruct k; lia.
Qed.

(** C9, as the code has it.  The code computes [int(base * rate)] on
    binary64 floats.  On a cart of proper line items with a subtotal below
    2^44:
    - a strategy of the list (Senior, Member, DayOfWeek) that applies, with
      a rate that the program writes (the member and day rates always are:
      25% VIP, the tier rate, 5% regular member; 15% Monday, 20% Saturday;
      the senior percentage is 10% unless the strategy was built with
      another one), returns the amount [floor(subtotal * rate)], the
      subtotal being that of the whole cart; this is the amount that the
      binary64 product gives, and the rate lies between 0 and 1;
    - every record of the bulk strategy has the amount
      [floor(category subtotal * 7%)] for the subtotal of its own category,
      again the amount of the binary64 product;
    - the total discount is the sum of these amounts over the strategies that
      apply and the categories that qualify;
    - with rates between 0 and 1 in the strategy list the total is always
      produced. *)
Theorem C9_discount_amounts (env : Env) (svc : DiscountService)
  (c : cart.ShoppingCart) (cust : option customer.Customer) :
  cart_wf c -> cart.calculate_subtotal c < 2 ^ 44 ->
  (forall s d,
     rate_written s ->
     is_applicable env s c cust = true ->
     calculate_discount env s c cust = Ok d ->
     amount d = floor_of (cart.calculate_subtotal c) (percentage d) /\
     binary64.py_int_mul (cart.calculate_subtotal c) (percentage d)
       = Some (amount d) /\
     percentage d = rate_of env s cust /\
     In (percentage d) program_rates /\
     (0 <= percentage d)%Q /\ (percentage d <= 1)%Q) /\
  (forall ds d,
     CategoryDiscountStrategy.calculate_discount c cust = Ok ds -> In d ds ->
     exists k,
       name d = CategoryDiscountStrategy.discount_name k /\
       amount d = floor_of (category_subtotal c k) (percentage d) /\
       binary64.py_int_mul (category_subtotal c k) (percentage d)
         = Some (amount d) /\
       percentage d = 0.07%Q /\
       (0 <= percentage d)%Q /\ (percentage d <= 1)%Q) /\
  (forall total,
     Forall rate_written (strategies svc) ->
     get_total_discount_amount env svc c cust = Ok total ->
     total =
     sum (map (fun s => floor_of (cart.calculate_subtotal c) (rate_of env s cust))
              (filter (fun s => is_applicable env s c cust) (strategies svc)))
     + sum (map (fun k => floor_of (category_subtotal c k) 0.07%Q)
                (filter (qualifies c) all_categories)) /\
     (forall s, In s (strategies svc) -> is_applicable env s c cust = true ->
        binary64.py_int_mul (cart.calculate_subtotal c) (rate_of env s cust)
        = Some (floor_of (cart.calculate_subtotal c) (rate_of env s cust))) /\
     (forall k,
        binary64.py_int_mul (category_subtotal c k) 0.07%Q
        = Some (floor_of (category_subtotal c k) 0.07%Q))) /\
  (Forall strategy_wf (strategies svc) ->
   exists total, get_total_discount_amount env svc c cust = Ok total).
Proof.
  intros Hwf Hbound.
  pose proof (subtotal_nonneg c Hwf) as HS.
  assert (Hbulk : In 0.07%Q program_rates) by (unfold program_rates; cbn; auto).
  repeat match goal with |- _ /\ _ => split end.
  - intros s d Hrw Happ Hd.
    destruct (calculate_discount_value env s c cust d Hwf Happ Hd)
      as (Hamt & Hpct & _ & H0 & H1).
    pose proof (rate_of_written env s c cust Hrw Happ) as Hin.
    rewrite <- Hpct in Hin.
    split; [exact Hamt|]. split.
    { rewrite Hamt. apply amount_is_binary64; [exact Hin|lia]. }
    split; [exact Hpct|]. split; [exact Hin|]. now apply Qle_of_num.
  - intros ds d Hds Hin.
    rewrite (category_discounts_value c cust Hwf) in Hds. injection Hds as <-.
    apply in_map_iff in Hin. destruct Hin as (k & <- & _).
    pose proof (category_subtotal_below c k Hwf) as Hk.
    exists k. split; [reflexivity|]. split; [reflexivity|]. split.
    { cbn [bulk_detail amount percentage].
      apply amount_is_binary64; [exact Hbulk|lia]. }
    split; [reflexivity|]. apply Qle_of_num; simpl; lia.
  - intros total Hrw Htot. unfold get_total_discount_amount in Htot.
    destruct (calculate_all_discounts env svc c cust) as [ds|e] eqn:Hds;
      cbn [bind] in Htot; [|discriminate].
    injection Htot as <-.
    destruct (calculate_all_discounts_value env svc c cust ds Hwf Hds)
      as (added & -> & _ & Hsum).
    split; [rewrite map_app, sum_app, Hsum, map_map; reflexivity|]. split.
    + intros s Hs Happ. rewrite Forall_forall in Hrw.
      apply amount_is_binary64; [|lia].
      exact (rate_of_written env s c cust (Hrw s Hs) Happ).
    + intros k. pose proof (category_subtotal_below c k Hwf) as Hk.
      apply amount_is_binary64; [exact Hbulk|lia].
  - intros Hs. unfold get_total_discount_amount.
    destruct (calculate_all_discounts_total env svc c cust Hwf Hs) as [ds ->].
    eexists. reflexivity.
Qed.

Lemma C9_witness :
  cart_wf sample.cart_sabun /\
  cart.calculate_subtotal sample.cart_sabun < 2 ^ 44 /\
  get_total_discount_amount sample.env_wednesday (DiscountService_init None)
    sample.cart_sabun (Some sample.budi) = Ok 7000 /\
  7000 = 0 + floor_of (category_subtotal sample.cart_sabun KEBUTUHAN) 0.07%Q /\
  binary64.py_int_mul (category_subtotal sample.cart_sabun KEBUTUHAN) 0.07%Q
  = Some 7000.
Proof.
  assert (Hwf : cart_wf sample.cart_sabun) by (repeat constructor).
  assert (Hb : cart.calculate_subtotal sample.cart_sabun < 2 ^ 44)
    by (vm_compute; reflexivity).
  destruct (C9_discount_amounts sample.env_wednesday (DiscountService_init None)
              sample.cart_sabun (Some sample.budi) Hwf Hb) as (_ & _ & Htot & _).
  split; [exact Hwf|]. split; [exact Hb|]. split; [reflexivity|].
  destruct (Htot 7000 default_rates_written eq_refl) as (Hsum & _ & Hcat).
  split; [exact Hsum|]. exact (Hcat KEBUTUHAN).
Defined.

(** C9 as stated fails outside this range, where the binary64 product lands
    on another integer than the floor.  A senior strategy built with 29%,
    a rate between 0 and 1, applies to a customer of 65 with a cart of 100:
    [int(100 * 0.29)] is 28, the floor is 29.  With the program's own 7% on
    three food items of 400,000,000,000,019 each the bulk strategy applies
    to the food subtotal 1,200,000,000,000,057: [int(subtotal * 0.07)] is
    84,000,000,000,004, the floor is 84,000,000,000,003. *)
Lemma C9_counterexample :
  cart_wf sample.cart_opa /\
  cart.calculate_subtotal sample.cart_opa = 100 /\
  (0 <= SeniorDiscountStrategy.percentage sample.senior_29)%Q /\
  (SeniorDiscountStrategy.percentage sample.senior_29 <= 1)%Q /\
  SeniorDiscountStrategy.is_applicable sample.senior_29 sample.cart_opa
    (Some sample.opa) = true /\
  binary64.py_int_mul (cart.calculate_subtotal sample.cart_opa)
    (SeniorDiscountStrategy.percentage sample.senior_29) = Some 28 /\
  floor_of (cart.calculate_subtotal sample.cart_opa)
    (SeniorDiscountStrategy.percentage sample.senior_29) = 29 /\
  cart_wf sample.cart_large /\
  qualifies sample.cart_large MAKANAN = true /\
  category_subtotal sample.cart_large MAKANAN = 1200000000000057 /\
  binary64.py_int_mul (category_subtotal sample.cart_large MAKANAN) 0.07%Q
    = Some 84000000000004 /\
  floor_of (category_subtotal sample.cart_large MAKANAN) 0.07%Q = 84000000000003.
Proof.
  split; [repeat constructor|]. split; [reflexivity|].
  split; [discriminate|]. split; [discriminate|]. split; [reflexivity|].
  split; [vm_compute; reflexivity|]. split; [reflexivity|].
  split; [repeat constructor|]. split; [reflexivity|]. split; [reflexivity|].
  split; vm_compute; reflexivity.
Qed.

End DiscountClaims.

(* ================================================================== *)
(** ** Items grouped by category and the category tax *)

Section Groups.
Import product cart props.

Lemma dict_get_none_keys {V : Type} (d : list (KategoriBarang * V))
  (k : KategoriBarang) :
  dict_get KategoriBarang_eqb d k = None <-> ~ In k (dict_keys d).
Proof.
  induction d as [|[k0 v0] d IH]; simpl.
  - split; auto.
  - destruct (KategoriBarang_eqb k0 k) eqn:E.
    + apply KategoriBarang_eqb_eq in E. split; [discriminate|]. intros H.
      exfalso. apply H. now left.
    + apply KategoriBarang_eqb_neq in E. rewrite IH. split.
      * intros H [H'|H']; auto.
      * intros H H'. apply H. now right.
Qed.

Lemma dict_set_keys {V : Type} (d : list (KategoriBarang * V))
  (k : KategoriBarang) (v : V) :
  dict_keys (dict_set KategoriBarang_eqb d k v) =
  match dict_get KategoriBarang_eqb d k with
  | Some _ => dict_keys d
  | None => dict_keys d ++ [k]
  end.
Proof.
  unfold dict_keys.
  induction d as [|[k0 v0] d IH]; simpl; [reflexivity|].
  destruct (KategoriBarang_eqb k0 k) eqn:E; simpl; [reflexivity|].
  rewrite IH.
  now destruct (dict_get KategoriBarang_eqb d k).
Qed.

Lemma dict_set_keys_nodup {V : Type} (d : list (KategoriBarang * V))
  (k : KategoriBarang) (v : V) :
  NoDup (dict_keys d) -> NoDup (dict_keys (dict_set KategoriBarang_eqb d k v)).
Proof.
  intros Hnd. rewrite dict_set_keys.
  destruct (dict_get KategoriBarang_eqb d k) eqn:E; [exact Hnd|].
  apply dict_get_none_keys in E.
  apply NoDup_app; [exact Hnd|repeat constructor; auto|].
  intros x Hx [<-|[]]. contradiction.
Qed.

Lemma dict_in_get {V : Type} (d : list (KategoriBarang * V))
  (k : KategoriBarang) (v : V) :
  NoDup (dict_keys d) -> In (k, v) d -> dict_get KategoriBarang_eqb d k = Some v.
Proof.
  induction d as [|[k0 v0] d IH]; simpl; [contradiction|].
  intros Hnd [H|H].
  - injection H as -> ->. now rewrite KategoriBarang_eqb_refl.
  - inversion Hnd as [|? ? Hnot Hnd']; subst.
    destruct (KategoriBarang_eqb k0 k) eqn:E; [|now apply IH].
    apply KategoriBarang_eqb_eq in E. subst k0.
    exfalso. apply Hnot. unfold dict_keys. change k with (fst (k, v)).
    now apply in_map.
Qed.

Lemma filter_app_one (k : KategoriBarang) (pre : list ProductItem) (x : ProductItem) :
  filter (of_category k) (pre ++ [x]) =
  filter (of_category k) pre ++ (if KategoriBarang_eqb (kategori x) k then [x] else []).
Proof. rewrite filter_app. reflexivity. Qed.

Lemma groups_step_inv (pre : list ProductItem) (x : ProductItem)
  (acc : list (KategoriBarang * list ProductItem)) :
  groups_inv pre acc -> groups_inv (pre ++ [x]) (groups_step acc x).
Proof.
  intros [Hnd Hget]. split.
  - now apply dict_set_keys_nodup.
  - intros k. unfold groups_step. rewrite dict_get_set, filter_app_one.
    destruct (KategoriBarang_eqb (kategori x) k) eqn:E.
    + apply KategoriBarang_eqb_eq in E. rewrite E, Hget.
      destruct (filter (of_category k) pre); reflexivity.
    + rewrite app_nil_r. apply Hget.
Qed.

Lemma groups_fold_inv (l : list ProductItem) :
  forall pre acc, groups_inv pre acc ->
                  groups_inv (pre ++ l) (fold_left groups_step l acc).
Proof.
  induction l as [|x l IH]; intros pre acc Hinv; cbn [fold_left].
  - now rewrite app_nil_r.
  - replace (pre ++ x :: l) with ((pre ++ [x]) ++ l)
      by (rewrite <- app_assoc; reflexivity).
    apply IH. now apply groups_step_inv.
Qed.

(** [get_items_by_category] maps each category that occurs in the cart, once,
    to the items of that category in cart order. *)
Lemma items_by_category_spec (c : ShoppingCart) :
  NoDup (categories_present c) /\
  (forall k its, In (k, its) (get_items_by_category c) ->
                 its = items_of c k /\ its <> []) /\
  (forall k, In k (categories_present c) <-> items_of c k <> []).
Proof.
  assert (Hinv : groups_inv (get_all_items c) (get_items_by_category c)).
  { unfold get_items_by_category, get_all_items.
    change (fold_left _ (dict_values (items c)) [])
      with (fold_left groups_step (dict_values (items c)) []).
    apply (groups_fold_inv (dict_values (items c)) [] []).
    split; [constructor|reflexivity]. }
  destruct Hinv as [Hnd Hget]. unfold categories_present.
  split; [exact Hnd|]. split.
  - intros k its Hin. apply (dict_in_get _ _ _ Hnd) in Hin.
    rewrite Hget in Hin. unfold items_of.
    destruct (filter (of_category k) (get_all_items c)); [discriminate|].
    injection Hin as <-. split; [reflexivity|discriminate].
  - intros k. unfold items_of.
    destruct (filter (of_category k) (get_all_items c)) eqn:E.
    + split; [|congruence]. intros Hin. exfalso.
      apply (proj1 (dict_get_none_keys (get_items_by_category c) k));
        [|exact Hin].
      rewrite Hget, E. reflexivity.
    + split; [discriminate|]. intros _.
      destruct (in_dec (fun a b : KategoriBarang =>
                  ltac:(decide equality) : {a = b} + {a <> b})
                  k (dict_keys (get_items_by_category c))) as [H|H];
        [exact H|].
      apply dict_get_none_keys in H. rewrite Hget, E in H. discriminate.
Qed.

End Groups.

Section CategoryTax.
Import product props tax_service.

Lemma category_rate_get (k : KategoriBarang) :
  dict_get KategoriBarang_eqb CategoryBasedTaxStrategy.category_tax_rates k
  = Some (category_rate k).
Proof. now destruct k. Qed.

Lemma category_tax_loop (c : cart.ShoppingCart)
  (groups : list (KategoriBarang * list ProductItem)) :
  cart_wf c ->
  (forall k its, In (k, its) groups -> its = items_of c k) ->
  forall acc,
  CategoryBasedTaxStrategy.loop groups acc =
  Ok (acc ++ map (category_tax_detail c) (dict_keys groups)).
Proof.
  intros Hwf. induction groups as [|[k its] groups IH]; intros Hg acc;
    cbn [CategoryBasedTaxStrategy.loop dict_keys map fst].
  - now rewrite app_nil_r.
  - rewrite category_rate_get.
    rewrite (Hg k its (or_introl eq_refl)).
    fold (category_subtotal c k).
    rewrite TaxDetail_init_ok.
    + cbn [bind]. unfold dict_keys in IH. rewrite IH.
      * rewrite <- app_assoc. unfold category_tax_detail, floor_of.
        rewrite py_int_floor;
          [reflexivity|now apply category_subtotal_nonneg|destruct k; simpl; lia].
      * intros k' its' Hin. apply Hg. now right.
    + destruct k; simpl; lia.
    + apply py_int_nonneg; [now apply category_subtotal_nonneg|].
      destruct k; simpl; lia.
    + now apply category_subtotal_nonneg.
Qed.

(** The category tax: nothing unless the post-discount amount exceeds
    50,000; then one record per category in the cart, each computed on the
    item total of its category. *)
Lemma category_tax_value (s : Z) (c : cart.ShoppingCart)
  (cust : option customer.Customer) :
  cart_wf c ->
  CategoryBasedTaxStrategy.calculate_tax s c cust =
  Ok (if 50000 <? s
      then map (category_tax_detail c) (categories_present c)
      else []).
Proof.
  intros Hwf.
  unfold CategoryBasedTaxStrategy.calculate_tax,
    CategoryBasedTaxStrategy.is_applicable, CategoryBasedTaxStrategy.threshold.
  destruct (50000 <? s); [|reflexivity]. cbn [negb].
  rewrite (category_tax_loop c _ Hwf); [reflexivity|].
  intros k its Hin. now apply (items_by_category_spec c).
Qed.


End CategoryTax.

(* ================================================================== *)
(** ** The tax service by mode *)

Section TaxModes.
Import product props tax_service.

(** A standard or luxury record with a positive amount is computed on the
    whole amount [s] it was given. *)
Lemma standard_detail_base (st : StandardTaxStrategy.t) (s : Z) :
  standard_wf st ->
  0 < amount (standard_detail st s) ->
  taxable_amount (standard_detail st s) = s /\
  amount (standard_detail st s) = floor_of s (rate (standard_detail st s)) /\
  rate (standard_detail st s) = StandardTaxStrategy.tax_rate st.
Proof.
  intros (Hr0 & _ & Hth). unfold standard_detail.
  destruct (StandardTaxStrategy.threshold st <? s) eqn:E; simpl; [|lia].
  intros _. apply Z.ltb_lt in E. split; [reflexivity|]. split; [|reflexivity].
  apply py_int_floor; lia.
Qed.

Lemma luxury_detail_base (s : Z) :
  0 < amount (luxury_detail s) ->
  taxable_amount (luxury_detail s) = s /\
  amount (luxury_detail s) = floor_of s (rate (luxury_detail s)).
Proof.
  unfold luxury_detail, luxury_bracket.
  destruct (2000000 <=? s) eqn:E3; simpl.
  { intros _. apply Z.leb_le in E3. split; [reflexivity|].
    apply py_int_floor; simpl; lia. }
  destruct (1000000 <=? s) eqn:E2; simpl.
  { intros _. apply Z.leb_le in E2. split; [reflexivity|].
    apply py_int_floor; simpl; lia. }
  destruct (500000 <=? s) eqn:E1; simpl; [|lia].
  intros _. apply Z.leb_le in E1. split; [reflexivity|].
  apply py_int_floor; simpl; lia.
Qed.

(** A record of the standard strategy with a positive amount, whatever the
    settings of the strategy: the constructor of the record lets it through
    only with a rate and a taxable amount that are not negative. *)
Lemma standard_calc_inv (st : StandardTaxStrategy.t) (s : Z)
  (c : cart.ShoppingCart) (cust : option customer.Customer) (d : TaxDetail) :
  StandardTaxStrategy.calculate_tax st s c cust = Ok d ->
  0 <= amount d /\
  (0 < amount d -> taxable_amount d = s /\ amount d = floor_of s (rate d)).
Proof.
  unfold StandardTaxStrategy.calculate_tax.
  destruct (negb _); intros Hd.
  - injection Hd as <-. simpl. split; lia.
  - unfold TaxDetail_init in Hd.
    destruct (Qle_bool 0 (StandardTaxStrategy.tax_rate st)) eqn:Hr;
      cbn [negb] in Hd; [|discriminate].
    destruct (_ <? 0) eqn:Ha in Hd; [discriminate|].
    destruct (s <? 0) eqn:Hs; [discriminate|].
    injection Hd as <-. cbn.
    apply Qle_bool_nonneg in Hr. apply Z.ltb_ge in Ha. apply Z.ltb_ge in Hs.
    split; [exact Ha|]. intros _. split; [reflexivity|].
    now apply py_int_floor.
Qed.

(** In every mode but the category mode each record that
    [TaxService.calculate_tax] returns is computed on the amount [s] it was
    given. *)
Lemma calculate_tax_flat_base (svc : TaxService) (s : Z) (c : cart.ShoppingCart)
  (cust : option customer.Customer) (taxes : list TaxDetail) :
  String.eqb (tax_mode svc) "category" = false ->
  calculate_tax svc s c cust = Ok taxes ->
  forall x, In x taxes ->
    taxable_amount x = s /\ amount x = floor_of s (rate x).
Proof.
  intros Hm. unfold calculate_tax. rewrite Hm, luxury_tax_value.
  pose proof (luxury_detail_nonneg s) as Hlx.
  destruct (String.eqb (tax_mode svc) "standard").
  { destruct (StandardTaxStrategy.calculate_tax _ s c cust) as [d|e] eqn:Hd;
      cbn [bind]; [|discriminate].
    destruct (standard_calc_inv _ s c cust d Hd) as [_ Hbase].
    destruct (0 <? amount d) eqn:E; intros [= <-] x; [|contradiction].
    intros [<-|[]]. apply Hbase. now apply Z.ltb_lt. }
  destruct (String.eqb (tax_mode svc) "luxury").
  { cbn [bind]. destruct (0 <? amount (luxury_detail s)) eqn:E;
      intros [= <-] x; [|contradiction].
    intros [<-|[]]. apply luxury_detail_base. now apply Z.ltb_lt. }
  destruct (String.eqb (tax_mode svc) "combined");
    [|intros [= <-] x; contradiction].
  destruct (StandardTaxStrategy.calculate_tax _ s c cust) as [d|e] eqn:Hd;
    cbn [bind]; [|discriminate].
  destruct (standard_calc_inv _ s c cust d Hd) as [Hnn Hbase].
  destruct (amount d <? amount (luxury_detail s)) eqn:E.
  { intros [= <-] x [<-|[]]. apply Z.ltb_lt in E. apply luxury_detail_base. lia. }
  destruct (0 <? amount d) eqn:E0; intros [= <-] x; [|contradiction].
  intros [<-|[]]. apply Hbase. now apply Z.ltb_lt.
Qed.

(** In category mode the list is that of the category strategy. *)
Lemma calculate_tax_category (svc : TaxService) (s : Z) (c : cart.ShoppingCart)
  (cust : option customer.Customer) :
  tax_mode svc = "category"%string -> cart_wf c ->
  calculate_tax svc s c cust =
  Ok (if 50000 <? s
      then map (category_tax_detail c) (categories_present c)
      else []).
Proof.
  intros Hm Hwf. unfold calculate_tax. rewrite Hm.
  change (String.eqb "category" "standard") with false.
  change (String.eqb "category" "category") with true.
  cbv iota. rewrite (category_tax_value s c cust Hwf). reflexivity.
Qed.

(** Outside category mode a record is made only for an amount that is not
    negative. *)
Lemma calculate_tax_flat_nonneg (svc : TaxService) (s : Z) (c : cart.ShoppingCart)
  (cust : option customer.Customer) (taxes : list TaxDetail) :
  String.eqb (tax_mode svc) "category" = false ->
  calculate_tax svc s c cust = Ok taxes ->
  forall x, In x taxes -> 0 <= s.
Proof.
  intros Hm Hcalc x Hx.
  destruct (calculate_tax_flat_base svc s c cust taxes Hm Hcalc x Hx) as [Hbase _].
  revert Hcalc. unfold calculate_tax. rewrite Hm, luxury_tax_value.
  assert (Hst : forall d, StandardTaxStrategy.calculate_tax (standard_strategy svc)
                            s c cust = Ok d -> 0 < amount d -> 0 <= s).
  { intros d. unfold StandardTaxStrategy.calculate_tax.
    destruct (negb _); intros Hd.
    - injection Hd as <-. cbn. lia.
    - unfold TaxDetail_init in Hd.
      destruct (negb _); [discriminate|].
      destruct (_ <? 0) in Hd; [discriminate|].
      destruct (s <? 0) eqn:Hs; [discriminate|].
      intros _. now apply Z.ltb_ge in Hs. }
  assert (Hlx : 0 < amount (luxury_detail s) -> 0 <= s).
  { unfold luxury_detail, luxury_bracket.
    destruct (2000000 <=? s) eqn:E3; [apply Z.leb_le in E3; lia|].
    destruct (1000000 <=? s) eqn:E2; [apply Z.leb_le in E2; lia|].
    destruct (500000 <=? s) eqn:E1; [apply Z.leb_le in E1; lia|].
    cbn. lia. }
  pose proof (luxury_detail_nonneg s) as Hnn.
  destruct (String.eqb (tax_mode svc) "standard").
  { destruct (StandardTaxStrategy.calculate_tax _ s c cust) as [d|e] eqn:Hd;
      cbn [bind]; [|discriminate].
    destruct (0 <? amount d) eqn:E; intros [= <-]; [|contradiction].
    apply (Hst d eq_refl). now apply Z.ltb_lt. }
  destruct (String.eqb (tax_mode svc) "luxury").
  { cbn [bind]. destruct (0 <? amount (luxury_detail s)) eqn:E;
      intros [= <-]; [|contradiction].
    apply Hlx. now apply Z.ltb_lt. }
  destruct (String.eqb (tax_mode svc) "combined");
    [|intros [= <-]; contradiction].
  destruct (StandardTaxStrategy.calculate_tax _ s c cust) as [d|e] eqn:Hd;
    cbn [bind]; [|discriminate].
  destruct (standard_calc_inv _ s c cust d Hd) as [Hd0 _].
  destruct (amount d <? amount (luxury_detail s)) eqn:E.
  { intros _. apply Z.ltb_lt in E. apply Hlx. lia. }
  destruct (0 <? amount d) eqn:E0; intros [= <-]; [|contradiction].
  apply (Hst d eq_refl). now apply Z.ltb_lt.
Qed.

Lemma category_rate_written (k : KategoriBarang) : In (category_rate k) program_rates.
Proof. unfold program_rates. destruct k; cbn; auto 10. Qed.

Ltac by_mode svc s :=
  destruct (String.eqb (tax_mode svc) "standard");
  [ now destruct (0 <? amount (standard_detail (standard_strategy svc) s)) | ];
  try (destruct (String.eqb (tax_mode svc) "category"); [reflexivity|]);
  destruct (String.eqb (tax_mode svc) "luxury");
  [ now destruct (0 <? amount (luxury_detail s)) | ];
  destruct (String.eqb (tax_mode svc) "combined"); [|reflexivity];
  destruct (amount (standard_detail (standard_strategy svc) s)
            <? amount (luxury_detail s)); [reflexivity|];
  now destruct (0 <? amount (standard_detail (standard_strategy svc) s)).


(** Outside category mode no cart is read: the list is that of the mode for
    any cart. *)
Lemma calculate_tax_value_flat (svc : TaxService) (s : Z) (c : cart.ShoppingCart)
  (cust : option customer.Customer) :
  String.eqb (tax_mode svc) "category" = false ->
  standard_wf (standard_strategy svc) ->
  calculate_tax svc s c cust = Ok (tax_of_mode svc s c).
Proof.
  intros Hm Hst. unfold calculate_tax, tax_of_mode. cbv zeta.
  rewrite (standard_tax_value _ s c cust Hst), luxury_tax_value, Hm.
  cbn [bind]. by_mode svc s.
Qed.


(** In standard, luxury and combined mode (and with an unknown mode) every
    record of the list is computed on the amount [s] given to the service. *)
Lemma tax_of_mode_base (svc : TaxService) (s : Z) (c : cart.ShoppingCart)
  (t : TaxDetail) :
  String.eqb (tax_mode svc) "category" = false ->
  standard_wf (standard_strategy svc) ->
  In t (tax_of_mode svc s c) ->
  taxable_amount t = s /\ amount t = floor_of s (rate t).
Proof.
  intros Hm Hwst. unfold tax_of_mode. cbv zeta. rewrite Hm.
  pose proof (standard_detail_nonneg _ s Hwst) as Hst.
  destruct (String.eqb (tax_mode svc) "standard").
  { destruct (0 <? amount (standard_detail _ s)) eqn:E; [|contradiction].
    intros [<-|[]]. apply Z.ltb_lt in E.
    destruct (standard_detail_base _ s Hwst E) as (H1 & H2 & _). auto. }
  destruct (String.eqb (tax_mode svc) "luxury").
  { destruct (0 <? amount (luxury_detail s)) eqn:E; [|contradiction].
    intros [<-|[]]. apply Z.ltb_lt in E. now apply luxury_detail_base. }
  destruct (String.eqb (tax_mode svc) "combined"); [|contradiction].
  destruct (amount (standard_detail _ s) <? amount (luxury_detail s)) eqn:E.
  { intros [<-|[]]. apply Z.ltb_lt in E. apply luxury_detail_base. lia. }
  destruct (0 <? amount (standard_detail _ s)) eqn:E0; [|contradiction].
  intros [<-|[]]. apply Z.ltb_lt in E0.
  destruct (standard_detail_base _ s Hwst E0) as (H1 & H2 & _). auto.
Qed.

End TaxModes.

(* ================================================================== *)
(** ** The orchestrator *)

Section Orchestrator.
Import product props transaction transaction_service.
Variable env : Env.

(** What a computed breakdown consists of. *)
Lemma totals_inv (o : TransactionOrchestrator) (c : cart.ShoppingCart) (tt : Totals) :
  calculate_transaction_totals env o c = Ok tt ->
  t_subtotal tt = cart.calculate_subtotal c /\
  discount_service.calculate_all_discounts env (discount_service o) c
    (cart.customer c) = Ok (t_discounts tt) /\
  t_total_discount tt = sum (map amount (t_discounts tt)) /\
  t_subtotal_after_discount tt = t_subtotal tt - t_total_discount tt /\
  tax_service.calculate_tax (tax_service o) (t_subtotal_after_discount tt) c
    (cart.customer c) = Ok (t_taxes tt) /\
  t_total_tax tt = sum (map tax_service.amount (t_taxes tt)) /\
  t_total_amount tt = t_subtotal_after_discount tt + t_total_tax tt.
Proof.
  unfold calculate_transaction_totals.
  destruct (discount_service.calculate_all_discounts _ _ _ _) as [ds|e];
    cbn [bind]; [|discriminate].
  destruct (tax_service.calculate_tax _ _ _ _) as [taxes|e] eqn:Htax;
    cbn [bind]; [|discriminate].
  intros [= <-]. cbn. repeat split. exact Htax.
Qed.


Lemma floor_of_share (x : Z) (r : Q) (n : Z) :
  0 <= x -> 0 <= Qnum r -> 0 < n -> n * Qnum r <= Zpos (Qden r) ->
  0 <= floor_of x r /\ n * floor_of x r <= x.
Proof.
  intros Hx Hr Hn Hle. unfold floor_of. destruct r as [p q]. simpl in *.
  assert (H1 := Z.mul_div_le (x * p) (Zpos q) ltac:(lia)).
  assert (H0 : 0 <= x * p / Zpos q) by (apply Z.div_pos; nia).
  split; [exact H0|].
  assert (Zpos q * (n * (x * p / Zpos q)) <= Zpos q * x) by nia.
  apply Z.mul_le_mono_pos_l in H; lia.
Qed.

Lemma floor_of_percent (x : Z) (p : Z) :
  0 <= x -> 0 <= p ->
  0 <= floor_of x (p # 100) /\ 100 * floor_of x (p # 100) <= p * x.
Proof.
  intros Hx Hp. unfold floor_of.
  change (Qfloor (inject_Z x * (p # 100))) with (x * p / 100).
  assert (H1 := Z.mul_div_le (x * p) 100 ltac:(lia)).
  assert (H0 : 0 <= x * p / 100) by (apply Z.div_pos; nia).
  split; [exact H0|]. lia.
Qed.

Lemma rate_of_default_share (s : discount_service.DiscountStrategy)
  (cust : option customer.Customer) (x : Z) :
  0 <= x ->
  In s (discount_service.strategies (discount_service.DiscountService_init None)) ->
  0 <= floor_of x (rate_of env s cust) /\
  (s = discount_service.Senior discount_service.SeniorDiscountStrategy.default ->
     10 * floor_of x (rate_of env s cust) <= x) /\
  (s = discount_service.Member -> 4 * floor_of x (rate_of env s cust) <= x) /\
  (s = discount_service.DayOfWeek -> 5 * floor_of x (rate_of env s cust) <= x).
Proof.
  intros Hx [<-|[<-|[<-|[]]]]; cbn [rate_of].
  - destruct (floor_of_share x 0.10%Q 10 Hx) as [H0 H1]; simpl; try lia.
    simpl in *. repeat split; auto; discriminate.
  - assert (H : 0 <= Qnum (match cust with Some cu => member_rate cu | None => 0%Q end)
              /\ 4 * Qnum (match cust with Some cu => member_rate cu | None => 0%Q end)
                 <= Zpos (Qden (match cust with Some cu => member_rate cu | None => 0%Q end))).
    { destruct cust as [cu|]; [apply member_rate_range|simpl; lia]. }
    destruct H as [Ha Hb].
    destruct (floor_of_share x _ 4 Hx Ha ltac:(lia) Hb) as [H0 H1].
    repeat split; auto; discriminate.
  - destruct (day_rate_range (weekday env)) as [Ha Hb].
    destruct (floor_of_share x _ 5 Hx Ha ltac:(lia) Hb) as [H0 H1].
    repeat split; auto; discriminate.
Qed.


End Orchestrator.

(* ================================================================== *)
(** ** Validation and creation of a transaction *)

Section Creation.
Import product props transaction transaction_service.
Variable env : Env.

(** The outcome of the validation once the breakdown is known. *)
Lemma validate_value (o : TransactionOrchestrator) (c : cart.ShoppingCart)
  (payment_amount : Z) (tt : Totals) :
  calculate_transaction_totals env o c = Ok tt ->
  validate_transaction_data env o c payment_amount =
  Ok (mkValidation
        (negb (cart.is_empty c)
         && (match cart.customer c with Some _ => true | None => false end)
         && negb (payment_amount <? 0))
        (expected_errors c payment_amount)
        (expected_warnings (t_total_amount tt) payment_amount)).
Proof.
  intros Htt. unfold validate_transaction_data. rewrite Htt. cbn [bind].
  unfold PaymentProcessor.validate_payment, expected_errors, expected_warnings.
  change (existsb (String.eqb "cash") PaymentProcessor.supported_methods) with true.
  cbn [negb].
  destruct (cart.is_empty c), (cart.customer c), (payment_amount <? 0);
    cbn; try reflexivity;
    destruct (t_total_amount tt <=? payment_amount); reflexivity.
Qed.

(** The validation raises only if the breakdown does. *)
Lemma validate_raises (o : TransactionOrchestrator) (c : cart.ShoppingCart)
  (payment_amount : Z) (e : exn) :
  calculate_transaction_totals env o c = Raise e ->
  validate_transaction_data env o c payment_amount = Raise e.
Proof.
  intros Htt. unfold validate_transaction_data. now rewrite Htt.
Qed.

Lemma rstrip_keeps (ch : ascii) (s : string) :
  is_space ch = false -> str_falsy (rstrip (String ch s)) = false.
Proof.
  intros H. cbn [rstrip]. destruct (rstrip s); [now rewrite H|reflexivity].
Qed.

(** A generated id passes the tests on ids. *)
Lemma generated_id_ok :
  str_falsy (generate_transaction_id env) = false /\
  str_falsy (strip (generate_transaction_id env)) = false.
Proof.
  unfold generate_transaction_id. cbn [String.append].
  split; [reflexivity|].
  unfold strip. cbn [lstrip].
  change (is_space "T") with false. cbv iota.
  now apply rstrip_keeps.
Qed.

Lemma fold_append_discount (ds : list DiscountDetail) :
  forall t,
  fold_left append_discount ds t =
  mkTransaction (transaction_id t) (cart t) (customer t) (subtotal t)
    (discounts t ++ ds) (tax_amount t) (total_amount t) (payment t)
    (status t) (created_at t) (completed_at t).
Proof.
  induction ds as [|d ds IH]; intros t; cbn [fold_left].
  - rewrite app_nil_r. now destruct t.
  - rewrite IH. cbn. now rewrite <- app_assoc.
Qed.

Lemma is_empty_len (c : cart.ShoppingCart) : (cart.len c =? 0) = cart.is_empty c.
Proof. reflexivity. Qed.

Lemma payment_init_of (total payment_amount : Z) (method : string)
  (installments_ : option (list Z)) :
  let p := payment_of total payment_amount method installments_ in
  PaymentDetail_init (amount_paid p) (payment_method p) (change_amount p)
    (installments p) =
  if amount_paid p <? 0
  then Raise (ValueError "Jumlah pembayaran tidak boleh negatif")
  else Ok p.
Proof.
  cbv zeta. unfold PaymentDetail_init.
  destruct (amount_paid _ <? 0); [reflexivity|].
  assert (H : (change_amount (payment_of total payment_amount method installments_) <? 0)
              = false).
  { apply Z.ltb_ge. unfold payment_of.
    destruct installments_ as [[|i l]|]; cbn [change_amount]; lia. }
  rewrite H. now destruct (payment_of _ _ _ _).
Qed.

(** The [try] block of [create_transaction], once the breakdown is known:
    the early return on an invalid validation, then the checks of the payment
    record and of the transaction, then the transaction. *)
Lemma create_try_value (svc : TransactionService) (c : cart.ShoppingCart)
  (payment_amount : Z) (method : string) (installments_ : option (list Z))
  (tt : Totals) :
  calculate_transaction_totals env (orchestrator svc) c = Ok tt ->
  create_transaction_try env svc c payment_amount method installments_ =
  if negb (negb (cart.is_empty c)
           && (match cart.customer c with Some _ => true | None => false end)
           && negb (payment_amount <? 0))
  then Ok None
  else
    let p := payment_of (t_total_amount tt) payment_amount method installments_ in
    if amount_paid p <? 0
    then Raise (ValueError "Jumlah pembayaran tidak boleh negatif")
    else if t_subtotal tt <? 0
    then Raise (ValueError "Subtotal tidak boleh negatif")
    else if t_total_tax tt <? 0
    then Raise (ValueError "Tax amount tidak boleh negatif")
    else if t_total_amount tt <? 0
    then Raise (ValueError "Total amount tidak boleh negatif")
    else Ok (Some (transaction_of env c tt payment_amount method installments_)).
Proof.
  intros Htt. unfold create_transaction_try.
  rewrite (validate_value _ c payment_amount tt Htt). cbn [bind v_is_valid].
  destruct (negb (cart.is_empty c) && _ && negb (payment_amount <? 0)) eqn:Hvalid;
    cbn [negb]; [|reflexivity].
  rewrite Htt. cbn [bind].
  assert (Hne : cart.is_empty c = false).
  { destruct (cart.is_empty c); [discriminate|reflexivity]. }
  pose proof (payment_init_of (t_total_amount tt) payment_amount method
                installments_) as Hpay.
  cbv zeta in Hpay |- *.
  assert (Hpay' :
    (let '(installments_0, actual_payment, change_amount_) :=
       match installments_ with
       | Some (i :: l) =>
           (i :: l,
            PaymentProcessor.total_paid
              (PaymentProcessor.process_installment_payment (t_total_amount tt) (i :: l)),
            PaymentProcessor.i_change_amount
              (PaymentProcessor.process_installment_payment (t_total_amount tt) (i :: l)))
       | _ => ([], payment_amount, Z.max 0 (payment_amount - t_total_amount tt))
       end in
     PaymentDetail_init actual_payment method change_amount_ installments_0)
    = PaymentDetail_init
        (amount_paid (payment_of (t_total_amount tt) payment_amount method installments_))
        (payment_method (payment_of (t_total_amount tt) payment_amount method installments_))
        (change_amount (payment_of (t_total_amount tt) payment_amount method installments_))
        (installments (payment_of (t_total_amount tt) payment_amount method installments_))).
  { destruct installments_ as [[|i l]|]; reflexivity. }
  transitivity
    (payment_ <- PaymentDetail_init
        (amount_paid (payment_of (t_total_amount tt) payment_amount method installments_))
        (payment_method (payment_of (t_total_amount tt) payment_amount method installments_))
        (change_amount (payment_of (t_total_amount tt) payment_amount method installments_))
        (installments (payment_of (t_total_amount tt) payment_amount method installments_)) ;;
     transaction <-
       build env
         (set_payment
           (set_total_amount
             (set_tax_amount
               (set_subtotal
                 (set_cart
                   (set_transaction_id TransactionBuilder_init
                      (generate_transaction_id env))
                   c)
                 (t_subtotal tt))
               (t_total_tax tt))
             (t_total_amount tt))
           payment_) ;;
     Ok (Some (fold_left append_discount (t_discounts tt) transaction))).
  { destruct installments_ as [[|i l]|]; reflexivity. }
  rewrite Hpay.
  destruct (amount_paid _ <? 0); [reflexivity|]. cbn [bind].
  unfold build, set_payment, set_total_amount, set_tax_amount, set_subtotal,
    set_cart, set_transaction_id, TransactionBuilder_init.
  cbn [b_transaction_id b_cart b_subtotal b_discounts b_tax_amount
       b_total_amount b_payment].
  destruct generated_id_ok as [Hid1 Hid2].
  rewrite Hid1, is_empty_len, Hne.
  unfold Transaction_init, validate_inputs.
  rewrite Hid1, Hid2, Hne. cbn [orb].
  destruct (t_subtotal tt <? 0); [reflexivity|].
  destruct (t_total_tax tt <? 0); [reflexivity|].
  destruct (t_total_amount tt <? 0); [reflexivity|].
  cbn [bind]. rewrite fold_append_discount. reflexivity.
Qed.

(** When [create_transaction] hands back a transaction, it is the one made
    from the breakdown of the cart, and the inputs passed the validation. *)
Lemma create_transaction_inv (svc : TransactionService) (c : cart.ShoppingCart)
  (payment_amount : Z) (method : string) (installments_ : option (list Z))
  (t : Transaction) (svc' : TransactionService) (c' : cart.ShoppingCart) :
  create_transaction env svc c payment_amount method installments_
    = (Some t, svc', c') ->
  exists tt,
    calculate_transaction_totals env (orchestrator svc) c = Ok tt /\
    t = transaction_of env c tt payment_amount method installments_ /\
    c' = cart.finalize_cart c /\
    cart.is_empty c = false /\ cart.customer c <> None /\ 0 <= payment_amount.
Proof.
  unfold create_transaction.
  destruct (calculate_transaction_totals env (orchestrator svc) c) as [tt|e] eqn:Htt.
  - rewrite (create_try_value svc c payment_amount method installments_ tt Htt).
    destruct (cart.is_empty c) eqn:Hem; cbn [negb andb]; [discriminate|].
    destruct (cart.customer c) as [cu|] eqn:Hcu; cbn [negb andb]; [|discriminate].
    destruct (payment_amount <? 0) eqn:Hpay; cbn [negb]; [discriminate|].
    cbv zeta.
    destruct (amount_paid _ <? 0); [discriminate|].
    destruct (t_subtotal tt <? 0); [discriminate|].
    destruct (t_total_tax tt <? 0); [discriminate|].
    destruct (t_total_amount tt <? 0); [discriminate|].
    intros [= <- _ <-]. exists tt. apply Z.ltb_ge in Hpay.
    repeat split; auto. discriminate.
  - unfold create_transaction_try.
    rewrite (validate_raises _ c payment_amount e Htt). discriminate.
Qed.

(** When it does hand one back. *)
Lemma create_transaction_ok (svc : TransactionService) (c : cart.ShoppingCart)
  (payment_amount : Z) (method : string) (installments_ : option (list Z))
  (tt : Totals) :
  calculate_transaction_totals env (orchestrator svc) c = Ok tt ->
  cart.is_empty c = false -> cart.customer c <> None -> 0 <= payment_amount ->
  0 <= amount_paid (payment_of (t_total_amount tt) payment_amount method installments_) ->
  0 <= t_subtotal tt -> 0 <= t_total_tax tt -> 0 <= t_total_amount tt ->
  fst (fst (create_transaction env svc c payment_amount method installments_))
  = Some (transaction_of env c tt payment_amount method installments_) /\
  snd (create_transaction env svc c payment_amount method installments_)
  = cart.finalize_cart c.
Proof.
  intros Htt Hem Hcu Hpay Hpaid Hs Htax Htot. unfold create_transaction.
  rewrite (create_try_value svc c payment_amount method installments_ tt Htt).
  rewrite Hem. destruct (cart.customer c); [|congruence].
  rewrite (proj2 (Z.ltb_ge _ _) Hpay). cbn [negb andb]. cbv zeta.
  rewrite (proj2 (Z.ltb_ge _ _) Hpaid), (proj2 (Z.ltb_ge _ _) Hs),
    (proj2 (Z.ltb_ge _ _) Htax), (proj2 (Z.ltb_ge _ _) Htot).
  split; reflexivity.
Qed.

End Creation.

Section CreationTotal.
Import product props transaction transaction_service.
Variable env : Env.

Lemma sum_map_nonneg {A : Type} (f : A -> Z) (l : list A) :
  Forall (fun x => 0 <= f x) l -> 0 <= sum (map f l).
Proof.
  intros H. apply sum_nonneg. induction H; simpl; constructor; auto.
Qed.





End CreationTotal.

(* ================================================================== *)
(** ** Properties of the transactions that are created *)

Section CreatedTransactions.
Import product props transaction transaction_service.

(** C1, as the code has it.  For every transaction that
    [create_transaction] hands back:
    - [total_amount = subtotal - (sum of the amounts of the discount list)
      + tax_amount], the subtotal being that of the cart;
    - the tax amount is the sum of the list that [TaxService.calculate_tax]
      returns when it is given the post-discount amount
      [subtotal - total discount];
    - in every mode but the category mode each record of that list is computed
      on the post-discount amount: it is its taxable amount, and when this
      amount is below 2^44 and the rate is one that the program writes the
      tax is [floor(rate * post-discount amount)], which is what
      [int(amount * rate)] gives in binary64;
    - in category mode the post-discount amount only decides whether tax is
      charged at all (it must exceed 50,000); the records are then one per
      category in the cart, each with the rate of the category and, as its
      taxable amount, the item total of that category as it stands in the
      cart; when the subtotal is below 2^44 the tax of each record is the
      floor of the rate times that item total, again the binary64 amount. *)
Theorem C1_total_invariant (env : Env) (svc : TransactionService)
  (c : cart.ShoppingCart) (payment_amount : Z) (method : string)
  (installments_ : option (list Z))
  (t : Transaction) (svc' : TransactionService) (c' : cart.ShoppingCart) :
  create_transaction env svc c payment_amount method installments_
    = (Some t, svc', c') ->
  total_amount t = subtotal t - sum (map amount (discounts t)) + tax_amount t /\
  subtotal t = cart.calculate_subtotal c /\
  exists taxes,
    tax_service.calculate_tax (tax_service (orchestrator svc))
      (subtotal t - sum (map amount (discounts t))) c (cart.customer c) = Ok taxes /\
    tax_amount t = sum (map tax_service.amount taxes) /\
    (String.eqb (tax_service.tax_mode (tax_service (orchestrator svc))) "category"
       = false ->
     forall x, In x taxes ->
       tax_service.taxable_amount x = subtotal t - sum (map amount (discounts t)) /\
       (subtotal t - sum (map amount (discounts t)) < 2 ^ 44 ->
        In (tax_service.rate x) program_rates ->
        tax_service.amount x =
          floor_of (subtotal t - sum (map amount (discounts t))) (tax_service.rate x) /\
        binary64.py_int_mul (subtotal t - sum (map amount (discounts t)))
          (tax_service.rate x) = Some (tax_service.amount x))) /\
    (tax_service.tax_mode (tax_service (orchestrator svc)) = "category"%string ->
     cart_wf c ->
     map (fun x => (tax_service.name x, tax_service.rate x,
                    tax_service.taxable_amount x)) taxes
     = (if 50000 <? subtotal t - sum (map amount (discounts t))
        then map (fun k => (tax_service.CategoryBasedTaxStrategy.tax_name k,
                            category_rate k, category_subtotal c k))
                 (categories_present c)
        else []) /\
     (subtotal t < 2 ^ 44 ->
      taxes = (if 50000 <? subtotal t - sum (map amount (discounts t))
               then map (category_tax_detail c) (categories_present c)
               else []) /\
      forall x, In x taxes ->
        binary64.py_int_mul (tax_service.taxable_amount x) (tax_service.rate x)
        = Some (tax_service.amount x))).
Proof.
  intros Hcreate.
  destruct (create_transaction_inv env svc c payment_amount method installments_
              t svc' c' Hcreate) as (tt & Htt & -> & _).
  destruct (totals_inv env _ c tt Htt) as (Hs & _ & Hd & Hpost & Htax & Htt' & Htot).
  cbn [transaction_of total_amount subtotal discounts tax_amount].
  rewrite <- Hd, <- Hpost.
  split; [lia|]. split; [exact Hs|].
  exists (t_taxes tt). split; [exact Htax|]. split; [exact Htt'|].
  split.
  - intros Hm x Hx.
    destruct (calculate_tax_flat_base (tax_service (orchestrator svc)) _ c
                (cart.customer c) (t_taxes tt) Hm Htax x Hx) as [Hbase Hamt].
    pose proof (calculate_tax_flat_nonneg (tax_service (orchestrator svc)) _ c
                  (cart.customer c) (t_taxes tt) Hm Htax x Hx) as H0.
    split; [exact Hbase|]. intros Hb Hr. split; [exact Hamt|].
    rewrite Hamt. apply amount_is_binary64; [exact Hr|lia].
  - intros Hm Hwf.
    rewrite (calculate_tax_category _ _ c _ Hm Hwf) in Htax.
    injection Htax as Htax. split.
    + rewrite <- Htax. destruct (50000 <? t_subtotal_after_discount tt);
        [|reflexivity].
      rewrite map_map. reflexivity.
    + intros Hb. split; [now rewrite Htax|].
      intros x Hx. rewrite <- Htax in Hx.
      destruct (50000 <? t_subtotal_after_discount tt); [|contradiction].
      apply in_map_iff in Hx. destruct Hx as (k & <- & _).
      cbn [category_tax_detail tax_service.taxable_amount tax_service.rate
           tax_service.amount].
      pose proof (category_subtotal_below c k Hwf) as Hk.
      apply amount_is_binary64; [apply category_rate_written|lia].
Qed.

(** A transaction in standard mode: two household items of 50,000 each, the
    7% bulk discount, no tax below 100,000. *)
Lemma C1_witness :
  exists t,
    fst (fst (create_transaction sample.env_wednesday
                (sample.service_with_mode "standard") sample.cart_sabun
                100000 "cash" None)) = Some t /\
    subtotal t = 100000 /\ sum (map amount (discounts t)) = 7000 /\
    tax_amount t = 0 /\
    total_amount t = subtotal t - sum (map amount (discounts t)) + tax_amount t.
Proof.
  eexists. split; [reflexivity|].
  split; [reflexivity|]. split; [reflexivity|]. split; [reflexivity|].
  exact (proj1 (C1_total_invariant sample.env_wednesday
                  (sample.service_with_mode "standard") sample.cart_sabun
                  100000 "cash" None _ _ _ eq_refl)).
Defined.

(** C1 as stated fails in category mode.  Two household items of 50,000
    each: subtotal 100,000, bulk discount 7,000, post-discount amount 93,000.
    The transaction is created with tax 12,000, which is 12% of the raw
    subtotal 100,000 (the taxable amount of the only tax record), not 12% of
    93,000 (11,160). *)
Lemma C1_counterexample :
  exists t x,
    fst (fst (create_transaction sample.env_wednesday
                (sample.service_with_mode "category") sample.cart_sabun
                200000 "cash" None)) = Some t /\
    subtotal t = 100000 /\
    subtotal t - sum (map amount (discounts t)) = 93000 /\
    tax_service.calculate_tax (tax_service.TaxService_init "category") 93000
      sample.cart_sabun (Some sample.budi) = Ok [x] /\
    tax_amount t = tax_service.amount x /\
    tax_service.taxable_amount x = subtotal t /\
    tax_service.amount x = 12000 /\
    tax_service.amount x = floor_of (subtotal t) (tax_service.rate x) /\
    floor_of 93000 (tax_service.rate x) = 11160 /\
    total_amount t = 105000.
Proof.
  eexists. eexists. split; [reflexivity|].
  split; [reflexivity|]. split; [reflexivity|].
  split; [vm_compute; reflexivity|].
  repeat split.
Qed.






End CreatedTransactions.

(* ================================================================== *)
(** ** Names: [strip] and [lower] *)

Section Names.
Import props.

Lemma is_space_lower_char (c : ascii) : is_space (lower_char c) = is_space c.
Proof.
  destruct c as [[] [] [] [] [] [] [] []]; reflexivity.
Qed.

Lemma lower_char_idem (c : ascii) : lower_char (lower_char c) = lower_char c.
Proof.
  destruct c as [[] [] [] [] [] [] [] []]; reflexivity.
Qed.

Lemma lower_idem (s : string) : lower (lower s) = lower s.
Proof.
  induction s as [|c s IH]; simpl; [reflexivity|].
  now rewrite lower_char_idem, IH.
Qed.

Lemma lower_falsy (s : string) : str_falsy (lower s) = str_falsy s.
Proof. destruct s; reflexivity. Qed.

Lemma lstrip_lower (s : string) : lstrip (lower s) = lower (lstrip s).
Proof.
  induction s as [|c s IH]; simpl; [reflexivity|].
  rewrite is_space_lower_char. destruct (is_space c); [exact IH|reflexivity].
Qed.

Lemma rstrip_lower (s : string) : rstrip (lower s) = lower (rstrip s).
Proof.
  induction s as [|c s IH]; simpl; [reflexivity|].
  rewrite IH, is_space_lower_char.
  destruct (rstrip s) as [|d r]; simpl.
  - destruct (is_space c); reflexivity.
  - reflexivity.
Qed.

Lemma strip_lower (s : string) : strip (lower s) = lower (strip s).
Proof. unfold strip. now rewrite lstrip_lower, rstrip_lower. Qed.

Lemma lstrip_clean (s : string) : starts_clean (lstrip s).
Proof.
  induction s as [|c s IH]; simpl; [exact I|].
  destruct (is_space c) eqn:E; [exact IH|exact E].
Qed.

Lemma lstrip_of_clean (s : string) : starts_clean s -> lstrip s = s.
Proof.
  destruct s as [|c s]; simpl; [reflexivity|]. now intros ->.
Qed.

Lemma rstrip_clean (s : string) : starts_clean s -> starts_clean (rstrip s).
Proof.
  destruct s as [|c s]; simpl; [trivial|]. intros E.
  destruct (rstrip s); simpl; [rewrite E|]; exact E.
Qed.

Lemma rstrip_idem (s : string) : rstrip (rstrip s) = rstrip s.
Proof.
  induction s as [|c s IH]; simpl; [reflexivity|].
  destruct (rstrip s) as [|d r] eqn:E.
  - destruct (is_space c) eqn:Ec; simpl; [reflexivity|]. now rewrite Ec.
  - change (rstrip (String c (String d r)) = String c (String d r)).
    simpl. simpl in IH. destruct (rstrip r) as [|d' r'] eqn:Er.
    + destruct (is_space d) eqn:Ed; [discriminate IH|]. now rewrite IH.
    + now rewrite IH.
Qed.

Lemma strip_idem (s : string) : strip (strip s) = strip s.
Proof.
  unfold strip.
  rewrite (lstrip_of_clean (rstrip (lstrip s))).
  - apply rstrip_idem.
  - apply rstrip_clean, lstrip_clean.
Qed.

(** The spelling under which products and cart lines are filed. *)
Lemma normal_idem (s : string) : lower (strip (lower (strip s))) = lower (strip s).
Proof. now rewrite strip_lower, strip_idem, lower_idem. Qed.

Lemma strip_normal (s : string) : strip (lower (strip s)) = lower (strip s).
Proof. now rewrite strip_lower, strip_idem. Qed.

End Names.

(* ================================================================== *)
(** ** Laws of the dict operations *)

Section DictLaws.
Context {K V : Type} (eqb : K -> K -> bool).
Hypothesis eqb_eq : forall a b, eqb a b = true <-> a = b.

Lemma eqb_same (a : K) : eqb a a = true.
Proof. now apply eqb_eq. Qed.

Lemma eqb_diff (a b : K) : a <> b -> eqb a b = false.
Proof.
  intros H. destruct (eqb a b) eqn:E; [|reflexivity].
  apply eqb_eq in E. contradiction.
Qed.

Lemma lookup_set (d : list (K * V)) (k k' : K) (v : V) :
  dict_get eqb (dict_set eqb d k v) k' =
  if eqb k k' then Some v else dict_get eqb d k'.
Proof.
  induction d as [|[a x] d IH]; simpl.
  - reflexivity.
  - destruct (eqb a k) eqn:E1; simpl.
    + apply eqb_eq in E1. subst a. destruct (eqb k k'); reflexivity.
    + destruct (eqb a k') eqn:E2.
      * apply eqb_eq in E2. subst a. now rewrite eqb_diff by (intros ->; rewrite eqb_same in E1; discriminate).
      * exact IH.
Qed.

Lemma lookup_none_keys (d : list (K * V)) (k : K) :
  dict_get eqb d k = None <-> ~ In k (dict_keys d).
Proof.
  unfold dict_keys. induction d as [|[a x] d IH]; simpl.
  - tauto.
  - destruct (eqb a k) eqn:E.
    + apply eqb_eq in E. split; [discriminate|]. intros H. exfalso. apply H. now left.
    + rewrite IH. split.
      * intros H [H1|H1]; [subst a; rewrite eqb_same in E; discriminate|auto].
      * intros H H1. apply H. now right.
Qed.

Lemma lookup_some_in (d : list (K * V)) (k : K) (v : V) :
  dict_get eqb d k = Some v -> In (k, v) d.
Proof.
  induction d as [|[a x] d IH]; simpl; [discriminate|].
  destruct (eqb a k) eqn:E.
  - apply eqb_eq in E. subst a. intros [= ->]. now left.
  - intros H. right. now apply IH.
Qed.

Lemma lookup_some_keys (d : list (K * V)) (k : K) (v : V) :
  dict_get eqb d k = Some v -> In k (dict_keys d).
Proof.
  intros H. apply lookup_some_in in H. unfold dict_keys.
  change k with (fst (k, v)). now apply in_map.
Qed.

Lemma in_lookup (d : list (K * V)) (k : K) (v : V) :
  NoDup (dict_keys d) -> In (k, v) d -> dict_get eqb d k = Some v.
Proof.
  unfold dict_keys. induction d as [|[a x] d IH]; simpl; [tauto|].
  intros Hn [H|H].
  - injection H as -> ->. now rewrite eqb_same.
  - inversion Hn as [|? ? Hna Hnd]; subst.
    destruct (eqb a k) eqn:E.
    + apply eqb_eq in E. subst a. exfalso. apply Hna.
      change k with (fst (k, v)). now apply in_map.
    + now apply IH.
Qed.

Lemma contains_keys (d : list (K * V)) (k : K) :
  dict_contains eqb d k = true <-> In k (dict_keys d).
Proof.
  unfold dict_contains. destruct (dict_get eqb d k) eqn:E.
  - split; [intros _|reflexivity]. eapply lookup_some_keys; eassumption.
  - apply lookup_none_keys in E. split; [discriminate|contradiction].
Qed.

Lemma keys_set (d : list (K * V)) (k : K) (v : V) :
  dict_keys (dict_set eqb d k v) =
  if dict_contains eqb d k then dict_keys d else dict_keys d ++ [k].
Proof.
  unfold dict_keys, dict_contains. induction d as [|[a x] d IH]; simpl.
  - reflexivity.
  - destruct (eqb a k) eqn:E; simpl; [reflexivity|].
    rewrite IH. destruct (dict_get eqb d k); reflexivity.
Qed.

Lemma keys_set_nodup (d : list (K * V)) (k : K) (v : V) :
  NoDup (dict_keys d) -> NoDup (dict_keys (dict_set eqb d k v)).
Proof.
  intros Hn. rewrite keys_set.
  destruct (dict_contains eqb d k) eqn:E; [exact Hn|].
  assert (Hk : ~ In k (dict_keys d)).
  { intros Hi. apply contains_keys in Hi. congruence. }
  apply NoDup_app; [exact Hn|constructor; [intros []|constructor]|].
  intros x Hx [<-|[]]. contradiction.
Qed.

Lemma keys_del_incl (d : list (K * V)) (k k' : K) :
  In k' (dict_keys (dict_del eqb d k)) -> In k' (dict_keys d).
Proof.
  unfold dict_keys. induction d as [|[a x] d IH]; simpl; [tauto|].
  destruct (eqb a k); simpl; [tauto|]. intros [H|H]; [now left|right; auto].
Qed.

Lemma keys_del_nodup (d : list (K * V)) (k : K) :
  NoDup (dict_keys d) -> NoDup (dict_keys (dict_del eqb d k)).
Proof.
  unfold dict_keys. induction d as [|[a x] d IH]; simpl; [trivial|].
  intros Hn. inversion Hn as [|? ? Hna Hnd]; subst.
  destruct (eqb a k); simpl; [exact Hnd|].
  constructor; [|auto]. intros Hi. apply Hna. eapply keys_del_incl. exact Hi.
Qed.

Lemma lookup_del_other (d : list (K * V)) (k k' : K) :
  k <> k' -> dict_get eqb (dict_del eqb d k) k' = dict_get eqb d k'.
Proof.
  intros Hk. induction d as [|[a x] d IH]; simpl; [reflexivity|].
  destruct (eqb a k) eqn:E; simpl.
  - apply eqb_eq in E. subst a. now rewrite eqb_diff.
  - now rewrite IH.
Qed.

Lemma lookup_del_same (d : list (K * V)) (k : K) :
  NoDup (dict_keys d) -> dict_get eqb (dict_del eqb d k) k = None.
Proof.
  unfold dict_keys. induction d as [|[a x] d IH]; simpl; [reflexivity|].
  intros Hn. inversion Hn as [|? ? Hna Hnd]; subst.
  destruct (eqb a k) eqn:E; simpl.
  - apply eqb_eq in E. subst a. now apply lookup_none_keys.
  - rewrite E. auto.
Qed.

Lemma length_set (d : list (K * V)) (k : K) (v : V) :
  List.length (dict_set eqb d k v) =
  (List.length d + if dict_contains eqb d k then 0 else 1)%nat.
Proof.
  unfold dict_contains. induction d as [|[a x] d IH]; simpl; [reflexivity|].
  destruct (eqb a k); simpl; [lia|]. rewrite IH.
  destruct (dict_get eqb d k); lia.
Qed.

Lemma length_del (d : list (K * V)) (k : K) :
  (List.length (dict_del eqb d k) + if dict_contains eqb d k then 1 else 0)%nat
  = List.length d.
Proof.
  unfold dict_contains. induction d as [|[a x] d IH]; simpl; [reflexivity|].
  destruct (eqb a k); simpl; [lia|].
  destruct (dict_get eqb d k); lia.
Qed.

Lemma sum_values_set (f : V -> Z) (d : list (K * V)) (k : K) (v : V) :
  sum (map f (dict_values (dict_set eqb d k v))) =
  sum (map f (dict_values d))
  - match dict_get eqb d k with Some o => f o | None => 0 end + f v.
Proof.
  unfold dict_values. induction d as [|[a x] d IH]; cbn [dict_set dict_get map snd].
  - rewrite sum_cons, sum_nil. lia.
  - destruct (eqb a k); cbn [map snd]; rewrite !sum_cons; [lia|]. rewrite IH. lia.
Qed.

Lemma sum_values_del (f : V -> Z) (d : list (K * V)) (k : K) :
  sum (map f (dict_values (dict_del eqb d k))) =
  sum (map f (dict_values d))
  - match dict_get eqb d k with Some o => f o | None => 0 end.
Proof.
  unfold dict_values. induction d as [|[a x] d IH]; cbn [dict_del dict_get map snd].
  - lia.
  - destruct (eqb a k); cbn [map snd]; rewrite !sum_cons; [lia|]. rewrite IH. lia.
Qed.

Lemma values_set_forall (P : V -> Prop) (d : list (K * V)) (k : K) (v : V) :
  Forall P (dict_values d) -> P v -> Forall P (dict_values (dict_set eqb d k v)).
Proof.
  unfold dict_values. intros Hd Hv. induction d as [|[a x] d IH]; simpl.
  - now constructor.
  - inversion Hd; subst. destruct (eqb a k); simpl; constructor; auto.
Qed.

Lemma values_del_forall (P : V -> Prop) (d : list (K * V)) (k : K) :
  Forall P (dict_values d) -> Forall P (dict_values (dict_del eqb d k)).
Proof.
  unfold dict_values. intros Hd. induction d as [|[a x] d IH]; simpl.
  - constructor.
  - inversion Hd; subst. destruct (eqb a k); simpl; [assumption|constructor; auto].
Qed.

Lemma entries_set_forall (P : K * V -> Prop) (d : list (K * V)) (k : K) (v : V) :
  Forall P d -> P (k, v) -> Forall P (dict_set eqb d k v).
Proof.
  intros Hd Hv. induction d as [|[a x] d IH]; simpl.
  - now constructor.
  - inversion Hd; subst. destruct (eqb a k) eqn:E; simpl.
    + apply eqb_eq in E. subst a. constructor; assumption.
    + constructor; auto.
Qed.

Lemma entries_del_forall (P : K * V -> Prop) (d : list (K * V)) (k : K) :
  Forall P d -> Forall P (dict_del eqb d k).
Proof.
  intros Hd. induction d as [|[a x] d IH]; simpl.
  - constructor.
  - inversion Hd; subst. destruct (eqb a k); simpl; [assumption|constructor; auto].
Qed.

End DictLaws.

(* ================================================================== *)
(** ** Products and line items *)

Section ProductItems.
Import product props.

Lemma Product_init_inv (n : string) (h : Z) (s : string) (k : KategoriBarang)
  (p : Product) :
  Product_init n h s k = Ok p ->
  p = mkProduct (lower (strip n)) h (lower (strip s)) k /\
  str_falsy (strip n) = false /\ 0 < h /\ str_falsy (strip s) = false.
Proof.
  unfold Product_init, validate_inputs. cbn [bind].
  destruct (str_falsy n || str_falsy (strip n)) eqn:E1; [discriminate|].
  destruct (h <=? 0) eqn:E2; [discriminate|].
  destruct (str_falsy s || str_falsy (strip s)) eqn:E3; [discriminate|].
  intros [= <-]. apply orb_false_iff in E1, E3. apply Z.leb_gt in E2. tauto.
Qed.

Lemma str_falsy_strip (s : string) :
  str_falsy (strip s) = false -> str_falsy s = false.
Proof. destruct s; [discriminate|reflexivity]. Qed.

Lemma Product_init_ok (n : string) (h : Z) (s : string) (k : KategoriBarang) :
  str_falsy (strip n) = false -> 0 < h -> str_falsy (strip s) = false ->
  Product_init n h s k = Ok (mkProduct (lower (strip n)) h (lower (strip s)) k).
Proof.
  intros Hn Hh Hs. unfold Product_init, validate_inputs.
  rewrite Hn, Hs, (str_falsy_strip _ Hn), (str_falsy_strip _ Hs).
  cbn [orb]. apply Z.leb_gt in Hh. now rewrite Hh.
Qed.

(** A product passes its own constructor unchanged. *)
Lemma Product_init_again (n : string) (h : Z) (s : string) (k : KategoriBarang)
  (p : Product) :
  Product_init n h s k = Ok p ->
  Product_init (nama p) (harga p) (satuan p) (kategori p) = Ok p.
Proof.
  intros H. apply Product_init_inv in H. destruct H as (-> & Hn & Hh & Hs).
  cbn [nama harga satuan kategori].
  rewrite Product_init_ok.
  - now rewrite !normal_idem.
  - now rewrite strip_normal, lower_falsy.
  - exact Hh.
  - now rewrite strip_normal, lower_falsy.
Qed.

Lemma Product_init_filed (n : string) (h : Z) (s : string) (k : KategoriBarang)
  (p : Product) :
  Product_init n h s k = Ok p -> filed (nama p) /\ 0 < harga p.
Proof.
  intros H. apply Product_init_inv in H. destruct H as (-> & _ & Hh & _).
  split; [apply normal_idem|exact Hh].
Qed.

Lemma ProductItem_init_filed (p : Product) (j : Z) (it : ProductItem) :
  ProductItem_init p j = Ok it -> filed (nama it) /\ item_wf it.
Proof.
  intros H. split; [|now apply (ProductItem_init_wf p j)].
  unfold ProductItem_init in H.
  destruct (Product_init (nama p) (harga p) (satuan p) (kategori p)) as [b|e] eqn:E;
    [|discriminate].
  cbn [bind] in H. destruct (j <=? 0); [discriminate|]. injection H as <-.
  cbn [base]. now apply Product_init_filed in E.
Qed.

(** X1. A line item made from a product keeps the product as it is: for a
    product that [Product] built and a positive quantity, [ProductItem]
    succeeds, and the second run of the validation and of the tidying of the
    name and the unit changes nothing; any other quantity is a [ValueError].
    The name filed is the name given, stripped and in lower case. *)
Theorem X1_item_keeps_product (nama_ : string) (harga_ : Z) (satuan_ : string)
  (k : KategoriBarang) (p : Product) (j : Z) :
  Product_init nama_ harga_ satuan_ k = Ok p ->
  nama p = lower (strip nama_) /\ harga p = harga_ /\
  ProductItem_init p j =
    (if j <=? 0
     then Raise (ValueError "Jumlah pembelian harus lebih dari 0")
     else Ok (mkProductItem p j)) /\
  (0 < j -> get_total_price (mkProductItem p j) = harga_ * j).
Proof.
  intros H. pose proof (Product_init_again _ _ _ _ _ H) as Ha.
  apply Product_init_inv in H. destruct H as (Hp & _).
  split; [now rewrite Hp|]. split; [now rewrite Hp|]. split.
  - unfold ProductItem_init. rewrite Ha. reflexivity.
  - intros _. rewrite Hp. reflexivity.
Qed.

Lemma X1_witness :
  exists p,
    Product_init "  Beras " 15000 "KG" MAKANAN = Ok p /\
    nama p = "beras"%string /\
    ProductItem_init p 3 = Ok (mkProductItem p 3) /\
    ProductItem_init p 0 = Raise (ValueError "Jumlah pembelian harus lebih dari 0").
Proof.
  eexists. split; [reflexivity|].
  destruct (X1_item_keeps_product "  Beras " 15000 "KG" MAKANAN _ 3 eq_refl)
    as (Hn & _ & H3 & _).
  destruct (X1_item_keeps_product "  Beras " 15000 "KG" MAKANAN _ 0 eq_refl)
    as (_ & _ & H0 & _).
  split; [exact Hn|]. split; [exact H3|exact H0].
Defined.

End ProductItems.

(* ================================================================== *)
(** ** The lines of a cart *)

Section CartLines.
Import product cart props.

Lemma cart_line_wf (c : ShoppingCart) (n : string) (it : ProductItem) :
  cart_wf c -> dict_get String.eqb (items c) n = Some it -> item_wf it.
Proof.
  intros Hwf Hg. unfold cart_wf, get_all_items in Hwf.
  rewrite Forall_forall in Hwf. apply Hwf.
  eapply dict_get_in_values. exact Hg.
Qed.

Lemma items_count_len (c : ShoppingCart) : items_count c = len c.
Proof. reflexivity. Qed.

(** X2. [add_item] on a cart that is not finalized returns True and files
    the item under its name.  When the name is new the item becomes a new
    line; when a line of that name is there, the quantities are added up
    and the line keeps its own price, unit and category, whatever the item
    added says.  Lines of other names stay as they are; the subtotal grows
    by the price of the line times the quantity added. *)
Theorem X2_add_item_merges (c : ShoppingCart) (it : ProductItem) :
  is_finalized c = false -> cart_wf c -> item_wf it -> filed (nama it) ->
  let c' := snd (add_item c it) in
  fst (add_item c it) = Ok true /\
  get_item c' (nama it) = Some (merged_line c it) /\
  (forall n, lower (strip n) <> nama it -> get_item c' n = get_item c n) /\
  calculate_subtotal c' = calculate_subtotal c + harga (merged_line c it) * jumlah it /\
  total_quantity c' = total_quantity c + jumlah it /\
  items_count c' = items_count c + (if contains c (nama it) then 0 else 1).
Proof.
  intros Hf Hwf Hit Hn. unfold merged_line, get_item, contains, dict_contains.
  rewrite Hn. unfold add_item. rewrite Hf.
  assert (Hc : forall its,
             calculate_subtotal (with_items c its)
             = sum (map get_total_price (dict_values its))) by reflexivity.
  assert (Hq : forall its,
             total_quantity (with_items c its)
             = sum (map jumlah (dict_values its))) by reflexivity.
  destruct (dict_get String.eqb (items c) (nama it)) as [old|] eqn:Eg.
  - pose proof (cart_line_wf c _ _ Hwf Eg) as [Hp Hj].
    destruct Hit as [Hip Hij].
    unfold set_jumlah.
    replace (jumlah old + jumlah it <=? 0) with false by (symmetry; apply Z.leb_gt; lia).
    cbn [fst snd items with_items].
    split; [reflexivity|]. split.
    { rewrite (lookup_set String.eqb String.eqb_eq), String.eqb_refl. reflexivity. }
    split.
    { intros n Hne. rewrite (lookup_set String.eqb String.eqb_eq).
      destruct (String.eqb (nama it) (lower (strip n))) eqn:E; [|reflexivity].
      apply String.eqb_eq in E. congruence. }
    split.
    { rewrite Hc, (sum_values_set String.eqb), Eg.
      unfold calculate_subtotal, get_total_price. cbn [base jumlah harga]. lia. }
    split.
    { rewrite Hq, (sum_values_set String.eqb), Eg.
      unfold total_quantity. cbn [jumlah]. lia. }
    unfold items_count, with_items. cbn [items]. rewrite (length_set String.eqb).
    unfold dict_contains. rewrite Eg. lia.
  - cbn [fst snd items with_items].
    split; [reflexivity|]. split.
    { rewrite (lookup_set String.eqb String.eqb_eq), String.eqb_refl. reflexivity. }
    split.
    { intros n Hne. rewrite (lookup_set String.eqb String.eqb_eq).
      destruct (String.eqb (nama it) (lower (strip n))) eqn:E; [|reflexivity].
      apply String.eqb_eq in E. congruence. }
    split.
    { rewrite Hc, (sum_values_set String.eqb), Eg.
      unfold calculate_subtotal, get_total_price. lia. }
    split.
    { rewrite Hq, (sum_values_set String.eqb), Eg. unfold total_quantity. lia. }
    unfold items_count, with_items. cbn [items]. rewrite (length_set String.eqb).
    unfold dict_contains. rewrite Eg. lia.
Qed.

Lemma X2_witness :
  let it := sample.item "beras" 60000 MAKANAN 2 in
  let c' := snd (add_item sample.cart_beras it) in
  get_item c' "beras" = Some (sample.item "beras" 50000 MAKANAN 3) /\
  calculate_subtotal c' = 150000 /\
  items_count c' = 1.
Proof.
  assert (Hwf : cart_wf sample.cart_beras) by (repeat constructor).
  assert (Hit : item_wf (sample.item "beras" 60000 MAKANAN 2)) by (split; reflexivity).
  destruct (X2_add_item_merges sample.cart_beras (sample.item "beras" 60000 MAKANAN 2)
              eq_refl Hwf Hit eq_refl) as (_ & Hg & _ & Hs & _ & Hc).
  split; [exact Hg|]. split; [exact Hs|exact Hc].
Defined.

(** The keys of a cart stay distinct under every operation. *)
Lemma add_item_keys (c : ShoppingCart) (it : ProductItem) :
  NoDup (dict_keys (items c)) -> NoDup (dict_keys (items (snd (add_item c it)))).
Proof.
  intros H. unfold add_item. destruct (is_finalized c); [exact H|].
  destruct (dict_get String.eqb (items c) (nama it)) as [old|].
  - destruct (set_jumlah old (jumlah old + jumlah it)); [|exact H].
    apply (keys_set_nodup String.eqb String.eqb_eq). exact H.
  - apply (keys_set_nodup String.eqb String.eqb_eq). exact H.
Qed.

Lemma remove_item_keys (c : ShoppingCart) (n : string) :
  NoDup (dict_keys (items c)) -> NoDup (dict_keys (items (snd (remove_item c n)))).
Proof.
  intros H. unfold remove_item. destruct (is_finalized c); [exact H|].
  destruct (dict_contains String.eqb (items c) (lower (strip n))); [|exact H].
  apply (keys_del_nodup String.eqb). exact H.
Qed.

Lemma update_quantity_keys (c : ShoppingCart) (n : string) (q : Z) :
  NoDup (dict_keys (items c)) ->
  NoDup (dict_keys (items (snd (update_quantity c n q)))).
Proof.
  intros H. unfold update_quantity. destruct (is_finalized c); [exact H|].
  destruct (q <=? 0); [exact H|].
  destruct (dict_get String.eqb (items c) (lower (strip n))) as [old|]; [|exact H].
  destruct (set_jumlah old q); [|exact H].
  apply (keys_set_nodup String.eqb String.eqb_eq). exact H.
Qed.

Lemma cart_of_keys (its : list ProductItem) :
  NoDup (dict_keys (items (sample.cart_of its))).
Proof.
  unfold sample.cart_of.
  assert (H : NoDup (dict_keys (items (ShoppingCart_init (Some sample.budi)))))
    by constructor.
  revert H. generalize (ShoppingCart_init (Some sample.budi)).
  induction its as [|it its IH]; intros c H; [exact H|].
  apply IH. now apply add_item_keys.
Qed.

(** X3. [remove_item] on a cart that is not finalized returns whether a
    line of that name (stripped, in lower case) was there.  Afterwards no
    line of that name is left, lines of other names are as before, and the
    subtotal has gone down by the total of the line removed. *)
Theorem X3_remove_item (c : ShoppingCart) (n : string) :
  is_finalized c = false -> NoDup (dict_keys (items c)) ->
  let c' := snd (remove_item c n) in
  fst (remove_item c n) = Ok (contains c n) /\
  contains c' n = false /\
  (forall m, lower (strip m) <> lower (strip n) -> get_item c' m = get_item c m) /\
  calculate_subtotal c' =
    calculate_subtotal c
    - match get_item c n with Some it => get_total_price it | None => 0 end /\
  items_count c' = items_count c - (if contains c n then 1 else 0).
Proof.
  intros Hf Hn. unfold remove_item, contains, get_item. rewrite Hf.
  set (k := lower (strip n)).
  destruct (dict_contains String.eqb (items c) k) eqn:Ec; cbn [fst snd].
  - split; [reflexivity|]. split.
    { unfold dict_contains, with_items. cbn [items].
      now rewrite (lookup_del_same String.eqb String.eqb_eq). }
    split.
    { intros m Hm. unfold with_items. cbn [items].
      apply (lookup_del_other String.eqb String.eqb_eq). congruence. }
    split.
    { unfold calculate_subtotal, with_items. cbn [items].
      now rewrite (sum_values_del String.eqb). }
    unfold items_count, with_items. cbn [items].
    pose proof (length_del String.eqb (items c) k) as Hl. rewrite Ec in Hl. lia.
  - split; [reflexivity|]. split; [exact Ec|]. split; [reflexivity|].
    unfold dict_contains in Ec.
    destruct (dict_get String.eqb (items c) k); [discriminate|]. split; lia.
Qed.

Lemma X3_witness :
  let c := sample.cart_three in
  let c' := snd (remove_item c " Susu ") in
  fst (remove_item c " Susu ") = Ok true /\
  contains c' "susu" = false /\
  get_item c' "sabun" = get_item c "sabun" /\
  calculate_subtotal c' = calculate_subtotal c - 12000 /\
  items_count c' = 3.
Proof.
  destruct (X3_remove_item sample.cart_three " Susu " eq_refl (cart_of_keys _))
    as (Hr & Hc & Ho & Hs & Hl).
  split; [exact Hr|]. split; [exact Hc|].
  split; [apply Ho; discriminate|]. split; [exact Hs|exact Hl].
Defined.

(** X4. [update_quantity] on a cart that is not finalized: a quantity of
    zero or less is a [ValueError], also for a name that is not in the cart,
    and the cart stays as it is; for a positive quantity the result is False
    when no line has the name, and otherwise True, the line then has the
    new quantity at its old price and the subtotal has moved by the price
    times the change of the quantity. *)
Theorem X4_update_quantity (c : ShoppingCart) (n : string) (q : Z) :
  is_finalized c = false ->
  (q <= 0 ->
   update_quantity c n q = (Raise (ValueError "Kuantitas harus lebih dari 0"), c)) /\
  (0 < q -> get_item c n = None -> update_quantity c n q = (Ok false, c)) /\
  (0 < q -> forall it, get_item c n = Some it ->
   let c' := snd (update_quantity c n q) in
   fst (update_quantity c n q) = Ok true /\
   get_item c' n = Some (mkProductItem (base it) q) /\
   (forall m, lower (strip m) <> lower (strip n) -> get_item c' m = get_item c m) /\
   calculate_subtotal c' = calculate_subtotal c + harga it * (q - jumlah it) /\
   items_count c' = items_count c).
Proof.
  intros Hf. unfold update_quantity, get_item. rewrite Hf.
  set (k := lower (strip n)). split; [|split].
  - intros Hq. apply Z.leb_le in Hq. now rewrite Hq.
  - intros Hq Hg. apply Z.leb_gt in Hq. now rewrite Hq, Hg.
  - intros Hq it Hg. apply Z.leb_gt in Hq. rewrite Hq, Hg.
    unfold set_jumlah. rewrite Hq. cbn [fst snd]. unfold with_items.
    split; [reflexivity|]. split.
    { cbn [items]. now rewrite (lookup_set String.eqb String.eqb_eq), String.eqb_refl. }
    split.
    { intros m Hm. cbn [items]. rewrite (lookup_set String.eqb String.eqb_eq).
      destruct (String.eqb k (lower (strip m))) eqn:E; [|reflexivity].
      apply String.eqb_eq in E. congruence. }
    split.
    { unfold calculate_subtotal. cbn [items].
      rewrite (sum_values_set String.eqb), Hg.
      unfold get_total_price. cbn [base jumlah harga]. lia. }
    unfold items_count. cbn [items]. rewrite (length_set String.eqb).
    unfold dict_contains. rewrite Hg. lia.
Qed.

Lemma X4_witness :
  let c := sample.cart_three in
  update_quantity c "kecap" 0 = (Raise (ValueError "Kuantitas harus lebih dari 0"), c) /\
  update_quantity c "kecap" 2 = (Ok false, c) /\
  fst (update_quantity c "SABUN" 1) = Ok true /\
  calculate_subtotal (snd (update_quantity c "SABUN" 1)) = calculate_subtotal c - 15000.
Proof.
  destruct (X4_update_quantity sample.cart_three "kecap" 0 eq_refl) as (H0 & _ & _).
  destruct (X4_update_quantity sample.cart_three "kecap" 2 eq_refl) as (_ & H2 & _).
  destruct (X4_update_quantity sample.cart_three "SABUN" 1 eq_refl) as (_ & _ & H1).
  destruct (H1 ltac:(lia) _ eq_refl) as (Hr & _ & _ & Hs & _).
  split; [apply H0; lia|]. split; [apply H2; [lia|reflexivity]|].
  split; [exact Hr|exact Hs].
Defined.

End CartLines.

(* ================================================================== *)
(** ** The cart by category *)

Section CartByCategory.
Import product cart props.

Lemma totals_fold_sums (l : list ProductItem) :
  forall acc : list (KategoriBarang * CategoryData),
  NoDup (dict_keys acc) ->
  NoDup (dict_keys (fold_left totals_step l acc)) /\
  sum (map amount (dict_values (fold_left totals_step l acc)))
    = sum (map amount (dict_values acc)) + sum (map get_total_price l) /\
  sum (map quantity (dict_values (fold_left totals_step l acc)))
    = sum (map quantity (dict_values acc)) + sum (map jumlah l).
Proof.
  induction l as [|x l IH]; intros acc Hn; cbn [fold_left map].
  - rewrite !sum_nil. repeat split; [exact Hn|lia|lia].
  - destruct (IH (totals_step acc x)) as (H1 & H2 & H3).
    { apply (keys_set_nodup KategoriBarang_eqb KategoriBarang_eqb_eq). exact Hn. }
    split; [exact H1|]. rewrite H2, H3, !sum_cons. unfold totals_step.
    rewrite !(sum_values_set KategoriBarang_eqb).
    destruct (dict_get KategoriBarang_eqb acc (kategori x)); cbn [amount quantity]; lia.
Qed.

(** X5. The per-category totals of a cart add up to the cart: the amounts
    to [calculate_subtotal], the quantities to [total_quantity].  Each
    category has at most one entry; a category has an entry exactly when the
    cart has a line of it, and the entry holds the quantity and the amount
    of these lines. *)
Theorem X5_category_totals_add_up (c : ShoppingCart) :
  let totals := get_category_totals c in
  NoDup (dict_keys totals) /\
  sum (map amount (dict_values totals)) = calculate_subtotal c /\
  sum (map quantity (dict_values totals)) = total_quantity c /\
  (forall k, dict_get KategoriBarang_eqb totals k =
             match items_of c k with
             | [] => None
             | _ :: _ => Some (mkCategoryData (category_quantity c k)
                                              (category_subtotal c k))
             end).
Proof.
  cbv zeta.
  destruct (totals_fold_sums (dict_values (items c)) [] ltac:(constructor))
    as (H1 & H2 & H3).
  change (fold_left totals_step (dict_values (items c)) [])
    with (get_category_totals c) in H1, H2, H3.
  split; [exact H1|]. split; [|split].
  - rewrite H2. cbn [dict_values map]. rewrite sum_nil. reflexivity.
  - rewrite H3. cbn [dict_values map]. rewrite sum_nil. reflexivity.
  - apply category_totals_get.
Qed.

Lemma groups_fold_count (l : list ProductItem) :
  forall acc : list (KategoriBarang * list ProductItem),
  sum (map (fun g => Z.of_nat (List.length g)) (dict_values (fold_left groups_step l acc)))
  = sum (map (fun g => Z.of_nat (List.length g)) (dict_values acc))
    + Z.of_nat (List.length l).
Proof.
  induction l as [|x l IH]; intros acc; cbn [fold_left List.length].
  - lia.
  - rewrite IH. unfold groups_step.
    rewrite (sum_values_set KategoriBarang_eqb).
    destruct (dict_get KategoriBarang_eqb acc (kategori x));
      rewrite ?length_app; cbn [List.length]; lia.
Qed.

(** X6. [get_items_by_category] splits the lines of the cart by category
    and loses none: every category has at most one group, a group is never
    empty and holds exactly the lines of its category in cart order, every
    line is in the group of its category, and the sizes of the groups add
    up to the number of lines. *)
Theorem X6_items_by_category (c : ShoppingCart) :
  let groups := get_items_by_category c in
  NoDup (dict_keys groups) /\
  (forall k its, In (k, its) groups ->
     its <> [] /\
     its = filter (fun it : ProductItem => KategoriBarang_eqb (kategori it) k)
                  (get_all_items c)) /\
  (forall it, In it (get_all_items c) ->
     exists its, In (kategori it, its) groups /\ In it its) /\
  sum (map (fun g => Z.of_nat (List.length g)) (dict_values groups)) = items_count c.
Proof.
  cbv zeta. destruct (items_by_category_spec c) as (Hn & Hg & Hp).
  split; [exact Hn|]. split; [|split].
  - intros k its Hi. destruct (Hg k its Hi) as (-> & Hne). split; [exact Hne|reflexivity].
  - intros it Hi.
    assert (Hin : In it (items_of c (kategori it))).
    { unfold items_of. apply filter_In. split; [exact Hi|].
      unfold of_category. apply KategoriBarang_eqb_refl. }
    assert (Hk : In (kategori it) (categories_present c)).
    { apply Hp. intros E. rewrite E in Hin. exact Hin. }
    unfold categories_present, dict_keys in Hk. apply in_map_iff in Hk.
    destruct Hk as ([k its] & Ek & Hk). cbn [fst] in Ek. subst k.
    exists its. split; [exact Hk|]. destruct (Hg _ _ Hk) as (-> & _). exact Hin.
  - change (get_items_by_category c)
      with (fold_left groups_step (dict_values (items c)) []).
    rewrite groups_fold_count. cbn [dict_values map]. rewrite sum_nil.
    unfold items_count, dict_values. rewrite length_map. lia.
Qed.

End CartByCategory.

(* ================================================================== *)
(** ** Customers *)

Section Customers.
Import customer props.

Lemma tier_rate_of_points (points : Z) :
  tier_rate (calculate_tier points) = points_rate points.
Proof.
  unfold calculate_tier, points_rate.
  destruct (10000 <=? points); [reflexivity|].
  destruct (5000 <=? points); [reflexivity|].
  destruct (1000 <=? points); reflexivity.
Qed.

Lemma points_rate_mono (a b : Z) : a <= b -> (points_rate a <= points_rate b)%Q.
Proof.
  intros H. unfold points_rate.
  destruct (10000 <=? a) eqn:A1, (10000 <=? b) eqn:B1;
    [| apply Z.leb_le in A1; apply Z.leb_gt in B1; lia | |];
    try (destruct (5000 <=? a) eqn:A2); try (destruct (5000 <=? b) eqn:B2);
    try (destruct (1000 <=? a) eqn:A3); try (destruct (1000 <=? b) eqn:B3);
    try discriminate;
    repeat match goal with
           | H : (_ <=? _) = true |- _ => apply Z.leb_le in H
           | H : (_ <=? _) = false |- _ => apply Z.leb_gt in H
           end;
    try lia; unfold Qle; cbn; lia.
Qed.

Lemma add_points_fields (p : PremiumFields) (n : Z) :
  tier p = calculate_tier (membership_points p) ->
  tier (add_points p n) = calculate_tier (membership_points (add_points p n)) /\
  membership_points (add_points p n)
    = membership_points p + (if 0 <? n then n else 0).
Proof.
  intros H. unfold add_points. destruct (0 <? n); cbn [tier membership_points].
  - split; reflexivity.
  - split; [exact H|lia].
Qed.

Lemma add_points_fold (adds : list Z) :
  forall p, tier p = calculate_tier (membership_points p) ->
  tier (fold_left add_points adds p)
    = calculate_tier (membership_points (fold_left add_points adds p)) /\
  membership_points (fold_left add_points adds p)
    = membership_points p + sum (filter (Z.ltb 0) adds).
Proof.
  induction adds as [|n adds IH]; intros p Hp; cbn [fold_left filter].
  - rewrite sum_nil. split; [exact Hp|lia].
  - destruct (add_points_fields p n Hp) as [Ht Hm].
    destruct (IH _ Ht) as [IH1 IH2]. split; [exact IH1|].
    rewrite IH2, Hm. destruct (0 <? n); rewrite ?sum_cons; lia.
Qed.

(** X7. The tier of a premium customer follows the points at all times:
    the constructor stores the points given (none when negative), every
    [add_points] with a positive number adds them and any other number
    changes nothing, and the tier is always the one of the current points.
    So the discount multiplier is 7%, 10%, 15% or 20% by the points
    (from 0, 1,000, 5,000, 10,000), never the fall-back 5%, and adding
    points never lowers it. *)
Theorem X7_premium_tier_follows_points (points : Z) (adds : list Z)
  (cu : Customer) :
  let p := fold_left add_points adds (premium_fields points) in
  (forall nama_ umur_ c,
     PremiumCustomer_init nama_ umur_ points = Ok c ->
     cls c = Premium (premium_fields points)) /\
  membership_points p = Z.max 0 points + sum (filter (Z.ltb 0) adds) /\
  tier p = calculate_tier (membership_points p) /\
  get_discount_multiplier (premium_with cu p) = points_rate (membership_points p) /\
  (forall more,
     (get_discount_multiplier (premium_with cu p)
      <= get_discount_multiplier (premium_with cu (add_points p more)))%Q).
Proof.
  cbv zeta.
  destruct (add_points_fold adds (premium_fields points) eq_refl) as [Ht Hm].
  split.
  { intros nama_ umur_ c H. unfold PremiumCustomer_init in H.
    destruct (Customer_init nama_ umur_ true); [|discriminate].
    cbn [bind] in H. now injection H as <-. }
  split; [exact Hm|]. split; [exact Ht|].
  assert (Hrate : forall q, tier q = calculate_tier (membership_points q) ->
            get_discount_multiplier (premium_with cu q)
            = points_rate (membership_points q)).
  { intros q Hq. unfold get_discount_multiplier, premium_with. cbn [cls].
    rewrite tier_discounts_get, Hq. apply tier_rate_of_points. }
  split; [now apply Hrate|].
  intros more. destruct (add_points_fields _ more Ht) as [Ht' Hm'].
  rewrite !Hrate by assumption. apply points_rate_mono. rewrite Hm'.
  destruct (0 <? more) eqn:E; [apply Z.ltb_lt in E|]; lia.
Qed.

End Customers.

(* ================================================================== *)
(** ** Building a transaction *)

Section Builder.
Import product props transaction.
Variable env : Env.

Lemma Transaction_init_inv (tid : string) (c : cart.ShoppingCart) (s : Z)
  (ds : list DiscountDetail) (tax tot : Z) (p : PaymentDetail) (t : Transaction) :
  Transaction_init env tid c s ds tax tot p = Ok t ->
  t = mkTransaction tid (cart.finalize_cart c) (cart.customer c) s ds tax tot p
        PENDING (now env) None /\
  str_falsy (strip tid) = false /\ cart.is_empty c = false /\
  0 <= s /\ 0 <= tax /\ 0 <= tot.
Proof.
  unfold Transaction_init, validate_inputs. cbn [bind].
  destruct (str_falsy tid || str_falsy (strip tid)) eqn:E1; [discriminate|].
  destruct (cart.is_empty c) eqn:E2; [discriminate|].
  destruct (s <? 0) eqn:E3; [discriminate|].
  destruct (tax <? 0) eqn:E4; [discriminate|].
  destruct (tot <? 0) eqn:E5; [discriminate|].
  intros [= <-]. apply orb_false_iff in E1.
  apply Z.ltb_ge in E3, E4, E5. tauto.
Qed.

(** X8. What [TransactionBuilder.build] gives.  A transaction that it
    returns is Pending, not completed, holds the fields of the builder, and
    its cart is the cart that was set, now finalized and not empty; its
    subtotal, tax and total are not negative and its id is not blank.  With
    an id set, a cart that is set but empty is reported as not set
    ('Cart belum di-set'), so the check of [Transaction] for an empty cart is
    never the one that fails.  After [reset] nothing can be built. *)
Theorem X8_build_result (b : TransactionBuilder) :
  (forall t, build env b = Ok t ->
     status t = PENDING /\ completed_at t = None /\ created_at t = now env /\
     b_transaction_id b = Some (transaction_id t) /\
     str_falsy (strip (transaction_id t)) = false /\
     (exists c, b_cart b = Some c /\ cart.is_empty c = false /\
                cart t = cart.finalize_cart c /\ customer t = cart.customer c) /\
     cart.is_finalized (cart t) = true /\
     b_payment b = Some (payment t) /\ discounts t = b_discounts b /\
     subtotal t = b_subtotal b /\ tax_amount t = b_tax_amount b /\
     total_amount t = b_total_amount b /\
     0 <= subtotal t /\ 0 <= tax_amount t /\ 0 <= total_amount t) /\
  (forall tid c, b_transaction_id b = Some tid -> str_falsy tid = false ->
     b_cart b = Some c -> cart.is_empty c = true ->
     build env b = Raise (ValueError "Cart belum di-set")) /\
  build env b <> Raise (ValueError "Cart tidak boleh kosong") /\
  build env (reset b) = Raise (ValueError "Transaction ID belum di-set").
Proof.
  split; [|split; [|split]].
  - intros t. unfold build.
    destruct (b_transaction_id b) as [tid|]; [|discriminate].
    destruct (str_falsy tid); [discriminate|].
    destruct (b_cart b) as [c|]; [|discriminate].
    destruct (cart.len c =? 0); [discriminate|].
    destruct (b_payment b) as [p|]; [|discriminate].
    intros H. apply Transaction_init_inv in H.
    destruct H as (-> & Hid & Hc & Hs & Htax & Htot).
    cbn [status completed_at created_at transaction_id cart customer payment
         discounts subtotal tax_amount total_amount].
    repeat split; try assumption; try reflexivity.
    exists c. repeat split; assumption.
  - intros tid c Hid Hf Hc He. unfold build. rewrite Hid, Hf, Hc.
    rewrite is_empty_len, He. reflexivity.
  - unfold build.
    destruct (b_transaction_id b) as [tid|]; [|discriminate].
    destruct (str_falsy tid); [discriminate|].
    destruct (b_cart b) as [c|]; [|discriminate].
    destruct (cart.len c =? 0) eqn:El; [discriminate|].
    destruct (b_payment b) as [p|]; [|discriminate].
    unfold Transaction_init, validate_inputs. cbn [bind].
    rewrite is_empty_len in El. rewrite El.
    destruct (str_falsy tid || str_falsy (strip tid)); [discriminate|].
    destruct (b_subtotal b <? 0); [discriminate|].
    destruct (b_tax_amount b <? 0); [discriminate|].
    destruct (b_total_amount b <? 0); discriminate.
  - reflexivity.
Qed.

End Builder.

(* ================================================================== *)
(** ** The payment of a created transaction *)

Section PaymentBalance.
Import product props transaction transaction_service.
Variable env : Env.

Lemma create_transaction_paid (svc : TransactionService) (c : cart.ShoppingCart)
  (payment_amount : Z) (method : string) (installments_ : option (list Z))
  (t : Transaction) (svc' : TransactionService) (c' : cart.ShoppingCart) :
  create_transaction env svc c payment_amount method installments_
    = (Some t, svc', c') ->
  exists tt,
    calculate_transaction_totals env (orchestrator svc) c = Ok tt /\
    t = transaction_of env c tt payment_amount method installments_ /\
    0 <= amount_paid (payment_of (t_total_amount tt) payment_amount method
                        installments_) /\
    0 <= t_subtotal tt /\ 0 <= t_total_tax tt /\ 0 <= t_total_amount tt /\
    svc' = mkTransactionService (orchestrator svc)
             (dict_set String.eqb (transactions svc) (transaction_id t) t)
             (transaction_history svc ++ [t]) /\
    c' = cart.finalize_cart c.
Proof.
  intros H. unfold create_transaction in H.
  destruct (calculate_transaction_totals env (orchestrator svc) c) as [tt|e] eqn:Ett.
  - rewrite (create_try_value env svc c payment_amount method installments_ tt Ett) in H.
    destruct (negb _); [discriminate|]. cbv zeta in H.
    destruct (amount_paid (payment_of (t_total_amount tt) payment_amount method
                             installments_) <? 0) eqn:E1; [discriminate|].
    destruct (t_subtotal tt <? 0) eqn:E2; [discriminate|].
    destruct (t_total_tax tt <? 0) eqn:E3; [discriminate|].
    destruct (t_total_amount tt <? 0) eqn:E4; [discriminate|].
    injection H as <- <- <-. exists tt.
    apply Z.ltb_ge in E1, E2, E3, E4. repeat split; assumption.
  - unfold create_transaction_try in H.
    rewrite (validate_raises env _ c payment_amount e Ett) in H. discriminate.
Qed.

(** X9. The money of a created transaction balances: what was paid plus
    what is still outstanding equals the total plus the change, whether the
    payment came as one amount or as instalments.  Change and outstanding
    amount are never negative and never both positive; the amount paid is
    never negative; the transaction is paid in full exactly when nothing is
    outstanding. *)
Theorem X9_payment_balances (svc : TransactionService) (c : cart.ShoppingCart)
  (payment_amount : Z) (method : string) (installments_ : option (list Z))
  (t : Transaction) (svc' : TransactionService) (c' : cart.ShoppingCart) :
  create_transaction env svc c payment_amount method installments_
    = (Some t, svc', c') ->
  amount_paid (payment t) + get_outstanding_amount t
    = total_amount t + change_amount (payment t) /\
  0 <= amount_paid (payment t) /\
  0 <= change_amount (payment t) /\ 0 <= get_outstanding_amount t /\
  (change_amount (payment t) = 0 \/ get_outstanding_amount t = 0) /\
  (is_paid_in_full t = true <-> get_outstanding_amount t = 0) /\
  (0 < change_amount (payment t) -> is_paid_in_full t = true).
Proof.
  intros H. apply create_transaction_paid in H.
  destruct H as (tt & _ & -> & Hp & _ & _ & _ & _ & _).
  unfold get_outstanding_amount, is_paid_in_full, transaction_of.
  cbn [payment total_amount].
  set (T := t_total_amount tt) in *.
  assert (Hch : change_amount (payment_of T payment_amount method installments_)
                = Z.max 0 (amount_paid (payment_of T payment_amount method installments_) - T)).
  { unfold payment_of. destruct installments_ as [[|i l]|]; reflexivity. }
  rewrite Hch. set (P := amount_paid _) in *.
  rewrite Z.leb_le. lia.
Qed.

End PaymentBalance.

Section PaymentBalanceSample.
Import product props transaction transaction_service.

Lemma X9_witness :
  exists t svc' c',
    create_transaction sample.env_wednesday TransactionService_default
      sample.cart_beras 0 "card" (Some [20000; 20000; 20000]) = (Some t, svc', c') /\
    amount_paid (payment t) = 60000 /\ total_amount t = 50000 /\
    change_amount (payment t) = 10000 /\ get_outstanding_amount t = 0 /\
    amount_paid (payment t) + get_outstanding_amount t
      = total_amount t + change_amount (payment t).
Proof.
  eexists. eexists. eexists. split; [reflexivity|].
  split; [reflexivity|]. split; [reflexivity|]. split; [reflexivity|].
  split; [reflexivity|].
  exact (proj1 (X9_payment_balances sample.env_wednesday TransactionService_default
                  sample.cart_beras 0 "card" (Some [20000; 20000; 20000])
                  _ _ _ eq_refl)).
Defined.

End PaymentBalanceSample.

(* ================================================================== *)
(** ** Tax modes and brackets *)

Section TaxNames.
Import product props tax_service.

(** X10. The constructor of [TaxService] takes any mode without a check,
    and the names are case sensitive.  With a mode other than 'standard',
    'category', 'luxury' and 'combined', which [set_tax_mode] refuses with a
    [ValueError], the service charges no tax at all: [calculate_tax] gives
    the empty list and [get_total_tax_amount] gives 0 for every amount,
    cart and customer. *)
Theorem X10_unknown_tax_mode (mode : string) (s : Z) (c : cart.ShoppingCart)
  (cust : option customer.Customer) :
  ~ In mode ["standard"; "category"; "luxury"; "combined"]%string ->
  tax_mode (TaxService_init mode) = mode /\
  calculate_tax (TaxService_init mode) s c cust = Ok [] /\
  get_total_tax_amount (TaxService_init mode) s c cust = Ok 0 /\
  (forall svc, exists msg, set_tax_mode svc mode = Raise (ValueError msg)).
Proof.
  intros Hn.
  assert (H1 : String.eqb mode "standard" = false).
  { apply String.eqb_neq. intros ->. apply Hn. simpl. auto. }
  assert (H2 : String.eqb mode "category" = false).
  { apply String.eqb_neq. intros ->. apply Hn. simpl. auto. }
  assert (H3 : String.eqb mode "luxury" = false).
  { apply String.eqb_neq. intros ->. apply Hn. simpl. auto. }
  assert (H4 : String.eqb mode "combined" = false).
  { apply String.eqb_neq. intros ->. apply Hn. simpl. auto. }
  assert (Hc : calculate_tax (TaxService_init mode) s c cust = Ok []).
  { unfold calculate_tax, TaxService_init. cbn [tax_mode].
    now rewrite H1, H2, H3, H4. }
  split; [reflexivity|]. split; [exact Hc|]. split.
  - unfold get_total_tax_amount. rewrite Hc. reflexivity.
  - intros svc. unfold set_tax_mode. cbn [existsb].
    rewrite H1, H2, H3, H4. cbn [orb]. eexists. reflexivity.
Qed.

Lemma X10_witness :
  calculate_tax (TaxService_init "Standard") 5000000 sample.cart_beras
    (Some sample.budi) = Ok [] /\
  calculate_tax (TaxService_init "standard") 5000000 sample.cart_beras
    (Some sample.budi) = Ok [mkTaxDetail "PPN" 0.10%Q 500000 5000000].
Proof.
  split; [|reflexivity].
  apply (X10_unknown_tax_mode "Standard" 5000000 sample.cart_beras (Some sample.budi)).
  simpl. intros [H|[H|[H|[H|[]]]]]; discriminate.
Defined.

Lemma py_int_percent (s p : Z) :
  0 <= s -> 0 <= p -> py_int (inject_Z s * (p # 100)) = s * p / 100.
Proof.
  intros Hs Hp. rewrite py_int_scale. cbn [Qnum Qden].
  apply Z.quot_div_nonneg; [|lia]. apply Z.mul_nonneg_nonneg; assumption.
Qed.

(** X11. The luxury tax by amount, for an amount below 2^44: nothing
    below 500,000, then 5% up to 999,999, 8% up to 1,999,999 and 12% from
    2,000,000, each on the whole amount and rounded down; the tier is the
    highest one whose minimum the amount reaches, so every amount from
    500,000 is taxed by a tier.  In this range the amounts are those that
    [int(amount * rate)] gives in binary64. *)
Theorem X11_luxury_tiers (s : Z) (c : cart.ShoppingCart)
  (cust : option customer.Customer) :
  s < 2 ^ 44 ->
  LuxuryTaxStrategy.calculate_tax s c cust =
  Ok (if s <? 500000 then mkTaxDetail "Luxury Tax" 0.0%Q 0 0
      else if s <? 1000000 then mkTaxDetail "Luxury Tier 1" 0.05%Q (s * 5 / 100) s
      else if s <? 2000000 then mkTaxDetail "Luxury Tier 2" 0.08%Q (s * 8 / 100) s
      else mkTaxDetail "Luxury Tier 3" 0.12%Q (s * 12 / 100) s) /\
  (500000 <= s < 1000000 -> binary64.py_int_mul s 0.05%Q = Some (s * 5 / 100)) /\
  (1000000 <= s < 2000000 -> binary64.py_int_mul s 0.08%Q = Some (s * 8 / 100)) /\
  (2000000 <= s -> binary64.py_int_mul s 0.12%Q = Some (s * 12 / 100)).
Proof.
  intros Hb.
  assert (Hfloat : forall p, In (p # 100) program_rates -> 0 <= p -> 0 <= s ->
            binary64.py_int_mul s (p # 100) = Some (s * p / 100)).
  { intros p Hp H0 Hs.
    destruct (amount_is_binary64 s (p # 100) Hp ltac:(lia)) as [H1 H2].
    rewrite H1, <- H2. now rewrite py_int_percent by lia. }
  split; [|split; [|split]].
  - rewrite luxury_tax_value. unfold luxury_detail, luxury_bracket. f_equal.
    destruct (s <? 500000) eqn:E1.
    { apply Z.ltb_lt in E1.
      replace (2000000 <=? s) with false by (symmetry; apply Z.leb_gt; lia).
      replace (1000000 <=? s) with false by (symmetry; apply Z.leb_gt; lia).
      replace (500000 <=? s) with false by (symmetry; apply Z.leb_gt; lia).
      reflexivity. }
    apply Z.ltb_ge in E1.
    destruct (s <? 1000000) eqn:E2.
    { apply Z.ltb_lt in E2.
      replace (2000000 <=? s) with false by (symmetry; apply Z.leb_gt; lia).
      replace (1000000 <=? s) with false by (symmetry; apply Z.leb_gt; lia).
      replace (500000 <=? s) with true by (symmetry; apply Z.leb_le; lia).
      cbn [LuxuryTaxStrategy.name LuxuryTaxStrategy.rate].
      change 0.05%Q with (5 # 100). now rewrite py_int_percent by lia. }
    apply Z.ltb_ge in E2.
    destruct (s <? 2000000) eqn:E3.
    { apply Z.ltb_lt in E3.
      replace (2000000 <=? s) with false by (symmetry; apply Z.leb_gt; lia).
      replace (1000000 <=? s) with true by (symmetry; apply Z.leb_le; lia).
      cbn [LuxuryTaxStrategy.name LuxuryTaxStrategy.rate].
      change 0.08%Q with (8 # 100). now rewrite py_int_percent by lia. }
    apply Z.ltb_ge in E3.
    replace (2000000 <=? s) with true by (symmetry; apply Z.leb_le; lia).
    cbn [LuxuryTaxStrategy.name LuxuryTaxStrategy.rate].
    change 0.12%Q with (12 # 100). now rewrite py_int_percent by lia.
  - intros H. change 0.05%Q with (5 # 100).
    apply Hfloat; [unfold program_rates; cbn; auto 10|lia|lia].
  - intros H. change 0.08%Q with (8 # 100).
    apply Hfloat; [unfold program_rates; cbn; auto 10|lia|lia].
  - intros H. change 0.12%Q with (12 # 100).
    apply Hfloat; [unfold program_rates; cbn; auto 10|lia|lia].
Qed.

Lemma X11_witness :
  2500000 < 2 ^ 44 /\
  LuxuryTaxStrategy.calculate_tax 2500000 sample.cart_beras (Some sample.budi)
  = Ok (mkTaxDetail "Luxury Tier 3" 0.12%Q 300000 2500000) /\
  binary64.py_int_mul 2500000 0.12%Q = Some 300000.
Proof.
  assert (Hb : 2500000 < 2 ^ 44) by reflexivity.
  destruct (X11_luxury_tiers 2500000 sample.cart_beras (Some sample.budi) Hb)
    as (H1 & _ & _ & H2).
  split; [exact Hb|]. split; [exact H1|]. apply H2. discriminate.
Defined.

End TaxNames.

(* ================================================================== *)
(** ** The discount service *)

Section DiscountCap.
Import product props transaction discount_service.
Variable env : Env.

(** With the default strategies the discounts take at most 62% of the
    subtotal: 10%, 25% and 20% of the cart and 7% of each category. *)
Lemma default_discounts_cap (c : cart.ShoppingCart)
  (cust : option customer.Customer) (ds : list DiscountDetail) :
  cart_wf c ->
  calculate_all_discounts env (DiscountService_init None) c cust = Ok ds ->
  0 <= sum (map amount ds) /\
  100 * sum (map amount ds) <= 62 * cart.calculate_subtotal c.
Proof.
  intros Hwf Hds.
  destruct (calculate_all_discounts_value env _ c cust ds Hwf Hds)
    as (added & -> & _ & Hsum).
  rewrite map_app, sum_app, Hsum, map_map. clear Hsum Hds.
  pose proof (subtotal_nonneg c Hwf) as HS.
  pose proof (subtotal_by_category c) as Hcat.
  pose proof (category_subtotal_nonneg c MAKANAN Hwf) as HM.
  pose proof (category_subtotal_nonneg c MINUMAN Hwf) as HN.
  pose proof (category_subtotal_nonneg c KEBUTUHAN Hwf) as HK.
  set (S := cart.calculate_subtotal c) in *.
  assert (Hstr :
    0 <= sum (map (fun s => floor_of S (rate_of env s cust))
               (filter (fun s => is_applicable env s c cust)
                  (strategies (DiscountService_init None)))) /\
    100 * sum (map (fun s => floor_of S (rate_of env s cust))
               (filter (fun s => is_applicable env s c cust)
                  (strategies (DiscountService_init None)))) <= 55 * S).
  { cbn [DiscountService_init strategies filter].
    destruct (rate_of_default_share env (Senior SeniorDiscountStrategy.default)
                cust S HS ltac:(simpl; auto)) as (A0 & A1 & _).
    destruct (rate_of_default_share env Member cust S HS ltac:(simpl; auto))
      as (B0 & _ & B1 & _).
    destruct (rate_of_default_share env DayOfWeek cust S HS ltac:(simpl; auto))
      as (C0 & _ & _ & C1).
    specialize (A1 eq_refl). specialize (B1 eq_refl). specialize (C1 eq_refl).
    destruct (is_applicable env (Senior _) c cust),
             (is_applicable env Member c cust),
             (is_applicable env DayOfWeek c cust);
      cbn [map]; rewrite ?sum_cons, ?sum_nil; lia. }
  assert (Hbulk :
    0 <= sum (map (fun k => amount (bulk_detail c k))
               (filter (qualifies c) all_categories)) /\
    100 * sum (map (fun k => amount (bulk_detail c k))
               (filter (qualifies c) all_categories)) <= 7 * S).
  { cbn [all_categories filter bulk_detail amount].
    destruct (floor_of_percent (category_subtotal c MAKANAN) 7 HM ltac:(lia)).
    destruct (floor_of_percent (category_subtotal c MINUMAN) 7 HN ltac:(lia)).
    destruct (floor_of_percent (category_subtotal c KEBUTUHAN) 7 HK ltac:(lia)).
    change (7 # 100) with 0.07%Q in *.
    destruct (qualifies c MAKANAN), (qualifies c MINUMAN), (qualifies c KEBUTUHAN);
      cbn [map]; rewrite ?sum_cons, ?sum_nil; lia. }
  lia.
Qed.

(** Every record of the strategy loop is a written rate on the subtotal
    of the cart. *)
Lemma strategies_loop_records (c : cart.ShoppingCart)
  (cust : option customer.Customer) (Hwf : cart_wf c)
  (l : list DiscountStrategy) :
  Forall rate_written l ->
  forall acc r,
  strategies_loop env l c cust acc = Ok r ->
  exists added,
    r = acc ++ added /\
    Forall (fun d => In (percentage d) program_rates /\
                     amount d = floor_of (cart.calculate_subtotal c) (percentage d))
           added.
Proof.
  induction 1 as [|s l Hs _ IH]; intros acc r Hr; cbn [strategies_loop] in Hr.
  - injection Hr as <-. exists []. rewrite app_nil_r. split; [reflexivity|constructor].
  - destruct (is_applicable env s c cust) eqn:Happ; [|now apply IH].
    destruct (calculate_discount env s c cust) as [d|e] eqn:Hd;
      cbn [bind] in Hr; [|discriminate].
    destruct (calculate_discount_value env s c cust d Hwf Happ Hd)
      as (Hamt & Hpct & _).
    pose proof (rate_of_written env s c cust Hs Happ) as Hin.
    rewrite <- Hpct in Hin.
    destruct (0 <? amount d).
    + apply IH in Hr. destruct Hr as (added & -> & Hall).
      exists (d :: added). rewrite <- app_assoc. split; [reflexivity|].
      constructor; [split; assumption|exact Hall].
    + now apply IH.
Qed.

(** Every record of [calculate_all_discounts] is a written rate on the
    subtotal of the cart or of one of its categories. *)
Lemma all_discounts_records (svc : DiscountService) (c : cart.ShoppingCart)
  (cust : option customer.Customer) (ds : list DiscountDetail) :
  cart_wf c -> Forall rate_written (strategies svc) ->
  calculate_all_discounts env svc c cust = Ok ds ->
  Forall (fun d => exists base,
            0 <= base <= cart.calculate_subtotal c /\
            In (percentage d) program_rates /\
            amount d = floor_of base (percentage d)) ds.
Proof.
  intros Hwf Hrw Hcalc. unfold calculate_all_discounts in Hcalc.
  destruct (strategies_loop env (strategies svc) c cust []) as [r|e] eqn:Hloop;
    cbn [bind] in Hcalc; [|discriminate].
  apply (strategies_loop_records c cust Hwf _ Hrw) in Hloop.
  destruct Hloop as (added & -> & Hall). cbn [app] in Hcalc.
  pose proof (subtotal_nonneg c Hwf) as HS.
  assert (Hadded : Forall (fun d => exists base,
            0 <= base <= cart.calculate_subtotal c /\
            In (percentage d) program_rates /\
            amount d = floor_of base (percentage d)) added).
  { eapply Forall_impl; [|exact Hall]. intros d [H1 H2].
    exists (cart.calculate_subtotal c). split; [lia|]. split; assumption. }
  rewrite (category_discounts_value c cust Hwf) in Hcalc. cbn [bind] in Hcalc.
  destruct (CategoryDiscountStrategy.is_applicable c cust);
    injection Hcalc as <-; [|exact Hadded].
  apply Forall_app. split; [exact Hadded|].
  apply Forall_map, Forall_forall. intros k _.
  exists (category_subtotal c k). split; [now apply category_subtotal_below|].
  split; [unfold program_rates; cbn; auto 10|reflexivity].
Qed.

End DiscountCap.

Section DiscountSummary.
Import product props transaction discount_service.

(** X12. With the default strategies the discounts are capped.  For every
    cart of well-formed lines with a subtotal below 2^44, every customer
    and every day, [get_discount_summary] returns a summary whose total
    discount is the sum of its discount records, is not negative and is at
    most 62% of the subtotal (10% senior, 25% member, 20% day, 7% bulk); the
    subtotal after discount is the subtotal less the total discount and at
    least 38% of the subtotal.  Every record is a rate that the program
    writes on the subtotal of the cart or of a category, rounded down, which
    in this range is the amount that [int(base * rate)] gives in binary64. *)
Theorem X12_default_discount_cap (env : Env) (c : cart.ShoppingCart)
  (cust : option customer.Customer) :
  cart_wf c -> cart.calculate_subtotal c < 2 ^ 44 ->
  exists sm,
    get_discount_summary env (DiscountService_init None) c cust = Ok sm /\
    original_subtotal sm = cart.calculate_subtotal c /\
    total_discount_amount sm = sum (map amount (s_discounts sm)) /\
    discount_count sm = Z.of_nat (List.length (s_discounts sm)) /\
    subtotal_after_discount sm = original_subtotal sm - total_discount_amount sm /\
    0 <= total_discount_amount sm /\
    100 * total_discount_amount sm <= 62 * original_subtotal sm /\
    38 * original_subtotal sm <= 100 * subtotal_after_discount sm /\
    Forall (fun d => exists base,
              0 <= base <= cart.calculate_subtotal c /\
              In (percentage d) program_rates /\
              amount d = floor_of base (percentage d) /\
              binary64.py_int_mul base (percentage d) = Some (amount d))
           (s_discounts sm).
Proof.
  intros Hwf Hb.
  destruct (calculate_all_discounts_total env (DiscountService_init None) c cust Hwf
              default_strategies_wf) as (ds & Hds).
  destruct (default_discounts_cap env c cust ds Hwf Hds) as (H0 & H1).
  pose proof (all_discounts_records env _ c cust ds Hwf default_rates_written Hds)
    as Hrec.
  unfold get_discount_summary. rewrite Hds. cbn [bind].
  eexists. split; [reflexivity|].
  cbn [original_subtotal total_discount_amount s_discounts discount_count
       subtotal_after_discount].
  repeat match goal with |- _ /\ _ => split end; try reflexivity; try lia.
  eapply Forall_impl; [|exact Hrec].
  intros d (base & Hbase & Hin & Hamt). exists base.
  split; [exact Hbase|]. split; [exact Hin|]. split; [exact Hamt|].
  rewrite Hamt. apply amount_is_binary64; [exact Hin|lia].
Qed.

Lemma X12_witness :
  cart_wf sample.cart_sabun /\
  cart.calculate_subtotal sample.cart_sabun < 2 ^ 44 /\
  exists sm,
    get_discount_summary sample.env_wednesday (DiscountService_init None)
      sample.cart_sabun (Some sample.budi) = Ok sm /\
    original_subtotal sm = 100000 /\ total_discount_amount sm = 7000 /\
    subtotal_after_discount sm = 93000.
Proof.
  assert (Hwf : cart_wf sample.cart_sabun) by (repeat constructor).
  assert (Hb : cart.calculate_subtotal sample.cart_sabun < 2 ^ 44)
    by (vm_compute; reflexivity).
  split; [exact Hwf|]. split; [exact Hb|].
  destruct (X12_default_discount_cap sample.env_wednesday sample.cart_sabun
              (Some sample.budi) Hwf Hb) as (sm & Hsm & _).
  exists sm. split; [exact Hsm|].
  vm_compute in Hsm. injection Hsm as <-. repeat split; reflexivity.
Defined.

(** The loop of [remove_strategy] takes out the first strategy of the type. *)
Lemma remove_loop_spec (l : list DiscountStrategy) (ty : StrategyType) :
  (existsb (fun s => isinstance s ty) l = false /\ remove_loop l ty = (false, l)) \/
  (exists pre s post,
     l = pre ++ s :: post /\ isinstance s ty = true /\
     forallb (fun x => negb (isinstance x ty)) pre = true /\
     remove_loop l ty = (true, pre ++ post)).
Proof.
  induction l as [|x l IH]; cbn [existsb remove_loop].
  - left. split; reflexivity.
  - destruct (isinstance x ty) eqn:E.
    + right. exists [], x, l. repeat split. exact E.
    + destruct IH as [[H1 H2]|(pre & s & post & -> & Hs & Hpre & Hr)].
      * left. rewrite H1, H2. split; reflexivity.
      * right. exists (x :: pre), s, post. rewrite Hr. cbn [forallb app].
        rewrite E, Hpre. repeat split. exact Hs.
Qed.

(** X13. [remove_strategy] removes one strategy at most: it returns False
    and leaves the list as it is when no strategy is an instance of the
    type, and otherwise returns True and takes out the first strategy that
    is one, keeping all others in their order, later strategies of the same
    type included.  Every strategy is an instance of the base class
    [DiscountStrategy], so with the base class as the type the call removes
    the first strategy of the list, whatever it is. *)
Theorem X13_remove_strategy (svc : DiscountService) (ty : StrategyType) :
  let r := remove_strategy svc ty in
  fst r = existsb (fun s => isinstance s ty) (strategies svc) /\
  (fst r = false -> snd r = svc) /\
  (fst r = true ->
   exists pre s post,
     strategies svc = pre ++ s :: post /\ isinstance s ty = true /\
     forallb (fun x => negb (isinstance x ty)) pre = true /\
     strategies (snd r) = pre ++ post) /\
  (ty = DiscountStrategy_type -> strategies (snd r) = tl (strategies svc)).
Proof.
  cbv zeta. unfold remove_strategy. destruct svc as [l]. cbn [strategies].
  destruct (remove_loop_spec l ty) as [[H1 H2]|(pre & s & post & Hl & Hs & Hpre & Hr)].
  - rewrite H2, H1. cbn [fst snd strategies].
    split; [reflexivity|]. split; [reflexivity|]. split; [discriminate|].
    intros ->. destruct l; [reflexivity|]. discriminate H1.
  - rewrite Hr. cbn [fst snd strategies]. split.
    { rewrite Hl, existsb_app. cbn [existsb]. rewrite Hs.
      now rewrite orb_true_r. }
    split; [discriminate|]. split.
    { intros _. exists pre, s, post. repeat split; assumption. }
    intros ->. destruct pre as [|x pre]; [now rewrite Hl|].
    cbn [forallb] in Hpre. destruct x; discriminate Hpre.
Qed.

End DiscountSummary.

(* ================================================================== *)
(** ** The store of the transaction service *)

Section Store.
Import product props transaction transaction_service.

Lemma last_with_id_id (h : list Transaction) (tid : string) (t : Transaction) :
  last_with_id h tid = Some t -> transaction_id t = tid /\ In t h.
Proof.
  induction h as [|x h IH]; cbn [last_with_id]; [discriminate|].
  destruct (last_with_id h tid) as [u|].
  - intros [= <-]. destruct (IH eq_refl). split; [assumption|now right].
  - destruct (String.eqb (transaction_id x) tid) eqn:E; [|discriminate].
    intros [= <-]. apply String.eqb_eq in E. split; [exact E|now left].
Qed.

Lemma last_with_id_none (h : list Transaction) (tid : string) :
  last_with_id h tid = None <->
  existsb (fun u => String.eqb (transaction_id u) tid) h = false.
Proof.
  induction h as [|x h IH]; cbn [last_with_id existsb]; [tauto|].
  destruct (last_with_id h tid) as [u|].
  - split; [discriminate|]. intros H. apply orb_false_iff in H.
    destruct H as [_ H]. apply IH in H. discriminate.
  - destruct (String.eqb (transaction_id x) tid); cbn [orb].
    + split; discriminate.
    + split; intros _; [now apply IH|reflexivity].
Qed.

Lemma last_with_id_in (h : list Transaction) (t : Transaction) :
  In t h -> last_with_id h (transaction_id t) <> None.
Proof.
  intros Hi E. apply last_with_id_none in E.
  assert (Hex : existsb (fun u => String.eqb (transaction_id u) (transaction_id t)) h
                = true).
  { apply existsb_exists. exists t. split; [exact Hi|apply String.eqb_refl]. }
  congruence.
Qed.

Lemma last_with_id_app (h : list Transaction) (t : Transaction) (tid : string) :
  last_with_id (h ++ [t]) tid =
  if String.eqb (transaction_id t) tid then Some t else last_with_id h tid.
Proof.
  induction h as [|x h IH]; cbn [app last_with_id].
  - destruct (String.eqb (transaction_id t) tid); reflexivity.
  - rewrite IH. destruct (String.eqb (transaction_id t) tid); reflexivity.
Qed.

(** Writing a changed object back: the look-up by id sees it. *)
Lemma last_with_id_write (h : list Transaction) (tid tid' : string)
  (t' : Transaction) :
  last_with_id h tid <> None -> transaction_id t' = tid ->
  last_with_id (write_history h tid t') tid' =
  if String.eqb tid tid' then Some t' else last_with_id h tid'.
Proof.
  intros Hsome Hid. induction h as [|x h IH]; [contradiction|].
  cbn [write_history last_with_id] in *.
  destruct (String.eqb (transaction_id x) tid) eqn:Ex.
  - destruct (existsb (fun u => String.eqb (transaction_id u) tid) h) eqn:Eh;
      cbn [andb negb last_with_id].
    + assert (Hh : last_with_id h tid <> None).
      { intros E. apply last_with_id_none in E. congruence. }
      rewrite (IH Hh). apply String.eqb_eq in Ex.
      destruct (String.eqb tid tid') eqn:E; [reflexivity|].
      destruct (last_with_id h tid'); [reflexivity|].
      rewrite Ex, E. reflexivity.
    + apply String.eqb_eq in Ex. rewrite Hid, Ex.
      destruct (String.eqb tid tid') eqn:E.
      * apply String.eqb_eq in E. subst tid'.
        apply last_with_id_none in Eh. now rewrite Eh.
      * reflexivity.
  - cbn [andb last_with_id].
    assert (Hh : last_with_id h tid <> None).
    { destruct (last_with_id h tid); [discriminate|contradiction]. }
    rewrite (IH Hh).
    destruct (String.eqb tid tid') eqn:E; [reflexivity|].
    reflexivity.
Qed.

(** Writing back the object that is there changes nothing. *)
Lemma write_history_same (h : list Transaction) (tid : string) (t : Transaction) :
  last_with_id h tid = Some t -> write_history h tid t = h.
Proof.
  induction h as [|x h IH]; cbn [write_history last_with_id]; [reflexivity|].
  destruct (last_with_id h tid) as [u|] eqn:El.
  - intros [= ->].
    assert (Eh : existsb (fun u => String.eqb (transaction_id u) tid) h = true).
    { destruct (existsb _ h) eqn:E; [reflexivity|].
      apply last_with_id_none in E. congruence. }
    rewrite Eh, andb_false_r. now rewrite IH.
  - destruct (String.eqb (transaction_id x) tid) eqn:Ex; [|discriminate].
    intros [= ->]. apply last_with_id_none in El. rewrite El. reflexivity.
Qed.

Lemma write_history_length (h : list Transaction) (tid : string) (t' : Transaction) :
  List.length (write_history h tid t') = List.length h.
Proof.
  induction h as [|x h IH]; cbn [write_history]; [reflexivity|].
  destruct (_ && _); cbn [List.length]; [reflexivity|now rewrite IH].
Qed.

(** The sum of a measure over the history after a write. *)
Lemma write_history_sum (f : Transaction -> Z) (h : list Transaction)
  (tid : string) (t t' : Transaction) :
  last_with_id h tid = Some t ->
  sum (map f (write_history h tid t')) = sum (map f h) - f t + f t'.
Proof.
  induction h as [|x h IH]; cbn [write_history last_with_id]; [discriminate|].
  destruct (last_with_id h tid) as [u|] eqn:El.
  - intros [= ->].
    assert (Eh : existsb (fun u => String.eqb (transaction_id u) tid) h = true).
    { destruct (existsb _ h) eqn:E; [reflexivity|].
      apply last_with_id_none in E. congruence. }
    rewrite Eh, andb_false_r. cbn [map]. rewrite !sum_cons, IH by reflexivity. lia.
  - destruct (String.eqb (transaction_id x) tid) eqn:Ex; [|discriminate].
    intros [= ->]. apply last_with_id_none in El. rewrite El.
    cbn [andb negb map]. rewrite !sum_cons. lia.
Qed.

Lemma write_history_forall (P : Transaction -> Prop) (h : list Transaction)
  (tid : string) (t' : Transaction) :
  Forall P h -> P t' -> Forall P (write_history h tid t').
Proof.
  intros Hh Ht. induction h as [|x h IH]; cbn [write_history]; [constructor|].
  inversion Hh; subst. destruct (_ && _); constructor; auto.
Qed.

Lemma dict_set_same {V : Type} (d : list (string * V)) (k : string) (v : V) :
  dict_get String.eqb d k = Some v -> dict_set String.eqb d k v = d.
Proof.
  induction d as [|[a x] d IH]; cbn [dict_get dict_set]; [discriminate|].
  destruct (String.eqb a k); [now intros [= ->]|].
  intros H. now rewrite IH.
Qed.

Lemma call_keeps (env : Env) (op : Call) (t : Transaction) :
  transaction_id (snd (call env op t)) = transaction_id t /\
  customer (snd (call env op t)) = customer t /\
  total_amount (snd (call env op t)) = total_amount t /\
  created_at (snd (call env op t)) = created_at t /\
  cart (snd (call env op t)) = cart t.
Proof.
  destruct op; cbn [call];
    unfold transaction.complete_transaction, transaction.cancel_transaction,
           transaction.refund_transaction;
    destruct (TransactionStatus_eqb _ _); repeat split; reflexivity.
Qed.

(** A transition call on the service is the call on the stored object. *)
Lemma status_call_unfold (env : Env) (op : Call) (svc : TransactionService)
  (tid : string) :
  status_call env op svc tid =
  match get_transaction svc tid with
  | Some t => (fst (call env op t), write_back svc tid (snd (call env op t)))
  | None => (false, svc)
  end.
Proof.
  unfold get_transaction.
  destruct op; cbn [status_call call];
    unfold complete_transaction, cancel_transaction, refund_transaction;
    destruct (dict_get String.eqb (transactions svc) tid) as [t|]; try reflexivity.
  - destruct (transaction.complete_transaction env t); reflexivity.
  - destruct (transaction.cancel_transaction t); reflexivity.
  - destruct (transaction.refund_transaction t); reflexivity.
Qed.

End Store.

(* ================================================================== *)
(** ** Creating and finding transactions *)

Section ServiceStore.
Import product props transaction transaction_service.

Lemma create_transaction_none (env : Env) (svc : TransactionService)
  (c : cart.ShoppingCart) (payment_amount : Z) (method : string)
  (installments_ : option (list Z)) (svc' : TransactionService)
  (c' : cart.ShoppingCart) :
  create_transaction env svc c payment_amount method installments_
    = (None, svc', c') -> svc' = svc /\ c' = c.
Proof.
  unfold create_transaction.
  destruct (create_transaction_try env svc c payment_amount method installments_)
    as [[t|]|e]; intros [= <- <-]; split; reflexivity.
Qed.

(** X14. [create_transaction] and [get_transaction] fit together.  When a
    transaction is returned, it is Pending, it is found under its id, the
    entries of all other ids are as before, the history has grown by this
    one transaction at its end, and the cart of the caller is the cart of
    the transaction, finalized.  When None is returned, the service and the
    cart are exactly as before. *)
Theorem X14_create_then_get (env : Env) (svc : TransactionService)
  (c : cart.ShoppingCart) (payment_amount : Z) (method : string)
  (installments_ : option (list Z)) :
  let r := create_transaction env svc c payment_amount method installments_ in
  match fst (fst r) with
  | Some t =>
      get_transaction (snd (fst r)) (transaction_id t) = Some t /\
      (forall tid, tid <> transaction_id t ->
                   get_transaction (snd (fst r)) tid = get_transaction svc tid) /\
      transaction_history (snd (fst r)) = transaction_history svc ++ [t] /\
      orchestrator (snd (fst r)) = orchestrator svc /\
      transaction_id t = generate_transaction_id env /\
      status t = PENDING /\
      snd r = cart.finalize_cart c /\ cart t = snd r
  | None => snd (fst r) = svc /\ snd r = c
  end.
Proof.
  cbv zeta.
  destruct (create_transaction env svc c payment_amount method installments_)
    as [[[t|] svc'] c'] eqn:E; cbn [fst snd].
  - apply create_transaction_paid in E.
    destruct E as (tt & _ & Ht & _ & _ & _ & _ & -> & ->).
    unfold get_transaction. cbn [transactions transaction_history orchestrator].
    split.
    { now rewrite (lookup_set String.eqb String.eqb_eq), String.eqb_refl. }
    split.
    { intros tid Hne. rewrite (lookup_set String.eqb String.eqb_eq).
      destruct (String.eqb (transaction_id t) tid) eqn:Eq; [|reflexivity].
      apply String.eqb_eq in Eq. congruence. }
    rewrite Ht. repeat split; reflexivity.
  - now apply create_transaction_none in E.
Qed.

Lemma payment_of_paid (total payment_amount : Z) (m1 m2 : string)
  (installments_ : option (list Z)) :
  amount_paid (payment_of total payment_amount m1 installments_)
  = amount_paid (payment_of total payment_amount m2 installments_) /\
  change_amount (payment_of total payment_amount m1 installments_)
  = change_amount (payment_of total payment_amount m2 installments_) /\
  payment_method (payment_of total payment_amount m1 installments_) = m1.
Proof.
  unfold payment_of. destruct installments_ as [[|i l]|]; repeat split; reflexivity.
Qed.

(** X15. [create_transaction] never checks the payment method.  The
    validation it runs looks at the amount with the method 'cash', so when
    a call with 'cash' makes a transaction, the same call with any other
    method text makes one too, with the same total, amount paid and change,
    and records the text as the payment method; this holds also for a
    method that [validate_payment] itself declares not valid. *)
Theorem X15_method_not_checked (env : Env) (svc : TransactionService)
  (c : cart.ShoppingCart) (payment_amount : Z) (method : string)
  (installments_ : option (list Z)) (t : Transaction) :
  fst (fst (create_transaction env svc c payment_amount "cash" installments_))
    = Some t ->
  exists t',
    fst (fst (create_transaction env svc c payment_amount method installments_))
      = Some t' /\
    payment_method (payment t') = method /\
    total_amount t' = total_amount t /\
    amount_paid (payment t') = amount_paid (payment t) /\
    change_amount (payment t') = change_amount (payment t) /\
    (~ In method PaymentProcessor.supported_methods ->
     PaymentProcessor.is_valid
       (PaymentProcessor.validate_payment (total_amount t') payment_amount method)
     = false).
Proof.
  intros H.
  destruct (create_transaction env svc c payment_amount "cash" installments_)
    as [[r svc'] c'] eqn:E. cbn [fst] in H. subst r.
  pose proof (create_transaction_inv env _ _ _ _ _ _ _ _ E)
    as (tt0 & Htt0 & _ & _ & Hne & Hcu & Hpay).
  apply create_transaction_paid in E.
  destruct E as (tt & Htt & -> & Hp & Hs & Htax & Htot & _ & _).
  destruct (payment_of_paid (t_total_amount tt) payment_amount method "cash"
              installments_) as (Ha & Hc & Hm).
  destruct (create_transaction_ok env svc c payment_amount method installments_ tt
              Htt Hne Hcu Hpay ltac:(rewrite Ha; exact Hp) Hs Htax Htot) as (Hr & _).
  eexists. split; [exact Hr|].
  unfold transaction_of. cbn [payment total_amount].
  split; [exact Hm|]. split; [reflexivity|]. split; [exact Ha|]. split; [exact Hc|].
  intros Hn. unfold PaymentProcessor.validate_payment.
  destruct (existsb (String.eqb method) PaymentProcessor.supported_methods) eqn:Ex;
    [|reflexivity].
  apply supported_spec in Ex. contradiction.
Qed.

Lemma X15_witness :
  exists t t',
    fst (fst (create_transaction sample.env_wednesday TransactionService_default
                sample.cart_beras 50000 "cash" None)) = Some t /\
    fst (fst (create_transaction sample.env_wednesday TransactionService_default
                sample.cart_beras 50000 "kerang" None)) = Some t' /\
    payment_method (payment t') = "kerang"%string /\
    PaymentProcessor.is_valid
      (PaymentProcessor.validate_payment 50000 50000 "kerang") = false.
Proof.
  eexists.
  destruct (X15_method_not_checked sample.env_wednesday TransactionService_default
              sample.cart_beras 50000 "kerang" None _ eq_refl)
    as (t' & Ht' & Hm & _).
  exists t'. split; [reflexivity|]. split; [exact Ht'|]. split; [exact Hm|reflexivity].
Defined.

Lemma synced_empty (o : TransactionOrchestrator) :
  store_synced (mkTransactionService o [] []).
Proof. intros tid. reflexivity. Qed.

Lemma create_synced (env : Env) (svc : TransactionService) (c : cart.ShoppingCart)
  (payment_amount : Z) (method : string) (installments_ : option (list Z)) :
  store_synced svc ->
  store_synced (snd (fst (create_transaction env svc c payment_amount method
                            installments_))).
Proof.
  intros Hs.
  destruct (create_transaction env svc c payment_amount method installments_)
    as [[[t|] svc'] c'] eqn:E; cbn [fst snd].
  - apply create_transaction_paid in E.
    destruct E as (tt & _ & _ & _ & _ & _ & _ & -> & _).
    intros tid. unfold get_transaction. cbn [transactions transaction_history].
    rewrite (lookup_set String.eqb String.eqb_eq), last_with_id_app.
    destruct (String.eqb (transaction_id t) tid); [reflexivity|apply Hs].
  - apply create_transaction_none in E. destruct E as [-> _]. exact Hs.
Qed.

Lemma create_history_wf (env : Env) (svc : TransactionService)
  (c : cart.ShoppingCart) (payment_amount : Z) (method : string)
  (installments_ : option (list Z)) :
  history_wf svc ->
  history_wf (snd (fst (create_transaction env svc c payment_amount method
                          installments_))).
Proof.
  intros Hs.
  destruct (create_transaction env svc c payment_amount method installments_)
    as [[[t|] svc'] c'] eqn:E; cbn [fst snd].
  - pose proof (create_transaction_inv env _ _ _ _ _ _ _ _ E)
      as (tt0 & _ & _ & _ & _ & Hcu & _).
    apply create_transaction_paid in E.
    destruct E as (tt & _ & -> & _ & _ & _ & Htot & -> & _).
    unfold history_wf. cbn [transaction_history].
    apply Forall_app. split; [exact Hs|]. constructor; [|constructor].
    unfold transaction_of. cbn [customer total_amount]. split; assumption.
  - apply create_transaction_none in E. destruct E as [-> _]. exact Hs.
Qed.

Lemma synced_lookup (svc : TransactionService) (tid : string) (t : Transaction) :
  store_synced svc -> get_transaction svc tid = Some t ->
  transaction_id t = tid /\ In t (transaction_history svc) /\
  last_with_id (transaction_history svc) tid = Some t.
Proof.
  intros Hs Hg. rewrite Hs in Hg.
  destruct (last_with_id_id _ _ _ Hg). repeat split; assumption.
Qed.

(** X16. [complete_transaction], [cancel_transaction] and
    [refund_transaction] of the service act on the transaction stored under
    the id.  For an id that the service does not know they return False
    and change nothing.  For a known id they return what the method of the
    transaction returns; afterwards [get_transaction] gives the transaction
    as the method left it, the entries of other ids and the length of the
    history are as before, and when the method returned False the service
    is unchanged. *)
Theorem X16_status_calls_by_id (env : Env) (op : Call) (svc : TransactionService)
  (tid : string) :
  store_synced svc ->
  match get_transaction svc tid with
  | None => status_call env op svc tid = (false, svc)
  | Some t =>
      let r := status_call env op svc tid in
      fst r = fst (call env op t) /\
      get_transaction (snd r) tid = Some (snd (call env op t)) /\
      (forall other, other <> tid ->
                     get_transaction (snd r) other = get_transaction svc other) /\
      List.length (transaction_history (snd r))
        = List.length (transaction_history svc) /\
      In (snd (call env op t)) (transaction_history (snd r)) /\
      store_synced (snd r) /\
      (fst r = false -> snd r = svc)
  end.
Proof.
  intros Hs. rewrite status_call_unfold.
  destruct (get_transaction svc tid) as [t|] eqn:Eg; [|reflexivity].
  destruct (synced_lookup svc tid t Hs Eg) as (Hid & Hin & Hl).
  destruct (call_keeps env op t) as (Hk & _).
  cbv zeta. cbn [fst snd].
  assert (Hsync : store_synced (write_back svc tid (snd (call env op t)))).
  { intros k. unfold get_transaction, write_back.
    cbn [transactions transaction_history].
    rewrite (lookup_set String.eqb String.eqb_eq).
    rewrite last_with_id_write by (congruence).
    destruct (String.eqb tid k); [reflexivity|apply Hs]. }
  split; [reflexivity|]. split.
  { unfold get_transaction, write_back. cbn [transactions].
    now rewrite (lookup_set String.eqb String.eqb_eq), String.eqb_refl. }
  split.
  { intros other Hne. unfold get_transaction, write_back. cbn [transactions].
    rewrite (lookup_set String.eqb String.eqb_eq).
    destruct (String.eqb tid other) eqn:E; [|reflexivity].
    apply String.eqb_eq in E. congruence. }
  split.
  { unfold write_back. cbn [transaction_history]. apply write_history_length. }
  split.
  { pose proof (Hsync tid) as Hx. unfold get_transaction, write_back in Hx.
    cbn [transactions transaction_history] in Hx.
    rewrite (lookup_set String.eqb String.eqb_eq), String.eqb_refl in Hx.
    symmetry in Hx. apply last_with_id_id in Hx. apply Hx. }
  split; [exact Hsync|].
  intros Hf. rewrite (call_false_id env op t Hf). unfold write_back.
  rewrite (dict_set_same _ _ _ Eg), (write_history_same _ _ _ Hl).
  destruct svc; reflexivity.
Qed.

Lemma X16_witness :
  let env := sample.env_wednesday in
  let svc := snd (fst (create_transaction env TransactionService_default
                         sample.cart_beras 50000 "cash" None)) in
  let tid := generate_transaction_id env in
  store_synced svc /\
  status_call env Complete svc "TXN_0" = (false, svc) /\
  fst (status_call env Complete svc tid) = true /\
  (exists t, get_transaction (snd (status_call env Complete svc tid)) tid = Some t /\
             status t = COMPLETED) /\
  fst (status_call env Cancel (snd (status_call env Complete svc tid)) tid) = false.
Proof.
  cbv zeta.
  set (env := sample.env_wednesday).
  set (svc := snd (fst (create_transaction env TransactionService_default
                          sample.cart_beras 50000 "cash" None))).
  assert (Hs : store_synced svc).
  { apply create_synced, synced_empty. }
  split; [exact Hs|].
  pose proof (X16_status_calls_by_id env Complete svc "TXN_0" Hs) as H0.
  pose proof (X16_status_calls_by_id env Complete svc
                (generate_transaction_id env) Hs) as H1.
  split; [exact H0|].
  destruct (get_transaction svc (generate_transaction_id env)) as [t|] eqn:Eg;
    [|discriminate Eg].
  destruct H1 as (Hr & Hg & _).
  injection Eg as <-.
  split; [exact Hr|]. split.
  - eexists. split; [exact Hg|reflexivity].
  - reflexivity.
Defined.

Lemma status_call_synced (env : Env) (op : Call) (svc : TransactionService)
  (tid : string) :
  store_synced svc -> store_synced (snd (status_call env op svc tid)).
Proof.
  intros Hs.
  rewrite status_call_unfold.
  destruct (get_transaction svc tid) as [t|] eqn:Eg; [|exact Hs].
  destruct (synced_lookup svc tid t Hs Eg) as (Hid & Hin & Hl).
  destruct (call_keeps env op t) as (Hk & _).
  cbn [snd]. intros k. unfold get_transaction, write_back.
  cbn [transactions transaction_history].
  rewrite (lookup_set String.eqb String.eqb_eq).
  rewrite last_with_id_write by (congruence).
  destruct (String.eqb tid k); [reflexivity|apply Hs].
Qed.

Lemma status_call_history_wf (env : Env) (op : Call) (svc : TransactionService)
  (tid : string) :
  store_synced svc -> history_wf svc ->
  history_wf (snd (status_call env op svc tid)).
Proof.
  intros Hs Hw. rewrite status_call_unfold.
  destruct (get_transaction svc tid) as [t|] eqn:Eg; [|exact Hw].
  destruct (synced_lookup svc tid t Hs Eg) as (Hid & Hin & Hl).
  destruct (call_keeps env op t) as (_ & Hc & Ht & _).
  cbn [snd]. unfold history_wf, write_back. cbn [transaction_history].
  apply write_history_forall; [exact Hw|].
  unfold history_wf in Hw. rewrite Forall_forall in Hw.
  rewrite Hc, Ht. now apply Hw.
Qed.

Lemma status_call_orchestrator (env : Env) (op : Call) (svc : TransactionService)
  (tid : string) :
  orchestrator (snd (status_call env op svc tid)) = orchestrator svc.
Proof.
  rewrite status_call_unfold.
  destruct (get_transaction svc tid); reflexivity.
Qed.

Lemma service_call_inv (svc : TransactionService) (op : ServiceCall) :
  store_synced svc -> history_wf svc ->
  store_synced (service_call svc op) /\ history_wf (service_call svc op) /\
  orchestrator (service_call svc op) = orchestrator svc.
Proof.
  intros Hs Hw. destruct op as [env c pay m inst|env op tid]; cbn [service_call].
  - split; [now apply create_synced|]. split; [now apply create_history_wf|].
    destruct (create_transaction env svc c pay m inst) as [[[t|] svc'] c'] eqn:E;
      cbn [fst snd].
    + apply create_transaction_paid in E.
      destruct E as (tt & _ & _ & _ & _ & _ & _ & -> & _). reflexivity.
    + apply create_transaction_none in E. now destruct E as [-> _].
  - split; [now apply status_call_synced|].
    split; [now apply status_call_history_wf|apply status_call_orchestrator].
Qed.

Lemma service_calls_inv (ops : list ServiceCall) :
  forall svc, store_synced svc -> history_wf svc ->
  store_synced (service_calls ops svc) /\ history_wf (service_calls ops svc) /\
  orchestrator (service_calls ops svc) = orchestrator svc.
Proof.
  induction ops as [|op ops IH]; intros svc Hs Hw.
  - repeat split; assumption.
  - change (service_calls (op :: ops) svc)
      with (service_calls ops (service_call svc op)).
    destruct (service_call_inv svc op Hs Hw) as (H1 & H2 & H3).
    destruct (IH _ H1 H2) as (I1 & I2 & I3).
    split; [exact I1|]. split; [exact I2|]. now rewrite I3.
Qed.

(** X17. The dict and the history of a service never drift apart.  After
    any sequence of [create_transaction], [complete_transaction],
    [cancel_transaction] and [refund_transaction] calls on a new service,
    with any arguments, [get_transaction] gives under every id the last
    transaction of the history with this id, in its current state; every
    transaction found is in the history under the id asked for, every
    transaction of the history has an entry under its id, a customer and a
    total that is not negative, and the orchestrator is the one given. *)
Theorem X17_store_stays_synced (o : TransactionOrchestrator)
  (ops : list ServiceCall) :
  let svc := service_calls ops (mkTransactionService o [] []) in
  store_synced svc /\ history_wf svc /\ orchestrator svc = o /\
  (forall tid t, get_transaction svc tid = Some t ->
                 transaction_id t = tid /\ In t (transaction_history svc)) /\
  (forall t, In t (transaction_history svc) ->
             exists u, get_transaction svc (transaction_id t) = Some u /\
                       transaction_id u = transaction_id t).
Proof.
  cbv zeta.
  destruct (service_calls_inv ops (mkTransactionService o [] [])
              (synced_empty o) ltac:(constructor)) as (Hs & Hw & Ho).
  split; [exact Hs|]. split; [exact Hw|]. split; [exact Ho|]. split.
  - intros tid t Hg. destruct (synced_lookup _ _ _ Hs Hg) as (H1 & H2 & _).
    split; assumption.
  - intros t Hi. pose proof (last_with_id_in _ _ Hi) as Hn. rewrite <- Hs in Hn.
    destruct (get_transaction _ (transaction_id t)) as [u|] eqn:Eg; [|contradiction].
    exists u. split; [reflexivity|]. now destruct (synced_lookup _ _ _ Hs Eg).
Qed.

End ServiceStore.

(* ================================================================== *)
(** ** Counting the history *)

Section Analytics.
Import product props transaction transaction_service.

Lemma count_nonneg {A : Type} (f : A -> bool) (l : list A) :
  0 <= Z.of_nat (List.length (filter f l)).
Proof. lia. Qed.

Lemma breakdown_fold (l : list Transaction) :
  forall (acc : list (string * Z)) (k : string),
  dict_get String.eqb (fold_left breakdown_step l acc) k =
  match dict_get String.eqb acc k with
  | Some n => Some (n + Z.of_nat (List.length (filter (has_status_text k) l)))
  | None =>
      if Z.of_nat (List.length (filter (has_status_text k) l)) =? 0 then None
      else Some (Z.of_nat (List.length (filter (has_status_text k) l)))
  end.
Proof.
  induction l as [|t l IH]; intros acc k; cbn [fold_left].
  - cbn [filter List.length]. destruct (dict_get String.eqb acc k) as [n|];
      [f_equal; lia|reflexivity].
  - rewrite IH. unfold breakdown_step.
    rewrite (lookup_set String.eqb String.eqb_eq).
    assert (Hf : filter (has_status_text k) (t :: l) =
                 if String.eqb (status_value (status t)) k
                 then t :: filter (has_status_text k) l
                 else filter (has_status_text k) l) by reflexivity.
    rewrite Hf. clear Hf.
    destruct (String.eqb (status_value (status t)) k) eqn:E.
    + apply String.eqb_eq in E. rewrite E. cbn [List.length].
      destruct (dict_get String.eqb acc k) as [n|].
      * f_equal. lia.
      * replace (Z.of_nat (S (List.length (filter (has_status_text k) l))) =? 0)
          with false by (symmetry; apply Z.eqb_neq; lia).
        f_equal. lia.
    + reflexivity.
Qed.

Lemma sum_counts_set (d : list (string * Z)) (k : string) (v : Z) :
  sum (dict_values (dict_set String.eqb d k v)) =
  sum (dict_values d)
  - match dict_get String.eqb d k with Some o => o | None => 0 end + v.
Proof.
  pose proof (sum_values_set String.eqb (fun x : Z => x) d k v) as H.
  now rewrite !map_id in H.
Qed.

Lemma breakdown_fold_sum (l : list Transaction) :
  forall acc : list (string * Z),
  NoDup (dict_keys acc) ->
  NoDup (dict_keys (fold_left breakdown_step l acc)) /\
  sum (dict_values (fold_left breakdown_step l acc))
  = sum (dict_values acc) + Z.of_nat (List.length l).
Proof.
  induction l as [|t l IH]; intros acc Hn; cbn [fold_left List.length].
  - split; [exact Hn|lia].
  - destruct (IH (breakdown_step acc t)) as (H1 & H2).
    { apply (keys_set_nodup String.eqb String.eqb_eq). exact Hn. }
    split; [exact H1|]. rewrite H2. unfold breakdown_step.
    rewrite sum_counts_set.
    destruct (dict_get String.eqb acc (status_value (status t))); lia.
Qed.

Lemma status_value_eqb (a b : TransactionStatus) :
  String.eqb (status_value a) (status_value b) = TransactionStatus_eqb a b.
Proof. destruct a, b; reflexivity. Qed.

(** X18. The status breakdown counts what [get_transactions_by_status]
    lists: for every status the breakdown of the history has, under the
    text of the status, the number of transactions of this status, and has
    no entry when there is none.  Each status text occurs at most once,
    and the counts add up to the length of the history. *)
Theorem X18_status_breakdown (svc : TransactionService) (st : TransactionStatus) :
  let breakdown := get_status_breakdown (transaction_history svc) in
  let n := Z.of_nat (List.length (get_transactions_by_status svc st)) in
  dict_get String.eqb breakdown (status_value st)
    = (if n =? 0 then None else Some n) /\
  NoDup (dict_keys breakdown) /\
  sum (dict_values breakdown) = Z.of_nat (List.length (transaction_history svc)).
Proof.
  cbv zeta.
  change (get_status_breakdown (transaction_history svc))
    with (fold_left breakdown_step (transaction_history svc) []).
  split.
  - rewrite breakdown_fold. cbn [dict_get].
    unfold get_transactions_by_status.
    replace (filter (has_status_text (status_value st)) (transaction_history svc))
      with (filter (fun t => TransactionStatus_eqb (status t) st)
                   (transaction_history svc)); [reflexivity|].
    apply filter_ext. intros t. unfold has_status_text.
    symmetry. apply status_value_eqb.
  - destruct (breakdown_fold_sum (transaction_history svc) [] ltac:(constructor))
      as (H1 & H2).
    split; [exact H1|]. rewrite H2. cbn [dict_values map]. rewrite sum_nil. lia.
Qed.

Lemma filter_twice {A : Type} (f g : A -> bool) (l : list A) :
  filter f (filter g l) = filter (fun x => g x && f x) l.
Proof.
  induction l as [|x l IH]; cbn [filter]; [reflexivity|].
  destruct (g x); cbn [filter andb]; [destruct (f x)|]; now rewrite IH.
Qed.

Lemma filter_all {A : Type} (l : list A) : filter (fun _ => true) l = l.
Proof. induction l as [|x l IH]; cbn [filter]; [reflexivity|now rewrite IH]. Qed.

Lemma period_filter (start_date end_date : option Z) (h : list Transaction) :
  match end_date with
  | Some d =>
      filter (fun t => created_at t <=? d)
        match start_date with
        | Some d0 => filter (fun t => d0 <=? created_at t) h
        | None => h
        end
  | None =>
      match start_date with
      | Some d0 => filter (fun t => d0 <=? created_at t) h
      | None => h
      end
  end = filter (in_period start_date end_date) h.
Proof.
  unfold in_period. destruct start_date as [d0|], end_date as [d|].
  - apply filter_twice.
  - apply filter_ext. intros t. now rewrite andb_true_r.
  - reflexivity.
  - symmetry. apply filter_all.
Qed.

Lemma top_customers_loop_total (l : list Transaction) :
  Forall (fun t => customer t <> None) l ->
  forall acc, top_customers_loop l acc <> None.
Proof.
  induction 1 as [|t l Ht Hl IH]; intros acc; cbn [top_customers_loop].
  - discriminate.
  - destruct (customer t) as [cu|]; [apply IH|contradiction].
Qed.

Lemma history_wf_filter (f : Transaction -> bool) (h : list Transaction) :
  Forall (fun t => customer t <> None /\ 0 <= total_amount t) h ->
  Forall (fun t => customer t <> None) (filter f h) /\
  0 <= sum (map total_amount (filter f h)).
Proof.
  intros H. split.
  - apply Forall_filter. eapply Forall_impl; [|exact H]. now intros t [].
  - apply sum_map_nonneg. apply Forall_filter.
    eapply Forall_impl; [|exact H]. now intros t [].
Qed.

(** What [get_sales_analytics] computes, for a history whose transactions
    all have a customer. *)
Lemma sales_analytics_value (svc : TransactionService)
  (start_date end_date : option Z) :
  history_wf svc ->
  exists top,
    get_top_customers (completed_in start_date end_date svc) 5 = Some top /\
    get_sales_analytics svc start_date end_date =
    Some (mkSalesAnalytics (start_date, end_date)
            (mkSummary
               (sum (map total_amount (completed_in start_date end_date svc)))
               (Z.of_nat (List.length (completed_in start_date end_date svc)))
               (sum (map (fun t => cart.total_quantity (cart t))
                         (completed_in start_date end_date svc)))
               (if 0 <? Z.of_nat (List.length (completed_in start_date end_date svc))
                then sum (map total_amount (completed_in start_date end_date svc))
                     / Z.of_nat (List.length (completed_in start_date end_date svc))
                else 0))
            (get_status_breakdown
               (filter (in_period start_date end_date) (transaction_history svc)))
            top
            (get_category_performance (completed_in start_date end_date svc))).
Proof.
  intros Hw. unfold get_sales_analytics.
  rewrite (period_filter start_date end_date (transaction_history svc)).
  rewrite filter_twice.
  change (filter
            (fun x => in_period start_date end_date x
                      && TransactionStatus_eqb (status x) COMPLETED)
            (transaction_history svc))
    with (completed_in start_date end_date svc).
  destruct (history_wf_filter
              (fun t => in_period start_date end_date t
                        && TransactionStatus_eqb (status t) COMPLETED)
              _ Hw) as (Hc & _).
  change (filter _ (transaction_history svc))
    with (completed_in start_date end_date svc) in Hc.
  unfold get_top_customers.
  pose proof (top_customers_loop_total _ Hc []) as Hn.
  destruct (top_customers_loop (completed_in start_date end_date svc) [])
    as [cd|]; [|contradiction].
  eexists. split; reflexivity.
Qed.

(** X19. The summary of [get_sales_analytics] counts the completed
    transactions created inside the period, bounds included, and only
    these: the revenue is the sum of their totals and is not negative, the
    number of transactions is their number, the items sold are the
    quantities of their carts.  The average is 0 when there is no such
    transaction and otherwise the revenue divided by their number, rounded
    down.  The status breakdown covers all transactions of the period.
    The call never fails on a history whose transactions have a customer. *)
Theorem X19_sales_summary (svc : TransactionService)
  (start_date end_date : option Z) :
  history_wf svc ->
  exists a,
    get_sales_analytics svc start_date end_date = Some a /\
    let done := completed_in start_date end_date svc in
    let n := Z.of_nat (List.length done) in
    period a = (start_date, end_date) /\
    sm_total_revenue (summary a) = sum (map total_amount done) /\
    total_transactions (summary a) = n /\
    sm_total_items_sold (summary a)
      = sum (map (fun t => cart.total_quantity (cart t)) done) /\
    0 <= sm_total_revenue (summary a) /\
    (n = 0 -> average_transaction_value (summary a) = 0) /\
    (0 < n ->
       average_transaction_value (summary a) * n <= sm_total_revenue (summary a)
       /\ sm_total_revenue (summary a)
          < (average_transaction_value (summary a) + 1) * n) /\
    status_breakdown a
      = get_status_breakdown
          (filter (in_period start_date end_date) (transaction_history svc)).
Proof.
  intros Hw.
  destruct (sales_analytics_value svc start_date end_date Hw) as (top & _ & Ha).
  eexists. split; [exact Ha|]. cbv zeta.
  cbn [period summary sm_total_revenue total_transactions sm_total_items_sold
       average_transaction_value status_breakdown].
  destruct (history_wf_filter
              (fun t => in_period start_date end_date t
                        && TransactionStatus_eqb (status t) COMPLETED)
              _ Hw) as (_ & Hr).
  change (filter _ (transaction_history svc))
    with (completed_in start_date end_date svc) in Hr.
  set (R := sum (map total_amount (completed_in start_date end_date svc))) in *.
  set (n := Z.of_nat (List.length (completed_in start_date end_date svc))).
  split; [reflexivity|]. split; [reflexivity|]. split; [reflexivity|].
  split; [reflexivity|]. split; [exact Hr|]. split; [|split].
  - intros ->. reflexivity.
  - intros Hn. replace (0 <? n) with true by (symmetry; apply Z.ltb_lt; exact Hn).
    pose proof (Z.mul_div_le R n Hn) as H1.
    pose proof (Z.mul_succ_div_gt R n Hn) as H2. lia.
  - reflexivity.
Qed.

Lemma X19_witness :
  let env := sample.env_wednesday in
  let svc0 := snd (fst (create_transaction env TransactionService_default
                          sample.cart_beras 50000 "cash" None)) in
  let svc := snd (status_call env Complete svc0 (generate_transaction_id env)) in
  history_wf svc /\
  exists a,
    get_sales_analytics svc (Some 0) None = Some a /\
    sm_total_revenue (summary a) = 50000 /\
    total_transactions (summary a) = 1 /\
    average_transaction_value (summary a) = 50000 /\
    status_breakdown a = [("completed"%string, 1)].
Proof.
  cbv zeta.
  set (env := sample.env_wednesday).
  set (svc0 := snd (fst (create_transaction env TransactionService_default
                           sample.cart_beras 50000 "cash" None))).
  set (svc := snd (status_call env Complete svc0 (generate_transaction_id env))).
  assert (Hw : history_wf svc).
  { apply status_call_history_wf.
    - apply create_synced, synced_empty.
    - apply create_history_wf. constructor. }
  split; [exact Hw|].
  destruct (X19_sales_summary svc (Some 0) None Hw)
    as (a & Ha & _ & Hr & Hn & _ & _ & _ & _ & Hb).
  exists a. split; [exact Ha|].
  vm_compute in Ha. injection Ha as <-. repeat split; reflexivity.
Defined.

Lemma counted_sum (h : list Transaction) :
  sum (map total_amount
         (filter (fun t => in_period None None t
                           && TransactionStatus_eqb (status t) COMPLETED) h))
  = sum (map counted h).
Proof.
  set (F := fun t => in_period None None t
                     && TransactionStatus_eqb (status t) COMPLETED).
  induction h as [|t h IH]; [reflexivity|].
  assert (Hf : filter F (t :: h) =
               if TransactionStatus_eqb (status t) COMPLETED
               then t :: filter F h else filter F h) by reflexivity.
  rewrite Hf. cbn [map]. rewrite sum_cons. unfold counted at 1.
  destruct (TransactionStatus_eqb (status t) COMPLETED);
    cbn [map]; rewrite ?sum_cons, IH; lia.
Qed.

(** X20. The revenue follows the status of the transactions.  A
    transition call on the service for a known id changes the revenue of
    the analytics over all time by what the transaction counts after the
    call less what it counted before, where a transaction counts its total
    while it is Completed and nothing otherwise.  So completing a Pending
    transaction adds its total, refunding a Completed one takes it away
    again, cancelling never changes the revenue, and a call that returns
    False leaves the analytics as they were. *)
Theorem X20_revenue_follows_status (env : Env) (op : Call)
  (svc : TransactionService) (tid : string) (t : Transaction) :
  store_synced svc -> history_wf svc -> get_transaction svc tid = Some t ->
  exists a a',
    get_sales_analytics svc None None = Some a /\
    get_sales_analytics (snd (status_call env op svc tid)) None None = Some a' /\
    sm_total_revenue (summary a')
      = sm_total_revenue (summary a) + counted (snd (call env op t)) - counted t /\
    (fst (status_call env op svc tid) = true ->
       (op = Complete ->
        sm_total_revenue (summary a') = sm_total_revenue (summary a) + total_amount t) /\
       (op = Cancel ->
        sm_total_revenue (summary a') = sm_total_revenue (summary a)) /\
       (op = Refund ->
        sm_total_revenue (summary a') = sm_total_revenue (summary a) - total_amount t)) /\
    (fst (status_call env op svc tid) = false -> a' = a).
Proof.
  intros Hs Hw Hg.
  pose proof (status_call_history_wf env op svc tid Hs Hw) as Hw'.
  destruct (sales_analytics_value svc None None Hw) as (top & _ & Ha).
  destruct (sales_analytics_value _ None None Hw') as (top' & _ & Ha').
  eexists. eexists. split; [exact Ha|]. split; [exact Ha'|].
  cbn [summary sm_total_revenue].
  unfold completed_in. rewrite !counted_sum.
  pose proof (Hcall := status_call_unfold env op svc tid).
  rewrite Hg in Hcall.
  destruct (synced_lookup svc tid t Hs Hg) as (Hid & Hin & Hl).
  assert (Hsum : sum (map counted (transaction_history (snd (status_call env op svc tid))))
                 = sum (map counted (transaction_history svc))
                   + counted (snd (call env op t)) - counted t).
  { rewrite Hcall. cbn [snd]. unfold write_back. cbn [transaction_history].
    rewrite (write_history_sum counted _ _ t _ Hl). lia. }
  split; [exact Hsum|]. split.
  - intros Hr. rewrite Hcall in Hr. cbn [fst] in Hr. rewrite Hsum.
    destruct op; cbn [call] in *;
      unfold transaction.complete_transaction, transaction.cancel_transaction,
             transaction.refund_transaction in *;
      unfold counted;
      destruct (status t); cbn in Hr |- *; try discriminate Hr;
      repeat split; intros; try discriminate; lia.
  - intros Hr. rewrite Hcall in Hr. cbn [fst] in Hr.
    assert (Hsame : snd (status_call env op svc tid) = svc).
    { rewrite Hcall. cbn [snd]. rewrite (call_false_id env op t Hr).
      unfold write_back. rewrite (dict_set_same _ _ _ Hg), (write_history_same _ _ _ Hl).
      destruct svc; reflexivity. }
    rewrite Hsame in Ha' |- *. congruence.
Qed.

Lemma X20_witness :
  let env := sample.env_wednesday in
  let svc := snd (fst (create_transaction env TransactionService_default
                         sample.cart_beras 50000 "cash" None)) in
  let tid := generate_transaction_id env in
  exists a a',
    get_sales_analytics svc None None = Some a /\
    get_sales_analytics (snd (status_call env Complete svc tid)) None None = Some a' /\
    sm_total_revenue (summary a) = 0 /\
    sm_total_revenue (summary a') = 50000.
Proof.
  cbv zeta.
  set (env := sample.env_wednesday).
  set (svc := snd (fst (create_transaction env TransactionService_default
                          sample.cart_beras 50000 "cash" None))).
  assert (Hs : store_synced svc) by (apply create_synced, synced_empty).
  assert (Hw : history_wf svc) by (apply create_history_wf; constructor).
  destruct (X20_revenue_follows_status env Complete svc (generate_transaction_id env)
              _ Hs Hw eq_refl) as (a & a' & Ha & Ha' & _ & Hc & _).
  exists a, a'. split; [exact Ha|]. split; [exact Ha'|].
  destruct (Hc eq_refl) as (Hadd & _). specialize (Hadd eq_refl).
  vm_compute in Ha. injection Ha as <-.
  split; [reflexivity|]. rewrite Hadd. reflexivity.
Defined.

End Analytics.

(* ================================================================== *)
(** ** Laws of [sorted] and of the slice *)

Section SortedLaws.
Context {A : Type} (key : A -> Z) (reverse : bool).

(** The order that [sorted] establishes. *)
Local Abbreviation before := (fun a b : A => if reverse then key b <= key a else key a <= key b).

Lemma goes_first_before (x y : A) : goes_first key reverse x y = true <-> before x y.
Proof. unfold goes_first. destruct reverse; apply Z.leb_le. Qed.

Lemma goes_first_flip (x y : A) :
  goes_first key reverse x y = false -> before y x /\ key x <> key y.
Proof.
  unfold goes_first. destruct reverse; intros H; apply Z.leb_gt in H; lia.
Qed.

Lemma insert_sorted_perm (x : A) (l : list A) :
  Permutation (insert_sorted key reverse x l) (x :: l).
Proof.
  induction l as [|y l IH]; cbn [insert_sorted]; [reflexivity|].
  destruct (goes_first key reverse x y); [reflexivity|].
  rewrite IH. apply perm_swap.
Qed.

Lemma sorted_perm (l : list A) : Permutation (sorted key reverse l) l.
Proof.
  induction l as [|x l IH]; cbn [sorted fold_right]; [reflexivity|].
  rewrite insert_sorted_perm. now constructor.
Qed.

Lemma insert_sorted_ordered (x : A) (l : list A) :
  StronglySorted before l -> StronglySorted before (insert_sorted key reverse x l).
Proof.
  induction 1 as [|y l Hl IH Hy]; cbn [insert_sorted].
  - constructor; constructor.
  - destruct (goes_first key reverse x y) eqn:E.
    + apply goes_first_before in E. constructor.
      * constructor; assumption.
      * constructor; [exact E|]. rewrite Forall_forall in Hy |- *.
        intros z Hz. specialize (Hy z Hz). cbv beta in *.
        destruct reverse; lia.
    + apply goes_first_flip in E. destruct E as [E _]. constructor; [exact IH|].
      rewrite Forall_forall in Hy |- *. intros z Hz.
      apply (Permutation_in _ (insert_sorted_perm x l)) in Hz.
      destruct Hz as [<-|Hz]; [exact E|now apply Hy].
Qed.

Lemma sorted_ordered (l : list A) : StronglySorted before (sorted key reverse l).
Proof.
  induction l as [|x l IH]; cbn [sorted fold_right]; [constructor|].
  now apply insert_sorted_ordered.
Qed.

(** The sort is stable: elements of one key keep their order. *)
Lemma insert_sorted_stable (k : Z) (x : A) (l : list A) :
  filter (fun y => key y =? k) (insert_sorted key reverse x l)
  = filter (fun y => key y =? k) (x :: l).
Proof.
  induction l as [|y l IH]; cbn [insert_sorted]; [reflexivity|].
  destruct (goes_first key reverse x y) eqn:E; [reflexivity|].
  apply goes_first_flip in E. destruct E as [_ E].
  cbn [filter] in *. rewrite IH.
  destruct (key y =? k) eqn:Ey, (key x =? k) eqn:Ex; try reflexivity.
  apply Z.eqb_eq in Ey, Ex. congruence.
Qed.

Lemma sorted_stable (k : Z) (l : list A) :
  filter (fun y => key y =? k) (sorted key reverse l)
  = filter (fun y => key y =? k) l.
Proof.
  induction l as [|x l IH]; cbn [sorted fold_right]; [reflexivity|].
  change (fold_right (insert_sorted key reverse) [] l) with (sorted key reverse l).
  rewrite insert_sorted_stable. cbn [filter]. now rewrite IH.
Qed.

Lemma ordered_split (n : nat) (l : list A) :
  StronglySorted before l ->
  forall a b, In a (firstn n l) -> In b (skipn n l) -> before a b.
Proof.
  intros Hs. revert n. induction Hs as [|y l Hl IH Hy]; intros n a b Ha Hb.
  - destruct n; contradiction.
  - destruct n as [|n]; [contradiction|]. cbn [firstn skipn] in Ha, Hb.
    destruct Ha as [<-|Ha].
    + rewrite Forall_forall in Hy. apply Hy.
      rewrite <- (firstn_skipn n l). apply in_or_app. now right.
    + now apply (IH n).
Qed.

Lemma slice_to_split (l : list A) (limit : Z) :
  exists n, slice_to l limit = firstn n l /\
            slice_to l limit ++ skipn n l = l /\
            (0 <= limit -> n = Z.to_nat limit).
Proof.
  unfold slice_to. destruct (limit <? 0) eqn:E.
  - eexists. split; [reflexivity|]. split; [apply firstn_skipn|].
    apply Z.ltb_lt in E. lia.
  - eexists. split; [reflexivity|]. split; [apply firstn_skipn|reflexivity].
Qed.

End SortedLaws.

(* ================================================================== *)
(** ** Top customers *)

Section TopCustomers.
Import product props transaction transaction_service.

Lemma top_fold (l : list Transaction) :
  Forall (fun t => customer t <> None) l ->
  forall acc, exists r,
    top_customers_loop l acc = Some r /\
    (NoDup (dict_keys acc) -> NoDup (dict_keys r)) /\
    forall n,
      dict_get String.eqb r n =
      match dict_get String.eqb acc n, filter (of_customer n) l with
      | None, [] => None
      | Some d, fl =>
          Some (mkCustomerData (cd_name d)
                  (total_spent d + sum (map total_amount fl))
                  (transaction_count d + Z.of_nat (List.length fl)))
      | None, fl =>
          Some (mkCustomerData n (sum (map total_amount fl))
                  (Z.of_nat (List.length fl)))
      end.
Proof.
  induction 1 as [|t l Ht Hl IH]; intros acc.
  - exists acc. split; [reflexivity|]. split; [trivial|]. intros n.
    cbn [filter map List.length]. rewrite sum_nil.
    destruct (dict_get String.eqb acc n) as [[a b c]|]; [|reflexivity].
    cbn [cd_name total_spent transaction_count]. do 2 f_equal; lia.
  - cbn [top_customers_loop].
    destruct (customer t) as [cu|] eqn:Ecu; [|contradiction].
    set (old := match dict_get String.eqb acc (customer.nama cu) with
                | Some d => d
                | None => mkCustomerData (customer.nama cu) 0 0
                end).
    set (acc' := dict_set String.eqb acc (customer.nama cu)
                   (mkCustomerData (cd_name old) (total_spent old + total_amount t)
                      (transaction_count old + 1))).
    destruct (IH acc') as (r & Hr & Hnd & Hget).
    exists r. split; [exact Hr|]. split.
    { intros Hn. apply Hnd. unfold acc'.
      apply (keys_set_nodup String.eqb String.eqb_eq). exact Hn. }
    intros n. rewrite Hget. unfold acc'.
    rewrite (lookup_set String.eqb String.eqb_eq).
    assert (Hf : filter (of_customer n) (t :: l) =
                 if String.eqb (customer.nama cu) n
                 then t :: filter (of_customer n) l
                 else filter (of_customer n) l).
    { cbn [filter]. unfold of_customer at 1. now rewrite Ecu. }
    rewrite Hf. clear Hf.
    destruct (String.eqb (customer.nama cu) n) eqn:E.
    + apply String.eqb_eq in E. subst n. unfold old.
      cbn [cd_name total_spent transaction_count map List.length].
      rewrite sum_cons.
      destruct (dict_get String.eqb acc (customer.nama cu)) as [[a b c]|];
        cbn [cd_name total_spent transaction_count]; do 2 f_equal; lia.
    + reflexivity.
Qed.

(** X21. [_get_top_customers] lists every customer of the transactions
    once, with the sum of the totals and the number of the customer's
    transactions, ordered by the sum spent from the highest down, and cuts
    the list at the limit: it returns the first entries of this order, so
    nobody left out has spent more than anybody listed.  Customers are told
    apart by the exact name.  The call does not fail when every transaction
    has a customer. *)
Theorem X21_top_customers (ts : list Transaction) (limit : Z) :
  Forall (fun t => customer t <> None) ts ->
  exists top rest,
    get_top_customers ts limit = Some top /\
    (0 <= limit ->
     List.length top = Nat.min (Z.to_nat limit) (List.length (top ++ rest))) /\
    StronglySorted (fun a b => total_spent b <= total_spent a) (top ++ rest) /\
    NoDup (map cd_name (top ++ rest)) /\
    (forall d, In d (top ++ rest) ->
       total_spent d
         = sum (map total_amount (filter (of_customer (cd_name d)) ts)) /\
       transaction_count d
         = Z.of_nat (List.length (filter (of_customer (cd_name d)) ts)) /\
       0 < transaction_count d) /\
    (forall t cu, In t ts -> customer t = Some cu ->
                  In (customer.nama cu) (map cd_name (top ++ rest))).
Proof.
  intros Hts. destruct (top_fold ts Hts []) as (r & Hr & Hnd & Hget).
  specialize (Hnd ltac:(constructor)). cbn [dict_get] in Hget.
  unfold get_top_customers. rewrite Hr.
  set (s := sorted total_spent true (dict_values r)).
  destruct (slice_to_split s limit) as (n & Hfirst & Hsplit & Hn).
  exists (slice_to s limit), (skipn n s). rewrite Hsplit.
  assert (Hentry : forall k d, In (k, d) r ->
            d = mkCustomerData k
                  (sum (map total_amount (filter (of_customer k) ts)))
                  (Z.of_nat (List.length (filter (of_customer k) ts)))
            /\ filter (of_customer k) ts <> []).
  { intros k d Hi.
    pose proof (in_lookup String.eqb String.eqb_eq r k d Hnd Hi) as Hg.
    rewrite Hget in Hg.
    destruct (filter (of_customer k) ts) as [|x fl]; [discriminate|].
    injection Hg as <-. split; [reflexivity|discriminate]. }
  assert (Hnames : map cd_name (dict_values r) = dict_keys r).
  { unfold dict_values, dict_keys. rewrite map_map. apply map_ext_in.
    intros [k d] Hi. destruct (Hentry k d Hi) as (-> & _). reflexivity. }
  assert (Hperm : Permutation s (dict_values r)) by apply sorted_perm.
  split; [reflexivity|]. split.
  { intros Hl. rewrite Hfirst, length_firstn, (Hn Hl). reflexivity. }
  split.
  { exact (sorted_ordered total_spent true (dict_values r)). }
  split.
  { apply (Permutation_NoDup (l := dict_keys r)); [|exact Hnd].
    rewrite <- Hnames. apply Permutation_map. now symmetry. }
  split.
  { intros d Hd. apply (Permutation_in _ Hperm) in Hd.
    unfold dict_values in Hd. apply in_map_iff in Hd.
    destruct Hd as ([k d'] & Ed & Hi). cbn [snd] in Ed. subst d'.
    destruct (Hentry k d Hi) as (-> & Hne).
    cbn [cd_name total_spent transaction_count].
    split; [reflexivity|]. split; [reflexivity|].
    destruct (filter (of_customer k) ts); [contradiction|]. cbn [List.length]. lia. }
  intros t cu Hi Hcu.
  assert (Hne : filter (of_customer (customer.nama cu)) ts <> []).
  { intros E.
    assert (Hin : In t (filter (of_customer (customer.nama cu)) ts)).
    { apply filter_In. split; [exact Hi|]. unfold of_customer. rewrite Hcu.
      apply String.eqb_refl. }
    rewrite E in Hin. exact Hin. }
  pose proof (Hget (customer.nama cu)) as Hg.
  destruct (filter (of_customer (customer.nama cu)) ts) as [|x fl]; [contradiction|].
  apply (lookup_some_keys String.eqb String.eqb_eq) in Hg.
  rewrite <- Hnames in Hg.
  apply (Permutation_in _ (Permutation_map cd_name (Permutation_sym Hperm))).
  exact Hg.
Qed.

Lemma X21_witness :
  let svc := snd (fst (create_transaction sample.env_wednesday
                         TransactionService_default sample.cart_beras 50000
                         "cash" None)) in
  exists (top rest : list CustomerData),
    get_top_customers (transaction_history svc) 5 = Some top /\
    top = [mkCustomerData "Budi" 50000 1] /\ rest = [].
Proof.
  cbv zeta.
  set (svc := snd (fst (create_transaction sample.env_wednesday
                          TransactionService_default sample.cart_beras 50000
                          "cash" None))).
  assert (H : Forall (fun t => customer t <> None) (transaction_history svc)).
  { repeat constructor. discriminate. }
  destruct (X21_top_customers (transaction_history svc) 5 H)
    as (top & rest & Hg & Hl & _ & _ & _ & _).
  exists top, rest. split; [exact Hg|].
  vm_compute in Hg. injection Hg as <-. split; [reflexivity|].
  specialize (Hl ltac:(lia)). destruct rest; [reflexivity|].
  cbn in Hl. discriminate Hl.
Defined.

End TopCustomers.

(* ================================================================== *)
(** ** Category performance *)

Section CategoryPerformance.
Import product props transaction transaction_service.

Lemma value_inj (a b : KategoriBarang) : value a = value b -> a = b.
Proof. destruct a, b; intros H; try reflexivity; discriminate H. Qed.

Lemma groups_lookup (c : cart.ShoppingCart) :
  NoDup (dict_keys (cart.get_items_by_category c)) /\
  forall k, dict_get KategoriBarang_eqb (cart.get_items_by_category c) k =
            match items_of c k with
            | [] => None
            | l => Some l
            end.
Proof.
  destruct (groups_fold_inv (cart.get_all_items c) [] []) as (H1 & H2).
  - split; [constructor|]. intros k. reflexivity.
  - split; [exact H1|]. intros k. exact (H2 k).
Qed.

Lemma performance_inner (g : list (KategoriBarang * list ProductItem)) :
  NoDup (dict_keys g) ->
  forall (acc : list (string * CategoryPerformance)) (k : KategoriBarang),
  dict_get String.eqb (fold_left category_performance_step g acc) (value k) =
  match dict_get KategoriBarang_eqb g k with
  | Some its =>
      let old := match dict_get String.eqb acc (value k) with
                 | Some d => d
                 | None => mkCategoryPerformance 0 0 0
                 end in
      Some (mkCategoryPerformance
              (total_revenue old + sum (map get_total_price its))
              (total_items_sold old + sum (map jumlah its))
              (cp_transaction_count old + 1))
  | None => dict_get String.eqb acc (value k)
  end.
Proof.
  induction g as [|[k' its'] g IH]; intros Hn acc k; [reflexivity|].
  unfold dict_keys in Hn. cbn [map fst] in Hn.
  inversion Hn as [|? ? Hk' Hg]; subst.
  cbn [fold_left dict_get]. rewrite (IH Hg).
  unfold category_performance_step at 1 2. cbn [fst snd].
  rewrite !(lookup_set String.eqb String.eqb_eq).
  destruct (KategoriBarang_eqb k' k) eqn:E.
  - apply KategoriBarang_eqb_eq in E. subst k'.
    assert (Hnone : dict_get KategoriBarang_eqb g k = None).
    { apply (lookup_none_keys KategoriBarang_eqb KategoriBarang_eqb_eq). exact Hk'. }
    rewrite Hnone, String.eqb_refl. reflexivity.
  - assert (Hv : String.eqb (value k') (value k) = false).
    { apply String.eqb_neq. intros Hv. apply value_inj in Hv. subst k'.
      rewrite KategoriBarang_eqb_refl in E. discriminate. }
    rewrite Hv. reflexivity.
Qed.

Lemma performance_inner_sums (g : list (KategoriBarang * list ProductItem)) :
  forall acc : list (string * CategoryPerformance),
  sum (map total_revenue (dict_values (fold_left category_performance_step g acc)))
  = sum (map total_revenue (dict_values acc))
    + sum (map (fun its => sum (map get_total_price its)) (dict_values g)) /\
  sum (map total_items_sold (dict_values (fold_left category_performance_step g acc)))
  = sum (map total_items_sold (dict_values acc))
    + sum (map (fun its => sum (map jumlah its)) (dict_values g)).
Proof.
  unfold dict_values.
  induction g as [|[k its] g IH]; intros acc; cbn [fold_left map snd].
  - rewrite sum_nil. split; lia.
  - destruct (IH (category_performance_step acc (k, its))) as (H1 & H2).
    rewrite H1, H2, !sum_cons.
    unfold category_performance_step. cbn [fst snd].
    pose proof (sum_values_set String.eqb total_revenue acc (value k)) as S1.
    pose proof (sum_values_set String.eqb total_items_sold acc (value k)) as S2.
    unfold dict_values in S1, S2. rewrite S1, S2.
    destruct (dict_get String.eqb acc (value k));
      cbn [total_revenue total_items_sold]; split; lia.
Qed.

Lemma groups_fold_sums (f : ProductItem -> Z) (l : list ProductItem) :
  forall acc : list (KategoriBarang * list ProductItem),
  sum (map (fun its => sum (map f its)) (dict_values (fold_left groups_step l acc)))
  = sum (map (fun its => sum (map f its)) (dict_values acc)) + sum (map f l).
Proof.
  induction l as [|x l IH]; intros acc; cbn [fold_left map].
  - rewrite sum_nil. lia.
  - rewrite IH, sum_cons. unfold groups_step.
    rewrite (sum_values_set KategoriBarang_eqb).
    destruct (dict_get KategoriBarang_eqb acc (kategori x));
      rewrite ?map_app, ?sum_app; cbn [map app]; rewrite ?sum_cons, ?sum_nil; lia.
Qed.

Lemma performance_eq (a b c a' b' c' : Z) :
  a = a' -> b = b' -> c = c' ->
  Some (mkCategoryPerformance a b c) = Some (mkCategoryPerformance a' b' c').
Proof. now intros -> -> ->. Qed.

Lemma performance_outer (ts : list Transaction) :
  forall (acc : list (string * CategoryPerformance)) (k : KategoriBarang),
  dict_get String.eqb
    (fold_left
       (fun category_data transaction =>
          fold_left category_performance_step
            (cart.get_items_by_category (cart transaction)) category_data)
       ts acc) (value k) =
  match dict_get String.eqb acc (value k), filter (has_category k) ts with
  | None, [] => None
  | Some d, fl =>
      Some (mkCategoryPerformance
              (total_revenue d + sum (map (fun t => category_subtotal (cart t) k) ts))
              (total_items_sold d + sum (map (fun t => category_quantity (cart t) k) ts))
              (cp_transaction_count d + Z.of_nat (List.length fl)))
  | None, fl =>
      Some (mkCategoryPerformance
              (sum (map (fun t => category_subtotal (cart t) k) ts))
              (sum (map (fun t => category_quantity (cart t) k) ts))
              (Z.of_nat (List.length fl)))
  end.
Proof.
  induction ts as [|t ts IH]; intros acc k.
  - cbn [fold_left filter map List.length]. rewrite sum_nil.
    destruct (dict_get String.eqb acc (value k)) as [[a b c]|]; [|reflexivity].
    cbn [total_revenue total_items_sold cp_transaction_count]. apply performance_eq; lia.
  - cbn [fold_left]. rewrite IH.
    destruct (groups_lookup (cart t)) as (Hn & Hg).
    rewrite (performance_inner _ Hn), Hg.
    assert (Hf : filter (has_category k) (t :: ts) =
                 if has_category k t then t :: filter (has_category k) ts
                 else filter (has_category k) ts) by reflexivity.
    rewrite Hf. clear Hf. cbn [map]. rewrite !sum_cons.
    set (S1 := sum (map (fun t => category_subtotal (cart t) k) ts)).
    set (S2 := sum (map (fun t => category_quantity (cart t) k) ts)).
    assert (H1 : category_subtotal (cart t) k
                 = sum (map get_total_price (items_of (cart t) k))) by reflexivity.
    assert (H2 : category_quantity (cart t) k
                 = sum (map jumlah (items_of (cart t) k))) by reflexivity.
    assert (H3 : has_category k t = match items_of (cart t) k with
                                    | [] => false
                                    | _ :: _ => true
                                    end) by reflexivity.
    rewrite H1, H2, H3. clear H1 H2 H3.
    destruct (items_of (cart t) k) as [|x its] eqn:Ei.
    + cbn [map]. rewrite !sum_nil.
      destruct (dict_get String.eqb acc (value k)) as [[a b c]|].
      * cbn [total_revenue total_items_sold cp_transaction_count].
        apply performance_eq; lia.
      * destruct (filter (has_category k) ts); [reflexivity|].
        apply performance_eq; lia.
    + cbv zeta.
      destruct (dict_get String.eqb acc (value k)) as [[a b c]|];
        cbn [total_revenue total_items_sold cp_transaction_count List.length];
        apply performance_eq; lia.
Qed.

Lemma performance_outer_sums (ts : list Transaction) :
  forall acc : list (string * CategoryPerformance),
  sum (map total_revenue (dict_values
    (fold_left
       (fun category_data transaction =>
          fold_left category_performance_step
            (cart.get_items_by_category (cart transaction)) category_data)
       ts acc)))
  = sum (map total_revenue (dict_values acc))
    + sum (map (fun t => cart.calculate_subtotal (cart t)) ts) /\
  sum (map total_items_sold (dict_values
    (fold_left
       (fun category_data transaction =>
          fold_left category_performance_step
            (cart.get_items_by_category (cart transaction)) category_data)
       ts acc)))
  = sum (map total_items_sold (dict_values acc))
    + sum (map (fun t => cart.total_quantity (cart t)) ts).
Proof.
  induction ts as [|t ts IH]; intros acc; cbn [fold_left map].
  - rewrite sum_nil. split; lia.
  - destruct (IH (fold_left category_performance_step
                    (cart.get_items_by_category (cart t)) acc)) as (H1 & H2).
    rewrite H1, H2, !sum_cons.
    destruct (performance_inner_sums (cart.get_items_by_category (cart t)) acc)
      as (I1 & I2).
    rewrite I1, I2.
    change (cart.get_items_by_category (cart t))
      with (fold_left groups_step (dict_values (cart.items (cart t))) []).
    rewrite !groups_fold_sums. cbn [dict_values map]. rewrite !sum_nil.
    unfold cart.calculate_subtotal, cart.total_quantity. split; lia.
Qed.

(** X22. The category performance is taken from the carts, before any
    discount or tax.  For every category the entry under the text of the
    category is missing when no transaction has a line of it; otherwise it
    holds the sum of the item totals and of the quantities of the
    category over the carts of the transactions, and the number of
    transactions whose cart has the category.  Summed over the categories,
    the revenue is the sum of the cart subtotals and the items sold are
    the quantities of the carts. *)
Theorem X22_category_performance (ts : list Transaction) :
  let perf := get_category_performance ts in
  (forall k,
     dict_get String.eqb perf (value k) =
     match filter (has_category k) ts with
     | [] => None
     | _ :: _ =>
         Some (mkCategoryPerformance
                 (sum (map (fun t => category_subtotal (cart t) k) ts))
                 (sum (map (fun t => category_quantity (cart t) k) ts))
                 (Z.of_nat (List.length (filter (has_category k) ts))))
     end) /\
  sum (map total_revenue (dict_values perf))
    = sum (map (fun t => cart.calculate_subtotal (cart t)) ts) /\
  sum (map total_items_sold (dict_values perf))
    = sum (map (fun t => cart.total_quantity (cart t)) ts).
Proof.
  cbv zeta. unfold get_category_performance. split.
  - intros k. rewrite performance_outer. cbn [dict_get].
    destruct (filter (has_category k) ts); reflexivity.
  - destruct (performance_outer_sums ts []) as (H1 & H2).
    rewrite H1, H2. cbn [dict_values map]. rewrite !sum_nil. split; lia.
Qed.

End CategoryPerformance.

(* ================================================================== *)
(** ** The product catalogue *)

Section Catalogue.
Import product props product_service.
Import InMemoryProductRepository.

Lemma set_absent {V : Type} (d : list (string * V)) (k : string) (v : V) :
  dict_get String.eqb d k = None -> dict_set String.eqb d k v = d ++ [(k, v)].
Proof.
  induction d as [|[a x] d IH]; cbn [dict_get dict_set app]; [reflexivity|].
  destruct (String.eqb a k); [discriminate|]. intros H. now rewrite IH.
Qed.

Lemma product_wf_init (n : string) (h : Z) (s : string) (k : KategoriBarang)
  (p : Product) :
  Product_init n h s k = Ok p -> product_wf p.
Proof. apply Product_init_again. Qed.

Lemma product_wf_facts (p : Product) :
  product_wf p ->
  filed (nama p) /\ 0 < harga p /\ filed (satuan p) /\
  str_falsy (strip (nama p)) = false /\ str_falsy (strip (satuan p)) = false.
Proof.
  intros H. apply Product_init_inv in H. destruct H as (Hp & Hn & Hh & Hs).
  repeat split; try assumption.
  - unfold filed. now rewrite Hp at 2.
  - unfold filed. now rewrite Hp at 2.
Qed.

Lemma set_harga_wf (p : Product) (h : Z) :
  product_wf p -> 0 < h ->
  set_harga p h = Ok (mkProduct (nama p) h (satuan p) (kategori p)) /\
  product_wf (mkProduct (nama p) h (satuan p) (kategori p)).
Proof.
  intros Hp Hh. destruct (product_wf_facts p Hp) as (Hn & _ & Hs & Hnn & Hsn).
  split.
  - unfold set_harga. now replace (h <=? 0) with false by (symmetry; apply Z.leb_gt; lia).
  - unfold product_wf. cbn [nama harga satuan kategori].
    rewrite Product_init_ok by assumption. now rewrite Hn, Hs.
Qed.

Lemma set_harga_bad (p : Product) (h : Z) :
  h <= 0 -> set_harga p h = Raise (ValueError "Harga barang harus lebih dari 0").
Proof. intros H. unfold set_harga. apply Z.leb_le in H. now rewrite H. Qed.

Lemma catalogue_lookup (svc : ProductService) (n : string) (p : Product) :
  catalogue_wf svc -> get_product svc n = Some p ->
  nama p = lower (strip n) /\ product_wf p /\ In p (get_all_products svc).
Proof.
  intros (Hn & Hf) Hg. unfold get_product, find_by_name in Hg.
  pose proof (lookup_some_in String.eqb String.eqb_eq _ _ _ Hg) as Hi.
  rewrite Forall_forall in Hf. destruct (Hf _ Hi) as (Hk & Hp). cbn [fst snd] in Hk.
  split; [now symmetry|]. split; [exact Hp|].
  unfold get_all_products, find_all, dict_values.
  change p with (snd (lower (strip n), p)). now apply in_map.
Qed.

(** The catalogue that the service starts with. *)
Lemma catalogue_init :
  ProductService_init = Ok sample.catalogue /\ catalogue_wf sample.catalogue /\
  get_product_count sample.catalogue = 14.
Proof.
  split; [reflexivity|]. split; [|reflexivity]. split.
  - vm_compute. repeat constructor; cbn; intuition discriminate.
  - repeat constructor.
Qed.

Lemma create_product_wf (svc : ProductService) (n : string) (h : Z) (s : string)
  (k : KategoriBarang) :
  catalogue_wf svc -> catalogue_wf (snd (create_product svc n h s k)).
Proof.
  intros Hw. pose proof Hw as (Hn & Hf). unfold create_product.
  destruct (find_by_name (repository svc) n); [exact Hw|].
  unfold ProductFactory.create_product.
  destruct (Product_init n h s k) as [p|e] eqn:E; [|exact Hw].
  cbn [save snd]. split; cbn [repository products].
  - apply (keys_set_nodup String.eqb String.eqb_eq). exact Hn.
  - apply (entries_set_forall String.eqb String.eqb_eq); [exact Hf|].
    cbn [fst snd]. split; [reflexivity|]. eapply product_wf_init. exact E.
Qed.

Lemma delete_product_wf (svc : ProductService) (n : string) :
  catalogue_wf svc -> catalogue_wf (snd (delete_product svc n)).
Proof.
  intros Hw. pose proof Hw as (Hn & Hf). unfold delete_product, delete.
  destruct (dict_contains String.eqb (products (repository svc)) (lower (strip n)));
    cbn [snd]; [|destruct svc as [[d]]; exact Hw].
  split; cbn [repository products].
  - apply (keys_del_nodup String.eqb). exact Hn.
  - apply (entries_del_forall String.eqb). exact Hf.
Qed.

(** What [update_product] does to a product that is there. *)
Lemma update_product_value (svc : ProductService) (n : string)
  (harga_ : option Z) (satuan_ : option string) (p : Product) :
  catalogue_wf svc -> get_product svc n = Some p ->
  update_product svc n harga_ satuan_ =
  if price_ok harga_
  then (unit_ok satuan_,
        mkProductService
          (mk (dict_set String.eqb (products (repository svc)) (nama p)
                 (updated p harga_ satuan_))))
  else (false, svc).
Proof.
  intros Hw Hg. destruct (catalogue_lookup svc n p Hw Hg) as (Hkey & Hp & _).
  destruct (product_wf_facts p Hp) as (Hfn & Hh & Hfs & Hnn & Hsn).
  unfold update_product. unfold get_product in Hg. rewrite Hg. rewrite <- Hkey.
  set (d := products (repository svc)).
  assert (Hin : forall q,
            dict_contains String.eqb (dict_set String.eqb d (nama p) q) (nama p) = true).
  { intros q. unfold dict_contains.
    now rewrite (lookup_set String.eqb String.eqb_eq), String.eqb_refl. }
  assert (Hset2 : forall q q', dict_set String.eqb (dict_set String.eqb d (nama p) q)
                                 (nama p) q' = dict_set String.eqb d (nama p) q').
  { intros q q'. clear. induction d as [|[a x] d IH]; cbn [dict_set].
    - now rewrite String.eqb_refl.
    - destruct (String.eqb a (nama p)) eqn:E; cbn [dict_set]; rewrite E; [reflexivity|].
      now rewrite IH. }
  assert (Hprice : match harga_ with
                   | Some h => set_harga p h
                   | None => Ok p
                   end =
                   if price_ok harga_
                   then Ok (mkProduct (nama p)
                              (match harga_ with Some h => h | None => harga p end)
                              (satuan p) (kategori p))
                   else Raise (ValueError "Harga barang harus lebih dari 0")).
  { destruct harga_ as [h|]; cbn [price_ok].
    - destruct (0 <? h) eqn:E.
      + apply Z.ltb_lt in E. now destruct (set_harga_wf p h Hp E).
      + apply Z.ltb_ge in E. now apply set_harga_bad.
    - destruct p; reflexivity. }
  rewrite Hprice. clear Hprice.
  destruct (price_ok harga_) eqn:Epr; [|reflexivity].
  set (h' := match harga_ with Some h => h | None => harga p end).
  assert (Hh' : 0 < h').
  { unfold h'. destruct harga_ as [h|]; [now apply Z.ltb_lt|exact Hh]. }
  destruct satuan_ as [s|]; cbn [unit_ok updated nama harga satuan kategori].
  - destruct (str_falsy (strip s)) eqn:Es; cbn [negb].
    + assert (Hbad : Product_init (nama p) h' s (kategori p)
                     = Raise (ValueError "Satuan barang tidak boleh kosong")).
      { unfold Product_init, validate_inputs.
        rewrite Hnn, (str_falsy_strip _ Hnn), Es. cbn [orb].
        replace (h' <=? 0) with false by (symmetry; apply Z.leb_gt; lia).
        rewrite orb_true_r. reflexivity. }
      rewrite Hbad. unfold updated. rewrite Es. reflexivity.
    + rewrite (Product_init_ok _ _ _ _ Hnn Hh' Es). rewrite Hfn.
      unfold update. cbn [products nama].
      rewrite Hin, Hset2. unfold updated. rewrite Es. reflexivity.
  - unfold update. cbn [products nama].
    rewrite Hin, Hset2. reflexivity.
Qed.

Lemma update_product_missing (svc : ProductService) (n : string)
  (harga_ : option Z) (satuan_ : option string) :
  get_product svc n = None -> update_product svc n harga_ satuan_ = (false, svc).
Proof. intros H. unfold update_product. unfold get_product in H. now rewrite H. Qed.

Lemma updated_wf (p : Product) (harga_ : option Z) (satuan_ : option string) :
  product_wf p -> price_ok harga_ = true -> product_wf (updated p harga_ satuan_).
Proof.
  intros Hp Hpr. destruct (product_wf_facts p Hp) as (Hfn & Hh & Hfs & Hnn & Hsn).
  unfold product_wf, updated. cbn [nama harga satuan kategori].
  assert (Hh' : 0 < match harga_ with Some h => h | None => harga p end).
  { destruct harga_ as [h|]; [now apply Z.ltb_lt|exact Hh]. }
  destruct satuan_ as [s|]; [destruct (str_falsy (strip s)) eqn:Es|].
  - rewrite Product_init_ok by assumption. now rewrite Hfn, Hfs.
  - rewrite Product_init_ok; try assumption.
    + now rewrite Hfn, normal_idem.
    + now rewrite strip_normal, lower_falsy.
  - rewrite Product_init_ok by assumption. now rewrite Hfn, Hfs.
Qed.

Lemma update_product_wf (svc : ProductService) (n : string)
  (harga_ : option Z) (satuan_ : option string) :
  catalogue_wf svc -> catalogue_wf (snd (update_product svc n harga_ satuan_)).
Proof.
  intros Hw. destruct (get_product svc n) as [p|] eqn:Eg.
  - rewrite (update_product_value svc n harga_ satuan_ p Hw Eg).
    destruct (price_ok harga_) eqn:Epr; [|exact Hw]. cbn [snd].
    destruct (catalogue_lookup svc n p Hw Eg) as (_ & Hp & _).
    destruct Hw as (Hn & Hf). split; cbn [repository products].
    + apply (keys_set_nodup String.eqb String.eqb_eq). exact Hn.
    + apply (entries_set_forall String.eqb String.eqb_eq); [exact Hf|].
      cbn [fst snd]. split; [reflexivity|]. now apply updated_wf.
  - now rewrite (update_product_missing svc n harga_ satuan_ Eg).
Qed.

Lemma catalogue_calls_wf (ops : list CatalogueCall) :
  forall svc, catalogue_wf svc -> catalogue_wf (catalogue_calls ops svc).
Proof.
  induction ops as [|op ops IH]; intros svc Hw; [exact Hw|].
  change (catalogue_calls (op :: ops) svc)
    with (catalogue_calls ops (catalogue_call svc op)).
  apply IH. destruct op; cbn [catalogue_call].
  - now apply create_product_wf.
  - now apply update_product_wf.
  - now apply delete_product_wf.
Qed.

(** X23. The catalogue stays in order.  After any sequence of
    [create_product], [update_product] and [delete_product] calls on the
    catalogue that [ProductService()] starts with, with any arguments, no
    name is filed twice, every product listed has a positive price and is
    found by [get_product] under its own name, and under any spelling that
    strips and lowers to this name; [product_exists] agrees with
    [get_product], and [get_product_count] is the number of products
    listed. *)
Theorem X23_catalogue_stays_filed (ops : list CatalogueCall) (svc0 : ProductService) :
  ProductService_init = Ok svc0 ->
  let svc := catalogue_calls ops svc0 in
  catalogue_wf svc /\
  NoDup (map nama (get_all_products svc)) /\
  (forall p, In p (get_all_products svc) ->
     0 < harga p /\ get_product svc (nama p) = Some p /\
     forall n, lower (strip n) = nama p -> get_product svc n = Some p) /\
  (forall n p, get_product svc n = Some p ->
     In p (get_all_products svc) /\ nama p = lower (strip n)) /\
  (forall n, product_exists svc n = true <-> get_product svc n <> None) /\
  get_product_count svc = Z.of_nat (List.length (get_all_products svc)).
Proof.
  intros H0. cbv zeta.
  destruct catalogue_init as (Hi & Hw0 & _). rewrite Hi in H0. injection H0 as <-.
  pose proof (catalogue_calls_wf ops _ Hw0) as Hw.
  set (svc := catalogue_calls ops sample.catalogue) in *.
  pose proof Hw as (Hn & Hf).
  assert (Hnames : map nama (get_all_products svc)
                   = dict_keys (products (repository svc))).
  { unfold get_all_products, find_all, dict_values, dict_keys. rewrite map_map.
    apply map_ext_in. intros [k p] Hi'. rewrite Forall_forall in Hf.
    destruct (Hf _ Hi') as (Hk & _). now symmetry. }
  split; [exact Hw|]. split; [now rewrite Hnames|]. split; [|split; [|split]].
  - intros p Hp. unfold get_all_products, find_all, dict_values in Hp.
    apply in_map_iff in Hp. destruct Hp as ([k q] & Eq & Hi'). cbn [snd] in Eq. subst q.
    rewrite Forall_forall in Hf. destruct (Hf _ Hi') as (Hk & Hwf). cbn [fst snd] in Hk.
    destruct (product_wf_facts p Hwf) as (Hfn & Hh & _).
    assert (Hget : forall n, lower (strip n) = nama p -> get_product svc n = Some p).
    { intros n En. unfold get_product, find_by_name. rewrite En, <- Hk.
      apply (in_lookup String.eqb String.eqb_eq); assumption. }
    split; [exact Hh|]. split; [apply Hget; exact Hfn|exact Hget].
  - intros n p Hg. destruct (catalogue_lookup svc n p Hw Hg) as (H1 & _ & H3).
    split; assumption.
  - intros n. unfold product_exists, get_product.
    destruct (find_by_name (repository svc) n); split; congruence.
  - reflexivity.
Qed.

Lemma X23_witness :
  let svc := catalogue_calls
               [CallCreateProduct " Kecap " 9000 "Botol" MAKANAN;
                CallUpdateProduct "BERAS" (Some 16000) None;
                CallDeleteProduct "teh"] sample.catalogue in
  get_product svc "kecap" = Some (mkProduct "kecap" 9000 "botol" MAKANAN) /\
  get_product svc "Beras " = Some (mkProduct "beras" 16000 "kg" MAKANAN) /\
  get_product svc "teh" = None /\
  get_product_count svc = 14.
Proof.
  cbv zeta.
  destruct (X23_catalogue_stays_filed
              [CallCreateProduct " Kecap " 9000 "Botol" MAKANAN;
               CallUpdateProduct "BERAS" (Some 16000) None;
               CallDeleteProduct "teh"] sample.catalogue eq_refl)
    as (_ & _ & _ & _ & _ & Hc).
  split; [reflexivity|]. split; [reflexivity|]. split; [reflexivity|].
  rewrite Hc. reflexivity.
Defined.

End Catalogue.

(* ================================================================== *)
(** ** Changing the catalogue *)

Section CatalogueCalls.
Import product props product_service.
Import InMemoryProductRepository.

(** X24. [create_product] adds a product only under a new name and with
    valid data.  It returns the product exactly when no product is filed
    under the name, stripped and in lower case, and the constructor accepts
    the data; the product then goes to the end of the catalogue, is found
    under the name given, and all other names are as before.  In every
    other case it returns None and the catalogue is unchanged: a product
    that is there is never overwritten. *)
Theorem X24_create_product (svc : ProductService) (n : string) (h : Z)
  (s : string) (k : KategoriBarang) :
  let r := create_product svc n h s k in
  match fst r with
  | Some p =>
      product_exists svc n = false /\
      Product_init n h s k = Ok p /\
      get_product (snd r) n = Some p /\
      (forall m, lower (strip m) <> lower (strip n) ->
                 get_product (snd r) m = get_product svc m) /\
      get_all_products (snd r) = get_all_products svc ++ [p] /\
      get_product_count (snd r) = get_product_count svc + 1
  | None =>
      snd r = svc /\
      (product_exists svc n = true \/ is_ok (Product_init n h s k) = false)
  end.
Proof.
  cbv zeta. unfold create_product, product_exists, get_product.
  destruct (find_by_name (repository svc) n) as [q|] eqn:Ef; cbn [fst snd].
  { split; [reflexivity|now left]. }
  unfold ProductFactory.create_product.
  destruct (Product_init n h s k) as [p|e] eqn:Ep; cbn [fst snd save].
  - pose proof (Product_init_inv _ _ _ _ _ Ep) as (Hp & _).
    assert (Hname : nama p = lower (strip n)) by now rewrite Hp.
    unfold find_by_name in *. cbn [repository products]. rewrite Hname.
    split; [reflexivity|]. split; [reflexivity|]. split.
    { now rewrite (lookup_set String.eqb String.eqb_eq), String.eqb_refl. }
    split.
    { intros m Hm. rewrite (lookup_set String.eqb String.eqb_eq).
      destruct (String.eqb (lower (strip n)) (lower (strip m))) eqn:E; [|reflexivity].
      apply String.eqb_eq in E. congruence. }
    unfold get_all_products, get_product_count, find_all, dict_values.
    cbn [repository products]. rewrite (set_absent _ _ _ Ef), map_app.
    split; [reflexivity|]. rewrite length_app. cbn [map List.length]. lia.
  - split; [reflexivity|now right].
Qed.

(** X25. [delete_product] returns whether a product was filed under the
    name, stripped and in lower case.  Afterwards no product of this name
    exists, all other names are as before, and the count has gone down by
    one when a product was removed. *)
Theorem X25_delete_product (svc : ProductService) (n : string) :
  catalogue_wf svc ->
  let r := delete_product svc n in
  fst r = product_exists svc n /\
  product_exists (snd r) n = false /\
  (forall m, lower (strip m) <> lower (strip n) ->
             get_product (snd r) m = get_product svc m) /\
  get_product_count (snd r)
    = get_product_count svc - (if product_exists svc n then 1 else 0) /\
  (fst r = false -> snd r = svc).
Proof.
  intros (Hn & _). cbv zeta.
  unfold delete_product, delete, product_exists, get_product, find_by_name.
  set (d := products (repository svc)). set (key := lower (strip n)).
  unfold dict_contains.
  destruct (dict_get String.eqb d key) as [p|] eqn:Eg; cbn [fst snd repository products].
  - split; [reflexivity|]. split.
    { now rewrite (lookup_del_same String.eqb String.eqb_eq). }
    split.
    { intros m Hm. apply (lookup_del_other String.eqb String.eqb_eq).
      intros E. apply Hm. now rewrite <- E. }
    split; [|discriminate].
    unfold get_product_count, find_all, dict_values. cbn [repository products].
    rewrite !length_map. pose proof (length_del String.eqb d key) as Hl.
    unfold dict_contains in Hl. rewrite Eg in Hl. fold d. lia.
  - fold d. rewrite Eg. split; [reflexivity|]. split; [reflexivity|].
    split; [reflexivity|]. destruct svc as [[x]]. split; [|reflexivity].
    unfold get_product_count. cbn [repository]. lia.
Qed.

Lemma X25_witness :
  let r := delete_product sample.catalogue " TEH " in
  fst r = true /\ product_exists (snd r) "teh" = false /\
  get_product (snd r) "kopi" = get_product sample.catalogue "kopi" /\
  get_product_count (snd r) = 13 /\
  delete_product (snd r) "teh" = (false, snd r).
Proof.
  destruct catalogue_init as (_ & Hw & _).
  destruct (X25_delete_product sample.catalogue " TEH " Hw) as (H1 & H2 & H3 & H4 & _).
  split; [exact H1|]. split; [exact H2|]. split; [apply H3; discriminate|].
  split; [exact H4|reflexivity].
Defined.

(** X26. [update_product] on a product that is there.  It returns True
    exactly when the new price, if one is given, is positive and the new
    unit, if one is given, is not blank.  A price that is not positive
    leaves the catalogue unchanged.  An accepted price is written to the
    stored product at once, so with a valid price and a blank unit the call
    returns False and the price is changed all the same.  The name and the
    category never change, other products are untouched, and the count is
    as before.  For a name that is not in the catalogue the call returns
    False and changes nothing. *)
Theorem X26_update_product (svc : ProductService) (n : string)
  (harga_ : option Z) (satuan_ : option string) :
  catalogue_wf svc ->
  let r := update_product svc n harga_ satuan_ in
  match get_product svc n with
  | None => r = (false, svc)
  | Some p =>
      fst r = price_ok harga_ && unit_ok satuan_ /\
      (price_ok harga_ = false -> snd r = svc) /\
      (price_ok harga_ = true ->
         get_product (snd r) n = Some (updated p harga_ satuan_)) /\
      (forall m, lower (strip m) <> lower (strip n) ->
                 get_product (snd r) m = get_product svc m) /\
      get_product_count (snd r) = get_product_count svc
  end.
Proof.
  intros Hw. cbv zeta.
  destruct (get_product svc n) as [p|] eqn:Eg;
    [|now apply update_product_missing].
  rewrite (update_product_value svc n harga_ satuan_ p Hw Eg).
  destruct (catalogue_lookup svc n p Hw Eg) as (Hkey & _ & _).
  destruct (price_ok harga_) eqn:Epr; cbn [fst snd andb].
  - split; [reflexivity|]. split; [discriminate|]. split.
    { intros _. unfold get_product, find_by_name. cbn [repository products].
      now rewrite <- Hkey, (lookup_set String.eqb String.eqb_eq), String.eqb_refl. }
    split.
    { intros m Hm. unfold get_product, find_by_name. cbn [repository products].
      rewrite (lookup_set String.eqb String.eqb_eq), Hkey.
      destruct (String.eqb (lower (strip n)) (lower (strip m))) eqn:E; [|reflexivity].
      apply String.eqb_eq in E. congruence. }
    unfold get_product_count, find_all, dict_values. cbn [repository products].
    rewrite !length_map, (length_set String.eqb).
    unfold get_product, find_by_name in Eg. unfold dict_contains.
    rewrite Hkey, Eg. lia.
  - split; [reflexivity|]. split; [reflexivity|]. split; [discriminate|].
    split; reflexivity.
Qed.

Lemma X26_witness :
  let r := update_product sample.catalogue "Beras" (Some 16000) (Some "  "%string) in
  fst r = false /\
  get_product (snd r) "beras" = Some (mkProduct "beras" 16000 "kg" MAKANAN) /\
  get_product sample.catalogue "beras" = Some (mkProduct "beras" 15000 "kg" MAKANAN) /\
  update_product sample.catalogue "beras" (Some 0) (Some "karung"%string)
    = (false, sample.catalogue).
Proof.
  destruct catalogue_init as (_ & Hw & _).
  pose proof (X26_update_product sample.catalogue "Beras" (Some 16000) (Some "  "%string) Hw)
    as H1.
  pose proof (X26_update_product sample.catalogue "beras" (Some 0) (Some "karung"%string) Hw)
    as H2.
  cbv zeta in H1, H2.
  change (get_product sample.catalogue "Beras")
    with (Some (mkProduct "beras" 15000 "kg" MAKANAN)) in H1.
  change (get_product sample.catalogue "beras")
    with (Some (mkProduct "beras" 15000 "kg" MAKANAN)) in H2.
  destruct H1 as (Ha & _ & Hb & _). destruct H2 as (Hc & Hd & _).
  split; [exact Ha|]. split; [exact (Hb eq_refl)|]. split; [reflexivity|].
  rewrite (surjective_pairing (update_product _ _ _ _)), Hc, (Hd eq_refl).
  reflexivity.
Defined.

(** X27. [create_product_item] makes a line item from the catalogue: for
    a name that has a product and a positive quantity it returns the item
    with this product, as filed, and the quantity; for an unknown name or a
    quantity of zero or less it returns None and never raises.  An item it
    returns has a positive price and quantity, and [add_item] takes it into
    any cart that is not finalized. *)
Theorem X27_create_product_item (svc : ProductService) (n : string) (j : Z) :
  catalogue_wf svc ->
  create_product_item svc n j =
    Ok (match get_product svc n with
        | Some p => if 0 <? j then Some (mkProductItem p j) else None
        | None => None
        end) /\
  (forall it, create_product_item svc n j = Ok (Some it) ->
     item_wf it /\ filed (nama it) /\ nama it = lower (strip n) /\
     get_total_price it = harga it * j /\
     forall c, cart.is_finalized c = false -> cart_wf c ->
       fst (cart.add_item c it) = Ok true /\
       cart.get_item (snd (cart.add_item c it)) n = Some (merged_line c it)).
Proof.
  intros Hw.
  assert (Hval : create_product_item svc n j =
                 Ok (match get_product svc n with
                     | Some p => if 0 <? j then Some (mkProductItem p j) else None
                     | None => None
                     end)).
  { unfold create_product_item, ProductFactory.create_product_item.
    destruct (get_product svc n) as [p|] eqn:Eg; unfold get_product in Eg; rewrite Eg;
      [|reflexivity].
    destruct (catalogue_lookup svc n p Hw Eg) as (_ & Hp & _).
    unfold ProductItem_init. unfold product_wf in Hp. rewrite Hp. cbn [bind].
    rewrite Z.ltb_antisym. destruct (j <=? 0); reflexivity. }
  split; [exact Hval|]. intros it Hit. rewrite Hval in Hit.
  destruct (get_product svc n) as [p|] eqn:Eg; [|discriminate].
  destruct (0 <? j) eqn:Ej; [|discriminate]. injection Hit as <-.
  apply Z.ltb_lt in Ej.
  destruct (catalogue_lookup svc n p Hw Eg) as (Hkey & Hp & _).
  destruct (product_wf_facts p Hp) as (Hfn & Hh & _).
  assert (Hitem : item_wf (mkProductItem p j)) by (split; assumption).
  split; [exact Hitem|]. split; [exact Hfn|]. split; [exact Hkey|].
  split; [reflexivity|]. intros c Hc Hcw.
  pose proof (add_item_wf c (mkProductItem p j) Hcw Hitem) as (Hr & _).
  rewrite Hc in Hr. split; [exact Hr|].
  unfold merged_line, cart.get_item. cbn [base nama].
  rewrite <- Hkey, Hfn. unfold cart.add_item. rewrite Hc. cbn [base nama].
  destruct (dict_get String.eqb (cart.items c) (nama p)) as [old|] eqn:Eo.
  - destruct (cart_line_wf c _ _ Hcw Eo) as (_ & Hoj).
    unfold set_jumlah. cbn [jumlah].
    replace (jumlah old + j <=? 0) with false by (symmetry; apply Z.leb_gt; lia).
    cbn [snd cart.items cart.with_items].
    now rewrite (lookup_set String.eqb String.eqb_eq), String.eqb_refl.
  - cbn [snd cart.items cart.with_items].
    now rewrite (lookup_set String.eqb String.eqb_eq), String.eqb_refl.
Qed.

Lemma X27_witness :
  create_product_item sample.catalogue " Susu" 2
    = Ok (Some (mkProductItem (mkProduct "susu" 12000 "botol" MINUMAN) 2)) /\
  create_product_item sample.catalogue "susu" 0 = Ok None /\
  create_product_item sample.catalogue "anggur" 2 = Ok None.
Proof.
  destruct catalogue_init as (_ & Hw & _).
  destruct (X27_create_product_item sample.catalogue " Susu" 2 Hw) as (H1 & _).
  destruct (X27_create_product_item sample.catalogue "susu" 0 Hw) as (H2 & _).
  destruct (X27_create_product_item sample.catalogue "anggur" 2 Hw) as (H3 & _).
  split; [exact H1|]. split; [exact H2|exact H3].
Defined.

End CatalogueCalls.

(* ================================================================== *)
(** ** Queries on the catalogue *)

Section CatalogueQueries.
Import product props product_service.
Import InMemoryProductRepository.

(** X28. [get_cheapest_products] and [get_most_expensive_products] give
    the first entries of the catalogue ordered by price, upwards and
    downwards: nothing is invented or lost by the ordering, no product left
    out is cheaper (more expensive) than one listed, and products of one
    price keep their catalogue order in both directions.  With a limit of
    zero or more the list has that many products, or all when there are
    fewer; a negative limit leaves out that many from the end. *)
Theorem X28_price_ranking (svc : ProductService) (limit : Z) (reverse : bool) :
  let ranked := if reverse then get_most_expensive_products svc limit
                else get_cheapest_products svc limit in
  exists rest,
    Permutation (ranked ++ rest) (get_all_products svc) /\
    StronglySorted
      (fun a b => if reverse then harga b <= harga a else harga a <= harga b)
      (ranked ++ rest) /\
    (forall k, filter (fun p => harga p =? k) (ranked ++ rest)
               = filter (fun p => harga p =? k) (get_all_products svc)) /\
    (0 <= limit ->
     List.length ranked
       = Nat.min (Z.to_nat limit) (List.length (get_all_products svc))) /\
    (limit < 0 ->
     List.length ranked
       = (List.length (get_all_products svc) - Z.to_nat (- limit))%nat).
Proof.
  cbv zeta.
  assert (Hr : (if reverse then get_most_expensive_products svc limit
                else get_cheapest_products svc limit)
               = slice_to (sorted harga reverse (get_all_products svc)) limit)
    by (destruct reverse; reflexivity).
  rewrite Hr. set (s := sorted harga reverse (get_all_products svc)).
  destruct (slice_to_split s limit) as (n & Hfirst & Hsplit & Hn).
  exists (skipn n s). rewrite Hsplit.
  assert (Hperm : Permutation s (get_all_products svc)) by apply sorted_perm.
  split; [exact Hperm|]. split.
  { exact (sorted_ordered harga reverse (get_all_products svc)). }
  split.
  { intros k. apply sorted_stable. }
  split.
  - intros Hl. rewrite Hfirst, length_firstn, (Hn Hl).
    now rewrite (Permutation_length Hperm).
  - intros Hl. unfold slice_to.
    replace (limit <? 0) with true by (symmetry; apply Z.ltb_lt; exact Hl).
    rewrite length_firstn, (Permutation_length Hperm). lia.
Qed.

Lemma product_groups_step_inv (seen : list Product) (x : Product)
  (acc : list (KategoriBarang * list Product)) :
  product_groups_inv seen acc ->
  product_groups_inv (seen ++ [x]) (product_groups_step acc x).
Proof.
  intros [Hnd Hget]. split.
  - now apply dict_set_keys_nodup.
  - intros k. unfold product_groups_step. rewrite dict_get_set, filter_app.
    cbn [filter].
    destruct (KategoriBarang_eqb (kategori x) k) eqn:E.
    + apply KategoriBarang_eqb_eq in E. rewrite E, Hget.
      destruct (filter _ seen); reflexivity.
    + rewrite app_nil_r. apply Hget.
Qed.

Lemma product_groups_fold_inv (l : list Product) :
  forall seen acc, product_groups_inv seen acc ->
                   product_groups_inv (seen ++ l) (fold_left product_groups_step l acc).
Proof.
  induction l as [|x l IH]; intros seen acc Hinv; cbn [fold_left].
  - now rewrite app_nil_r.
  - replace (seen ++ x :: l) with ((seen ++ [x]) ++ l)
      by (rewrite <- app_assoc; reflexivity).
    apply IH. now apply product_groups_step_inv.
Qed.

Lemma product_groups_fold_count (l : list Product) :
  forall acc : list (KategoriBarang * list Product),
  sum (map (fun g => Z.of_nat (List.length g))
           (dict_values (fold_left product_groups_step l acc)))
  = sum (map (fun g => Z.of_nat (List.length g)) (dict_values acc))
    + Z.of_nat (List.length l).
Proof.
  induction l as [|x l IH]; intros acc; cbn [fold_left List.length].
  - lia.
  - rewrite IH. unfold product_groups_step.
    rewrite (sum_values_set KategoriBarang_eqb).
    destruct (dict_get KategoriBarang_eqb acc (kategori x));
      rewrite ?length_app; cbn [List.length]; lia.
Qed.

(** X29. [get_products_grouped_by_category] and [filter_by_category]
    agree: the group of a category is the list that [filter_by_category]
    gives for it, in catalogue order, and a category has no group exactly
    when that list is empty.  A category has at most one group, and the
    sizes of the groups add up to the number of products, so that every
    product is in one group and in one only. *)
Theorem X29_products_by_category (svc : ProductService) :
  let grouped := get_products_grouped_by_category svc in
  NoDup (dict_keys grouped) /\
  (forall k, dict_get KategoriBarang_eqb grouped k =
             match filter_by_category svc k with
             | [] => None
             | l => Some l
             end) /\
  (forall p, In p (get_all_products svc) ->
     exists l, dict_get KategoriBarang_eqb grouped (kategori p) = Some l /\ In p l) /\
  sum (map (fun g => Z.of_nat (List.length g)) (dict_values grouped))
    = get_product_count svc.
Proof.
  cbv zeta.
  change (get_products_grouped_by_category svc)
    with (fold_left product_groups_step (get_all_products svc) []).
  destruct (product_groups_fold_inv (get_all_products svc) [] []) as (Hn & Hg).
  { split; [constructor|reflexivity]. }
  cbn [app] in Hg.
  split; [exact Hn|]. split; [exact Hg|]. split.
  - intros p Hp. rewrite Hg.
    assert (Hin : In p (filter (fun q : Product =>
                                  KategoriBarang_eqb (kategori q) (kategori p))
                               (get_all_products svc))).
    { apply filter_In. split; [exact Hp|apply KategoriBarang_eqb_refl]. }
    destruct (filter _ (get_all_products svc)) as [|y l] eqn:E; [contradiction|].
    exists (y :: l). split; [reflexivity|exact Hin].
  - rewrite product_groups_fold_count. cbn [dict_values map]. rewrite sum_nil.
    unfold get_product_count, get_all_products. lia.
Qed.

Lemma prefix_refl (s : string) : String.prefix s s = true.
Proof.
  induction s as [|c s IH]; [reflexivity|]. cbn [String.prefix].
  destruct (ascii_dec c c) as [_|H]; [exact IH|contradiction].
Qed.

Lemma str_in_refl (s : string) : str_in s s = true.
Proof. destruct s; cbn [str_in]; rewrite prefix_refl; reflexivity. Qed.

Lemma str_in_empty (s : string) : str_in EmptyString s = true.
Proof. destruct s; reflexivity. Qed.

Lemma search_products_normal (svc : ProductService) (q : string) :
  search_products svc (lower (strip q)) = search_products svc q.
Proof.
  unfold search_products. now rewrite lower_idem, strip_normal, <- strip_lower.
Qed.

(** X30. [search_products] finds what [get_product] finds: a product
    that [get_product] returns for a name is among the results of the
    search for that name, so the search is at least as permissive.  Capital
    letters and blanks around the query make no difference, and a blank
    query returns the whole catalogue. *)
Theorem X30_search_products (svc : ProductService) (q : string) :
  catalogue_wf svc ->
  (forall p, get_product svc q = Some p -> In p (search_products svc q)) /\
  search_products svc (lower (strip q)) = search_products svc q /\
  (str_falsy (strip q) = true -> search_products svc q = get_all_products svc) /\
  (forall p, In p (search_products svc q) -> In p (get_all_products svc)).
Proof.
  intros Hw. split; [|split; [|split]].
  - intros p Hg. destruct (catalogue_lookup svc q p Hw Hg) as (Hk & _ & Hi).
    unfold search_products. apply filter_In. split; [exact Hi|].
    rewrite strip_lower, <- Hk, str_in_refl. reflexivity.
  - apply search_products_normal.
  - intros Hb. unfold search_products, get_all_products. rewrite strip_lower.
    destruct (strip q); [|discriminate]. cbn [lower].
    apply forallb_filter_id. apply forallb_forall. intros p _.
    now rewrite str_in_empty.
  - intros p Hp. unfold search_products in Hp. apply filter_In in Hp. apply Hp.
Qed.

Lemma X30_witness :
  In (mkProduct "mie_instan" 1500 "buah" MAKANAN)
     (search_products sample.catalogue " MIE_Instan ") /\
  search_products sample.catalogue "   " = get_all_products sample.catalogue /\
  search_products sample.catalogue "mie instan"
    = [mkProduct "mie_instan" 1500 "buah" MAKANAN] /\
  get_product sample.catalogue "mie instan" = None.
Proof.
  destruct catalogue_init as (_ & Hw & _).
  destruct (X30_search_products sample.catalogue " MIE_Instan " Hw) as (H1 & _).
  destruct (X30_search_products sample.catalogue "   " Hw) as (_ & _ & H2 & _).
  split; [apply H1; reflexivity|]. split; [apply H2; reflexivity|].
  split; reflexivity.
Defined.

End CatalogueQueries.
